(** * PCAPdroid capture core (vpnproxy.c): a shallow embedding

    The development follows [app/src/main/jni/vpnproxy-jni/vpnproxy.c].
    C structs become records, the heap of [conn_data_t] blocks becomes a
    finite map from addresses to records (the two connection batches hold
    addresses, so the aliasing of the C code is kept), the process-wide
    flags become a record of globals, and everything the code sends to the
    host or to a socket is appended to a trace.  Library code that is not
    part of the file (nDPI, the zdtun NAT library, JNI) enters either as a
    type-class method or as an explicit outcome given by the caller. *)

From Stdlib Require Import ZArith List Bool String Ascii Lia.
From stdpp Require Import base gmap.
Import ListNotations.
Open Scope Z_scope.

(** ** Constants *)

Definition CAPTURE_STATS_UPDATE_FREQUENCY_MS : Z := 300.
Definition CONNECTION_DUMP_UPDATE_FREQUENCY_MS : Z := 1000.
Definition MAX_JAVA_DUMP_DELAY_MS : Z := 1000.
Definition MAX_DPI_PACKETS : Z := 12.
Definition MAX_HOST_LRU_SIZE : Z := 128.
Definition JAVA_PCAP_BUFFER_SIZE : Z := 512 * 1024.
Definition PERIODIC_PURGE_TIMEOUT_MS : Z := 5000.

Definition DNS_FLAGS_MASK : Z := 0x8000.
Definition DNS_TYPE_REQUEST : Z := 0x0000.
Definition DNS_TYPE_RESPONSE : Z := 0x8000.

(** [sizeof(struct dns_packet)]: six packed [uint16_t], one [uint8_t] and
    a flexible array member. *)
Definition sizeof_dns_packet : Z := 13.

(** Values of the system headers (Linux / bionic). *)
Definition IPPROTO_ICMP : Z := 1.
Definition IPPROTO_TCP : Z := 6.
Definition IPPROTO_UDP : Z := 17.
Definition TH_SYN : Z := 0x02.
Definition TH_ACK : Z := 0x10.
Definition EIO : Z := 5.
Definition ENOBUFS : Z := 105.

(** Values of [ndpi_protocol_ids.h]. *)
Definition NDPI_PROTOCOL_UNKNOWN : Z := 0.
Definition NDPI_PROTOCOL_DNS : Z := 5.
Definition NDPI_PROTOCOL_HTTP : Z := 7.
Definition NDPI_PROTOCOL_TLS : Z := 91.

(** Modelled from the spec: the header [zdtun.h] with the status enum is
    not part of the sources; the lifecycle is NEW, ACTIVE, then CLOSED or
    ERROR, in this order, and the code frees a record once
    [status >= CONN_STATUS_CLOSED]. *)
Definition CONN_STATUS_NEW : Z := 0.
Definition CONN_STATUS_ACTIVE : Z := 1.
Definition CONN_STATUS_CLOSED : Z := 2.
Definition CONN_STATUS_ERROR : Z := 3.

(** ** Machine integers and byte order *)

Definition wrap (bits : Z) (x : Z) : Z := x mod 2 ^ bits.
Definition u64 (x : Z) : Z := wrap 64 x.

(** Unsigned 64-bit subtraction, as in [now_ms - last_update_ms]. *)
Definition u64_sub (a b : Z) : Z := u64 (a - b).

(** [int] and the JNI type [I]: 32 bits in two's complement. *)
Definition int32 (x : Z) : Z := (x + 2 ^ 31) mod 2 ^ 32 - 2 ^ 31.

(** [time_t] as on the 64-bit targets: 64 bits in two's complement.  (With
    a [time_t] of 32 bits the initializer of [last_connections_dump], which
    multiplies [time(NULL)] by 1000, overflows.) *)
Definition int64 (x : Z) : Z := (x + 2 ^ 63) mod 2 ^ 64 - 2 ^ 63.

(** The supported targets are little-endian: [ntohs] and [htons] swap the
    two bytes of a 16-bit value. *)
Definition ntohs (x : Z) : Z :=
  Z.lor (Z.shiftl (Z.land x 0xff) 8) (Z.land (Z.shiftr x 8) 0xff).
Definition htons (x : Z) : Z := ntohs x.

(** ** C strings *)

(** A C string is the list of characters before its terminating NUL. *)
Fixpoint strchr (s : string) (c : ascii) : bool :=
  match s with
  | EmptyString => false
  | String a rest => if Ascii.eqb a c then true else strchr rest c
  end.

Fixpoint string_take (n : nat) (s : string) : string :=
  match n, s with
  | O, _ => EmptyString
  | S _, EmptyString => EmptyString
  | S k, String a rest => String a (string_take k rest)
  end.

(** [strndup(s, n)]; the result is [None] when the allocation fails. *)
Definition strndup (alloc_ok : bool) (s : string) (n : nat) : option string :=
  if alloc_ok then Some (string_take n s) else None.

Definition nonempty (s : string) : bool :=
  match s with EmptyString => false | String _ _ => true end.

(** ** Addresses and packets *)

(** [zdtun_ip_t] and [ndpi_ip_addr_t] are unions of a 32-bit IPv4 address
    and a 16-byte IPv6 address.  A union value is the little-endian
    integer of its 16 bytes: the member [ip4] is its low 32 bits and the
    first byte of the IPv6 member is its low 8 bits. *)
Definition zdtun_ip := Z.
Definition ip4 (u : zdtun_ip) : Z := Z.land u 0xffffffff.
Definition u6_addr8_0 (u : zdtun_ip) : Z := Z.land u 0xff.

Record zdtun_5tuple := mk_5tuple {
  ipver : Z;
  ipproto : Z;
  src_ip : zdtun_ip;
  dst_ip : zdtun_ip;
  src_port : Z;   (* network byte order *)
  dst_port : Z    (* network byte order *)
}.

(** The fields of [zdtun_pkt_t] the code reads.  [l7] is the payload, one
    octet per element, and [l7_len] its length. *)
Record zdtun_pkt := mk_pkt {
  pkt_tuple : zdtun_5tuple;
  th_flags : Z;
  l7 : list Z
}.

Definition l7_len (p : zdtun_pkt) : Z := Z.of_nat (length (l7 p)).

(** [((struct dns_packet * ) pkt->l7)->flags]: the 16-bit field at offset 2,
    read in host byte order. *)
Definition dns_flags (p : zdtun_pkt) : Z :=
  Z.land (nth 2 (l7 p) 0) 0xff + 256 * Z.land (nth 3 (l7 p) 0) 0xff.

(** ** nDPI *)

Record ndpi_protocol := mk_l7proto {
  master_protocol : Z;
  app_protocol : Z
}.

(** The fields of [struct ndpi_flow_struct] read by the code, and the rest
    of the dissector state as an opaque value. *)
Record ndpi_flow_struct := mk_flow {
  host_server_name : string;
  dns_rsp_type : Z;
  dns_rsp_addr : zdtun_ip;
  http_url : option string;
  client_requested_server_name : string;
  dissector_state : Z
}.

(** The known-DNS patricia tree holds the inserted (address, prefix length)
    pairs. *)
Definition ndpi_ptree := list (zdtun_ip * Z).

(** The nDPI entry points called by the code. *)
Class ndpi_api := {
  ndpi_ptree_match_addr : ndpi_ptree -> zdtun_ip -> bool;
  ndpi_detection_process_packet :
    ndpi_flow_struct -> list Z -> Z -> Z -> bool -> ndpi_flow_struct * ndpi_protocol;
  ndpi_detection_giveup : ndpi_flow_struct -> ndpi_protocol;
  ndpi_extra_dissection_possible : ndpi_flow_struct -> bool
}.

(** ** Host LRU *)

(** Modelled from the spec: [ip_lru_add] and [ip_lru_find] live in
    [utils.c], which is not part of the sources.  The LRU is an ordered
    mapping from address to host name with a fixed capacity; [add] inserts
    or refreshes an entry and evicts the least recently used one when the
    size exceeds the capacity; [find] returns the stored name and promotes
    the entry.  The most recently used entry comes first. *)
Record ip_lru := mk_lru {
  lru_max_size : Z;
  lru_items : list (zdtun_ip * string)
}.

Definition ip_lru_init (max_size : Z) : ip_lru := mk_lru max_size [].

Definition lru_remove (ip : zdtun_ip) (l : list (zdtun_ip * string)) :=
  List.filter (fun e => negb (fst e =? ip)) l.

Definition ip_lru_add (lru : ip_lru) (ip : zdtun_ip) (name : string) : ip_lru :=
  mk_lru (lru_max_size lru)
    (firstn (Z.to_nat (lru_max_size lru)) ((ip, name) :: lru_remove ip (lru_items lru))).

Definition ip_lru_find (lru : ip_lru) (ip : zdtun_ip) : option string * ip_lru :=
  match find (fun e => fst e =? ip) (lru_items lru) with
  | Some (_, name) =>
      (Some name, mk_lru (lru_max_size lru) ((ip, name) :: lru_remove ip (lru_items lru)))
  | None => (None, lru)
  end.

Definition ip_lru_size (lru : ip_lru) : Z := Z.of_nat (length (lru_items lru)).

(** ** Connection records and batches *)

(** Addresses of heap blocks. *)
Abbreviation addr := nat (only parsing).

(** [conn_data_t].  The header with the declaration is not part of the
    sources; the packet and byte counters are kept as unbounded integers.
    [incr_id] is an [int]: [dumpConnection] hands it to [setData] under the
    JNI type [I].  [src_id] and [dst_id] say whether the endpoint block is
    allocated. *)
Record conn_data := mk_conn_data {
  ndpi_flow : option ndpi_flow_struct;
  src_id : bool;
  dst_id : bool;
  l7proto : ndpi_protocol;
  sent_pkts : Z;
  rcvd_pkts : Z;
  sent_bytes : Z;
  rcvd_bytes : Z;
  first_seen : Z;
  last_seen : Z;
  status : Z;
  uid : Z;
  incr_id : Z;
  info : option string;
  url : option string;
  pending_notification : bool
}.

Definition set_ndpi_flow (v : option ndpi_flow_struct) (r : conn_data) : conn_data :=
  mk_conn_data v (src_id r) (dst_id r) (l7proto r) (sent_pkts r) (rcvd_pkts r)
    (sent_bytes r) (rcvd_bytes r) (first_seen r) (last_seen r) (status r)
    (uid r) (incr_id r) (info r) (url r) (pending_notification r).

Definition set_src_id (v : bool) (r : conn_data) : conn_data :=
  mk_conn_data (ndpi_flow r) v (dst_id r) (l7proto r) (sent_pkts r)
    (rcvd_pkts r) (sent_bytes r) (rcvd_bytes r) (first_seen r) (last_seen r)
    (status r) (uid r) (incr_id r) (info r) (url r) (pending_notification r).

Definition set_dst_id (v : bool) (r : conn_data) : conn_data :=
  mk_conn_data (ndpi_flow r) (src_id r) v (l7proto r) (sent_pkts r)
    (rcvd_pkts r) (sent_bytes r) (rcvd_bytes r) (first_seen r) (last_seen r)
    (status r) (uid r) (incr_id r) (info r) (url r) (pending_notification r).

Definition set_l7proto (v : ndpi_protocol) (r : conn_data) : conn_data :=
  mk_conn_data (ndpi_flow r) (src_id r) (dst_id r) v (sent_pkts r)
    (rcvd_pkts r) (sent_bytes r) (rcvd_bytes r) (first_seen r) (last_seen r)
    (status r) (uid r) (incr_id r) (info r) (url r) (pending_notification r).

Definition set_sent_pkts (v : Z) (r : conn_data) : conn_data :=
  mk_conn_data (ndpi_flow r) (src_id r) (dst_id r) (l7proto r) v (rcvd_pkts r)
    (sent_bytes r) (rcvd_bytes r) (first_seen r) (last_seen r) (status r)
    (uid r) (incr_id r) (info r) (url r) (pending_notification r).

Definition set_rcvd_pkts (v : Z) (r : conn_data) : conn_data :=
  mk_conn_data (ndpi_flow r) (src_id r) (dst_id r) (l7proto r) (sent_pkts r) v
    (sent_bytes r) (rcvd_bytes r) (first_seen r) (last_seen r) (status r)
    (uid r) (incr_id r) (info r) (url r) (pending_notification r).

Definition set_sent_bytes (v : Z) (r : conn_data) : conn_data :=
  mk_conn_data (ndpi_flow r) (src_id r) (dst_id r) (l7proto r) (sent_pkts r)
    (rcvd_pkts r) v (rcvd_bytes r) (first_seen r) (last_seen r) (status r)
    (uid r) (incr_id r) (info r) (url r) (pending_notification r).

Definition set_rcvd_bytes (v : Z) (r : conn_data) : conn_data :=
  mk_conn_data (ndpi_flow r) (src_id r) (dst_id r) (l7proto r) (sent_pkts r)
    (rcvd_pkts r) (sent_bytes r) v (first_seen r) (last_seen r) (status r)
    (uid r) (incr_id r) (info r) (url r) (pending_notification r).

Definition set_first_seen (v : Z) (r : conn_data) : conn_data :=
  mk_conn_data (ndpi_flow r) (src_id r) (dst_id r) (l7proto r) (sent_pkts r)
    (rcvd_pkts r) (sent_bytes r) (rcvd_bytes r) v (last_seen r) (status r)
    (uid r) (incr_id r) (info r) (url r) (pending_notification r).

Definition set_last_seen (v : Z) (r : conn_data) : conn_data :=
  mk_conn_data (ndpi_flow r) (src_id r) (dst_id r) (l7proto r) (sent_pkts r)
    (rcvd_pkts r) (sent_bytes r) (rcvd_bytes r) (first_seen r) v (status r)
    (uid r) (incr_id r) (info r) (url r) (pending_notification r).

Definition set_status (v : Z) (r : conn_data) : conn_data :=
  mk_conn_data (ndpi_flow r) (src_id r) (dst_id r) (l7proto r) (sent_pkts r)
    (rcvd_pkts r) (sent_bytes r) (rcvd_bytes r) (first_seen r) (last_seen r) v
    (uid r) (incr_id r) (info r) (url r) (pending_notification r).

Definition set_uid (v : Z) (r : conn_data) : conn_data :=
  mk_conn_data (ndpi_flow r) (src_id r) (dst_id r) (l7proto r) (sent_pkts r)
    (rcvd_pkts r) (sent_bytes r) (rcvd_bytes r) (first_seen r) (last_seen r)
    (status r) v (incr_id r) (info r) (url r) (pending_notification r).

Definition set_incr_id (v : Z) (r : conn_data) : conn_data :=
  mk_conn_data (ndpi_flow r) (src_id r) (dst_id r) (l7proto r) (sent_pkts r)
    (rcvd_pkts r) (sent_bytes r) (rcvd_bytes r) (first_seen r) (last_seen r)
    (status r) (uid r) v (info r) (url r) (pending_notification r).

Definition set_info (v : option string) (r : conn_data) : conn_data :=
  mk_conn_data (ndpi_flow r) (src_id r) (dst_id r) (l7proto r) (sent_pkts r)
    (rcvd_pkts r) (sent_bytes r) (rcvd_bytes r) (first_seen r) (last_seen r)
    (status r) (uid r) (incr_id r) v (url r) (pending_notification r).

Definition set_url (v : option string) (r : conn_data) : conn_data :=
  mk_conn_data (ndpi_flow r) (src_id r) (dst_id r) (l7proto r) (sent_pkts r)
    (rcvd_pkts r) (sent_bytes r) (rcvd_bytes r) (first_seen r) (last_seen r)
    (status r) (uid r) (incr_id r) (info r) v (pending_notification r).

Definition set_pending_notification (v : bool) (r : conn_data) : conn_data :=
  mk_conn_data (ndpi_flow r) (src_id r) (dst_id r) (l7proto r) (sent_pkts r)
    (rcvd_pkts r) (sent_bytes r) (rcvd_bytes r) (first_seen r) (last_seen r)
    (status r) (uid r) (incr_id r) (info r) (url r) v.

(** [calloc(1, sizeof(conn_data_t))]: every field is zero. *)
Definition zeroed_conn_data : conn_data :=
  mk_conn_data None false false (mk_l7proto 0 0) 0 0 0 0 0 0 0 0 0 None None false.

(** [vpn_conn_t]: a slot of a batch, the 5-tuple by value and the record by
    address. *)
Record vpn_conn := mk_vpn_conn {
  slot_tuple : zdtun_5tuple;
  slot_data : option addr
}.

(** [conn_array_t]: [items] is the block of slots, [None] for the null
    pointer; a block holds the slots in use, in order.  [size] is the
    allocated capacity and [cur_items] the number of slots in use. *)
Record conn_array_t := mk_conn_array {
  items : option (list vpn_conn);
  arr_size : Z;
  cur_items : Z
}.

(** The slots that can be read: those of the block, none when [items] is
    the null pointer. *)
Definition slots (arr : conn_array_t) : list vpn_conn := default [] (items arr).

(** ** The proxy state *)

Record capture_stats_t := mk_capture_stats {
  cs_sent_pkts : Z;
  cs_rcvd_pkts : Z;
  cs_sent_bytes : Z;
  cs_rcvd_bytes : Z;
  new_stats : bool;
  last_update_ms : Z
}.

Definition set_cs_sent_pkts (v : Z) (r : capture_stats_t) : capture_stats_t :=
  mk_capture_stats v (cs_rcvd_pkts r) (cs_sent_bytes r) (cs_rcvd_bytes r)
    (new_stats r) (last_update_ms r).

Definition set_cs_rcvd_pkts (v : Z) (r : capture_stats_t) : capture_stats_t :=
  mk_capture_stats (cs_sent_pkts r) v (cs_sent_bytes r) (cs_rcvd_bytes r)
    (new_stats r) (last_update_ms r).

Definition set_cs_sent_bytes (v : Z) (r : capture_stats_t) : capture_stats_t :=
  mk_capture_stats (cs_sent_pkts r) (cs_rcvd_pkts r) v (cs_rcvd_bytes r)
    (new_stats r) (last_update_ms r).

Definition set_cs_rcvd_bytes (v : Z) (r : capture_stats_t) : capture_stats_t :=
  mk_capture_stats (cs_sent_pkts r) (cs_rcvd_pkts r) (cs_sent_bytes r) v
    (new_stats r) (last_update_ms r).

Definition set_new_stats (v : bool) (r : capture_stats_t) : capture_stats_t :=
  mk_capture_stats (cs_sent_pkts r) (cs_rcvd_pkts r) (cs_sent_bytes r)
    (cs_rcvd_bytes r) v (last_update_ms r).

Definition set_last_update_ms (v : Z) (r : capture_stats_t) : capture_stats_t :=
  mk_capture_stats (cs_sent_pkts r) (cs_rcvd_pkts r) (cs_sent_bytes r)
    (cs_rcvd_bytes r) (new_stats r) v.

(** A record of the host pcap buffer: the packet and its size. *)
Definition pcap_record := (list Z * Z)%type.

(** [java_dump]: [buffer] is [None] while no buffer is allocated, otherwise
    the records written since the last flush; [buffer_idx] is the write
    index in bytes. *)
Record java_dump_t := mk_java_dump {
  java_dump_enabled : bool;
  buffer : option (list pcap_record);
  buffer_idx : Z;
  last_dump_ms : Z
}.

Definition set_buffer (v : option (list pcap_record)) (r : java_dump_t) : java_dump_t :=
  mk_java_dump (java_dump_enabled r) v (buffer_idx r) (last_dump_ms r).

Definition set_buffer_idx (v : Z) (r : java_dump_t) : java_dump_t :=
  mk_java_dump (java_dump_enabled r) (buffer r) v (last_dump_ms r).

Definition set_last_dump_ms (v : Z) (r : java_dump_t) : java_dump_t :=
  mk_java_dump (java_dump_enabled r) (buffer r) (buffer_idx r) v.

Record pcap_dump_t := mk_pcap_dump {
  collector_addr : Z;
  collector_port : Z;
  tcp_socket : bool;
  pcap_dump_enabled : bool
}.

Record socks5_t := mk_socks5 {
  socks5_enabled : bool;
  proxy_ip : Z;
  proxy_port : Z
}.

Record ipv6_t := mk_ipv6 {
  ipv6_enabled : bool;
  ipv6_dns_server : zdtun_ip
}.

(** [vpnproxy_data_t], without the JNI handles.  [proxy_incr_id] is the
    field [incr_id], an [int] like the [incr_id] of the records it is
    copied to. *)
Record vpnproxy_data := mk_proxy {
  tunfd : Z;
  known_dns_servers : ndpi_ptree;
  ip_to_host : ip_lru;
  vpn_ipv4 : Z;
  vpn_dns : Z;
  dns_server : Z;
  proxy_incr_id : Z;
  java_dump : java_dump_t;
  pcap_dump : pcap_dump_t;
  socks5 : socks5_t;
  ipv6 : ipv6_t;
  new_conns : conn_array_t;
  conns_updates : conn_array_t;
  capture_stats : capture_stats_t;
  num_dns_requests : Z;
  num_dropped_connections : Z;
  last_pkt : option zdtun_pkt;
  last_conn_blocked : bool;
  now_ms : Z
}.

Definition set_known_dns_servers (v : ndpi_ptree) (r : vpnproxy_data) : vpnproxy_data :=
  mk_proxy (tunfd r) v (ip_to_host r) (vpn_ipv4 r) (vpn_dns r) (dns_server r)
    (proxy_incr_id r) (java_dump r) (pcap_dump r) (socks5 r) (ipv6 r)
    (new_conns r) (conns_updates r) (capture_stats r) (num_dns_requests r)
    (num_dropped_connections r) (last_pkt r) (last_conn_blocked r) (now_ms r).

Definition set_ip_to_host (v : ip_lru) (r : vpnproxy_data) : vpnproxy_data :=
  mk_proxy (tunfd r) (known_dns_servers r) v (vpn_ipv4 r) (vpn_dns r)
    (dns_server r) (proxy_incr_id r) (java_dump r) (pcap_dump r) (socks5 r)
    (ipv6 r) (new_conns r) (conns_updates r) (capture_stats r)
    (num_dns_requests r) (num_dropped_connections r) (last_pkt r)
    (last_conn_blocked r) (now_ms r).

Definition set_dns_server (v : Z) (r : vpnproxy_data) : vpnproxy_data :=
  mk_proxy (tunfd r) (known_dns_servers r) (ip_to_host r) (vpn_ipv4 r)
    (vpn_dns r) v (proxy_incr_id r) (java_dump r) (pcap_dump r) (socks5 r)
    (ipv6 r) (new_conns r) (conns_updates r) (capture_stats r)
    (num_dns_requests r) (num_dropped_connections r) (last_pkt r)
    (last_conn_blocked r) (now_ms r).

Definition set_proxy_incr_id (v : Z) (r : vpnproxy_data) : vpnproxy_data :=
  mk_proxy (tunfd r) (known_dns_servers r) (ip_to_host r) (vpn_ipv4 r)
    (vpn_dns r) (dns_server r) v (java_dump r) (pcap_dump r) (socks5 r)
    (ipv6 r) (new_conns r) (conns_updates r) (capture_stats r)
    (num_dns_requests r) (num_dropped_connections r) (last_pkt r)
    (last_conn_blocked r) (now_ms r).

Definition set_java_dump (v : java_dump_t) (r : vpnproxy_data) : vpnproxy_data :=
  mk_proxy (tunfd r) (known_dns_servers r) (ip_to_host r) (vpn_ipv4 r)
    (vpn_dns r) (dns_server r) (proxy_incr_id r) v (pcap_dump r) (socks5 r)
    (ipv6 r) (new_conns r) (conns_updates r) (capture_stats r)
    (num_dns_requests r) (num_dropped_connections r) (last_pkt r)
    (last_conn_blocked r) (now_ms r).

Definition set_new_conns (v : conn_array_t) (r : vpnproxy_data) : vpnproxy_data :=
  mk_proxy (tunfd r) (known_dns_servers r) (ip_to_host r) (vpn_ipv4 r)
    (vpn_dns r) (dns_server r) (proxy_incr_id r) (java_dump r) (pcap_dump r)
    (socks5 r) (ipv6 r) v (conns_updates r) (capture_stats r)
    (num_dns_requests r) (num_dropped_connections r) (last_pkt r)
    (last_conn_blocked r) (now_ms r).

Definition set_conns_updates (v : conn_array_t) (r : vpnproxy_data) : vpnproxy_data :=
  mk_proxy (tunfd r) (known_dns_servers r) (ip_to_host r) (vpn_ipv4 r)
    (vpn_dns r) (dns_server r) (proxy_incr_id r) (java_dump r) (pcap_dump r)
    (socks5 r) (ipv6 r) (new_conns r) v (capture_stats r) (num_dns_requests r)
    (num_dropped_connections r) (last_pkt r) (last_conn_blocked r) (now_ms r).

Definition set_capture_stats (v : capture_stats_t) (r : vpnproxy_data) : vpnproxy_data :=
  mk_proxy (tunfd r) (known_dns_servers r) (ip_to_host r) (vpn_ipv4 r)
    (vpn_dns r) (dns_server r) (proxy_incr_id r) (java_dump r) (pcap_dump r)
    (socks5 r) (ipv6 r) (new_conns r) (conns_updates r) v (num_dns_requests r)
    (num_dropped_connections r) (last_pkt r) (last_conn_blocked r) (now_ms r).

Definition set_num_dns_requests (v : Z) (r : vpnproxy_data) : vpnproxy_data :=
  mk_proxy (tunfd r) (known_dns_servers r) (ip_to_host r) (vpn_ipv4 r)
    (vpn_dns r) (dns_server r) (proxy_incr_id r) (java_dump r) (pcap_dump r)
    (socks5 r) (ipv6 r) (new_conns r) (conns_updates r) (capture_stats r) v
    (num_dropped_connections r) (last_pkt r) (last_conn_blocked r) (now_ms r).

Definition set_num_dropped_connections (v : Z) (r : vpnproxy_data) : vpnproxy_data :=
  mk_proxy (tunfd r) (known_dns_servers r) (ip_to_host r) (vpn_ipv4 r)
    (vpn_dns r) (dns_server r) (proxy_incr_id r) (java_dump r) (pcap_dump r)
    (socks5 r) (ipv6 r) (new_conns r) (conns_updates r) (capture_stats r)
    (num_dns_requests r) v (last_pkt r) (last_conn_blocked r) (now_ms r).

Definition set_last_pkt (v : option zdtun_pkt) (r : vpnproxy_data) : vpnproxy_data :=
  mk_proxy (tunfd r) (known_dns_servers r) (ip_to_host r) (vpn_ipv4 r)
    (vpn_dns r) (dns_server r) (proxy_incr_id r) (java_dump r) (pcap_dump r)
    (socks5 r) (ipv6 r) (new_conns r) (conns_updates r) (capture_stats r)
    (num_dns_requests r) (num_dropped_connections r) v (last_conn_blocked r)
    (now_ms r).

Definition set_last_conn_blocked (v : bool) (r : vpnproxy_data) : vpnproxy_data :=
  mk_proxy (tunfd r) (known_dns_servers r) (ip_to_host r) (vpn_ipv4 r)
    (vpn_dns r) (dns_server r) (proxy_incr_id r) (java_dump r) (pcap_dump r)
    (socks5 r) (ipv6 r) (new_conns r) (conns_updates r) (capture_stats r)
    (num_dns_requests r) (num_dropped_connections r) (last_pkt r) v
    (now_ms r).

Definition set_now_ms (v : Z) (r : vpnproxy_data) : vpnproxy_data :=
  mk_proxy (tunfd r) (known_dns_servers r) (ip_to_host r) (vpn_ipv4 r)
    (vpn_dns r) (dns_server r) (proxy_incr_id r) (java_dump r) (pcap_dump r)
    (socks5 r) (ipv6 r) (new_conns r) (conns_updates r) (capture_stats r)
    (num_dns_requests r) (num_dropped_connections r) (last_pkt r)
    (last_conn_blocked r) v.

(** The file-level variables. *)
Record globals := mk_globals {
  running : bool;
  dump_vpn_stats_now : bool;
  dump_capture_stats_now : bool;
  new_dns_server : Z;
  dumper_socket : Z;
  send_header : bool
}.

Definition set_running (v : bool) (r : globals) : globals :=
  mk_globals v (dump_vpn_stats_now r) (dump_capture_stats_now r)
    (new_dns_server r) (dumper_socket r) (send_header r).

Definition set_dump_vpn_stats_now (v : bool) (r : globals) : globals :=
  mk_globals (running r) v (dump_capture_stats_now r) (new_dns_server r)
    (dumper_socket r) (send_header r).

Definition set_dump_capture_stats_now (v : bool) (r : globals) : globals :=
  mk_globals (running r) (dump_vpn_stats_now r) v (new_dns_server r)
    (dumper_socket r) (send_header r).

Definition set_new_dns_server (v : Z) (r : globals) : globals :=
  mk_globals (running r) (dump_vpn_stats_now r) (dump_capture_stats_now r) v
    (dumper_socket r) (send_header r).

Definition set_dumper_socket (v : Z) (r : globals) : globals :=
  mk_globals (running r) (dump_vpn_stats_now r) (dump_capture_stats_now r)
    (new_dns_server r) v (send_header r).

Definition set_send_header (v : bool) (r : globals) : globals :=
  mk_globals (running r) (dump_vpn_stats_now r) (dump_capture_stats_now r)
    (new_dns_server r) (dumper_socket r) v.

(** ** The NAT library state *)

(** A connection of the NAT table: its key, the status the library reports,
    the user-data pointer, and the DNAT and SOCKS5 marks. *)
Record zdtun_conn := mk_conn {
  conn_tuple : zdtun_5tuple;
  conn_status : Z;
  user_data : option addr;
  dnat : bool;
  socks5_proxied : bool
}.

Definition set_conn_status (v : Z) (r : zdtun_conn) : zdtun_conn :=
  mk_conn (conn_tuple r) v (user_data r) (dnat r) (socks5_proxied r).

Definition set_user_data (v : option addr) (r : zdtun_conn) : zdtun_conn :=
  mk_conn (conn_tuple r) (conn_status r) v (dnat r) (socks5_proxied r).

Definition set_dnat (v : bool) (r : zdtun_conn) : zdtun_conn :=
  mk_conn (conn_tuple r) (conn_status r) (user_data r) v (socks5_proxied r).

Definition set_socks5_proxied (v : bool) (r : zdtun_conn) : zdtun_conn :=
  mk_conn (conn_tuple r) (conn_status r) (user_data r) (dnat r) v.

(** [zdtun_t]: the connection table and the DNAT and SOCKS5 targets as
    (address, port, IP version). *)
Record zdtun_t := mk_zdtun {
  conn_table : list zdtun_conn;
  dnat_info : option (zdtun_ip * Z * Z);
  socks5_proxy : option (zdtun_ip * Z * Z)
}.

Definition set_conn_table (v : list zdtun_conn) (r : zdtun_t) : zdtun_t :=
  mk_zdtun v (dnat_info r) (socks5_proxy r).

Definition set_dnat_info (v : option (zdtun_ip * Z * Z)) (r : zdtun_t) : zdtun_t :=
  mk_zdtun (conn_table r) v (socks5_proxy r).

Definition set_socks5_proxy (v : option (zdtun_ip * Z * Z)) (r : zdtun_t) : zdtun_t :=
  mk_zdtun (conn_table r) (dnat_info r) v.

(** ** What the host and the collector socket receive *)

(** The fields of [zdtun_statistics_t] forwarded to the host. *)
Record zdtun_statistics_t := mk_zdtun_stats {
  num_open_sockets : Z;
  all_max_fd : Z;
  active_conns : Z;
  tot_conns : Z
}.

Inductive host_event :=
  | DumpPcapData (nbytes : Z) (recs : list pcap_record)
  | SendConnectionsDump (new_c updated_c : list (zdtun_5tuple * conn_data))
  | SendStatsDump (cs : capture_stats_t) (dropped : Z)
      (stats : zdtun_statistics_t) (dns_requests : Z)
  | WritePcapHdr (sock : Z)
  | WritePcapRec (sock : Z) (packet : list Z) (len : Z).

(** The whole state of a run. *)
Record world := mk_world {
  glob : globals;
  proxy : vpnproxy_data;
  heap : gmap addr conn_data;
  tun : zdtun_t;
  host : list host_event
}.

Definition set_glob (v : globals) (r : world) : world :=
  mk_world v (proxy r) (heap r) (tun r) (host r).

Definition set_proxy (v : vpnproxy_data) (r : world) : world :=
  mk_world (glob r) v (heap r) (tun r) (host r).

Definition set_heap (v : gmap addr conn_data) (r : world) : world :=
  mk_world (glob r) (proxy r) v (tun r) (host r).

Definition set_tun (v : zdtun_t) (r : world) : world :=
  mk_world (glob r) (proxy r) (heap r) v (host r).

Definition set_host (v : list host_event) (r : world) : world :=
  mk_world (glob r) (proxy r) (heap r) (tun r) v.


(** What the environment answers during one callback: the clock, the
    allocator and the JNI calls that can fail. *)
Record env_t := mk_env {
  time_now : Z;                (* time(NULL) *)
  strndup_info_ok : bool;
  strndup_url_ok : bool;
  new_byte_array_ok : bool;    (* NewByteArray raised no exception *)
  realloc_ok : bool            (* realloc of conns_add returned a block *)
}.

(** ** Heap access *)

Definition store (a : addr) (d : conn_data) (w : world) : world :=
  set_heap (<[a := d]> (heap w)) w.

Definition set_proxy_in (f : vpnproxy_data -> vpnproxy_data) (w : world) : world :=
  set_proxy (f (proxy w)) w.

Definition emit (ev : host_event) (w : world) : world :=
  set_host (host w ++ [ev]) w.

(** ** The functions of [vpnproxy.c] *)

Definition free_ndpi (data : conn_data) : conn_data :=
  set_dst_id false (set_src_id false (set_ndpi_flow None data)).

(** [free_connection_data]: the block is returned to the allocator. *)
Definition free_connection_data (a : addr) (h : gmap addr conn_data) : gmap addr conn_data :=
  delete a h.

(** [conns_add].  [ok] says whether [realloc] returns a block; it is
    consulted only when the array has to grow.  When [realloc] fails the
    function returns without adding the connection: [size] is already
    doubled, [items] is the null pointer (the old block is lost) and
    [cur_items] is as before.  With a null [items] and [cur_items < size],
    a state which only a failed [realloc] leaves behind, the C code writes
    the slot through the null pointer; that has no defined outcome, and the
    batch is left as it is. *)
Definition conns_add (ok : bool) (arr : conn_array_t) (conn : zdtun_conn) : conn_array_t :=
  let slot := mk_vpn_conn (conn_tuple conn) (user_data conn) in
  if cur_items arr >=? arr_size arr then
    let new_size := if arr_size arr =? 0 then 8 else arr_size arr * 2 in
    if ok
    then mk_conn_array (Some (slots arr ++ [slot])) new_size (cur_items arr + 1)
    else mk_conn_array None new_size (cur_items arr)
  else
    match items arr with
    | Some l => mk_conn_array (Some (l ++ [slot])) (arr_size arr) (cur_items arr + 1)
    | None => arr
    end.

(** The loop of [conns_clear] over the slots.  A slot whose block is gone
    is skipped (the C code would read freed memory there). *)
Fixpoint conns_clear_items (l : list vpn_conn) (free_all : bool)
    (h : gmap addr conn_data) : gmap addr conn_data :=
  match l with
  | [] => h
  | slot :: rest =>
      let h' :=
        match slot_data slot with
        | Some a =>
            match h !! a with
            | Some d =>
                if (status d >=? CONN_STATUS_CLOSED) || free_all
                then free_connection_data a h else h
            | None => h
            end
        | None => h
        end in
      conns_clear_items rest free_all h'
  end.

(** [conns_clear]: the slots of the block are visited when [items] is not
    the null pointer; then [items] is null and both numbers are zero. *)
Definition conns_clear (arr : conn_array_t) (free_all : bool)
    (h : gmap addr conn_data) : conn_array_t * gmap addr conn_data :=
  (mk_conn_array None 0 0, conns_clear_items (slots arr) free_all h).

Section WithNdpi.
Context {ndpi : ndpi_api}.

(** The guess and the fill at the start of [end_ndpi_detection]. *)
Definition conclude_l7proto (data : conn_data) (flow : ndpi_flow_struct) : conn_data :=
  let data :=
    if app_protocol (l7proto data) =? NDPI_PROTOCOL_UNKNOWN
    then set_l7proto (ndpi_detection_giveup flow) data
    else data in
  if master_protocol (l7proto data) =? 0
  then set_l7proto (mk_l7proto (app_protocol (l7proto data))
                               (app_protocol (l7proto data))) data
  else data.

(** The [case NDPI_PROTOCOL_DNS] of [end_ndpi_detection]. *)
Definition extract_dns (e : env_t) (data : conn_data) (flow : ndpi_flow_struct)
    (lru : ip_lru) : conn_data * ip_lru :=
  if nonempty (host_server_name flow) then
    let rsp_type := dns_rsp_type flow in
    let data := set_info (strndup (strndup_info_ok e) (host_server_name flow) 256) data in
    match info data with
    | Some name =>
        if strchr name "."%char then
          let '(rsp_addr, ver) :=
            if (rsp_type =? 0x1) && negb (ip4 (dns_rsp_addr flow) =? 0)
            then (ip4 (dns_rsp_addr flow), 4)
            else if (rsp_type =? 0x1c)
                      && (Z.land (u6_addr8_0 (dns_rsp_addr flow)) 0xE0 =? 0x20)
            then (dns_rsp_addr flow, 6)
            else (0, 0) in
          if negb (ver =? 0)
          then (data, ip_lru_add lru rsp_addr name)
          else (data, lru)
        else (data, lru)
    | None => (data, lru)
    end
  else (data, lru).

(** The [switch] of [end_ndpi_detection] on the master protocol. *)
Definition extract_metadata (e : env_t) (data : conn_data) (flow : ndpi_flow_struct)
    (lru : ip_lru) : conn_data * ip_lru :=
  if master_protocol (l7proto data) =? NDPI_PROTOCOL_DNS then
    extract_dns e data flow lru
  else if master_protocol (l7proto data) =? NDPI_PROTOCOL_HTTP then
    let data :=
      if nonempty (host_server_name flow)
      then set_info (strndup (strndup_info_ok e) (host_server_name flow) 256) data
      else data in
    let data :=
      match http_url flow with
      | Some u => set_url (strndup (strndup_url_ok e) u 256) data
      | None => data
      end in
    (data, lru)
  else if master_protocol (l7proto data) =? NDPI_PROTOCOL_TLS then
    let data :=
      if nonempty (client_requested_server_name flow)
      then set_info (strndup (strndup_info_ok e) (client_requested_server_name flow) 256) data
      else data in
    (data, lru)
  else (data, lru).

(** [end_ndpi_detection] on the record and the host LRU it may update. *)
Definition end_ndpi_detection (e : env_t) (data : conn_data) (lru : ip_lru)
    : conn_data * ip_lru :=
  match ndpi_flow data with
  | None => (data, lru)
  | Some flow =>
      let data := conclude_l7proto data flow in
      let '(data, lru) := extract_metadata e data flow lru in
      (free_ndpi data, lru)
  end.

(** [process_ndpi_packet]; the caller has checked that the flow is live. *)
Definition process_ndpi_packet (e : env_t) (data : conn_data) (lru : ip_lru)
    (packet : list Z) (len : Z) (from_tun : bool) : conn_data * ip_lru :=
  match ndpi_flow data with
  | None => (data, lru)
  | Some flow =>
      let giveup := (sent_pkts data + rcvd_pkts data) >=? MAX_DPI_PACKETS in
      let '(flow', proto) :=
        ndpi_detection_process_packet flow packet len (last_seen data) from_tun in
      let data := set_ndpi_flow (Some flow') (set_l7proto proto data) in
      if giveup || (negb (app_protocol (l7proto data) =? NDPI_PROTOCOL_UNKNOWN)
                    && negb (ndpi_extra_dissection_possible flow'))
      then end_ndpi_detection e data lru
      else (data, lru)
  end.

End WithNdpi.

(** Modelled from the spec: [pcaprec_hdr_s] and [dump_pcap_rec] are declared
    in [pcap.h], which is not part of the sources.  The per-record header
    takes 14 bytes and appending a record advances the write index by
    [14 + payload_size]. *)
Definition sizeof_pcaprec_hdr_s : Z := 14.

Definition dump_pcap_rec (recs : list pcap_record) (packet : list Z) (len : Z)
    : list pcap_record * Z :=
  (recs ++ [(packet, len)], sizeof_pcaprec_hdr_s + len).

(** The sentinel of [uid_resolver.h]. *)
Definition UID_UNKNOWN : Z := -1.

Definition javaPcapDump (e : env_t) (w : world) : world :=
  if new_byte_array_ok e then
    let jd := java_dump (proxy w) in
    let w := emit (DumpPcapData (buffer_idx jd) (default [] (buffer jd))) w in
    set_proxy_in (fun p =>
      set_java_dump (set_last_dump_ms (now_ms p)
                      (set_buffer_idx 0
                        (set_buffer (option_map (fun _ => []) (buffer (java_dump p)))
                           (java_dump p)))) p) w
  else w.

Definition shouldIgnoreConn (p : vpnproxy_data) (tuple : zdtun_5tuple) : bool :=
  (ipver tuple =? 4) && (ip4 (dst_ip tuple) =? vpn_dns p)
  && negb (ntohs (dst_port tuple) =? 53).

Section WithNdpi.
Context {ndpi : ndpi_api}.

(** The first part of [account_packet]: the counters, the time stamp, the
    status and the DPI step of one record. *)
Definition account_conn (e : env_t) (data : conn_data) (lru : ip_lru)
    (packet : list Z) (len : Z) (from_tun : bool) (conn_info : zdtun_conn)
    : conn_data * ip_lru :=
  let data :=
    if from_tun
    then set_sent_bytes (sent_bytes data + len) (set_sent_pkts (sent_pkts data + 1) data)
    else set_rcvd_bytes (rcvd_bytes data + len) (set_rcvd_pkts (rcvd_pkts data + 1) data) in
  let data := set_last_seen (time_now e) data in
  let data := set_status (conn_status conn_info) data in
  match ndpi_flow data with
  | Some _ => process_ndpi_packet e data lru packet len from_tun
  | None => (data, lru)
  end.

(** The aggregate counters of [account_packet]. *)
Definition account_capture_stats (cs : capture_stats_t) (len : Z) (from_tun : bool)
    : capture_stats_t :=
  let cs :=
    if from_tun
    then set_cs_sent_bytes (cs_sent_bytes cs + len) (set_cs_sent_pkts (cs_sent_pkts cs + 1) cs)
    else set_cs_rcvd_bytes (cs_rcvd_bytes cs + len) (set_cs_rcvd_pkts (cs_rcvd_pkts cs + 1) cs) in
  set_new_stats true cs.

(** The host-buffer part of [account_packet]. *)
Definition account_java_dump (e : env_t) (w : world) (packet : list Z) (len : Z) : world :=
  match buffer (java_dump (proxy w)) with
  | None => w
  | Some _ =>
      let tot_size := len + sizeof_pcaprec_hdr_s in
      let w :=
        if JAVA_PCAP_BUFFER_SIZE - buffer_idx (java_dump (proxy w)) <=? tot_size
        then javaPcapDump e w else w in
      if JAVA_PCAP_BUFFER_SIZE - buffer_idx (java_dump (proxy w)) <=? tot_size
      then w
      else
        let jd := java_dump (proxy w) in
        let '(recs, n) := dump_pcap_rec (default [] (buffer jd)) packet len in
        set_proxy_in (set_java_dump (set_buffer_idx (buffer_idx jd + n)
                                       (set_buffer (Some recs) jd))) w
  end.

(** The collector-socket part of [account_packet]. *)
Definition account_dumper_socket (w : world) (packet : list Z) (len : Z) : world :=
  if dumper_socket (glob w) >? 0 then
    let w :=
      if send_header (glob w)
      then set_glob (set_send_header false (glob w))
             (emit (WritePcapHdr (dumper_socket (glob w))) w)
      else w in
    emit (WritePcapRec (dumper_socket (glob w)) packet len) w
  else w.

Definition account_packet (e : env_t) (w : world) (packet : list Z) (len : Z)
    (from_tun : bool) (conn_info : zdtun_conn) : world :=
  match user_data conn_info with
  | None => w                 (* "Missing user_data in connection" *)
  | Some a =>
      match heap w !! a with
      | None => w             (* no block at this address: nothing to update *)
      | Some data =>
          let '(data, lru) :=
            account_conn e data (ip_to_host (proxy w)) packet len from_tun conn_info in
          let w := set_proxy_in (set_ip_to_host lru) (store a data w) in
          if shouldIgnoreConn (proxy w) (conn_tuple conn_info) then w
          else
            let w :=
              set_proxy_in (fun p =>
                set_capture_stats (account_capture_stats (capture_stats p) len from_tun) p) w in
            let w :=
              if pending_notification data then w
              else
                store a (set_pending_notification true data)
                  (set_proxy_in (fun p =>
                     set_conns_updates
                       (conns_add (realloc_ok e) (conns_updates p) conn_info) p) w) in
            let w := account_java_dump e w packet len in
            account_dumper_socket w packet len
      end
  end.

End WithNdpi.

(** ** New connections and the DNS gate *)

Section WithNdpi.
Context {ndpi : ndpi_api}.

(** The pending "new DNS server" of [check_dns_req_allowed]. *)
Definition reload_dns_server (w : world) : world :=
  if negb (new_dns_server (glob w) =? 0) then
    let srv := new_dns_server (glob w) in
    let w := set_proxy_in (set_dns_server srv) w in
    let w := set_glob (set_new_dns_server 0 (glob w)) w in
    set_tun (set_dnat_info (Some (dns_server (proxy w), htons 53, 4)) (tun w)) w
  else w.

Definition is_internal_dns (p : vpnproxy_data) (tuple : zdtun_5tuple) : bool :=
  (ipver tuple =? 4) && (ip4 (dst_ip tuple) =? vpn_dns p).

(** The destination classification of [check_dns_req_allowed]: the tun-side
    DNS address, the configured IPv6 DNS server, or a known DNS server. *)
Definition is_dns_server (p : vpnproxy_data) (tuple : zdtun_5tuple) : bool :=
  let direct :=
    is_internal_dns p tuple
    || ((ipver tuple =? 6) && (dst_ip tuple =? ipv6_dns_server (ipv6 p))) in
  if direct then true
  else
    let a := if ipver tuple =? 4 then ip4 (dst_ip tuple) else dst_ip tuple in
    ndpi_ptree_match_addr (known_dns_servers p) a.

Definition check_dns_req_allowed (w : world) (conn : zdtun_conn)
    : bool * zdtun_conn * world :=
  let tuple := conn_tuple conn in
  let w := reload_dns_server w in
  if negb (is_dns_server (proxy w) tuple) then (true, conn, w)
  else
    let udp_53_pkt :=
      if (ipproto tuple =? IPPROTO_UDP) && (ntohs (dst_port tuple) =? 53)
      then last_pkt (proxy w) else None in
    match udp_53_pkt with
    | Some pkt =>
        if l7_len pkt >=? sizeof_dns_packet then
          if negb (Z.land (dns_flags pkt) DNS_FLAGS_MASK =? DNS_TYPE_REQUEST)
          then (true, conn, w)
          else
            let w := set_proxy_in (fun p =>
                       set_num_dns_requests (num_dns_requests p + 1) p) w in
            let conn := if is_internal_dns (proxy w) tuple then set_dnat true conn else conn in
            (true, conn, w)
        else (false, conn, w)
    | None => (false, conn, w)
    end.

(** What the environment answers while a connection is set up. *)
Record new_conn_env := mk_new_conn_env {
  calloc_conn_data : option addr;   (* None: calloc failed *)
  calloc_flow_ok : bool;
  calloc_src_id_ok : bool;
  calloc_dst_id_ok : bool;
  nc_time : Z;                      (* time(NULL) *)
  get_uid_result : Z;
  nc_realloc_ok : bool              (* realloc of conns_add returned a block *)
}.

Definition resolve_uid (uid : Z) : Z :=
  if uid >=? 0 then uid else UID_UNKNOWN.

(** [calloc(1, SIZEOF_FLOW_STRUCT)]. *)
Definition zeroed_flow : ndpi_flow_struct := mk_flow "" 0 0 None "" 0.

(** [handle_new_connection].  [proxy->incr_id++] is an increment of an
    [int]: it wraps at 32 bits here, as the compiled code does on the
    targets of the library; past [INT_MAX] the C increment has no defined
    result. *)
Definition handle_new_connection (e : new_conn_env) (w : world) (conn_info : zdtun_conn)
    : Z * zdtun_conn * world :=
  let tuple := conn_tuple conn_info in
  let '(allowed, conn_info, w) := check_dns_req_allowed w conn_info in
  if negb allowed then
    (1, conn_info, set_proxy_in (set_last_conn_blocked true) w)
  else
    match calloc_conn_data e with
    | None => (1, conn_info, w)
    | Some a =>
        let data := zeroed_conn_data in
        let data := if calloc_flow_ok e then set_ndpi_flow (Some zeroed_flow) data
                    else free_ndpi data in
        let data := if calloc_src_id_ok e then set_src_id true data else free_ndpi data in
        let data := if calloc_dst_id_ok e then set_dst_id true data else free_ndpi data in
        let data := set_first_seen (nc_time e) (set_last_seen (nc_time e) data) in
        let data := set_uid (resolve_uid (get_uid_result e)) data in
        let '(name, lru) := ip_lru_find (ip_to_host (proxy w)) (dst_ip tuple) in
        let data := set_info name data in
        let w := set_proxy_in (set_ip_to_host lru) w in
        let conn_info := set_user_data (Some a) conn_info in
        if negb (shouldIgnoreConn (proxy w) tuple) then
          let data := set_incr_id (proxy_incr_id (proxy w)) data in
          let w := set_proxy_in (fun p =>
                     set_proxy_incr_id (int32 (proxy_incr_id p + 1)) p) w in
          let w := set_proxy_in (fun p =>
                     set_new_conns (conns_add (nc_realloc_ok e) (new_conns p) conn_info) p) w in
          let data := set_pending_notification true data in
          (0, conn_info, store a data w)
        else (0, conn_info, store a data w)
    end.

Definition destroy_connection (e : env_t) (w : world) (conn_info : zdtun_conn) : world :=
  match user_data conn_info with
  | None => w
  | Some a =>
      match heap w !! a with
      | None => w
      | Some data =>
          let '(data, lru) := end_ndpi_detection e data (ip_to_host (proxy w)) in
          let data := set_status (conn_status conn_info) data in
          let w := set_proxy_in (set_ip_to_host lru) w in
          if negb (pending_notification data)
             && negb (shouldIgnoreConn (proxy w) (conn_tuple conn_info))
          then
            store a (set_pending_notification true data)
              (set_proxy_in (fun p =>
                 set_conns_updates
                   (conns_add (realloc_ok e) (conns_updates p) conn_info) p) w)
          else store a data w
      end
  end.

End WithNdpi.

(** [check_socks5_redirection]: returns the connection, tagged for proxying
    when it is a reportable TCP connection without packets so far. *)
Definition check_socks5_redirection (w : world) (pkt : zdtun_pkt) (conn : zdtun_conn)
    : zdtun_conn :=
  if shouldIgnoreConn (proxy w) (conn_tuple conn) then conn
  else
    match user_data conn with
    | Some a =>
        match heap w !! a with
        | Some data =>
            if (ipproto (pkt_tuple pkt) =? IPPROTO_TCP)
               && (sent_pkts data + rcvd_pkts data =? 0)
            then set_socks5_proxied true conn else conn
        | None => conn
        end
    | None => conn
    end.

(** ** Writing to the tun device *)

(** The outcome of [write(2)]: the return value and, when it is negative,
    [errno]. *)
Record write_result := mk_write {
  write_rv : Z;
  write_errno : Z
}.

Definition net2tun (g : globals) (wr : write_result) (pkt_size : Z) : Z * globals :=
  if negb (running g) then (0, g)
  else
    let rv := write_rv wr in
    if rv <? 0 then
      if write_errno wr =? ENOBUFS then (rv, g)
      else if write_errno wr =? EIO then (rv, set_running false g)
      else (rv, set_running false g)
    else if negb (rv =? pkt_size) then (-1, g)
    else (0, g).

(** ** Reports to the host *)

(** The JNI outcomes of one [sendConnectionsDump]: whether the two object
    arrays could be created, and for each index of each batch whether
    [dumpConnection] returned 0. *)
Record jni_dump_env := mk_jni_dump_env {
  new_object_array_ok : bool;
  dump_new_ok : nat -> bool;
  dump_upd_ok : nat -> bool
}.

(** One of the two [for] loops of [sendConnectionsDump], starting at index
    [i]: the flag of each slot is cleared, then the slot is serialized; the
    first failure leaves the loop.  Returns whether the loop completed, the
    heap and the descriptors built. *)
Fixpoint dump_batch (ok : nat -> bool) (i : nat) (l : list vpn_conn)
    (h : gmap addr conn_data) (acc : list (zdtun_5tuple * conn_data))
    : bool * gmap addr conn_data * list (zdtun_5tuple * conn_data) :=
  match l with
  | [] => (true, h, acc)
  | slot :: rest =>
      match slot_data slot with
      | Some a =>
          match h !! a with
          | Some d =>
              let d := set_pending_notification false d in
              let h := <[a := d]> h in
              if ok i
              then dump_batch ok (S i) rest h (acc ++ [(slot_tuple slot, d)])
              else (false, h, acc)
          | None => dump_batch ok (S i) rest h acc
          end
      | None => dump_batch ok (S i) rest h acc
      end
  end.

(** [sendConnectionsDump].  The two loops run over the slots of the block of
    each batch.  On a batch whose [items] is null while [cur_items] is not
    zero, a state which only a failed [realloc] leaves behind, the C loops
    read through the null pointer; the loops of the model find no slot
    there. *)
Definition sendConnectionsDump (j : jni_dump_env) (w : world) : world :=
  let p := proxy w in
  if (cur_items (new_conns p) =? 0) && (cur_items (conns_updates p) =? 0) then w
  else
    let '(ok, h, new_d, upd_d) :=
      if new_object_array_ok j then
        let '(ok1, h1, nd) := dump_batch (dump_new_ok j) 0 (slots (new_conns p)) (heap w) [] in
        if ok1 then
          let '(ok2, h2, ud) := dump_batch (dump_upd_ok j) 0 (slots (conns_updates p)) h1 [] in
          (ok2, h2, nd, ud)
        else (false, h1, nd, [])
      else (false, heap w, [], []) in
    let w := set_heap h w in
    let w := if ok then emit (SendConnectionsDump new_d upd_d) w else w in
    (* cleanup: *)
    let '(arr_new, h) := conns_clear (new_conns (proxy w)) false (heap w) in
    let '(arr_upd, h) := conns_clear (conns_updates (proxy w)) false h in
    set_heap h (set_proxy_in (fun p => set_conns_updates arr_upd (set_new_conns arr_new p)) w).

(** [sendVPNStats]; [jni_ok] says that the stats object was created and
    filled without a Java exception. *)
Definition sendVPNStats (jni_ok : bool) (stats : zdtun_statistics_t) (w : world) : world :=
  if jni_ok
  then emit (SendStatsDump (capture_stats (proxy w)) (num_dropped_connections (proxy w))
               stats (num_dns_requests (proxy w))) w
  else w.

(** ** The packet loop of [run_tun] *)

(** The calls the NAT library makes into the core while it forwards a
    packet, serves its sockets or purges idle connections. *)
Inductive nat_callback :=
  | CbSendClient (wr : write_result) (pkt_size : Z)
  | CbAccountPacket (e : env_t) (packet : list Z) (len : Z) (from_tun : bool)
      (conn : zdtun_conn)
  | CbConnectionClose (e : env_t) (conn : zdtun_conn).

(** The result of [read] on the tun device followed by [zdtun_parse_pkt]. *)
Inductive tun_read :=
  | ReadError
  | ReadNothing
  | ReadUnparsed
  | ReadPkt (pkt : zdtun_pkt).

(** The local variables of [run_tun] that live across iterations:
    [next_purge_ms] is a [u_int64_t], [last_connections_dump] a [time_t]. *)
Record loop_locals := mk_locals {
  next_purge_ms : Z;
  last_connections_dump : Z
}.

(** The housekeeping branches, in the order of the source. *)
Inductive housekeeping_task :=
  | HkVpnStats
  | HkConnectionsDump
  | HkPcapDump
  | HkPurge.

(** Everything one iteration receives from outside: the flags the host
    threads changed during [select], the clock, the tun read, and what the
    NAT library and JNI answer. *)
Record iter_input := mk_iter_input {
  in_stop : bool;                      (* stopPacketLoop was called *)
  in_ask_stats : bool;                 (* askStatsDump was called *)
  in_set_dns : option Z;               (* setDnsServer was called *)
  in_now_ms : Z;                       (* gettimeofday, in ms *)
  in_tun_ready : bool;                 (* FD_ISSET(tunfd) *)
  in_read : tun_read;
  in_lookup_fails : bool;              (* zdtun_lookup fails on its own *)
  in_new_conn : new_conn_env;
  in_forward_rc : Z;
  in_forward_cbs : list nat_callback;  (* callbacks made by zdtun_forward *)
  in_handle_fd_cbs : list nat_callback;(* callbacks made by zdtun_handle_fd *)
  in_purge_cbs : list nat_callback;    (* callbacks made by zdtun_purge_expired *)
  in_env : env_t;
  in_stats : zdtun_statistics_t;       (* zdtun_get_stats *)
  in_stats_jni_ok : bool;
  in_dump_jni : jni_dump_env
}.

Definition tuple_eqb (a b : zdtun_5tuple) : bool :=
  (ipver a =? ipver b) && (ipproto a =? ipproto b)
  && (src_ip a =? src_ip b) && (dst_ip a =? dst_ip b)
  && (src_port a =? src_port b) && (dst_port a =? dst_port b).

Definition table_find (t : zdtun_t) (tuple : zdtun_5tuple) : option zdtun_conn :=
  find (fun c => tuple_eqb (conn_tuple c) tuple) (conn_table t).

Definition table_remove (tuple : zdtun_5tuple) (t : zdtun_t) : zdtun_t :=
  set_conn_table (List.filter (fun c => negb (tuple_eqb (conn_tuple c) tuple)) (conn_table t)) t.

Definition table_put (c : zdtun_conn) (t : zdtun_t) : zdtun_t :=
  set_conn_table (c :: conn_table (table_remove (conn_tuple c) t)) t.

Section WithNdpi.
Context {ndpi : ndpi_api}.

Definition run_callback (cb : nat_callback) (w : world) : world :=
  match cb with
  | CbSendClient wr pkt_size => set_glob (snd (net2tun (glob w) wr pkt_size)) w
  | CbAccountPacket e packet len from_tun conn => account_packet e w packet len from_tun conn
  | CbConnectionClose e conn =>
      set_tun (table_remove (conn_tuple conn) (tun w)) (destroy_connection e w conn)
  end.

Definition run_callbacks (cbs : list nat_callback) (w : world) : world :=
  fold_left (fun w cb => run_callback cb w) cbs w.

(** Modelled from the spec: [zdtun_lookup] belongs to the NAT library, which
    is not part of the sources.  It returns the connection of the table with
    this 5-tuple; when there is none and [create] is set it makes a new
    connection and calls [on_connection_open] before admitting it: a
    non-zero answer means the connection is never created. *)
Definition zdtun_lookup (lookup_fails : bool) (e : new_conn_env) (w : world)
    (tuple : zdtun_5tuple) (create : bool) : option zdtun_conn * world :=
  match table_find (tun w) tuple with
  | Some c => (Some c, w)
  | None =>
      if create && negb lookup_fails then
        let '(rv, conn, w) :=
          handle_new_connection e w (mk_conn tuple CONN_STATUS_NEW None false false) in
        if rv =? 0 then (Some conn, set_tun (table_put conn (tun w)) w)
        else (None, w)
      else (None, w)
  end.

(** Modelled from the spec: [zdtun_destroy_conn] of the NAT library reports
    the close through [on_connection_close] and drops the connection. *)
Definition zdtun_destroy_conn (e : env_t) (w : world) (conn : zdtun_conn) : world :=
  set_tun (table_remove (conn_tuple conn) (tun w)) (destroy_connection e w conn).

Definition is_tcp_established (pkt : zdtun_pkt) : bool :=
  (ipproto (pkt_tuple pkt) =? IPPROTO_TCP)
  && ((Z.land (th_flags pkt) TH_SYN =? 0)
      || negb (Z.land (th_flags pkt) TH_ACK =? 0)).

(** [proxy.last_pkt = &pkt; proxy.last_conn_blocked = false;] *)
Definition with_last_pkt (pkt : zdtun_pkt) (w : world) : world :=
  set_proxy_in (fun p => set_last_conn_blocked false (set_last_pkt (Some pkt) p)) w.

(** The branch [FD_ISSET(tunfd, &fdset)] up to the label [housekeeping]. *)
Definition packet_from_vpn (i : iter_input) (w : world) : world :=
  match in_read i with
  | ReadError | ReadNothing | ReadUnparsed => w
  | ReadPkt pkt =>
      let w := with_last_pkt pkt w in
      if (ipver (pkt_tuple pkt) =? 6) && negb (ipv6_enabled (ipv6 (proxy w))) then w
      else
        let established := is_tcp_established pkt in
        let '(conn, w) :=
          zdtun_lookup (in_lookup_fails i) (in_new_conn i) w (pkt_tuple pkt) (negb established) in
        match conn with
        | None =>
            if last_conn_blocked (proxy w) then w
            else if negb established
            then set_proxy_in (fun p =>
                   set_num_dropped_connections (num_dropped_connections p + 1) p) w
            else w
        | Some conn =>
            let conn :=
              if socks5_enabled (socks5 (proxy w))
              then check_socks5_redirection w pkt conn else conn in
            let w := set_tun (table_put conn (tun w)) w in
            let w := run_callbacks (in_forward_cbs i) w in
            if negb (in_forward_rc i =? 0) then
              let w := set_proxy_in (fun p =>
                         set_num_dropped_connections (num_dropped_connections p + 1) p) w in
              zdtun_destroy_conn (in_env i) w conn
            else w
        end
  end.

(** The condition of the first housekeeping branch, with the precedence of
    C: [a && b || c] is [(a && b) || c]. *)
Definition vpn_stats_due (w : world) (now : Z) : bool :=
  (new_stats (capture_stats (proxy w))
   && (u64_sub now (last_update_ms (capture_stats (proxy w)))
         >=? CAPTURE_STATS_UPDATE_FREQUENCY_MS))
  || dump_capture_stats_now (glob w).

(** The conditions of the three other branches.  In
    [now_ms - last_connections_dump] the [time_t] is converted to
    [u_int64_t] before the subtraction. *)
Definition connections_dump_due (loc : loop_locals) (now : Z) : bool :=
  u64_sub now (u64 (last_connections_dump loc)) >=? CONNECTION_DUMP_UPDATE_FREQUENCY_MS.

Definition pcap_dump_due (w : world) (now : Z) : bool :=
  (buffer_idx (java_dump (proxy w)) >? 0)
  && (u64_sub now (last_dump_ms (java_dump (proxy w))) >=? MAX_JAVA_DUMP_DELAY_MS).

Definition purge_due (w : world) (loc : loop_locals) (now : Z) : bool :=
  (now >=? next_purge_ms loc) || dump_vpn_stats_now (glob w).

(** The code after the label [housekeeping]: the new state and the branches
    that were run.  [last_connections_dump = now_ms] converts the
    [u_int64_t] to [time_t]. *)
Definition housekeeping (i : iter_input) (w : world) (loc : loop_locals)
    : world * loop_locals * list housekeeping_task :=
  let now := in_now_ms i in
  if vpn_stats_due w now then
    let w := set_glob (set_dump_capture_stats_now false (glob w)) w in
    let w := sendVPNStats (in_stats_jni_ok i) (in_stats i) w in
    let w := set_proxy_in (fun p =>
               set_capture_stats (set_last_update_ms now
                                    (set_new_stats false (capture_stats p))) p) w in
    (w, loc, [HkVpnStats])
  else if connections_dump_due loc now then
    let w := sendConnectionsDump (in_dump_jni i) w in
    (w, mk_locals (next_purge_ms loc) (int64 now), [HkConnectionsDump])
  else if pcap_dump_due w now then
    (javaPcapDump (in_env i) w, loc, [HkPcapDump])
  else if purge_due w loc now then
    let w := set_glob (set_dump_vpn_stats_now false (glob w)) w in
    let w := run_callbacks (in_purge_cbs i) w in
    (w, mk_locals (u64 (now + PERIODIC_PURGE_TIMEOUT_MS)) (last_connections_dump loc),
     [HkPurge])
  else (w, loc, []).

(** What the host threads did while the loop was blocked in [select]. *)
Definition host_requests (i : iter_input) (g : globals) : globals :=
  let g := if in_stop i then set_running false g else g in
  let g := if in_ask_stats i && running g
           then set_dump_capture_stats_now true (set_dump_vpn_stats_now true g) else g in
  match in_set_dns i with
  | Some a => set_new_dns_server a g
  | None => g
  end.

(** The body of [while(running)]: [None] when the loop is left by the
    [break] after [select]. *)
Definition loop_body (i : iter_input) (w : world) (loc : loop_locals)
    : option (world * loop_locals * list housekeeping_task) :=
  let w := set_glob (host_requests i (glob w)) w in
  if negb (running (glob w)) then None
  else
    let w := set_proxy_in (set_now_ms (in_now_ms i)) w in
    let w :=
      if in_tun_ready i then packet_from_vpn i w
      else run_callbacks (in_handle_fd_cbs i) w in
    Some (housekeeping i w loc).

(** The state in which the body of the iteration [i] handles its packet or
    its sockets: the requests of the host are in, the clock is read. *)
Definition iteration_start (i : iter_input) (w : world) : world :=
  set_proxy_in (set_now_ms (in_now_ms i)) (set_glob (host_requests i (glob w)) w).

(** The connection the lookup of [packet_from_vpn] sets up, if it does: the
    5-tuple was not in the NAT table and the lookup returns a connection.
    The result says whether the connection is reportable and gives its
    record as the lookup left it. *)
Definition opened_in_packet (i : iter_input) (w : world) : list (bool * conn_data) :=
  match in_read i with
  | ReadPkt pkt =>
      let w0 := with_last_pkt pkt w in
      if (ipver (pkt_tuple pkt) =? 6) && negb (ipv6_enabled (ipv6 (proxy w0))) then []
      else
        match table_find (tun w0) (pkt_tuple pkt) with
        | Some _ => []
        | None =>
            let '(conn, w1) :=
              zdtun_lookup (in_lookup_fails i) (in_new_conn i) w0 (pkt_tuple pkt)
                (negb (is_tcp_established pkt)) in
            match conn with
            | Some c =>
                match user_data c with
                | Some a =>
                    match heap w1 !! a with
                    | Some d => [(negb (shouldIgnoreConn (proxy w0) (pkt_tuple pkt)), d)]
                    | None => []
                    end
                | None => []
                end
            | None => []
            end
        end
  | _ => []
  end.

(** The packet loop over the inputs of successive iterations.  It returns
    the state at the point where the loop is left or the inputs end, and
    the number of iterations whose housekeeping was reached. *)
Fixpoint packet_loop (ins : list iter_input) (w : world) (loc : loop_locals)
    : world * loop_locals * nat :=
  match ins with
  | [] => (w, loc, O)
  | i :: rest =>
      if running (glob w) then
        match loop_body i w loc with
        | None => (set_glob (host_requests i (glob w)) w, loc, O)
        | Some (w', loc', _) =>
            let '(w'', loc'', n) := packet_loop rest w' loc' in (w'', loc'', S n)
        end
      else (w, loc, O)
  end.

(** The connections opened along the packet loop, in order. *)
Fixpoint loop_opened_log (ins : list iter_input) (w : world) (loc : loop_locals)
    : list (bool * conn_data) :=
  match ins with
  | [] => []
  | i :: rest =>
      if running (glob w) then
        match loop_body i w loc with
        | None => []
        | Some (w', loc', _) =>
            (if in_tun_ready i then opened_in_packet i (iteration_start i w) else [])
            ++ loop_opened_log rest w' loc'
        end
      else []
  end.

End WithNdpi.

(** ** The start of a run *)

(** The values the host returns to the configuration getters. *)
Record host_prefs := mk_prefs {
  getVpnIPv4 : Z;
  getVpnDns : Z;
  getDnsServer : Z;
  dumpPcapToJava : bool;
  getPcapCollectorAddress : Z;
  getPcapCollectorPort : Z;
  dumpPcapToUdp : bool;
  getSocks5Enabled : bool;
  getSocks5ProxyAddress : Z;
  getSocks5ProxyPort : Z;
  getIPv6Enabled : bool;
  getIpv6DnsServer : zdtun_ip
}.

(** What the system answers while [run_tun] sets up. *)
Record init_env := mk_init_env {
  init_time : Z;            (* time(NULL) *)
  init_now_ms : Z;          (* gettimeofday, in ms *)
  init_ndpi_ok : bool;
  fcntl_ok : bool;
  zdtun_init_ok : bool;
  socket_result : Z;        (* socket() of connect_dumper *)
  malloc_buffer_ok : bool
}.

(** The union value of an address given by its bytes. *)
Fixpoint ip_of_bytes (bytes : list Z) : zdtun_ip :=
  match bytes with
  | [] => 0
  | b :: rest => b + 256 * ip_of_bytes rest
  end.

(** The eight calls of [add_known_dns_server]. *)
Definition known_dns_list : ndpi_ptree :=
  [ (ip_of_bytes [8; 8; 8; 8], 32);
    (ip_of_bytes [8; 8; 4; 4], 32);
    (ip_of_bytes [1; 1; 1; 1], 32);
    (ip_of_bytes [1; 0; 0; 1], 32);
    (ip_of_bytes [0x20; 0x01; 0x48; 0x60; 0x48; 0x60; 0; 0; 0; 0; 0; 0; 0; 0; 0x88; 0x88], 128);
    (ip_of_bytes [0x20; 0x01; 0x48; 0x60; 0x48; 0x60; 0; 0; 0; 0; 0; 0; 0; 0; 0x88; 0x44], 128);
    (ip_of_bytes [0x26; 0x06; 0x47; 0x00; 0x47; 0x00; 0; 0; 0; 0; 0; 0; 0; 0; 0x00; 0x64], 128);
    (ip_of_bytes [0x26; 0x06; 0x47; 0x00; 0x47; 0x00; 0; 0; 0; 0; 0; 0; 0; 0; 0x64; 0x00], 128) ].

(** The initializer of [proxy] in [run_tun]; the fields it does not name
    are zero. *)
Definition initial_proxy (tunfd_arg : Z) (prefs : host_prefs) : vpnproxy_data :=
  mk_proxy tunfd_arg [] (ip_lru_init MAX_HOST_LRU_SIZE)
    (getVpnIPv4 prefs) (getVpnDns prefs) (getDnsServer prefs)
    0
    (mk_java_dump (dumpPcapToJava prefs) None 0 0)
    (mk_pcap_dump (getPcapCollectorAddress prefs) (htons (getPcapCollectorPort prefs))
       false (dumpPcapToUdp prefs))
    (mk_socks5 (getSocks5Enabled prefs) (getSocks5ProxyAddress prefs)
       (htons (getSocks5ProxyPort prefs)))
    (mk_ipv6 (getIPv6Enabled prefs) (getIpv6DnsServer prefs))
    (mk_conn_array None 0 0) (mk_conn_array None 0 0)
    (mk_capture_stats 0 0 0 0 false 0)
    0 0 None false 0.

(** [run_tun] up to the packet loop.  [g] holds the file-level variables as
    the previous run left them; [None] stands for the early returns. *)
Definition run_tun_init (tunfd_arg : Z) (prefs : host_prefs) (ie : init_env) (g : globals)
    : option (world * loop_locals) :=
  let last_dump :=
    int64 (init_time ie * 1000 - CONNECTION_DUMP_UPDATE_FREQUENCY_MS + 1000) in
  let p := initial_proxy tunfd_arg prefs in
  let g := set_running true (set_send_header true (set_dumper_socket (-1) g)) in
  if negb (init_ndpi_ok ie) then None
  else
    let p := set_known_dns_servers known_dns_list p in
    if negb (fcntl_ok ie) then None
    else if negb (zdtun_init_ok ie) then None
    else
      let t := mk_zdtun [] None None in
      let g :=
        if pcap_dump_enabled (pcap_dump p) then
          let g := set_dumper_socket (socket_result ie) g in
          if socket_result ie =? 0 then set_running false g else g
        else g in
      let '(p, g) :=
        if java_dump_enabled (java_dump p) then
          if malloc_buffer_ok ie
          then (set_java_dump (set_buffer_idx 0 (set_buffer (Some []) (java_dump p))) p, g)
          else (set_java_dump (set_buffer_idx 0 (java_dump p)) p, set_running false g)
        else (p, g) in
      let t := set_dnat_info (Some (dns_server p, ntohs 53, 4)) t in
      let t :=
        if socks5_enabled (socks5 p)
        then set_socks5_proxy (Some (proxy_ip (socks5 p), proxy_port (socks5 p), 4)) t
        else t in
      let g := set_new_dns_server 0 g in
      Some (mk_world g p ∅ t [],
            mk_locals (u64 (init_now_ms ie + PERIODIC_PURGE_TIMEOUT_MS)) last_dump).

(** ** The end of a run *)

Section WithNdpi.
Context {ndpi : ndpi_api}.

(** [run_tun] after the packet loop.  [ztdun_finalize] belongs to the NAT
    library: the callbacks it makes are an input, as for the other calls
    into the library.  Both batches are cleared with [free_all], the
    collector socket is closed, what is left in the host buffer is exported
    and the buffer is freed. *)
Definition run_tun_finish (finalize_cbs : list nat_callback) (e : env_t) (w : world) : world :=
  let w := run_callbacks finalize_cbs w in
  let '(arr_new, h) := conns_clear (new_conns (proxy w)) true (heap w) in
  let '(arr_upd, h) := conns_clear (conns_updates (proxy w)) true h in
  let w := set_heap h (set_proxy_in (fun p => set_conns_updates arr_upd (set_new_conns arr_new p)) w) in
  let w :=
    if dumper_socket (glob w) >? 0
    then set_glob (set_dumper_socket (-1) (glob w)) w else w in
  match buffer (java_dump (proxy w)) with
  | Some _ =>
      let w := if buffer_idx (java_dump (proxy w)) >? 0 then javaPcapDump e w else w in
      set_proxy_in (fun p => set_java_dump (set_buffer None (java_dump p)) p) w
  | None => w
  end.

End WithNdpi.

(** ** Runs as sequences of calls into the core *)

(** The NAT library and the packet loop enter the core through the
    callbacks and the three reporting functions.  Every change of a
    connection record or of a batch is made by one of these calls. *)
Inductive core_call :=
  | CallConnectionOpen (e : new_conn_env) (conn : zdtun_conn)
  | CallNat (cb : nat_callback)
  | CallConnectionsDump (j : jni_dump_env)
  | CallPcapDump (e : env_t)
  | CallVpnStats (jni_ok : bool) (stats : zdtun_statistics_t).

Section WithNdpi.
Context {ndpi : ndpi_api}.

Definition core_step (c : core_call) (w : world) : world :=
  match c with
  | CallConnectionOpen e conn => snd (handle_new_connection e w conn)
  | CallNat cb => run_callback cb w
  | CallConnectionsDump j => sendConnectionsDump j w
  | CallPcapDump e => javaPcapDump e w
  | CallVpnStats ok stats => sendVPNStats ok stats w
  end.

Definition core_run (calls : list core_call) (w : world) : world :=
  fold_left (fun w c => core_step c w) calls w.

End WithNdpi.

(** ** Observations and predicates used in the statements *)

Definition reportable_ids (log : list (bool * conn_data)) : list Z :=
  map (fun e => incr_id (snd e)) (List.filter fst log).

Definition ignored_ids (log : list (bool * conn_data)) : list Z :=
  map (fun e => incr_id (snd e)) (List.filter (fun e => negb (fst e)) log).

(** [0; 1; ...; n-1] *)
Definition first_ids (n : nat) : list Z := map Z.of_nat (seq 0 n).

(** The number of slots of the two batches that hold the address [a]. *)
Definition batch_count (a : addr) (l : list vpn_conn) : nat :=
  length (List.filter (fun s => match slot_data s with
                           | Some b => Nat.eqb a b
                           | None => false
                           end) l).

Definition in_batches (a : addr) (p : vpnproxy_data) : nat :=
  (batch_count a (slots (new_conns p)) + batch_count a (slots (conns_updates p)))%nat.

(** [d'] differs from [d] at most in the DPI fields: the flow and endpoint
    handles, the protocol pair, [info] and [url]. *)
Definition same_accounting (d d' : conn_data) : Prop :=
  sent_pkts d' = sent_pkts d /\ rcvd_pkts d' = rcvd_pkts d
  /\ sent_bytes d' = sent_bytes d /\ rcvd_bytes d' = rcvd_bytes d
  /\ first_seen d' = first_seen d /\ last_seen d' = last_seen d
  /\ status d' = status d /\ uid d' = uid d /\ incr_id d' = incr_id d
  /\ pending_notification d' = pending_notification d.

(** The protocol pair [end_ndpi_detection] settles on, from the pair and
    the flow it finds: a guess when the application protocol is unknown,
    then the master protocol filled from the application protocol. *)
Definition concluded_l7proto {ndpi : ndpi_api} (proto : ndpi_protocol)
    (flow : ndpi_flow_struct) : ndpi_protocol :=
  let p1 := if app_protocol proto =? NDPI_PROTOCOL_UNKNOWN
            then ndpi_detection_giveup flow else proto in
  if master_protocol p1 =? NDPI_PROTOCOL_UNKNOWN
  then mk_l7proto (app_protocol p1) (app_protocol p1) else p1.

(** The two answers for which a DNS flow feeds the host LRU. *)
Definition rsp_is_A (flow : ndpi_flow_struct) : bool :=
  (dns_rsp_type flow =? 0x1) && negb (ip4 (dns_rsp_addr flow) =? 0).

Definition rsp_is_AAAA_global_unicast (flow : ndpi_flow_struct) : bool :=
  (dns_rsp_type flow =? 0x1c) && (Z.land (u6_addr8_0 (dns_rsp_addr flow)) 0xE0 =? 0x20).

(** The connection dumps in a host trace: for each one the numbers of new
    and of updated connections it delivers. *)
Definition dump_sizes (evs : list host_event) : list (nat * nat) :=
  flat_map (fun ev => match ev with
                      | SendConnectionsDump n u => [(length n, length u)]
                      | _ => []
                      end) evs.

(** The reports of the aggregate statistics and the connections dumps in a
    host trace. *)
Definition stats_events (evs : list host_event) : list host_event :=
  List.filter (fun ev => match ev with SendStatsDump _ _ _ _ => true | _ => false end) evs.

Definition dump_events (evs : list host_event) : list host_event :=
  List.filter (fun ev => match ev with SendConnectionsDump _ _ => true | _ => false end) evs.

(** An event of the pcap export: a flush of the host buffer or a write to
    the collector socket. *)
Definition is_pcap_event (ev : host_event) : bool :=
  match ev with
  | DumpPcapData _ _ | WritePcapHdr _ | WritePcapRec _ _ _ => true
  | _ => false
  end.

(** The host trace of [w'] is the one of [w] followed by events of the pcap
    export only. *)
Definition pcap_extends (w w' : world) : Prop :=
  exists evs, host w' = host w ++ evs /\ forallb is_pcap_event evs = true.

(** The write index of the pcap host buffer is within the buffer. *)
Definition idx_in_bounds (w : world) : Prop :=
  buffer_idx (java_dump (proxy w)) <= JAVA_PCAP_BUFFER_SIZE.

(** A call does not set up a connection at the address [a]. *)
Definition not_allocating (a : addr) (c : core_call) : Prop :=
  match c with
  | CallConnectionOpen e _ => calloc_conn_data e <> Some a
  | _ => True
  end.

(** The records that are live in both heaps carry the same [incr_id]. *)
Definition incr_id_kept (h h' : gmap addr conn_data) : Prop :=
  forall a d d', h !! a = Some d -> h' !! a = Some d' -> incr_id d' = incr_id d.

(** [h'] is [h] with the notification flag of some records cleared. *)
Definition pending_cleared (h h' : gmap addr conn_data) : Prop :=
  forall a, h' !! a = h !! a
            \/ exists d, h !! a = Some d /\ h' !! a = Some (set_pending_notification false d).

(** Every JNI call of a dump succeeds. *)
Definition dump_ok (j : jni_dump_env) : Prop :=
  new_object_array_ok j = true
  /\ (forall i, dump_new_ok j i = true) /\ (forall i, dump_upd_ok j i = true).

(** A batch as [conns_add] and [conns_clear] leave it while [realloc]
    succeeds: the block holds the [cur_items] slots in use, and there is no
    capacity without a block. *)
Definition batch_wf (arr : conn_array_t) : Prop :=
  cur_items arr = Z.of_nat (length (slots arr))
  /\ (items arr = None -> arr_size arr = 0).

Definition batches_wf (w : world) : Prop :=
  batch_wf (new_conns (proxy w)) /\ batch_wf (conns_updates (proxy w)).

(** [realloc] does not fail in the callback [cb]. *)
Definition callback_ok (cb : nat_callback) : Prop :=
  match cb with
  | CbSendClient _ _ => True
  | CbAccountPacket e _ _ _ _ => realloc_ok e = true
  | CbConnectionClose e _ => realloc_ok e = true
  end.

(** The environment behaves at the call [c]: [calloc] returns a free
    address, [realloc] does not fail and no JNI call of a dump fails. *)
Definition call_ok (w : world) (c : core_call) : Prop :=
  match c with
  | CallConnectionOpen e _ =>
      nc_realloc_ok e = true
      /\ match calloc_conn_data e with
         | Some a => heap w !! a = None
         | None => True
         end
  | CallNat cb => callback_ok cb
  | CallConnectionsDump j => dump_ok j
  | _ => True
  end.

(** The flag of a live record is set exactly when the record is in one of
    the two batches; no record is in the batches twice, and the batches
    hold live records only. *)
Definition notification_invariant (w : world) : Prop :=
  (forall a d, heap w !! a = Some d ->
     (pending_notification d = true <-> in_batches a (proxy w) = 1%nat))
  /\ (forall a, (in_batches a (proxy w) <= 1)%nat)
  /\ (forall a, heap w !! a = None -> in_batches a (proxy w) = 0%nat).

(** The environment behaves during the iteration [i] started in [w]:
    [calloc] returns a free address, [realloc] fails in no call of
    [conns_add] and no JNI call of the dump fails. *)
Definition iter_ok (i : iter_input) (w : world) : Prop :=
  dump_ok (in_dump_jni i)
  /\ match calloc_conn_data (in_new_conn i) with
     | Some a => heap w !! a = None
     | None => True
     end
  /\ nc_realloc_ok (in_new_conn i) = true
  /\ realloc_ok (in_env i) = true
  /\ Forall callback_ok (in_forward_cbs i)
  /\ Forall callback_ok (in_handle_fd_cbs i)
  /\ Forall callback_ok (in_purge_cbs i).

Fixpoint loop_ok {ndpi : ndpi_api} (ins : list iter_input) (w : world) (loc : loop_locals)
    : Prop :=
  match ins with
  | [] => True
  | i :: rest =>
      if running (glob w) then
        match loop_body i w loc with
        | None => True
        | Some (w', loc', _) => iter_ok i w /\ loop_ok rest w' loc'
        end
      else True
  end.

(** ** Observations used in the further properties *)

(** The slot [conns_add] writes for a connection. *)
Definition slot_of (conn : zdtun_conn) : vpn_conn :=
  mk_vpn_conn (conn_tuple conn) (user_data conn).

(** What a dump without failures serializes for the slots [l] on the heap
    [h]: each live record, in the order of the slots, with its flag
    cleared. *)
Definition described (h : gmap addr conn_data) (l : list vpn_conn)
    : list (zdtun_5tuple * conn_data) :=
  flat_map (fun s => match slot_data s with
                     | Some a =>
                         match h !! a with
                         | Some d => [(slot_tuple s, set_pending_notification false d)]
                         | None => []
                         end
                     | None => []
                     end) l.

(** Every slot of [l] points to a live record of the heap [h]. *)
Definition slots_live (h : gmap addr conn_data) (l : list vpn_conn) : Prop :=
  Forall (fun s => match slot_data s with
                   | Some a => h !! a <> None
                   | None => False
                   end) l.

(** Whether the address [a] is in one of the two batches. *)
Definition queued (a : addr) (p : vpnproxy_data) : bool :=
  (0 <? in_batches a p)%nat.

(** The packets the host has received from the pcap buffer, followed by
    those still in the buffer. *)
Definition pcap_stream (w : world) : list pcap_record :=
  flat_map (fun ev => match ev with
                      | DumpPcapData _ recs => recs
                      | _ => []
                      end) (host w)
  ++ default [] (buffer (java_dump (proxy w))).

(** What was written to the collector socket, in order. *)
Definition socket_events (evs : list host_event) : list host_event :=
  List.filter (fun ev => match ev with
                         | WritePcapHdr _ | WritePcapRec _ _ _ => true
                         | _ => false
                         end) evs.

Definition is_pcap_rec (s : Z) (ev : host_event) : bool :=
  match ev with
  | WritePcapRec s' _ _ => s' =? s
  | _ => false
  end.

(** Nothing was written to the collector socket while the header is still
    to be sent or there is no socket; otherwise the header was written
    first and once, followed by records only. *)
Definition collector_stream_ok (w : world) : Prop :=
  let s := dumper_socket (glob w) in
  if (s >? 0) && negb (send_header (glob w))
  then exists recs, socket_events (host w) = WritePcapHdr s :: recs
                    /\ forallb (is_pcap_rec s) recs = true
  else socket_events (host w) = [].

(** The DNAT target of the NAT library is the DNS server of the proxy. *)
Definition dnat_target_ok (w : world) : Prop :=
  dnat_info (tun w) = Some (dns_server (proxy w), htons 53, 4).

(** The steps the packet loop is made of: a call into the core, or one of
    the assignments of [run_tun] between the calls. *)
Inductive loop_transition {ndpi : ndpi_api} : world -> world -> Prop :=
  | tr_call (c : core_call) (w : world) :
      loop_transition w (core_step c w)
  | tr_requests (i : iter_input) (w : world) :
      loop_transition w (set_glob (host_requests i (glob w)) w)
  | tr_clock (now : Z) (w : world) :
      loop_transition w (set_proxy_in (set_now_ms now) w)
  | tr_last_pkt (pkt : zdtun_pkt) (w : world) :
      loop_transition w (with_last_pkt pkt w)
  | tr_table (conn : zdtun_conn) (w : world) :
      loop_transition w (set_tun (table_put conn (tun w)) w)
  | tr_dropped (w : world) :
      loop_transition w
        (set_proxy_in (fun p =>
           set_num_dropped_connections (num_dropped_connections p + 1) p) w)
  | tr_stats_flag (w : world) :
      loop_transition w (set_glob (set_dump_capture_stats_now false (glob w)) w)
  | tr_stats_sent (now : Z) (w : world) :
      loop_transition w
        (set_proxy_in (fun p =>
           set_capture_stats (set_last_update_ms now
                                (set_new_stats false (capture_stats p))) p) w)
  | tr_purge_flag (w : world) :
      loop_transition w (set_glob (set_dump_vpn_stats_now false (glob w)) w).

Inductive reachable {ndpi : ndpi_api} : world -> world -> Prop :=
  | reach_refl (w : world) : reachable w w
  | reach_step (w1 w2 w3 : world) :
      reachable w1 w2 -> loop_transition w2 w3 -> reachable w1 w3.

(** The record [handle_new_connection] builds before it consults the host
    LRU: the zeroed block with the DPI handles that could be allocated, the
    two time stamps and the uid. *)
Definition fresh_record (e : new_conn_env) : conn_data :=
  let data := zeroed_conn_data in
  let data := if calloc_flow_ok e then set_ndpi_flow (Some zeroed_flow) data
              else free_ndpi data in
  let data := if calloc_src_id_ok e then set_src_id true data else free_ndpi data in
  let data := if calloc_dst_id_ok e then set_dst_id true data else free_ndpi data in
  let data := set_first_seen (nc_time e) (set_last_seen (nc_time e) data) in
  set_uid (resolve_uid (get_uid_result e)) data.

(** A record as [handle_new_connection] stores it: with the name of the host
    LRU, and for a reportable connection with its identifier and the flag. *)
Definition record_created (d : conn_data) : Prop :=
  exists e name,
    d = set_info name (fresh_record e)
    \/ exists n, d = set_pending_notification true
                       (set_incr_id n (set_info name (fresh_record e))).

Section WithNdpi.
Context {ndpi : ndpi_api}.

(** How one call into the core can change a live record: not at all, in
    its flag only, as [account_packet] does for a packet, or as
    [destroy_connection] does. *)
Inductive record_step : conn_data -> conn_data -> Prop :=
  | rs_same (d : conn_data) : record_step d d
  | rs_flag (b : bool) (d : conn_data) : record_step d (set_pending_notification b d)
  | rs_account (queue : bool) (e : env_t) (lru : ip_lru) (packet : list Z) (len : Z)
      (from_tun : bool) (conn : zdtun_conn) (d : conn_data) :
      record_step d
        (if queue
         then set_pending_notification true
                (fst (account_conn e d lru packet len from_tun conn))
         else fst (account_conn e d lru packet len from_tun conn))
  | rs_close (queue : bool) (e : env_t) (lru : ip_lru) (s : Z) (d : conn_data) :
      record_step d
        (if queue
         then set_pending_notification true
                (set_status s (fst (end_ndpi_detection e d lru)))
         else set_status s (fst (end_ndpi_detection e d lru))).

End WithNdpi.

(** The DPI state of a record is complete: a live flow comes with both
    endpoint handles. *)
Definition dpi_handles_ok (d : conn_data) : Prop :=
  ndpi_flow d <> None -> src_id d = true /\ dst_id d = true.

(** A record whose detection is still running has counted fewer than
    [MAX_DPI_PACKETS] packets. *)
Definition dpi_within_budget (d : conn_data) : Prop :=
  ndpi_flow d <> None -> sent_pkts d + rcvd_pkts d < MAX_DPI_PACKETS.

(** Whether [account_packet] stores a packet of [len] bytes in the host
    buffer: there is room for it, or there is room once the buffer has been
    exported. *)
Definition pcap_record_stored (e : env_t) (w : world) (len : Z) : bool :=
  let need := len + sizeof_pcaprec_hdr_s in
  (need <? JAVA_PCAP_BUFFER_SIZE - buffer_idx (java_dump (proxy w)))
  || (new_byte_array_ok e && (need <? JAVA_PCAP_BUFFER_SIZE)).

(** ** The housekeeping tasks and the reports of a run *)

Section WithNdpi.
Context {ndpi : ndpi_api}.

(** The times of the iterations of the packet loop during which the host
    received a connections dump, one for each [SendConnectionsDump] the
    iteration added to the host trace. *)
Fixpoint loop_dump_times (ins : list iter_input) (w : world) (loc : loop_locals)
    : list Z :=
  match ins with
  | [] => []
  | i :: rest =>
      if running (glob w) then
        match loop_body i w loc with
        | None => []
        | Some (w', loc', _) =>
            repeat (in_now_ms i)
              (length (dump_events (host w')) - length (dump_events (host w)))
            ++ loop_dump_times rest w' loc'
        end
      else []
  end.

End WithNdpi.

(** Each time of [ts] is at least [gap] after the one before it, the first
    one after [last]. *)
Fixpoint spaced (gap : Z) (last : Z) (ts : list Z) : Prop :=
  match ts with
  | [] => True
  | t :: rest => last + gap <= t /\ spaced gap t rest
  end.

(** The clock of the iterations does not go back and fits in a [time_t]. *)
Fixpoint clock_ok (last : Z) (ins : list iter_input) : Prop :=
  match ins with
  | [] => True
  | i :: rest => last <= in_now_ms i < 2 ^ 63 /\ clock_ok (in_now_ms i) rest
  end.

(** The 5-tuples of the connections reported to the host. *)
Definition reported_tuples (evs : list host_event) : list zdtun_5tuple :=
  flat_map (fun ev => match ev with
                      | SendConnectionsDump n u => map fst n ++ map fst u
                      | _ => []
                      end) evs.

(** No queued and no reported connection is one [shouldIgnoreConn] ignores
    for the tun-side DNS address [v], which is the one of the proxy. *)
Definition no_ignored_reports (v : Z) (w : world) : Prop :=
  vpn_dns (proxy w) = v
  /\ Forall (fun s => shouldIgnoreConn (proxy w) (slot_tuple s) = false)
       (slots (new_conns (proxy w)) ++ slots (conns_updates (proxy w)))
  /\ Forall (fun t => shouldIgnoreConn (proxy w) t = false) (reported_tuples (host w)).

(** ** Sample data *)

(** A dissector that matches the known-DNS set by exact address, never
    identifies a protocol and always wants more packets. *)
Definition sample_ndpi : ndpi_api :=
  {| ndpi_ptree_match_addr := fun t a => existsb (fun e => fst e =? a) t;
     ndpi_detection_process_packet := fun f _ _ _ _ => (f, mk_l7proto 0 0);
     ndpi_detection_giveup := fun _ => mk_l7proto 0 0;
     ndpi_extra_dissection_possible := fun _ => true |}.

(** tun-side DNS 10.215.0.1, upstream DNS 8.8.8.8, host buffer enabled. *)
Definition sample_prefs : host_prefs :=
  mk_prefs (ip_of_bytes [10; 215; 0; 2]) (ip_of_bytes [10; 215; 0; 1])
    (ip_of_bytes [8; 8; 8; 8]) true 0 0 false false 0 0 false 0.

Definition sample_init_env : init_env := mk_init_env 1600000000 1600000000123 true true true 7 true.

Definition sample_globals : globals := mk_globals false false false 0 0 false.

Definition sample_world : world :=
  match run_tun_init 42 sample_prefs sample_init_env sample_globals with
  | Some (w, _) => w
  | None => mk_world sample_globals (initial_proxy 42 sample_prefs) ∅ (mk_zdtun [] None None) []
  end.

Definition sample_locals : loop_locals :=
  match run_tun_init 42 sample_prefs sample_init_env sample_globals with
  | Some (_, loc) => loc
  | None => mk_locals 0 0
  end.

Definition sample_env : env_t := mk_env 1600000001 true true true true.

Definition sample_new_conn_env (a : addr) : new_conn_env :=
  mk_new_conn_env (Some a) true true true 1600000001 10123 true.

(** 10.215.0.2:51000 to [dst]:[port] (host byte order) with protocol [proto]. *)
Definition sample_tuple (proto : Z) (dst : zdtun_ip) (port : Z) : zdtun_5tuple :=
  mk_5tuple 4 proto (ip_of_bytes [10; 215; 0; 2]) dst (htons 51000) (htons port).

Definition sample_conn (t : zdtun_5tuple) : zdtun_conn :=
  mk_conn t CONN_STATUS_NEW None false false.

(** A DNS message of 29 bytes with the given flags bytes (offsets 2 and 3). *)
Definition sample_dns_payload (flags_hi flags_lo : Z) : list Z :=
  [0x12; 0x34; flags_hi; flags_lo; 0; 1; 0; 0; 0; 0; 0; 0;
   7; 101; 120; 97; 109; 112; 108; 101; 3; 99; 111; 109; 0; 0; 1; 0; 1].

(** A DNS answer (flags bytes 81 80) sent over UDP to 1.1.1.1:53. *)
Definition dns_response_pkt : zdtun_pkt :=
  mk_pkt (sample_tuple IPPROTO_UDP (ip_of_bytes [1; 1; 1; 1]) 53) 0
    (sample_dns_payload 0x81 0x80).

(** A DNS query (flags bytes 01 00) sent over UDP to the tun-side DNS
    address 10.215.0.1:53. *)
Definition dns_query_pkt : zdtun_pkt :=
  mk_pkt (sample_tuple IPPROTO_UDP (ip_of_bytes [10; 215; 0; 1]) 53) 0
    (sample_dns_payload 0x01 0x00).

(** 10.215.0.2:51000 to 93.184.216.34:443 and to 93.184.216.35:443, TCP. *)
Definition web_tuple : zdtun_5tuple :=
  sample_tuple IPPROTO_TCP (ip_of_bytes [93; 184; 216; 34]) 443.

Definition web_tuple2 : zdtun_5tuple :=
  sample_tuple IPPROTO_TCP (ip_of_bytes [93; 184; 216; 35]) 443.

(** DNS over TLS to the known DNS server 1.1.1.1:853. *)
Definition dot_tuple : zdtun_5tuple :=
  sample_tuple IPPROTO_TCP (ip_of_bytes [1; 1; 1; 1]) 853.

(** A probe to the tun-side DNS address on port 853. *)
Definition probe_tuple : zdtun_5tuple :=
  sample_tuple IPPROTO_TCP (ip_of_bytes [10; 215; 0; 1]) 853.

Definition syn_pkt (t : zdtun_5tuple) : zdtun_pkt := mk_pkt t TH_SYN [].

(** The connection of the NAT table for [t] with its record at [a]. *)
Definition open_conn (t : zdtun_5tuple) (a : addr) : zdtun_conn :=
  mk_conn t CONN_STATUS_ACTIVE (Some a) false false.



(** One connection is opened and sends three packets of 60 bytes. *)
Definition young_conn_calls : list core_call :=
  [ CallConnectionOpen (sample_new_conn_env 1) (sample_conn web_tuple);
    CallNat (CbAccountPacket sample_env [] 60 true (open_conn web_tuple 1));
    CallNat (CbAccountPacket sample_env [] 60 true (open_conn web_tuple 1));
    CallNat (CbAccountPacket sample_env [] 60 true (open_conn web_tuple 1)) ].

Definition young_conn_world : world :=
  core_run (ndpi := sample_ndpi) young_conn_calls sample_world.

(** JNI outcomes of a dump: every call succeeds, or [dumpConnection] fails
    on the slots of the batch of new connections. *)
Definition dump_succeeds : jni_dump_env :=
  mk_jni_dump_env true (fun _ => true) (fun _ => true).

Definition dump_fails_on_new : jni_dump_env :=
  mk_jni_dump_env true (fun _ => false) (fun _ => true).

(** An iteration at time [now]: whether the tun device is readable and what
    is read from it, the address a new record would get, the callbacks the
    NAT library makes while forwarding and while serving its sockets, and
    the JNI outcomes of a dump. *)
Definition sample_iteration (now : Z) (ready : bool) (rd : tun_read) (a : addr)
    (fwd fd : list nat_callback) (j : jni_dump_env) : iter_input :=
  mk_iter_input false false None now ready rd false (sample_new_conn_env a)
    0 fwd fd [] sample_env (mk_zdtun_stats 0 0 0 0) true j.

(** The tun device is not readable and the NAT library makes the callbacks
    [cbs] while serving its sockets. *)
Definition socket_iteration (now : Z) (cbs : list nat_callback) : iter_input :=
  sample_iteration now false ReadNothing 9 [] cbs dump_succeeds.

(** [pkt] is read from the tun device; a new record would go to address [a]. *)
Definition tun_iteration (now : Z) (pkt : zdtun_pkt) (a : addr) : iter_input :=
  sample_iteration now true (ReadPkt pkt) a [] [] dump_succeeds.

(** Two connections are opened; 1.1 s after the start of the run the
    connections dump is due, with the JNI outcomes [j]; then a packet of the
    second connection arrives from the network; at 2.3 s the next dump is
    due. *)
Definition dump_run (j : jni_dump_env) : list iter_input :=
  [ tun_iteration 1600000000200 (syn_pkt web_tuple) 1;
    tun_iteration 1600000000300 (syn_pkt web_tuple2) 2;
    sample_iteration 1600000001100 false ReadNothing 9 [] [] j;
    socket_iteration 1600000001200
      [CbAccountPacket sample_env [] 60 false (open_conn web_tuple2 2)];
    socket_iteration 1600000002300 [] ].

(** A DNS flow that saw the name "localhost" with an A answer 127.0.0.1, and
    one that saw "example.com" with the A answer 93.184.216.34. *)
Definition localhost_flow : ndpi_flow_struct :=
  mk_flow "localhost" 1 (ip_of_bytes [127; 0; 0; 1]) None "" 0.

Definition example_flow : ndpi_flow_struct :=
  mk_flow "example.com" 1 (ip_of_bytes [93; 184; 216; 34]) None "" 0.

(** A record whose detection found DNS on the flow [f]. *)
Definition dns_record (f : ndpi_flow_struct) : conn_data :=
  set_l7proto (mk_l7proto NDPI_PROTOCOL_DNS NDPI_PROTOCOL_DNS)
    (set_dst_id true (set_src_id true (set_ndpi_flow (Some f) zeroed_conn_data))).

(** A state in which the NAT library holds a connection to the tun-side DNS
    address on port 853 with a record at address 1. *)
Definition probe_world : world :=
  store 1%nat (set_dst_id true (set_src_id true
                 (set_ndpi_flow (Some zeroed_flow) zeroed_conn_data))) sample_world.

(** ** Further sample data *)

(** The two connections of [two_open_calls], opened through the packet
    loop. *)
Definition two_opened_run : list iter_input :=
  [ tun_iteration 1600000000200 (syn_pkt web_tuple) 1;
    tun_iteration 1600000000300 (syn_pkt web_tuple2) 2 ].

Definition two_opened_world : world :=
  fst (fst (packet_loop (ndpi := sample_ndpi) two_opened_run sample_world sample_locals)).

(** The first of them as the NAT library reports it when it is closed. *)
Definition closed_conn : zdtun_conn :=
  mk_conn web_tuple CONN_STATUS_CLOSED (Some 1%nat) false false.

(** As [sample_prefs], with the export to a collector at 192.168.1.10:1234
    enabled as well. *)
Definition collector_prefs : host_prefs :=
  mk_prefs (ip_of_bytes [10; 215; 0; 2]) (ip_of_bytes [10; 215; 0; 1])
    (ip_of_bytes [8; 8; 8; 8]) true (ip_of_bytes [192; 168; 1; 10]) 1234 true
    false 0 0 false 0.

Definition collector_world : world :=
  match run_tun_init 42 collector_prefs sample_init_env sample_globals with
  | Some (w, _) => w
  | None => sample_world
  end.

Definition collector_locals : loop_locals :=
  match run_tun_init 42 collector_prefs sample_init_env sample_globals with
  | Some (_, loc) => loc
  | None => sample_locals
  end.

(** A connection is opened and a packet of it comes back from the network. *)
Definition one_packet_run : list iter_input :=
  [ tun_iteration 1600000000200 (syn_pkt web_tuple) 1;
    socket_iteration 1600000000250
      [CbAccountPacket sample_env [1; 2; 3] 60 false (open_conn web_tuple 1)] ].

(** An iteration before which the host called [askStatsDump], and one
    before which it called [stopPacketLoop]. *)
Definition ask_stats_iteration (now : Z) : iter_input :=
  mk_iter_input false true None now false ReadNothing false (sample_new_conn_env 9)
    0 [] [] [] sample_env (mk_zdtun_stats 0 0 0 0) true dump_succeeds.

Definition stop_iteration (now : Z) : iter_input :=
  mk_iter_input true false None now false ReadNothing false (sample_new_conn_env 9)
    0 [] [] [] sample_env (mk_zdtun_stats 0 0 0 0) true dump_succeeds.

(** A segment of the connection [web_tuple] is read from the tun device and
    the NAT library fails to forward it. *)
Definition failed_forward_iteration (now : Z) : iter_input :=
  mk_iter_input false false None now true (ReadPkt (mk_pkt web_tuple TH_ACK [1; 2; 3]))
    false (sample_new_conn_env 9) 1 [] [] [] sample_env (mk_zdtun_stats 0 0 0 0) true
    dump_succeeds.

(** The state after one packet of 60 bytes was accounted for the first of
    the two connections. *)
Definition one_packet_world : world :=
  account_packet (ndpi := sample_ndpi) sample_env two_opened_world [1; 2; 3] 60 true
    (open_conn web_tuple 1).

(** A record whose DPI state was never allocated, at address 1. *)
Definition no_dpi_world : world := store 1%nat zeroed_conn_data sample_world.

(** The [j]-th of a series of TCP connections from 10.215.0.2 to
    93.184.216.34: the port fields are [1024 + j mod 64000] and
    [1 + j / 64000]. *)
Definition nth_tuple (j : nat) : zdtun_5tuple :=
  mk_5tuple 4 IPPROTO_TCP (ip_of_bytes [10; 215; 0; 2]) (ip_of_bytes [93; 184; 216; 34])
    (1024 + Z.of_nat j mod 64000) (1 + Z.of_nat j / 64000).

(** [n] iterations 0.2 s after the start of the run, each of which reads the
    SYN of the next connection of the series, the first of them the
    [j]-th. *)
Definition opens_from (j n : nat) : list iter_input :=
  map (fun k => tun_iteration 1600000000200 (syn_pkt (nth_tuple k)) k) (seq j n).

(** What the states of such a run have in common before the [j]-th
    connection is opened: the loop is on, the DNS configuration is the one
    of [sample_world], and the NAT table has none of the connections still
    to come. *)
Definition opens_inv (j : nat) (w : world) : Prop :=
  running (glob w) = true
  /\ vpn_dns (proxy w) = vpn_dns (proxy sample_world)
  /\ known_dns_servers (proxy w) = known_dns_servers (proxy sample_world)
  /\ forall k, (j <= k)%nat -> table_find (tun w) (nth_tuple k) = None.

(** * Properties *)

(** ** Basic facts *)

Lemma u64_sub_exact (a b : Z) : 0 <= b <= a -> a < 2 ^ 64 -> u64_sub a b = a - b.
Proof.
  intros Hb Ha. unfold u64_sub, u64, wrap. apply Z.mod_small. lia.
Qed.

Lemma strchr_take_le (n : nat) (s : string) (c : ascii) :
  strchr (string_take n s) c = true -> strchr s c = true.
Proof.
  revert s. induction n as [|n IH]; intros [|a s]; simpl; try discriminate.
  destruct (Ascii.eqb a c); auto.
Qed.

Section DnsGate.
Context {ndpi : ndpi_api}.

(** ** The DNS gate *)

Lemma reload_dns_server_frame (w : world) :
  let w' := reload_dns_server w in
  heap w' = heap w /\ host w' = host w /\
  vpn_dns (proxy w') = vpn_dns (proxy w) /\
  ipv6 (proxy w') = ipv6 (proxy w) /\
  known_dns_servers (proxy w') = known_dns_servers (proxy w) /\
  last_pkt (proxy w') = last_pkt (proxy w) /\
  num_dns_requests (proxy w') = num_dns_requests (proxy w) /\
  new_conns (proxy w') = new_conns (proxy w) /\
  conns_updates (proxy w') = conns_updates (proxy w) /\
  proxy_incr_id (proxy w') = proxy_incr_id (proxy w) /\
  java_dump (proxy w') = java_dump (proxy w) /\
  capture_stats (proxy w') = capture_stats (proxy w) /\
  num_dropped_connections (proxy w') = num_dropped_connections (proxy w) /\
  ip_to_host (proxy w') = ip_to_host (proxy w) /\
  conn_table (tun w') = conn_table (tun w) /\
  running (glob w') = running (glob w).
Proof.
  unfold reload_dns_server. destruct (negb _); simpl; repeat split; reflexivity.
Qed.

Lemma reload_is_dns_server (w : world) (t : zdtun_5tuple) :
  is_dns_server (proxy (reload_dns_server w)) t = is_dns_server (proxy w) t
  /\ is_internal_dns (proxy (reload_dns_server w)) t = is_internal_dns (proxy w) t.
Proof.
  destruct (reload_dns_server_frame w) as (_ & _ & Hd & H6 & Hk & _).
  unfold is_dns_server, is_internal_dns. rewrite Hd, H6, Hk. split; reflexivity.
Qed.

(** The gate leaves the records, the batches and the host trace alone. *)
Lemma check_dns_req_allowed_frame (w : world) (conn : zdtun_conn) :
  let w' := snd (check_dns_req_allowed w conn) in
  heap w' = heap w /\ host w' = host w /\
  new_conns (proxy w') = new_conns (proxy w) /\
  conns_updates (proxy w') = conns_updates (proxy w) /\
  proxy_incr_id (proxy w') = proxy_incr_id (proxy w) /\
  java_dump (proxy w') = java_dump (proxy w) /\
  capture_stats (proxy w') = capture_stats (proxy w) /\
  num_dropped_connections (proxy w') = num_dropped_connections (proxy w) /\
  ip_to_host (proxy w') = ip_to_host (proxy w) /\
  vpn_dns (proxy w') = vpn_dns (proxy w) /\
  conn_table (tun w') = conn_table (tun w) /\
  running (glob w') = running (glob w).
Proof.
  destruct (reload_dns_server_frame w)
    as (Hh & Ho & Hd & _ & _ & _ & _ & Hn & Hu & Hi & Hj & Hc & Hdr & Hl & Ht & Hr).
  unfold check_dns_req_allowed.
  destruct (negb (is_dns_server _ _)); simpl; [tauto|].
  destruct (if _ : bool then last_pkt _ else None) as [pkt|]; simpl; [|tauto].
  destruct (l7_len pkt >=? sizeof_dns_packet); simpl; [|tauto].
  destruct (negb (_ =? DNS_TYPE_REQUEST)); simpl; tauto.
Qed.

Lemma check_dns_req_allowed_tuple (w : world) (conn : zdtun_conn) :
  conn_tuple (snd (fst (check_dns_req_allowed w conn))) = conn_tuple conn
  /\ user_data (snd (fst (check_dns_req_allowed w conn))) = user_data conn.
Proof.
  unfold check_dns_req_allowed.
  destruct (negb (is_dns_server _ _)); simpl; [tauto|].
  destruct (if _ : bool then last_pkt _ else None) as [pkt|]; simpl; [|tauto].
  destruct (l7_len pkt >=? sizeof_dns_packet); simpl; [|tauto].
  destruct (negb (_ =? DNS_TYPE_REQUEST)); simpl; [tauto|].
  destruct (is_internal_dns _ _); simpl; tauto.
Qed.

(** C1, as the code has it.  For a destination classified as a DNS server
    the gate allows the connection exactly when the packet is UDP to port 53
    with an L7 payload of at least [sizeof(struct dns_packet)] bytes.  The
    test [flags & 0x8000 == 0] does not enter the decision: it only selects
    whether the DNS-request counter is incremented and the connection to the
    tun-side DNS address is marked for DNAT.  When the gate does not allow
    the connection, [handle_new_connection] returns 1 and creates nothing. *)
Theorem dns_gate_decision (w w' : world) (conn conn' : zdtun_conn) (allowed : bool) :
  is_dns_server (proxy w) (conn_tuple conn) = true ->
  check_dns_req_allowed w conn = (allowed, conn', w') ->
  (allowed = true <->
     ipproto (conn_tuple conn) = IPPROTO_UDP
     /\ ntohs (dst_port (conn_tuple conn)) = 53
     /\ exists pkt, last_pkt (proxy w) = Some pkt /\ sizeof_dns_packet <= l7_len pkt)
  /\ (forall pkt, allowed = true -> last_pkt (proxy w) = Some pkt ->
        if Z.land (dns_flags pkt) DNS_FLAGS_MASK =? 0
        then num_dns_requests (proxy w') = num_dns_requests (proxy w) + 1
             /\ dnat conn' = (is_internal_dns (proxy w) (conn_tuple conn) || dnat conn)
        else num_dns_requests (proxy w') = num_dns_requests (proxy w)
             /\ conn' = conn)
  /\ (allowed = false ->
        forall e, exists w2,
          handle_new_connection e w conn = (1, conn, w2)
          /\ heap w2 = heap w
          /\ new_conns (proxy w2) = new_conns (proxy w)
          /\ conns_updates (proxy w2) = conns_updates (proxy w)
          /\ last_conn_blocked (proxy w2) = true).
Proof.
  intros Hdns Hchk.
  assert (Hfr := check_dns_req_allowed_frame w conn).
  destruct (reload_is_dns_server w (conn_tuple conn)) as [Hr1 Hr2].
  destruct (reload_dns_server_frame w) as (_ & _ & _ & _ & _ & Hlp & Hnr & _).
  assert (Hhnc : allowed = false -> forall e, exists w2,
            handle_new_connection e w conn = (1, conn, w2) /\ heap w2 = heap w
            /\ new_conns (proxy w2) = new_conns (proxy w)
            /\ conns_updates (proxy w2) = conns_updates (proxy w)
            /\ last_conn_blocked (proxy w2) = true).
  { intros -> e. unfold handle_new_connection. rewrite Hchk in *. simpl in *.
    assert (conn' = conn) as ->.
    { revert Hchk. unfold check_dns_req_allowed. rewrite Hr1, Hdns. simpl.
      destruct (if _ : bool then last_pkt _ else None) as [pkt|]; [|congruence].
      destruct (l7_len pkt >=? sizeof_dns_packet); [|congruence].
      destruct (negb (_ =? DNS_TYPE_REQUEST)); congruence. }
    eexists. split; [reflexivity|]. simpl. tauto. }
  split; [|split; [|exact Hhnc]].
  - revert Hchk. unfold check_dns_req_allowed. rewrite Hr1, Hdns, Hlp. simpl.
    destruct (Z.eqb_spec (ipproto (conn_tuple conn)) IPPROTO_UDP) as [Hu|Hu]; simpl.
    2:{ intros [= <- _ _]. split; [discriminate|]. intros [? _]. contradiction. }
    destruct (Z.eqb_spec (ntohs (dst_port (conn_tuple conn))) 53) as [Hp|Hp]; simpl.
    2:{ intros [= <- _ _]. split; [discriminate|]. intros (_ & ? & _). contradiction. }
    destruct (last_pkt (proxy w)) as [pkt|].
    2:{ intros [= <- _ _]. split; [discriminate|]. intros (_ & _ & ? & ? & _). discriminate. }
    destruct (Z.geb_spec (l7_len pkt) sizeof_dns_packet) as [Hl|Hl].
    + intros Hres. assert (allowed = true) as ->.
      { destruct (negb (_ =? DNS_TYPE_REQUEST)); congruence. }
      split; [|reflexivity]. intros _. repeat split; auto. exists pkt. split; [reflexivity|lia].
    + intros [= <- _ _]. split; [discriminate|].
      intros (_ & _ & pkt' & [= <-] & ?). lia.
  - intros pkt -> Hpkt. revert Hchk.
    unfold check_dns_req_allowed. rewrite Hr1, Hdns, Hlp, Hpkt. simpl.
    destruct ((ipproto (conn_tuple conn) =? IPPROTO_UDP)
              && (ntohs (dst_port (conn_tuple conn)) =? 53)); [|discriminate].
    destruct (l7_len pkt >=? sizeof_dns_packet); [|discriminate].
    unfold DNS_TYPE_REQUEST.
    destruct (Z.land (dns_flags pkt) DNS_FLAGS_MASK =? 0); simpl.
    + intros [= <- <-]. simpl. rewrite Hnr. split; [reflexivity|].
      replace (is_internal_dns (set_num_dns_requests _ _) _)
        with (is_internal_dns (proxy w) (conn_tuple conn)) by (symmetry; exact Hr2).
      destruct (is_internal_dns (proxy w) (conn_tuple conn)); reflexivity.
    + intros [= <- <-]. split; [exact Hnr | reflexivity].
Qed.

End DnsGate.

(** ** The DNS gate on concrete packets *)

(** C1 as stated fails: a UDP packet to port 53 of the known DNS server
    1.1.1.1 whose flags have the bit 0x8000 set is allowed. *)
Lemma dns_gate_allows_response :
  let w := with_last_pkt dns_response_pkt sample_world in
  let conn := sample_conn (pkt_tuple dns_response_pkt) in
  is_dns_server (ndpi := sample_ndpi) (proxy w) (conn_tuple conn) = true
  /\ Z.land (dns_flags dns_response_pkt) 0x8000 <> 0
  /\ fst (fst (check_dns_req_allowed (ndpi := sample_ndpi) w conn)) = true.
Proof.
  vm_compute. repeat split; discriminate.
Qed.

Lemma dns_gate_decision_witness :
  let w := with_last_pkt dns_query_pkt sample_world in
  let conn := sample_conn (pkt_tuple dns_query_pkt) in
  is_dns_server (ndpi := sample_ndpi) (proxy w) (conn_tuple conn) = true
  /\ fst (fst (check_dns_req_allowed (ndpi := sample_ndpi) w conn)) = true.
Proof.
  intros w conn.
  assert (Hd : is_dns_server (ndpi := sample_ndpi) (proxy w) (conn_tuple conn) = true)
    by (vm_compute; reflexivity).
  split; [exact Hd|].
  destruct (check_dns_req_allowed (ndpi := sample_ndpi) w conn) as [[al c'] w'] eqn:E.
  destruct (dns_gate_decision (ndpi := sample_ndpi) w w' conn c' al Hd E) as [Hiff _].
  simpl. apply Hiff.
  split; [vm_compute; reflexivity|].
  split; [vm_compute; reflexivity|].
  exists dns_query_pkt. split; [reflexivity|].
  apply Z.leb_le. vm_compute. reflexivity.
Defined.

(** ** The DPI driver *)

Section DpiProperties.
Context {ndpi : ndpi_api}.

Lemma same_accounting_refl (d : conn_data) : same_accounting d d.
Proof. unfold same_accounting. tauto. Qed.

Lemma same_accounting_trans (d1 d2 d3 : conn_data) :
  same_accounting d1 d2 -> same_accounting d2 d3 -> same_accounting d1 d3.
Proof.
  unfold same_accounting. intros H1 H2.
  destruct H1 as (?&?&?&?&?&?&?&?&?&?), H2 as (?&?&?&?&?&?&?&?&?&?).
  repeat split; congruence.
Qed.

Lemma conclude_l7proto_spec (data : conn_data) (flow : ndpi_flow_struct) :
  l7proto (conclude_l7proto data flow) = concluded_l7proto (l7proto data) flow
  /\ same_accounting data (conclude_l7proto data flow)
  /\ info (conclude_l7proto data flow) = info data
  /\ url (conclude_l7proto data flow) = url data.
Proof.
  unfold conclude_l7proto, concluded_l7proto, NDPI_PROTOCOL_UNKNOWN, same_accounting.
  destruct (app_protocol (l7proto data) =? 0); simpl;
    destruct (master_protocol _ =? 0); simpl; tauto.
Qed.

Lemma extract_dns_frame (e : env_t) (data : conn_data) (flow : ndpi_flow_struct)
    (lru : ip_lru) :
  same_accounting data (fst (extract_dns e data flow lru))
  /\ l7proto (fst (extract_dns e data flow lru)) = l7proto data.
Proof.
  unfold extract_dns, same_accounting.
  repeat match goal with
         | |- context [if ?b then _ else _] => destruct b; simpl
         | |- context [match ?x with Some _ => _ | None => _ end] => destruct x; simpl
         end; tauto.
Qed.

Lemma extract_metadata_frame (e : env_t) (data : conn_data) (flow : ndpi_flow_struct)
    (lru : ip_lru) :
  same_accounting data (fst (extract_metadata e data flow lru))
  /\ l7proto (fst (extract_metadata e data flow lru)) = l7proto data.
Proof.
  unfold extract_metadata.
  destruct (_ =? NDPI_PROTOCOL_DNS); [apply extract_dns_frame|].
  unfold same_accounting.
  repeat match goal with
         | |- context [if ?b then _ else _] => destruct b; simpl
         | |- context [match ?x with Some _ => _ | None => _ end] => destruct x; simpl
         end; tauto.
Qed.

(** The protocol pair after [end_ndpi_detection]. *)
Lemma end_ndpi_detection_l7proto (e : env_t) (data : conn_data) (lru : ip_lru)
    (flow : ndpi_flow_struct) :
  ndpi_flow data = Some flow ->
  l7proto (fst (end_ndpi_detection e data lru)) = concluded_l7proto (l7proto data) flow.
Proof.
  intros Hflow. unfold end_ndpi_detection. rewrite Hflow.
  destruct (conclude_l7proto_spec data flow) as (Hc & _).
  destruct (extract_metadata_frame e (conclude_l7proto data flow) flow lru) as (_ & Hx).
  destruct (extract_metadata _ _ _ _) as [d l]. simpl in *. congruence.
Qed.

(** [end_ndpi_detection] always leaves the record without DPI handles and
    touches neither the counters nor the notification flag. *)
Lemma end_ndpi_detection_frame (e : env_t) (data : conn_data) (lru : ip_lru) :
  same_accounting data (fst (end_ndpi_detection e data lru))
  /\ ndpi_flow (fst (end_ndpi_detection e data lru)) = None.
Proof.
  unfold end_ndpi_detection.
  destruct (ndpi_flow data) as [flow|] eqn:Hflow.
  2:{ split; [apply same_accounting_refl | exact Hflow]. }
  destruct (conclude_l7proto_spec data flow) as (_ & Hc & _).
  destruct (extract_metadata_frame e (conclude_l7proto data flow) flow lru) as (Hx & _).
  destruct (extract_metadata _ _ _ _) as [d l]. simpl in *.
  split; [|reflexivity].
  eapply same_accounting_trans; [exact Hc|].
  eapply same_accounting_trans; [exact Hx|].
  unfold same_accounting; simpl; tauto.
Qed.

Lemma process_ndpi_packet_frame (e : env_t) (data : conn_data) (lru : ip_lru)
    (packet : list Z) (len : Z) (from_tun : bool) :
  same_accounting data (fst (process_ndpi_packet e data lru packet len from_tun)).
Proof.
  unfold process_ndpi_packet.
  destruct (ndpi_flow data) as [flow|]; [|apply same_accounting_refl].
  destruct (ndpi_detection_process_packet _ _ _ _ _) as [flow' proto].
  destruct (_ || _).
  - eapply same_accounting_trans; [|apply end_ndpi_detection_frame].
    unfold same_accounting; simpl; tauto.
  - unfold same_accounting; simpl; tauto.
Qed.

End DpiProperties.

Section DpiClaims.
Context {ndpi : ndpi_api}.

#[local] Arguments strndup : simpl never.
#[local] Arguments string_take : simpl never.

(** C5, as the code has it.  When DPI concludes with master protocol DNS,
    a non-empty [host_server_name] is stored as the connection's [info]
    whether or not it contains a dot.  The pair (response address, name)
    is added to the host LRU exactly when the name is non-empty, its copy
    contains a dot, and the answer is of type A with a non-zero address or
    of type AAAA with a global-unicast address; otherwise the LRU is left
    as it was. *)
Theorem dns_detection_result (e : env_t) (data data' : conn_data) (lru lru' : ip_lru)
    (flow : ndpi_flow_struct) :
  ndpi_flow data = Some flow ->
  master_protocol (concluded_l7proto (l7proto data) flow) = NDPI_PROTOCOL_DNS ->
  end_ndpi_detection e data lru = (data', lru') ->
  info data' = (if nonempty (host_server_name flow)
                then strndup (strndup_info_ok e) (host_server_name flow) 256
                else info data)
  /\ lru' = match strndup (strndup_info_ok e) (host_server_name flow) 256 with
            | Some name =>
                if nonempty (host_server_name flow) && strchr name "."
                   && (rsp_is_A flow || rsp_is_AAAA_global_unicast flow)
                then ip_lru_add lru
                       (if rsp_is_A flow then ip4 (dns_rsp_addr flow) else dns_rsp_addr flow)
                       name
                else lru
            | None => lru
            end
  /\ (lru' <> lru ->
        strchr (host_server_name flow) "." = true
        /\ (rsp_is_A flow = true \/ rsp_is_AAAA_global_unicast flow = true)).
Proof.
  intros Hflow Hdns Hend.
  unfold end_ndpi_detection in Hend. rewrite Hflow in Hend.
  destruct (conclude_l7proto_spec data flow) as (Hc & _ & Hci & _).
  unfold extract_metadata in Hend. rewrite Hc, Hdns in Hend.
  change (NDPI_PROTOCOL_DNS =? NDPI_PROTOCOL_DNS) with true in Hend.
  cbv iota in Hend. unfold extract_dns in Hend.
  unfold rsp_is_A, rsp_is_AAAA_global_unicast.
  destruct (nonempty (host_server_name flow)); simpl in Hend |- *.
  2:{ injection Hend as <- <-. simpl. rewrite Hci.
      split; [reflexivity|]. split; [|congruence].
      destruct (strndup _ _ _); reflexivity. }
  destruct (strndup (strndup_info_ok e) (host_server_name flow) 256) as [name|] eqn:Hdup.
  2:{ injection Hend as <- <-. simpl. split; [reflexivity|].
      split; [reflexivity|congruence]. }
  assert (Hdot : strchr name "." = true -> strchr (host_server_name flow) "." = true).
  { unfold strndup in Hdup. destruct (strndup_info_ok e); [|discriminate].
    injection Hdup as <-. apply strchr_take_le. }
  destruct (strchr name ".").
  2:{ injection Hend as <- <-. simpl.
      split; [reflexivity|]. split; [reflexivity|congruence]. }
  destruct ((dns_rsp_type flow =? 1) && negb (ip4 (dns_rsp_addr flow) =? 0)); simpl in Hend |- *.
  { injection Hend as <- <-. simpl. repeat split; auto. }
  destruct ((dns_rsp_type flow =? 28) && _); simpl in Hend |- *.
  { injection Hend as <- <-. simpl. repeat split; auto. }
  injection Hend as <- <-. simpl.
  split; [reflexivity|]. split; [reflexivity|congruence].
Qed.

Lemma process_ndpi_packet_unfold (e : env_t) (d : conn_data) (lru : ip_lru)
    (packet : list Z) (len : Z) (from_tun : bool) (f : ndpi_flow_struct) :
  ndpi_flow d = Some f ->
  process_ndpi_packet e d lru packet len from_tun =
  let r := ndpi_detection_process_packet f packet len (last_seen d) from_tun in
  let d1 := set_ndpi_flow (Some (fst r)) (set_l7proto (snd r) d) in
  if (sent_pkts d + rcvd_pkts d >=? MAX_DPI_PACKETS)
     || (negb (app_protocol (snd r) =? NDPI_PROTOCOL_UNKNOWN)
         && negb (ndpi_extra_dissection_possible (fst r)))
  then end_ndpi_detection e d1 lru else (d1, lru).
Proof.
  intros Hf. unfold process_ndpi_packet. rewrite Hf.
  destruct (ndpi_detection_process_packet _ _ _ _ _) as [f' p']. reflexivity.
Qed.

(** What [end_ndpi_detection] leaves of the DPI state of a record with a
    live flow. *)
Lemma end_ndpi_detection_live (e : env_t) (data : conn_data) (lru : ip_lru)
    (flow : ndpi_flow_struct) :
  ndpi_flow data = Some flow ->
  let d := fst (end_ndpi_detection e data lru) in
  ndpi_flow d = None /\ src_id d = false /\ dst_id d = false
  /\ l7proto d = concluded_l7proto (l7proto data) flow.
Proof.
  intros Hflow d. subst d.
  rewrite (end_ndpi_detection_l7proto e data lru flow Hflow).
  unfold end_ndpi_detection. rewrite Hflow.
  destruct (extract_metadata _ _ _ _) as [d l]. simpl. auto.
Qed.


End DpiClaims.

(** ** What each entry point leaves unchanged *)

Section Frames.
Context {ndpi : ndpi_api}.

Lemma javaPcapDump_frame (e : env_t) (w : world) :
  let w' := javaPcapDump e w in
  glob w' = glob w /\ heap w' = heap w /\ tun w' = tun w
  /\ proxy_incr_id (proxy w') = proxy_incr_id (proxy w)
  /\ vpn_dns (proxy w') = vpn_dns (proxy w)
  /\ new_conns (proxy w') = new_conns (proxy w)
  /\ conns_updates (proxy w') = conns_updates (proxy w)
  /\ capture_stats (proxy w') = capture_stats (proxy w)
  /\ num_dropped_connections (proxy w') = num_dropped_connections (proxy w)
  /\ (buffer_idx (java_dump (proxy w')) = 0
      \/ java_dump (proxy w') = java_dump (proxy w) /\ host w' = host w).
Proof.
  unfold javaPcapDump. destruct (new_byte_array_ok e); simpl; tauto.
Qed.

Lemma sendVPNStats_frame (ok : bool) (stats : zdtun_statistics_t) (w : world) :
  let w' := sendVPNStats ok stats w in
  glob w' = glob w /\ heap w' = heap w /\ tun w' = tun w /\ proxy w' = proxy w.
Proof.
  unfold sendVPNStats. destruct ok; simpl; tauto.
Qed.

Lemma sendConnectionsDump_frame (j : jni_dump_env) (w : world) :
  let w' := sendConnectionsDump j w in
  glob w' = glob w /\ tun w' = tun w
  /\ proxy_incr_id (proxy w') = proxy_incr_id (proxy w)
  /\ vpn_dns (proxy w') = vpn_dns (proxy w)
  /\ java_dump (proxy w') = java_dump (proxy w)
  /\ capture_stats (proxy w') = capture_stats (proxy w)
  /\ num_dropped_connections (proxy w') = num_dropped_connections (proxy w).
Proof.
  unfold sendConnectionsDump, conns_clear.
  destruct (_ && _); [tauto|].
  destruct (new_object_array_ok j); simpl.
  - destruct (dump_batch (dump_new_ok j) _ _ _ _) as [[ok1 h1] nd].
    destruct ok1; simpl.
    + destruct (dump_batch (dump_upd_ok j) _ _ _ _) as [[ok2 h2] ud].
      destruct ok2; simpl; tauto.
    + tauto.
  - tauto.
Qed.

Lemma account_java_dump_frame (e : env_t) (w : world) (packet : list Z) (len : Z) :
  let w' := account_java_dump e w packet len in
  glob w' = glob w /\ heap w' = heap w /\ tun w' = tun w
  /\ proxy_incr_id (proxy w') = proxy_incr_id (proxy w)
  /\ vpn_dns (proxy w') = vpn_dns (proxy w)
  /\ new_conns (proxy w') = new_conns (proxy w)
  /\ conns_updates (proxy w') = conns_updates (proxy w)
  /\ capture_stats (proxy w') = capture_stats (proxy w)
  /\ num_dropped_connections (proxy w') = num_dropped_connections (proxy w).
Proof.
  unfold account_java_dump.
  destruct (buffer _); [|simpl; tauto].
  destruct (javaPcapDump_frame e w) as (Hg & Hh & Ht & Hi & Hv & Hn & Hu & Hc & Hd & _).
  destruct (_ <=? _); simpl.
  - destruct (_ <=? _); simpl; tauto.
  - destruct (_ <=? _); simpl; tauto.
Qed.

Lemma account_dumper_socket_frame (w : world) (packet : list Z) (len : Z) :
  let w' := account_dumper_socket w packet len in
  running (glob w') = running (glob w) /\ heap w' = heap w /\ tun w' = tun w
  /\ proxy w' = proxy w
  /\ dump_capture_stats_now (glob w') = dump_capture_stats_now (glob w)
  /\ dump_vpn_stats_now (glob w') = dump_vpn_stats_now (glob w).
Proof.
  unfold account_dumper_socket.
  destruct (_ >? 0); [|tauto]. destruct (send_header _); simpl; tauto.
Qed.

Lemma account_packet_frame (e : env_t) (w : world) (packet : list Z) (len : Z)
    (from_tun : bool) (conn : zdtun_conn) :
  let w' := account_packet e w packet len from_tun conn in
  running (glob w') = running (glob w) /\ tun w' = tun w
  /\ proxy_incr_id (proxy w') = proxy_incr_id (proxy w)
  /\ vpn_dns (proxy w') = vpn_dns (proxy w)
  /\ new_conns (proxy w') = new_conns (proxy w)
  /\ num_dropped_connections (proxy w') = num_dropped_connections (proxy w).
Proof.
  unfold account_packet.
  destruct (user_data conn) as [a|]; [|tauto].
  destruct (heap w !! a) as [data|]; [|tauto].
  destruct (account_conn _ _ _ _ _ _ _) as [d l].
  destruct (shouldIgnoreConn _ _); [simpl; tauto|].
  match goal with |- context [account_dumper_socket ?x _ _] =>
    destruct (account_dumper_socket_frame x packet len) as (Hr & _ & Ht & Hp & _) end.
  match goal with |- context [account_java_dump _ ?x _ _] =>
    destruct (account_java_dump_frame e x packet len)
      as (Hg & _ & Ht' & Hi & Hv & Hn & _ & _ & Hd) end.
  cbv zeta. rewrite Hr, Ht, Hp, Hg, Ht', Hi, Hv, Hn, Hd.
  destruct (pending_notification d); simpl; tauto.
Qed.

Lemma destroy_connection_frame (e : env_t) (w : world) (conn : zdtun_conn) :
  let w' := destroy_connection e w conn in
  glob w' = glob w /\ tun w' = tun w /\ host w' = host w
  /\ proxy_incr_id (proxy w') = proxy_incr_id (proxy w)
  /\ vpn_dns (proxy w') = vpn_dns (proxy w)
  /\ new_conns (proxy w') = new_conns (proxy w)
  /\ java_dump (proxy w') = java_dump (proxy w)
  /\ capture_stats (proxy w') = capture_stats (proxy w)
  /\ num_dropped_connections (proxy w') = num_dropped_connections (proxy w).
Proof.
  unfold destroy_connection.
  destruct (user_data conn) as [a|]; [|tauto].
  destruct (heap w !! a) as [data|]; [|tauto].
  destruct (end_ndpi_detection _ _ _) as [d l].
  destruct (_ && _); simpl; tauto.
Qed.

Lemma handle_new_connection_frame (e : new_conn_env) (w : world) (conn : zdtun_conn) :
  let w' := snd (handle_new_connection e w conn) in
  running (glob w') = running (glob w) /\ host w' = host w
  /\ conn_table (tun w') = conn_table (tun w)
  /\ vpn_dns (proxy w') = vpn_dns (proxy w)
  /\ conns_updates (proxy w') = conns_updates (proxy w)
  /\ java_dump (proxy w') = java_dump (proxy w)
  /\ capture_stats (proxy w') = capture_stats (proxy w)
  /\ num_dropped_connections (proxy w') = num_dropped_connections (proxy w).
Proof.
  unfold handle_new_connection.
  destruct (check_dns_req_allowed_frame w conn)
    as (_ & Ho & _ & Hu & _ & Hj & Hc & Hd & _ & Hv & Ht & Hr).
  destruct (check_dns_req_allowed w conn) as [[allowed c] w1]. simpl in *.
  destruct allowed; simpl; [|tauto].
  destruct (calloc_conn_data e) as [a|]; simpl; [|tauto].
  destruct (ip_lru_find _ _) as [name l].
  destruct (negb (shouldIgnoreConn _ _)); simpl; tauto.
Qed.

Lemma net2tun_running_off (g : globals) (wr : write_result) (pkt_size : Z) :
  running g = false -> net2tun g wr pkt_size = (0, g).
Proof.
  intros Hr. unfold net2tun. rewrite Hr. reflexivity.
Qed.

(** No callback switches [running] back on. *)
Lemma run_callback_running_off (cb : nat_callback) (w : world) :
  running (glob w) = false -> running (glob (run_callback cb w)) = false.
Proof.
  intros Hr. destruct cb as [wr sz | e packet len from_tun conn | e conn]; simpl.
  - rewrite (net2tun_running_off _ wr sz Hr). exact Hr.
  - destruct (account_packet_frame e w packet len from_tun conn) as (H & _). congruence.
  - destruct (destroy_connection_frame e w conn) as (H & _). rewrite H. exact Hr.
Qed.

Lemma run_callbacks_running_off (cbs : list nat_callback) (w : world) :
  running (glob w) = false -> running (glob (run_callbacks cbs w)) = false.
Proof.
  revert w. induction cbs as [|cb cbs IH]; intros w Hr; simpl; [exact Hr|].
  apply IH. apply run_callback_running_off. exact Hr.
Qed.

End Frames.

(** ** Writes to the tun device and the end of the loop *)

Section TunWrite.
Context {ndpi : ndpi_api}.

Lemma housekeeping_running_off (i : iter_input) (w : world) (loc : loop_locals) :
  running (glob w) = false ->
  running (glob (fst (fst (housekeeping i w loc)))) = false.
Proof.
  intros Hr. unfold housekeeping.
  destruct (vpn_stats_due w (in_now_ms i)); simpl.
  { destruct (sendVPNStats_frame (in_stats_jni_ok i) (in_stats i)
                (set_glob (set_dump_capture_stats_now false (glob w)) w)) as (Hg & _).
    rewrite Hg. exact Hr. }
  destruct (connections_dump_due _ _); simpl.
  { destruct (sendConnectionsDump_frame (in_dump_jni i) w) as (Hg & _).
    rewrite Hg. exact Hr. }
  destruct (pcap_dump_due _ _); simpl.
  { destruct (javaPcapDump_frame (in_env i) w) as (Hg & _). rewrite Hg. exact Hr. }
  destruct (purge_due _ _ _); simpl; [|exact Hr].
  apply run_callbacks_running_off. exact Hr.
Qed.

(** A failed write with an errno other than ENOBUFS among the callbacks
    leaves [running] off. *)
Lemma run_callbacks_write_error (cbs : list nat_callback) (w : world)
    (wr : write_result) (pkt_size : Z) :
  In (CbSendClient wr pkt_size) cbs ->
  write_rv wr < 0 -> write_errno wr <> ENOBUFS ->
  running (glob (run_callbacks cbs w)) = false.
Proof.
  revert w. induction cbs as [|cb cbs IH]; intros w Hin Hrv Herr; [destruct Hin|].
  destruct Hin as [->|Hin]; [|apply IH; assumption].
  unfold run_callbacks. simpl. apply run_callbacks_running_off. simpl.
  unfold net2tun. destruct (running (glob w)) eqn:Hr; simpl; [|exact Hr].
  destruct (Z.ltb_spec (write_rv wr) 0) as [_|?]; [|lia].
  destruct (Z.eqb_spec (write_errno wr) ENOBUFS) as [?|_]; [contradiction|].
  destruct (write_errno wr =? EIO); reflexivity.
Qed.

Lemma packet_loop_stopped (ins : list iter_input) (w : world) (loc : loop_locals) :
  running (glob w) = false -> packet_loop ins w loc = (w, loc, O).
Proof.
  intros Hr. destruct ins as [|i rest]; simpl; [reflexivity|]. rewrite Hr. reflexivity.
Qed.

(** An iteration at whose housekeeping [running] is off is the last one. *)
Lemma loop_stops_after (i : iter_input) (rest : list iter_input) (w : world)
    (loc : loop_locals) :
  running (glob (if in_tun_ready i then packet_from_vpn i (iteration_start i w)
                 else run_callbacks (in_handle_fd_cbs i) (iteration_start i w))) = false ->
  running (glob (fst (fst (packet_loop (i :: rest) w loc)))) = false
  /\ (snd (packet_loop (i :: rest) w loc) <= 1)%nat.
Proof.
  intros Hoff. simpl.
  destruct (running (glob w)) eqn:Hr; [|simpl; split; [exact Hr|lia]].
  unfold loop_body.
  destruct (negb (running (glob (set_glob (host_requests i (glob w)) w)))) eqn:Hr2.
  { simpl. split; [|lia]. simpl in Hr2. destruct (running (host_requests i (glob w)));
      [discriminate|reflexivity]. }
  fold (iteration_start i w).
  set (w1 := if in_tun_ready i then _ else _) in *.
  pose proof (housekeeping_running_off i w1 loc Hoff) as Hk.
  destruct (housekeeping i w1 loc) as [[w2 loc2] tasks]. simpl in Hk.
  rewrite (packet_loop_stopped rest w2 loc2 Hk). simpl. split; [exact Hk|lia].
Qed.

(** C4, as the code has it.  While the run is on, [net2tun] returns 0 for a
    complete write; a write that fails with an errno other than ENOBUFS,
    EIO among them, clears [running]; a write that fails with ENOBUFS and a
    partial write leave every flag as it was and only return a negative
    value to the NAT library.  When a write that fails with an errno other
    than ENOBUFS is among the callbacks the NAT library makes in an
    iteration, while it serves its sockets, while it forwards the packet
    read from the tun device, or while it purges idle connections,
    [running] is off when the iteration ends and the loop runs no further
    iteration. *)
Theorem tun_write_failures (g : globals) (wr : write_result) (pkt_size : Z) :
  running g = true ->
  (0 <= pkt_size -> write_rv wr = pkt_size -> net2tun g wr pkt_size = (0, g))
  /\ (write_rv wr < 0 -> write_errno wr <> ENOBUFS ->
        net2tun g wr pkt_size = (write_rv wr, set_running false g))
  /\ (write_rv wr < 0 -> write_errno wr = ENOBUFS ->
        net2tun g wr pkt_size = (write_rv wr, g))
  /\ (0 <= write_rv wr -> write_rv wr <> pkt_size ->
        net2tun g wr pkt_size = (-1, g))
  /\ (write_rv wr < 0 -> write_errno wr <> ENOBUFS ->
      forall (i : iter_input) (rest : list iter_input) (w : world) (loc : loop_locals),
        let stops :=
          running (glob (fst (fst (packet_loop (i :: rest) w loc)))) = false
          /\ (snd (packet_loop (i :: rest) w loc) <= 1)%nat in
        (in_tun_ready i = false ->
         In (CbSendClient wr pkt_size) (in_handle_fd_cbs i) -> stops)
        /\ (forall (pkt : zdtun_pkt) (conn : zdtun_conn),
              in_tun_ready i = true -> in_read i = ReadPkt pkt ->
              (ipver (pkt_tuple pkt) =? 6) && negb (ipv6_enabled (ipv6 (proxy w))) = false ->
              fst (zdtun_lookup (in_lookup_fails i) (in_new_conn i)
                     (with_last_pkt pkt (iteration_start i w)) (pkt_tuple pkt)
                     (negb (is_tcp_established pkt))) = Some conn ->
              In (CbSendClient wr pkt_size) (in_forward_cbs i) -> stops)
        /\ (let w1 := if in_tun_ready i then packet_from_vpn i (iteration_start i w)
                      else run_callbacks (in_handle_fd_cbs i) (iteration_start i w) in
            vpn_stats_due w1 (in_now_ms i) = false ->
            connections_dump_due loc (in_now_ms i) = false ->
            pcap_dump_due w1 (in_now_ms i) = false ->
            purge_due w1 loc (in_now_ms i) = true ->
            running (glob w) = true -> in_stop i = false ->
            In (CbSendClient wr pkt_size) (in_purge_cbs i) -> stops)).
Proof.
  intros Hrun.
  split; [|split; [|split; [|split; [|]]]]; try (unfold net2tun; rewrite Hrun; simpl).
  - intros Hsz Hrv. destruct (Z.ltb_spec (write_rv wr) 0); [lia|].
    destruct (Z.eqb_spec (write_rv wr) pkt_size); [reflexivity|contradiction].
  - intros Hrv Herr. destruct (Z.ltb_spec (write_rv wr) 0); [|lia].
    destruct (Z.eqb_spec (write_errno wr) ENOBUFS); [contradiction|].
    destruct (write_errno wr =? EIO); reflexivity.
  - intros Hrv Herr. destruct (Z.ltb_spec (write_rv wr) 0); [|lia].
    rewrite Herr. reflexivity.
  - intros Hrv Hne. destruct (Z.ltb_spec (write_rv wr) 0); [lia|].
    destruct (Z.eqb_spec (write_rv wr) pkt_size); [contradiction|reflexivity].
  - intros Hrv Herr i rest w loc. cbv zeta.
    split; [|split].
    + intros Hready Hin. apply loop_stops_after. rewrite Hready.
      eapply run_callbacks_write_error; eauto.
    + intros pkt conn Hready Hread Hv6 Hlook Hin. apply loop_stops_after.
      rewrite Hready. unfold packet_from_vpn. rewrite Hread. cbv zeta.
      change (ipv6 (proxy (with_last_pkt pkt (iteration_start i w)))) with (ipv6 (proxy w)).
      rewrite Hv6.
      destruct (zdtun_lookup _ _ _ _ _) as [c w2]. simpl in Hlook. subst c.
      set (w3 := run_callbacks (in_forward_cbs i) _).
      assert (Hoff : running (glob w3) = false)
        by (subst w3; eapply run_callbacks_write_error; eauto).
      destruct (negb (in_forward_rc i =? 0)); [|exact Hoff].
      unfold zdtun_destroy_conn. simpl.
      match goal with |- context [destroy_connection ?e ?x ?c0] =>
        destruct (destroy_connection_frame e x c0) as (Hg & _) end.
      rewrite Hg. exact Hoff.
    + set (w1 := if in_tun_ready i then _ else _).
      intros Hs Hd Hp Hpu Hr Hstop Hin. simpl.
      rewrite Hr. unfold loop_body.
      assert (Hr2 : running (glob (set_glob (host_requests i (glob w)) w)) = true).
      { simpl. unfold host_requests. rewrite Hstop.
        destruct (in_ask_stats i && running (glob w)), (in_set_dns i); simpl; exact Hr. }
      rewrite Hr2. simpl negb. cbv iota zeta.
      fold (iteration_start i w). fold w1.
      unfold housekeeping. rewrite Hs, Hd, Hp, Hpu.
      set (w2 := run_callbacks (in_purge_cbs i) _).
      assert (Hoff : running (glob w2) = false)
        by (subst w2; eapply run_callbacks_write_error; eauto).
      rewrite (packet_loop_stopped rest w2 _ Hoff). simpl. split; [exact Hoff|lia].
Qed.

End TunWrite.

(** ** What reaches the host *)

Section HostEvents.
Context {ndpi : ndpi_api}.

Lemma stats_events_app (l1 l2 : list host_event) :
  stats_events (l1 ++ l2) = stats_events l1 ++ stats_events l2.
Proof. apply List.filter_app. Qed.

Lemma dump_events_app (l1 l2 : list host_event) :
  dump_events (l1 ++ l2) = dump_events l1 ++ dump_events l2.
Proof. apply List.filter_app. Qed.

Lemma pcap_events_silent (evs : list host_event) :
  forallb is_pcap_event evs = true -> stats_events evs = [] /\ dump_events evs = [].
Proof.
  induction evs as [|ev evs IH]; simpl; [auto|].
  intros H. apply andb_true_iff in H as [Hev H]. destruct (IH H) as (IH1 & IH2).
  destruct ev; simpl in *; try discriminate; auto.
Qed.

Lemma pcap_extends_refl (w : world) : pcap_extends w w.
Proof. exists []. rewrite app_nil_r. auto. Qed.

Lemma pcap_extends_trans (w1 w2 w3 : world) :
  pcap_extends w1 w2 -> pcap_extends w2 w3 -> pcap_extends w1 w3.
Proof.
  intros (e1 & H1 & F1) (e2 & H2 & F2). exists (e1 ++ e2).
  rewrite H2, H1, <- app_assoc, forallb_app, F1, F2. auto.
Qed.

Lemma pcap_extends_host (w1 w1' w2 w2' : world) :
  host w1' = host w1 -> host w2' = host w2 -> pcap_extends w1 w2 -> pcap_extends w1' w2'.
Proof. intros H1 H2 (evs & H & F). exists evs. rewrite H1, H2. auto. Qed.

(** Events of the pcap export are neither reports of the statistics nor
    connections dumps. *)
Lemma pcap_extends_reports (w w' : world) :
  pcap_extends w w' ->
  stats_events (host w') = stats_events (host w)
  /\ dump_events (host w') = dump_events (host w).
Proof.
  intros (evs & H & F). destruct (pcap_events_silent evs F) as (Hs & Hd).
  rewrite H, stats_events_app, dump_events_app, Hs, Hd, !app_nil_r. auto.
Qed.

Lemma javaPcapDump_pcap (e : env_t) (w : world) : pcap_extends w (javaPcapDump e w).
Proof.
  unfold javaPcapDump. destruct (new_byte_array_ok e); [|apply pcap_extends_refl].
  eexists [_]. simpl. split; reflexivity.
Qed.

Lemma account_java_dump_pcap (e : env_t) (w : world) (packet : list Z) (len : Z) :
  pcap_extends w (account_java_dump e w packet len).
Proof.
  unfold account_java_dump.
  destruct (buffer _); [|apply pcap_extends_refl].
  pose proof (javaPcapDump_pcap e w) as Hj.
  destruct (_ <=? _); simpl; destruct (_ <=? _); simpl;
    first [exact Hj | apply pcap_extends_refl
          | eapply pcap_extends_host; [reflexivity | | exact Hj]; reflexivity
          | eapply pcap_extends_host; [reflexivity | | apply pcap_extends_refl]; reflexivity].
Qed.

Lemma account_dumper_socket_pcap (w : world) (packet : list Z) (len : Z) :
  pcap_extends w (account_dumper_socket w packet len).
Proof.
  unfold account_dumper_socket.
  destruct (_ >? 0); [|apply pcap_extends_refl].
  destruct (send_header _); simpl.
  - eexists [_; _]. simpl. rewrite <- app_assoc. split; reflexivity.
  - eexists [_]. simpl. split; reflexivity.
Qed.

Lemma account_packet_pcap (e : env_t) (w : world) (packet : list Z) (len : Z)
    (from_tun : bool) (conn : zdtun_conn) :
  pcap_extends w (account_packet e w packet len from_tun conn).
Proof.
  unfold account_packet.
  destruct (user_data conn) as [a|]; [|apply pcap_extends_refl].
  destruct (heap w !! a) as [data|]; [|apply pcap_extends_refl].
  destruct (account_conn _ _ _ _ _ _ _) as [d l].
  destruct (shouldIgnoreConn _ _);
    [eapply pcap_extends_host; [reflexivity | | apply pcap_extends_refl]; reflexivity|].
  cbv zeta.
  eapply pcap_extends_trans; [|apply account_dumper_socket_pcap].
  eapply pcap_extends_trans; [|apply account_java_dump_pcap].
  eapply pcap_extends_host; [reflexivity | | apply pcap_extends_refl].
  destruct (pending_notification d); reflexivity.
Qed.

Lemma run_callbacks_pcap (cbs : list nat_callback) (w : world) :
  pcap_extends w (run_callbacks cbs w).
Proof.
  revert w. induction cbs as [|cb cbs IH]; intros w; [apply pcap_extends_refl|].
  change (run_callbacks (cb :: cbs) w) with (run_callbacks cbs (run_callback cb w)).
  eapply pcap_extends_trans; [|apply IH].
  destruct cb as [wr sz | e packet len from_tun conn | e conn]; simpl.
  - eapply pcap_extends_host; [reflexivity | | apply pcap_extends_refl]. reflexivity.
  - apply account_packet_pcap.
  - eapply pcap_extends_host; [reflexivity | | apply pcap_extends_refl].
    simpl. apply destroy_connection_frame.
Qed.

Lemma packet_from_vpn_pcap (i : iter_input) (w : world) :
  pcap_extends w (packet_from_vpn i w).
Proof.
  unfold packet_from_vpn.
  destruct (in_read i) as [| | |pkt]; try apply pcap_extends_refl.
  destruct (_ && _);
    [eapply pcap_extends_host; [reflexivity | | apply pcap_extends_refl]; reflexivity|].
  assert (Hlook : host (snd (zdtun_lookup (in_lookup_fails i) (in_new_conn i)
                               (with_last_pkt pkt w) (pkt_tuple pkt)
                               (negb (is_tcp_established pkt)))) = host w).
  { unfold zdtun_lookup. destruct (table_find _ _); [reflexivity|].
    destruct (_ && _); [|reflexivity].
    pose proof (handle_new_connection_frame (in_new_conn i) (with_last_pkt pkt w)
                  (mk_conn (pkt_tuple pkt) CONN_STATUS_NEW None false false)) as (_ & Ho & _).
    destruct (handle_new_connection _ _ _) as [[rv c] w1]. simpl in Ho.
    destruct (rv =? 0); exact Ho. }
  destruct (zdtun_lookup _ _ _ _ _) as [[c|] w1]; simpl in Hlook.
  - cbv zeta.
    match goal with |- context [run_callbacks ?cbs ?x] =>
      pose proof (run_callbacks_pcap cbs x) as Hcb; set (w2 := run_callbacks cbs x) in *
    end.
    assert (H2 : pcap_extends w w2)
      by (eapply pcap_extends_host; [symmetry; exact Hlook | reflexivity | exact Hcb]).
    destruct (negb (in_forward_rc i =? 0)); [|exact H2].
    eapply pcap_extends_host; [reflexivity | | exact H2].
    unfold zdtun_destroy_conn. simpl.
    match goal with |- context [destroy_connection ?e ?x ?c0] =>
      destruct (destroy_connection_frame e x c0) as (_ & _ & Ho & _) end.
    rewrite Ho. reflexivity.
  - eapply pcap_extends_host; [reflexivity | | apply pcap_extends_refl].
    destruct (last_conn_blocked (proxy w1)); [exact Hlook|].
    destruct (negb (is_tcp_established pkt)); exact Hlook.
Qed.

(** [sendConnectionsDump] hands the host one dump or nothing. *)
Lemma sendConnectionsDump_events (j : jni_dump_env) (w : world) :
  host (sendConnectionsDump j w) = host w
  \/ exists n u, host (sendConnectionsDump j w) = host w ++ [SendConnectionsDump n u].
Proof.
  unfold sendConnectionsDump, conns_clear.
  destruct (_ && _); [left; reflexivity|].
  destruct (new_object_array_ok j); simpl; [|left; reflexivity].
  destruct (dump_batch (dump_new_ok j) _ _ _ _) as [[ok1 h1] nd].
  destruct ok1; simpl; [|left; reflexivity].
  destruct (dump_batch (dump_upd_ok j) _ _ _ _) as [[ok2 h2] ud].
  destruct ok2; simpl; [right; eauto | left; reflexivity].
Qed.

End HostEvents.

(** ** Housekeeping *)

Section Housekeeping.
Context {ndpi : ndpi_api}.


End Housekeeping.

(** ** Ignored connections *)

Section Ignored.
Context {ndpi : ndpi_api}.

(** C10.  A packet accounted to an ignored connection (IPv4, destination
    the tun-side DNS address, destination port other than 53) updates the
    record of the connection: its packet and byte counters for the
    direction, [last_seen] and [status], and its DPI state.  While the flow
    is live the packet is given to the DPI library, whose flow and protocol
    pair are stored; when the count has reached [MAX_DPI_PACKETS] with this
    packet, or the library knows the application protocol and can dissect
    no further, the detection is ended: the protocol pair is concluded, the
    metadata are extracted into [info], [url] and the host LRU, and the
    flow and the endpoint handles are freed.  The packet changes neither
    the aggregate capture statistics nor the pcap host buffer, sends
    nothing to the host or to the collector socket, and leaves both
    batches and the notification flag as they were. *)
Theorem ignored_connection_accounting (e : env_t) (w : world) (packet : list Z) (len : Z)
    (from_tun : bool) (conn : zdtun_conn) (a : addr) (data : conn_data) :
  user_data conn = Some a ->
  heap w !! a = Some data ->
  ipver (conn_tuple conn) = 4 ->
  ip4 (dst_ip (conn_tuple conn)) = vpn_dns (proxy w) ->
  ntohs (dst_port (conn_tuple conn)) <> 53 ->
  let w' := account_packet e w packet len from_tun conn in
  let counted :=
    if from_tun
    then set_sent_bytes (sent_bytes data + len) (set_sent_pkts (sent_pkts data + 1) data)
    else set_rcvd_bytes (rcvd_bytes data + len) (set_rcvd_pkts (rcvd_pkts data + 1) data) in
  let stamped := set_status (conn_status conn) (set_last_seen (time_now e) counted) in
  exists data' : conn_data,
    heap w' = <[a := data']> (heap w)
    /\ same_accounting stamped data'
    /\ match ndpi_flow data with
       | None => data' = stamped /\ ip_to_host (proxy w') = ip_to_host (proxy w)
       | Some flow =>
           let r := ndpi_detection_process_packet flow packet len (time_now e) from_tun in
           let seen := set_ndpi_flow (Some (fst r)) (set_l7proto (snd r) stamped) in
           if (MAX_DPI_PACKETS <=? sent_pkts data + rcvd_pkts data + 1)
              || (negb (app_protocol (snd r) =? NDPI_PROTOCOL_UNKNOWN)
                  && negb (ndpi_extra_dissection_possible (fst r)))
           then
             let m := extract_metadata e (conclude_l7proto seen (fst r)) (fst r)
                        (ip_to_host (proxy w)) in
             ndpi_flow data' = None /\ src_id data' = false /\ dst_id data' = false
             /\ l7proto data' = concluded_l7proto (snd r) (fst r)
             /\ info data' = info (fst m) /\ url data' = url (fst m)
             /\ ip_to_host (proxy w') = snd m
           else data' = seen /\ ip_to_host (proxy w') = ip_to_host (proxy w)
       end
    /\ capture_stats (proxy w') = capture_stats (proxy w)
    /\ java_dump (proxy w') = java_dump (proxy w)
    /\ host w' = host w
    /\ glob w' = glob w
    /\ new_conns (proxy w') = new_conns (proxy w)
    /\ conns_updates (proxy w') = conns_updates (proxy w).
Proof.
  intros Hud Hheap Hver Hdst Hport w' counted stamped.
  assert (Hflow : ndpi_flow stamped = ndpi_flow data)
    by (subst stamped counted; destruct from_tun; reflexivity).
  assert (Hcnt : sent_pkts stamped + rcvd_pkts stamped = sent_pkts data + rcvd_pkts data + 1)
    by (subst stamped counted; destruct from_tun; simpl; lia).
  assert (Hseen : last_seen stamped = time_now e)
    by (subst stamped counted; destruct from_tun; reflexivity).
  assert (Hacc : account_conn e data (ip_to_host (proxy w)) packet len from_tun conn =
                 match ndpi_flow data with
                 | Some _ => process_ndpi_packet e stamped (ip_to_host (proxy w)) packet len from_tun
                 | None => (stamped, ip_to_host (proxy w))
                 end).
  { unfold account_conn. fold counted. fold stamped. rewrite Hflow. reflexivity. }
  assert (Hign : forall p, vpn_dns p = vpn_dns (proxy w) ->
                   shouldIgnoreConn p (conn_tuple conn) = true).
  { intros p Hp. unfold shouldIgnoreConn. rewrite Hver, Hdst, Hp, !Z.eqb_refl. simpl.
    destruct (Z.eqb_spec (ntohs (dst_port (conn_tuple conn))) 53); [contradiction|reflexivity]. }
  assert (Hsame : same_accounting stamped
                    (fst (account_conn e data (ip_to_host (proxy w)) packet len from_tun conn))).
  { rewrite Hacc. destruct (ndpi_flow data).
    - apply process_ndpi_packet_frame.
    - apply same_accounting_refl. }
  subst w'. unfold account_packet. rewrite Hud, Hheap.
  destruct (account_conn e data (ip_to_host (proxy w)) packet len from_tun conn) as [d l].
  rewrite Hign by reflexivity. cbn [fst] in Hsame.
  exists d. split; [reflexivity|]. split; [exact Hsame|].
  split; [|simpl; tauto].
  cbn [proxy set_proxy_in ip_to_host set_ip_to_host store set_heap].
  destruct (ndpi_flow data) as [flow|] eqn:Hlive.
  2:{ injection Hacc as -> ->. split; reflexivity. }
  try rewrite Hlive in Hflow.
  rewrite (process_ndpi_packet_unfold e stamped _ packet len from_tun flow Hflow) in Hacc.
  cbv zeta in Hacc |- *. rewrite Hseen, Hcnt, Z.geb_leb in Hacc.
  set (r := ndpi_detection_process_packet flow packet len (time_now e) from_tun) in *.
  set (seen := set_ndpi_flow (Some (fst r)) (set_l7proto (snd r) stamped)) in *.
  destruct ((MAX_DPI_PACKETS <=? sent_pkts data + rcvd_pkts data + 1) || _).
  2:{ injection Hacc as -> ->. split; reflexivity. }
  assert (Hf : ndpi_flow seen = Some (fst r)) by reflexivity.
  pose proof (end_ndpi_detection_live e seen (ip_to_host (proxy w)) (fst r) Hf) as Hend.
  rewrite <- Hacc in Hend. cbn [fst] in Hend. destruct Hend as (H1 & H2 & H3 & H4).
  unfold end_ndpi_detection in Hacc. rewrite Hf in Hacc.
  destruct (extract_metadata e (conclude_l7proto seen (fst r)) (fst r) (ip_to_host (proxy w)))
    as [dm lm].
  injection Hacc as -> ->. simpl. repeat split; assumption.
Qed.

End Ignored.

(** ** Blocked connections and the drop counter *)

Section Blocked.
Context {ndpi : ndpi_api}.

Lemma check_dns_req_allowed_last_conn_blocked (w : world) (conn : zdtun_conn) :
  last_conn_blocked (proxy (snd (check_dns_req_allowed w conn))) = last_conn_blocked (proxy w).
Proof.
  unfold check_dns_req_allowed, reload_dns_server.
  destruct (negb (new_dns_server (glob w) =? 0)); simpl;
    destruct (negb (is_dns_server _ _)); simpl; try reflexivity;
    destruct (if _ : bool then _ else None) as [pkt|]; simpl; try reflexivity;
    destruct (l7_len pkt >=? sizeof_dns_packet); simpl; try reflexivity;
    destruct (negb (_ =? DNS_TYPE_REQUEST)); reflexivity.
Qed.

(** C7.  Take a packet read from the tun device that is not dropped as
    IPv6.  (1) When it opens a connection and the DNS gate blocks it, the
    iteration creates no record, adds no batch entry, admits nothing to the
    NAT table, sends nothing to the host and does not count a drop.
    (2) Whenever the lookup returns no connection, the drop counter grows
    by one if the connection was not blocked by the gate and the packet is
    not an established-TCP arrival, and stays as it was otherwise. *)
Theorem blocked_connection_not_dropped (i : iter_input) (w : world) (pkt : zdtun_pkt) :
  in_read i = ReadPkt pkt ->
  (ipver (pkt_tuple pkt) =? 6) && negb (ipv6_enabled (ipv6 (proxy w))) = false ->
  let conn0 := mk_conn (pkt_tuple pkt) CONN_STATUS_NEW None false false in
  let gate := fst (fst (check_dns_req_allowed (with_last_pkt pkt w) conn0)) in
  let w' := packet_from_vpn i w in
  (table_find (tun w) (pkt_tuple pkt) = None ->
   is_tcp_established pkt = false ->
   in_lookup_fails i = false ->
   gate = false ->
     heap w' = heap w
     /\ new_conns (proxy w') = new_conns (proxy w)
     /\ conns_updates (proxy w') = conns_updates (proxy w)
     /\ conn_table (tun w') = conn_table (tun w)
     /\ host w' = host w
     /\ num_dropped_connections (proxy w') = num_dropped_connections (proxy w)
     /\ last_conn_blocked (proxy w') = true)
  /\ (fst (zdtun_lookup (in_lookup_fails i) (in_new_conn i) (with_last_pkt pkt w)
             (pkt_tuple pkt) (negb (is_tcp_established pkt))) = None ->
      let blocked := negb (is_tcp_established pkt) && negb (in_lookup_fails i) && negb gate in
      num_dropped_connections (proxy w')
      = num_dropped_connections (proxy w)
        + (if negb blocked && negb (is_tcp_established pkt) then 1 else 0)).
Proof.
  intros Hread Hv6 conn0 gate w'.
  assert (Hfr := check_dns_req_allowed_frame (with_last_pkt pkt w) conn0).
  assert (Hlb := check_dns_req_allowed_last_conn_blocked (with_last_pkt pkt w) conn0).
  assert (Hw' : w' =
    let '(conn, w1) := zdtun_lookup (in_lookup_fails i) (in_new_conn i) (with_last_pkt pkt w)
                         (pkt_tuple pkt) (negb (is_tcp_established pkt)) in
    match conn with
    | None =>
        if last_conn_blocked (proxy w1) then w1
        else if negb (is_tcp_established pkt)
        then set_proxy_in (fun p =>
               set_num_dropped_connections (num_dropped_connections p + 1) p) w1
        else w1
    | Some conn =>
        let conn :=
          if socks5_enabled (socks5 (proxy w1))
          then check_socks5_redirection w1 pkt conn else conn in
        let w2 := set_tun (table_put conn (tun w1)) w1 in
        let w2 := run_callbacks (in_forward_cbs i) w2 in
        if negb (in_forward_rc i =? 0) then
          zdtun_destroy_conn (in_env i)
            (set_proxy_in (fun p =>
               set_num_dropped_connections (num_dropped_connections p + 1) p) w2) conn
        else w2
    end).
  { subst w'. unfold packet_from_vpn. rewrite Hread.
    change (ipv6 (proxy (with_last_pkt pkt w))) with (ipv6 (proxy w)).
    rewrite Hv6. reflexivity. }
  clearbody w'. subst w'.
  unfold zdtun_lookup.
  change (tun (with_last_pkt pkt w)) with (tun w).
  unfold handle_new_connection.
  fold conn0. subst gate.
  destruct (check_dns_req_allowed (with_last_pkt pkt w) conn0) as [[allowed c1] w1].
  simpl in Hfr, Hlb |- *.
  destruct Hfr as (Hh & Ho & Hn & Hu & _ & _ & _ & Hd & _ & _ & Ht & _).
  split.
  - intros Hfind Hest Hfails ->. rewrite Hfind, Hest, Hfails. simpl.
    rewrite Hh, Ho, Hn, Hu, Hd, Ht. tauto.
  - destruct (table_find (tun w) (pkt_tuple pkt)) as [c|]; [discriminate|].
    destruct (is_tcp_established pkt); simpl; [intros _; lia|].
    destruct (in_lookup_fails i); simpl; [intros _; reflexivity|].
    destruct allowed; simpl.
    + destruct (calloc_conn_data (in_new_conn i)) as [a|]; simpl.
      * destruct (ip_lru_find _ _) as [name l].
        destruct (negb (shouldIgnoreConn _ _)); simpl; discriminate.
      * intros _. rewrite Hlb. simpl. rewrite Hd. reflexivity.
    + intros _. rewrite Hd. lia.
Qed.

End Blocked.

(** ** The pcap host buffer *)

Section PcapBuffer.
Context {ndpi : ndpi_api}.

Lemma account_java_dump_bound (e : env_t) (w : world) (packet : list Z) (len : Z) :
  idx_in_bounds w -> idx_in_bounds (account_java_dump e w packet len).
Proof.
  unfold idx_in_bounds, account_java_dump. intros Hb.
  destruct (buffer _); [|exact Hb].
  assert (Hj : buffer_idx (java_dump (proxy (javaPcapDump e w))) <= JAVA_PCAP_BUFFER_SIZE).
  { destruct (javaPcapDump_frame e w) as (_&_&_&_&_&_&_&_&_& [H0 | [Hs _]]).
    - rewrite H0. unfold JAVA_PCAP_BUFFER_SIZE. lia.
    - rewrite Hs. exact Hb. }
  destruct (JAVA_PCAP_BUFFER_SIZE - buffer_idx (java_dump (proxy w))
            <=? len + sizeof_pcaprec_hdr_s); cbv zeta.
  - destruct (Z.leb_spec (JAVA_PCAP_BUFFER_SIZE - buffer_idx (java_dump (proxy (javaPcapDump e w))))
                         (len + sizeof_pcaprec_hdr_s)); simpl; [exact Hj | lia].
  - destruct (Z.leb_spec (JAVA_PCAP_BUFFER_SIZE - buffer_idx (java_dump (proxy w)))
                         (len + sizeof_pcaprec_hdr_s)); simpl; [exact Hb | lia].
Qed.

Lemma account_packet_bound (e : env_t) (w : world) (packet : list Z) (len : Z)
    (from_tun : bool) (conn : zdtun_conn) :
  idx_in_bounds w -> idx_in_bounds (account_packet e w packet len from_tun conn).
Proof.
  intros Hb. unfold account_packet.
  destruct (user_data conn) as [a|]; [|exact Hb].
  destruct (heap w !! a) as [data|]; [|exact Hb].
  destruct (account_conn _ _ _ _ _ _ _) as [d l].
  destruct (shouldIgnoreConn _ _); [exact Hb|].
  cbv zeta.
  match goal with |- idx_in_bounds (account_dumper_socket ?x _ _) =>
    destruct (account_dumper_socket_frame x packet len) as (_ & _ & _ & Hp & _);
    unfold idx_in_bounds; rewrite Hp end.
  apply account_java_dump_bound.
  destruct (pending_notification d); exact Hb.
Qed.

Lemma run_callbacks_bound (cbs : list nat_callback) (w : world) :
  idx_in_bounds w -> idx_in_bounds (run_callbacks cbs w).
Proof.
  revert w. induction cbs as [|cb cbs IH]; intros w Hb; [exact Hb|].
  apply IH. destruct cb as [wr sz | e packet len from_tun conn | e conn]; simpl.
  - exact Hb.
  - apply account_packet_bound. exact Hb.
  - destruct (destroy_connection_frame e w conn) as (_&_&_&_&_&_& Hj & _).
    unfold idx_in_bounds. simpl. rewrite Hj. exact Hb.
Qed.

Lemma javaPcapDump_bound (e : env_t) (w : world) :
  idx_in_bounds w -> idx_in_bounds (javaPcapDump e w).
Proof.
  intros Hb. unfold idx_in_bounds.
  destruct (javaPcapDump_frame e w) as (_&_&_&_&_&_&_&_&_& [H0 | [Hs _]]).
  - rewrite H0. unfold JAVA_PCAP_BUFFER_SIZE. lia.
  - rewrite Hs. exact Hb.
Qed.

Lemma packet_from_vpn_bound (i : iter_input) (w : world) :
  idx_in_bounds w -> idx_in_bounds (packet_from_vpn i w).
Proof.
  intros Hb. unfold packet_from_vpn.
  destruct (in_read i) as [| | |pkt]; try exact Hb.
  destruct (_ && _); [exact Hb|].
  assert (Hl : idx_in_bounds
            (snd (zdtun_lookup (in_lookup_fails i) (in_new_conn i) (with_last_pkt pkt w)
                    (pkt_tuple pkt) (negb (is_tcp_established pkt))))).
  { unfold zdtun_lookup. destruct (table_find _ _); [exact Hb|].
    destruct (_ && _); [|exact Hb].
    destruct (handle_new_connection_frame (in_new_conn i) (with_last_pkt pkt w)
                (mk_conn (pkt_tuple pkt) CONN_STATUS_NEW None false false))
      as (_&_&_&_&_& Hj & _).
    destruct (handle_new_connection _ _ _) as [[rv c] w1]. simpl in Hj.
    destruct (rv =? 0); unfold idx_in_bounds; simpl; rewrite Hj; exact Hb. }
  destruct (zdtun_lookup _ _ _ _ _) as [[c|] w1]; simpl in Hl.
  - cbv zeta.
    match goal with |- context [run_callbacks ?cbs ?x] =>
      assert (Hc : idx_in_bounds (run_callbacks cbs x)) by (apply run_callbacks_bound; exact Hl);
      generalize dependent (run_callbacks cbs x) end.
    intros w2 Hc. destruct (negb _); [|exact Hc].
    unfold zdtun_destroy_conn.
    match goal with |- context [destroy_connection ?e ?x ?c] =>
      destruct (destroy_connection_frame e x c) as (_&_&_&_&_&_& Hj & _) end.
    unfold idx_in_bounds. simpl. rewrite Hj. exact Hc.
  - destruct (last_conn_blocked _); [exact Hl|]. destruct (negb _); exact Hl.
Qed.

Lemma housekeeping_bound (i : iter_input) (w : world) (loc : loop_locals) :
  idx_in_bounds w -> idx_in_bounds (fst (fst (housekeeping i w loc))).
Proof.
  intros Hb. unfold housekeeping.
  destruct (vpn_stats_due _ _); simpl.
  { unfold idx_in_bounds. simpl.
    match goal with |- context [sendVPNStats ?a ?b ?x] =>
      destruct (sendVPNStats_frame a b x) as (_&_&_& Hp) end.
    rewrite Hp. exact Hb. }
  destruct (connections_dump_due _ _); simpl.
  { destruct (sendConnectionsDump_frame (in_dump_jni i) w) as (_&_&_&_& Hj & _).
    unfold idx_in_bounds. rewrite Hj. exact Hb. }
  destruct (pcap_dump_due _ _); simpl; [apply javaPcapDump_bound; exact Hb|].
  destruct (purge_due _ _ _); simpl; [|exact Hb].
  apply run_callbacks_bound. exact Hb.
Qed.

(** The bound is kept by the whole packet loop. *)
Lemma packet_loop_bound (ins : list iter_input) (w : world) (loc : loop_locals) :
  idx_in_bounds w -> idx_in_bounds (fst (fst (packet_loop ins w loc))).
Proof.
  revert w loc. induction ins as [|i rest IH]; intros w loc Hb; [exact Hb|].
  simpl. destruct (running (glob w)); [|exact Hb].
  unfold loop_body.
  destruct (negb (running _)); [exact Hb|].
  match goal with |- context [housekeeping i ?x loc] =>
    assert (Hk : idx_in_bounds (fst (fst (housekeeping i x loc)))) end.
  { apply housekeeping_bound.
    destruct (in_tun_ready i);
      [apply packet_from_vpn_bound | apply run_callbacks_bound]; exact Hb. }
  destruct (housekeeping _ _ _) as [[w1 loc1] t]. simpl in Hk.
  specialize (IH w1 loc1 Hk).
  destruct (packet_loop rest w1 loc1) as [[w2 loc2] n]. exact IH.
Qed.

Lemma run_tun_init_idx (tunfd_arg : Z) (prefs : host_prefs) (ie : init_env) (g : globals)
    (w : world) (loc : loop_locals) :
  run_tun_init tunfd_arg prefs ie g = Some (w, loc) ->
  buffer_idx (java_dump (proxy w)) = 0 /\ proxy_incr_id (proxy w) = 0
  /\ heap w = ∅ /\ new_conns (proxy w) = mk_conn_array None 0 0
  /\ conns_updates (proxy w) = mk_conn_array None 0 0.
Proof.
  unfold run_tun_init.
  destruct (negb (init_ndpi_ok ie)); [discriminate|].
  destruct (negb (fcntl_ok ie)); [discriminate|].
  destruct (negb (zdtun_init_ok ie)); [discriminate|].
  simpl. destruct (dumpPcapToJava prefs); [destruct (malloc_buffer_ok ie)|];
    intros [= <- _]; simpl; tauto.
Qed.

End PcapBuffer.

Section PcapBufferClaim.
Context {ndpi : ndpi_api}.

Lemma account_java_dump_java_dump (e : env_t) (w1 w2 : world) (packet : list Z) (len : Z) :
  java_dump (proxy w1) = java_dump (proxy w2) ->
  now_ms (proxy w1) = now_ms (proxy w2) ->
  java_dump (proxy (account_java_dump e w1 packet len))
  = java_dump (proxy (account_java_dump e w2 packet len)).
Proof.
  intros Hj Hn. unfold account_java_dump. rewrite Hj.
  destruct (buffer (java_dump (proxy w2))); [|exact Hj].
  assert (Hd : java_dump (proxy (javaPcapDump e w1)) = java_dump (proxy (javaPcapDump e w2))).
  { unfold javaPcapDump. destruct (new_byte_array_ok e); simpl; rewrite ?Hj, ?Hn; auto. }
  destruct (JAVA_PCAP_BUFFER_SIZE - buffer_idx (java_dump (proxy w2))
            <=? len + sizeof_pcaprec_hdr_s); cbv zeta.
  - rewrite Hd. destruct (_ <=? _); simpl; rewrite ?Hd; reflexivity.
  - rewrite Hj. destruct (_ <=? _); simpl; rewrite ?Hj; reflexivity.
Qed.

(** C3.  Take a state whose host buffer is allocated and whose write index
    is within the buffer, and a packet that [account_packet] hands to the
    buffer.  If the record fits, it is appended and the index grows by
    exactly [14 + len].  If it does not fit, the buffer is flushed to the
    host first and the record is appended to the emptied buffer, where the
    index becomes [14 + len]; when the flush fails or the record is larger
    than the whole buffer, nothing is appended.  In every case the index
    stays within the 512 KiB of the buffer, and it does so along the whole
    packet loop. *)
Theorem pcap_buffer_index (e : env_t) (w : world) (packet : list Z) (len : Z)
    (recs : list pcap_record) :
  buffer (java_dump (proxy w)) = Some recs ->
  idx_in_bounds w ->
  let jd := java_dump (proxy w) in
  let w' := account_java_dump e w packet len in
  let jd' := java_dump (proxy w') in
  (buffer_idx jd + (14 + len) < JAVA_PCAP_BUFFER_SIZE ->
     buffer jd' = Some (recs ++ [(packet, len)])
     /\ buffer_idx jd' = buffer_idx jd + (14 + len)
     /\ host w' = host w)
  /\ (JAVA_PCAP_BUFFER_SIZE <= buffer_idx jd + (14 + len) ->
      new_byte_array_ok e = true -> 14 + len < JAVA_PCAP_BUFFER_SIZE ->
        host w' = host w ++ [DumpPcapData (buffer_idx jd) recs]
        /\ buffer jd' = Some [(packet, len)]
        /\ buffer_idx jd' = 0 + (14 + len))
  /\ (JAVA_PCAP_BUFFER_SIZE <= buffer_idx jd + (14 + len) ->
      new_byte_array_ok e = false \/ JAVA_PCAP_BUFFER_SIZE <= 14 + len ->
        (jd' = jd /\ host w' = host w)
        \/ (buffer jd' = Some [] /\ buffer_idx jd' = 0
            /\ host w' = host w ++ [DumpPcapData (buffer_idx jd) recs]))
  /\ idx_in_bounds w'
  /\ (forall (from_tun : bool) (conn : zdtun_conn) (a : addr) (data : conn_data),
        user_data conn = Some a -> heap w !! a = Some data ->
        shouldIgnoreConn (proxy w) (conn_tuple conn) = false ->
        java_dump (proxy (account_packet e w packet len from_tun conn)) = jd')
  /\ (forall (ins : list iter_input) (loc : loop_locals),
        idx_in_bounds (fst (fst (packet_loop ins w loc)))).
Proof.
  intros Hbuf Hb jd w' jd'.
  split; [|split; [|split; [|split; [|split]]]].
  - intros Hfit. subst jd' w' jd. unfold account_java_dump. rewrite Hbuf.
    unfold sizeof_pcaprec_hdr_s in *.
    destruct (Z.leb_spec (JAVA_PCAP_BUFFER_SIZE - buffer_idx (java_dump (proxy w))) (len + 14));
      [lia|]. cbv zeta.
    destruct (Z.leb_spec (JAVA_PCAP_BUFFER_SIZE - buffer_idx (java_dump (proxy w))) (len + 14));
      [lia|]. simpl. rewrite Hbuf. simpl. repeat split; try reflexivity.
  - intros Hfull Hok Hsmall. subst jd' w' jd. unfold account_java_dump. rewrite Hbuf.
    unfold sizeof_pcaprec_hdr_s in *.
    destruct (Z.leb_spec (JAVA_PCAP_BUFFER_SIZE - buffer_idx (java_dump (proxy w))) (len + 14));
      [|lia]. cbv zeta. unfold javaPcapDump. rewrite Hok. simpl. rewrite Hbuf. simpl.
    destruct (Z.leb_spec (JAVA_PCAP_BUFFER_SIZE - 0) (len + 14)); [lia|].
    simpl. repeat split; try reflexivity.
  - intros Hfull Hcase. subst jd' w' jd. unfold account_java_dump. rewrite Hbuf.
    unfold sizeof_pcaprec_hdr_s in *.
    destruct (Z.leb_spec (JAVA_PCAP_BUFFER_SIZE - buffer_idx (java_dump (proxy w))) (len + 14));
      [|lia]. cbv zeta. unfold javaPcapDump.
    destruct (new_byte_array_ok e); simpl.
    + destruct Hcase as [?|Hbig]; [discriminate|]. rewrite Hbuf. simpl.
      destruct (Z.leb_spec (JAVA_PCAP_BUFFER_SIZE - 0) (len + 14)); [|lia].
      simpl. right. rewrite Hbuf. repeat split.
    + destruct (Z.leb_spec (JAVA_PCAP_BUFFER_SIZE - buffer_idx (java_dump (proxy w))) (len + 14));
        [|lia]. left. split; reflexivity.
  - apply account_java_dump_bound. exact Hb.
  - intros from_tun conn a data Hud Hheap Hign. subst jd' w'.
    unfold account_packet. rewrite Hud, Hheap.
    destruct (account_conn _ _ _ _ _ _ _) as [d l].
    change (shouldIgnoreConn (proxy (set_proxy_in (set_ip_to_host l) (store a d w))) (conn_tuple conn))
      with (shouldIgnoreConn (proxy w) (conn_tuple conn)).
    rewrite Hign. cbv zeta.
    match goal with |- context [account_dumper_socket ?x _ _] =>
      destruct (account_dumper_socket_frame x packet len) as (_ & _ & _ & Hp & _);
      rewrite Hp end.
    apply account_java_dump_java_dump; destruct (pending_notification d); reflexivity.
  - intros ins loc. apply packet_loop_bound. exact Hb.
Qed.

End PcapBufferClaim.

(** ** The connection identifiers *)

Section IncrId.
Context {ndpi : ndpi_api}.

Lemma account_conn_frame (e : env_t) (data : conn_data) (lru : ip_lru) (packet : list Z)
    (len : Z) (from_tun : bool) (conn : zdtun_conn) :
  incr_id (fst (account_conn e data lru packet len from_tun conn)) = incr_id data
  /\ pending_notification (fst (account_conn e data lru packet len from_tun conn))
     = pending_notification data.
Proof.
  unfold account_conn.
  set (d0 := set_status _ _).
  assert (H0 : incr_id d0 = incr_id data /\ pending_notification d0 = pending_notification data)
    by (subst d0; destruct from_tun; simpl; tauto).
  destruct (ndpi_flow d0); [|exact H0].
  destruct (process_ndpi_packet_frame e d0 lru packet len from_tun)
    as (_&_&_&_&_&_&_&_& Hi & Hp).
  rewrite Hi, Hp. exact H0.
Qed.

Lemma conns_clear_items_lookup (l : list vpn_conn) (free_all : bool)
    (h : gmap addr conn_data) (a : addr) (d : conn_data) :
  conns_clear_items l free_all h !! a = Some d -> h !! a = Some d.
Proof.
  revert h. induction l as [|slot rest IH]; intros h; simpl; [auto|].
  intros H. apply IH in H.
  destruct (slot_data slot) as [b|]; [|exact H].
  destruct (h !! b) as [db|] eqn:Hb; [|exact H].
  destruct (_ || _); [|exact H].
  unfold free_connection_data in H.
  destruct (decide (b = a)) as [->|Hne].
  - rewrite lookup_delete_eq in H. discriminate.
  - rewrite lookup_delete_ne in H by exact Hne. exact H.
Qed.

Lemma pending_cleared_refl (h : gmap addr conn_data) : pending_cleared h h.
Proof. intros a. left. reflexivity. Qed.

Lemma pending_cleared_trans (h1 h2 h3 : gmap addr conn_data) :
  pending_cleared h1 h2 -> pending_cleared h2 h3 -> pending_cleared h1 h3.
Proof.
  intros H12 H23 a. destruct (H23 a) as [E|(d & Hd & E)].
  - rewrite E. apply H12.
  - destruct (H12 a) as [E'|(d' & Hd' & E')].
    + right. exists d. split; congruence.
    + right. exists d'. split; [exact Hd'|].
      rewrite E. rewrite E' in Hd. injection Hd as <-. reflexivity.
Qed.

Lemma pending_cleared_incr_id (h h' : gmap addr conn_data) :
  pending_cleared h h' -> incr_id_kept h h'.
Proof.
  intros H a d d' Ha Ha'. destruct (H a) as [E|(d0 & Hd & E)].
  - congruence.
  - rewrite Ha in Hd. injection Hd as <-. rewrite Ha' in E. injection E as ->. reflexivity.
Qed.

Lemma dump_batch_pending_cleared (ok : nat -> bool) (l : list vpn_conn) (i : nat)
    (h : gmap addr conn_data) (acc : list (zdtun_5tuple * conn_data)) :
  pending_cleared h (snd (fst (dump_batch ok i l h acc))).
Proof.
  revert i h acc. induction l as [|slot rest IH]; intros i h acc; simpl.
  - apply pending_cleared_refl.
  - destruct (slot_data slot) as [a|]; [|apply IH].
    destruct (h !! a) as [d|] eqn:Ha; [|apply IH].
    assert (Hst : pending_cleared h (<[a := set_pending_notification false d]> h)).
    { intros b. destruct (decide (a = b)) as [->|Hne].
      - right. exists d. rewrite lookup_insert_eq. auto.
      - left. apply lookup_insert_ne. exact Hne. }
    destruct (ok i); [|exact Hst].
    eapply pending_cleared_trans; [exact Hst | apply IH].
Qed.

(** The heap after [account_packet] and the batch of updates. *)
Lemma account_packet_heap (e : env_t) (w : world) (packet : list Z) (len : Z)
    (from_tun : bool) (conn : zdtun_conn) (a : addr) (data : conn_data) :
  user_data conn = Some a -> heap w !! a = Some data ->
  let d := fst (account_conn e data (ip_to_host (proxy w)) packet len from_tun conn) in
  let queue := negb (shouldIgnoreConn (proxy w) (conn_tuple conn))
               && negb (pending_notification data) in
  heap (account_packet e w packet len from_tun conn)
  = <[a := if queue then set_pending_notification true d else d]> (heap w)
  /\ conns_updates (proxy (account_packet e w packet len from_tun conn))
     = (if queue then conns_add (realloc_ok e) (conns_updates (proxy w)) conn
        else conns_updates (proxy w)).
Proof.
  intros Hud Hheap d queue. subst queue.
  destruct (account_conn_frame e data (ip_to_host (proxy w)) packet len from_tun conn) as (_ & Hp).
  fold d in Hp. rewrite <- Hp.
  subst d. unfold account_packet. rewrite Hud, Hheap.
  destruct (account_conn _ _ _ _ _ _ _) as [d l]. simpl fst.
  change (shouldIgnoreConn (proxy (set_proxy_in (set_ip_to_host l) (store a d w))) (conn_tuple conn))
    with (shouldIgnoreConn (proxy w) (conn_tuple conn)).
  destruct (shouldIgnoreConn (proxy w) (conn_tuple conn)); [simpl; tauto|].
  cbv zeta.
  match goal with |- context [account_dumper_socket ?x _ _] =>
    destruct (account_dumper_socket_frame x packet len) as (_ & Hh & _ & Hp' & _);
    rewrite Hh, Hp' end.
  match goal with |- context [account_java_dump _ ?x _ _] =>
    destruct (account_java_dump_frame e x packet len) as (_ & Hh' & _ & _ & _ & _ & Hu & _);
    rewrite Hh', Hu end.
  destruct (pending_notification d); simpl; [tauto|].
  split; [apply insert_insert_eq | reflexivity].
Qed.

Lemma destroy_connection_heap (e : env_t) (w : world) (conn : zdtun_conn) (a : addr)
    (data : conn_data) :
  user_data conn = Some a -> heap w !! a = Some data ->
  let d := set_status (conn_status conn)
             (fst (end_ndpi_detection e data (ip_to_host (proxy w)))) in
  let queue := negb (pending_notification data)
               && negb (shouldIgnoreConn (proxy w) (conn_tuple conn)) in
  heap (destroy_connection e w conn)
  = <[a := if queue then set_pending_notification true d else d]> (heap w)
  /\ conns_updates (proxy (destroy_connection e w conn))
     = (if queue then conns_add (realloc_ok e) (conns_updates (proxy w)) conn
        else conns_updates (proxy w)).
Proof.
  intros Hud Hheap d queue. subst queue d.
  destruct (end_ndpi_detection_frame e data (ip_to_host (proxy w)))
    as ((_&_&_&_&_&_&_&_&_& Hp) & _).
  unfold destroy_connection. rewrite Hud, Hheap.
  destruct (end_ndpi_detection _ _ _) as [d l]. simpl in Hp |- *. rewrite Hp.
  change (shouldIgnoreConn (proxy (set_proxy_in (set_ip_to_host l) w)) (conn_tuple conn))
    with (shouldIgnoreConn (proxy w) (conn_tuple conn)).
  destruct (_ && _); simpl; tauto.
Qed.

(** The heap after [handle_new_connection]: unchanged when the connection
    is refused, otherwise extended at the allocated address. *)
Lemma handle_new_connection_heap (e : new_conn_env) (w : world) (conn : zdtun_conn) :
  let r := handle_new_connection e w conn in
  (fst (fst r) = 1 /\ heap (snd r) = heap w
   /\ new_conns (proxy (snd r)) = new_conns (proxy w)
   /\ proxy_incr_id (proxy (snd r)) = proxy_incr_id (proxy w))
  \/ (exists a d,
        fst (fst r) = 0 /\ calloc_conn_data e = Some a
        /\ user_data (snd (fst r)) = Some a
        /\ conn_tuple (snd (fst r)) = conn_tuple conn
        /\ heap (snd r) = <[a := d]> (heap w)
        /\ if shouldIgnoreConn (proxy w) (conn_tuple conn)
           then incr_id d = 0 /\ pending_notification d = false
                /\ new_conns (proxy (snd r)) = new_conns (proxy w)
                /\ proxy_incr_id (proxy (snd r)) = proxy_incr_id (proxy w)
           else incr_id d = proxy_incr_id (proxy w) /\ pending_notification d = true
                /\ new_conns (proxy (snd r))
                   = conns_add (nc_realloc_ok e) (new_conns (proxy w)) (snd (fst r))
                /\ proxy_incr_id (proxy (snd r)) = int32 (proxy_incr_id (proxy w) + 1)).
Proof.
  unfold handle_new_connection.
  destruct (check_dns_req_allowed_frame w conn)
    as (Hh & _ & Hn & _ & Hi & _ & _ & _ & _ & Hv & _).
  destruct (check_dns_req_allowed_tuple w conn) as (Htup & _).
  destruct (check_dns_req_allowed w conn) as [[allowed c] w1]. simpl in *.
  destruct allowed; simpl; [|left; tauto].
  destruct (calloc_conn_data e) as [a|]; simpl; [|left; tauto].
  destruct (ip_lru_find _ _) as [name l].
  assert (Hign : shouldIgnoreConn (set_ip_to_host l (proxy w1)) (conn_tuple conn)
                 = shouldIgnoreConn (proxy w) (conn_tuple conn)).
  { unfold shouldIgnoreConn. simpl. rewrite Hv. reflexivity. }
  rewrite Hign.
  destruct (shouldIgnoreConn (proxy w) (conn_tuple conn)); simpl.
  - right. eexists a, _. rewrite Hh, Hn, Hi. repeat split; try reflexivity; try exact Htup.
    all: destruct (calloc_flow_ok e), (calloc_src_id_ok e), (calloc_dst_id_ok e); reflexivity.
  - right. eexists a, _. rewrite Hh, Hn, Hi. repeat split; try reflexivity; exact Htup.
Qed.

End IncrId.

Section IncrIdClaim.
Context {ndpi : ndpi_api}.

Lemma core_step_counter (c : core_call) (w : world) :
  match c with CallConnectionOpen _ _ => False | _ => True end ->
  proxy_incr_id (proxy (core_step c w)) = proxy_incr_id (proxy w).
Proof.
  destruct c as [e conn | cb | j | e | ok stats]; simpl; intros H; [contradiction| | | |].
  - destruct cb as [wr sz | e packet len from_tun conn | e conn]; simpl.
    + reflexivity.
    + apply account_packet_frame.
    + apply destroy_connection_frame.
  - apply sendConnectionsDump_frame.
  - apply javaPcapDump_frame.
  - destruct (sendVPNStats_frame ok stats w) as (_&_&_& Hp). rewrite Hp. reflexivity.
Qed.

Lemma core_step_incr_id_kept (c : core_call) (w : world) (a : addr) (d d' : conn_data) :
  not_allocating a c ->
  heap w !! a = Some d -> heap (core_step c w) !! a = Some d' ->
  incr_id d' = incr_id d.
Proof.
  intros Hna Ha Ha'.
  destruct c as [e conn | cb | j | e | ok stats]; simpl in *.
  - destruct (handle_new_connection_heap e w conn)
      as [(_ & Hh & _) | (a0 & d0 & _ & Hc & _ & _ & Hh & _)]; rewrite Hh in Ha'.
    + congruence.
    + rewrite lookup_insert_ne in Ha' by congruence. congruence.
  - destruct cb as [wr sz | e packet len from_tun conn | e conn]; simpl in *.
    + congruence.
    + destruct (user_data conn) as [b|] eqn:Hud;
        [|unfold account_packet in Ha'; rewrite Hud in Ha'; congruence].
      destruct (heap w !! b) as [data|] eqn:Hb;
        [|unfold account_packet in Ha'; rewrite Hud, Hb in Ha'; congruence].
      destruct (account_packet_heap e w packet len from_tun conn b data Hud Hb) as (Hh & _).
      rewrite Hh in Ha'.
      destruct (decide (b = a)) as [->|Hne].
      * rewrite lookup_insert_eq in Ha'. injection Ha' as <-.
        destruct (account_conn_frame e data (ip_to_host (proxy w)) packet len from_tun conn)
          as (Hi & _).
        assert (d = data) as -> by congruence.
        destruct (_ && _); simpl; exact Hi.
      * rewrite lookup_insert_ne in Ha' by exact Hne. congruence.
    + change (heap (destroy_connection e w conn) !! a = Some d') in Ha'.
      destruct (user_data conn) as [b|] eqn:Hud;
        [|unfold destroy_connection in Ha'; rewrite Hud in Ha'; congruence].
      destruct (heap w !! b) as [data|] eqn:Hb;
        [|unfold destroy_connection in Ha'; rewrite Hud, Hb in Ha'; congruence].
      destruct (destroy_connection_heap e w conn b data Hud Hb) as (Hh & _).
      rewrite Hh in Ha'.
      destruct (decide (b = a)) as [->|Hne].
      * rewrite lookup_insert_eq in Ha'. injection Ha' as <-.
        destruct (end_ndpi_detection_frame e data (ip_to_host (proxy w)))
          as ((_&_&_&_&_&_&_&_& Hi & _) & _).
        assert (d = data) as -> by congruence.
        destruct (_ && _); simpl; exact Hi.
      * rewrite lookup_insert_ne in Ha' by exact Hne. congruence.
  - revert Ha'. unfold sendConnectionsDump, conns_clear.
    destruct (_ && _); [congruence|].
    assert (Hgen : forall h, pending_cleared (heap w) h ->
              conns_clear_items (slots (conns_updates (proxy w))) false
                (conns_clear_items (slots (new_conns (proxy w))) false h) !! a = Some d' ->
              incr_id d' = incr_id d).
    { intros h Hpc Hl. do 2 apply conns_clear_items_lookup in Hl.
      exact (pending_cleared_incr_id _ _ Hpc a d d' Ha Hl). }
    destruct (new_object_array_ok j); simpl.
    + pose proof (dump_batch_pending_cleared (dump_new_ok j) (slots (new_conns (proxy w))) 0
                    (heap w) []) as H1.
      destruct (dump_batch (dump_new_ok j) _ _ _ _) as [[ok1 h1] nd]. simpl in H1.
      destruct ok1; simpl.
      * pose proof (dump_batch_pending_cleared (dump_upd_ok j)
                      (slots (conns_updates (proxy w))) 0 h1 []) as H2.
        destruct (dump_batch (dump_upd_ok j) _ _ _ _) as [[ok2 h2] ud]. simpl in H2.
        destruct ok2; simpl; apply Hgen; eapply pending_cleared_trans; eauto.
      * apply Hgen. exact H1.
    + apply Hgen. apply pending_cleared_refl.
  - destruct (javaPcapDump_frame e w) as (_ & Hh & _). congruence.
  - destruct (sendVPNStats_frame ok stats w) as (_ & Hh & _). congruence.
Qed.

(** A connection that [shouldIgnoreConn] would ignore goes to the tun-side
    DNS address on a port other than 53, so the DNS gate refuses it: it is
    never set up. *)
Lemma ignored_conn_refused (e : new_conn_env) (w : world) (conn : zdtun_conn) :
  shouldIgnoreConn (proxy w) (conn_tuple conn) = true ->
  fst (fst (handle_new_connection e w conn)) = 1.
Proof.
  intros Hign. unfold handle_new_connection.
  assert (Hgate : fst (fst (check_dns_req_allowed w conn)) = false).
  { unfold check_dns_req_allowed.
    destruct (reload_is_dns_server w (conn_tuple conn)) as (Hd & _). rewrite Hd.
    unfold shouldIgnoreConn in Hign. apply andb_true_iff in Hign as [Hint Hport].
    unfold is_dns_server, is_internal_dns. rewrite Hint. simpl.
    apply negb_true_iff in Hport. rewrite Hport, andb_false_r. reflexivity. }
  destruct (check_dns_req_allowed w conn) as [[allowed c] w1]. simpl in Hgate.
  rewrite Hgate. reflexivity.
Qed.

Lemma run_callbacks_counter (cbs : list nat_callback) (w : world) :
  proxy_incr_id (proxy (run_callbacks cbs w)) = proxy_incr_id (proxy w).
Proof.
  revert w. induction cbs as [|cb cbs IH]; intros w; [reflexivity|].
  unfold run_callbacks in *. simpl. rewrite IH.
  exact (core_step_counter (CallNat cb) w I).
Qed.

Lemma housekeeping_counter (i : iter_input) (w : world) (loc : loop_locals) :
  proxy_incr_id (proxy (fst (fst (housekeeping i w loc)))) = proxy_incr_id (proxy w).
Proof.
  unfold housekeeping.
  destruct (vpn_stats_due _ _); simpl.
  { match goal with |- context [sendVPNStats ?a ?b ?x] =>
      destruct (sendVPNStats_frame a b x) as (_ & _ & _ & Hp) end.
    rewrite Hp. reflexivity. }
  destruct (connections_dump_due _ _); simpl; [apply sendConnectionsDump_frame|].
  destruct (pcap_dump_due _ _); simpl; [apply javaPcapDump_frame|].
  destruct (purge_due _ _ _); simpl; [|reflexivity].
  rewrite run_callbacks_counter. reflexivity.
Qed.

Lemma int32_small (x : Z) : - 2 ^ 31 <= x < 2 ^ 31 -> int32 x = x.
Proof.
  intros Hx. unfold int32. rewrite Z.mod_small by lia. lia.
Qed.

Lemma int32_succ (x : Z) : int32 (int32 x + 1) = int32 (x + 1).
Proof.
  unfold int32.
  replace ((x + 2 ^ 31) mod 2 ^ 32 - 2 ^ 31 + 1 + 2 ^ 31)
    with ((x + 2 ^ 31) mod 2 ^ 32 + 1) by lia.
  rewrite Zplus_mod_idemp_l. f_equal. f_equal. lia.
Qed.

Lemma int32_add_l (x y : Z) : int32 (int32 x + y) = int32 (x + y).
Proof.
  unfold int32.
  replace ((x + 2 ^ 31) mod 2 ^ 32 - 2 ^ 31 + y + 2 ^ 31)
    with ((x + 2 ^ 31) mod 2 ^ 32 + y) by lia.
  rewrite Zplus_mod_idemp_l. f_equal. f_equal. lia.
Qed.

Lemma int32_idem (x : Z) : int32 (int32 x) = int32 x.
Proof.
  apply int32_small. unfold int32.
  pose proof (Z.mod_pos_bound (x + 2 ^ 31) (2 ^ 32) ltac:(lia)). lia.
Qed.

(** The lookup of [packet_from_vpn] sets up at most one connection; it is
    reportable and takes the current value of the counter, which moves on
    by one. *)
Lemma packet_from_vpn_counter (i : iter_input) (w : world) :
  let log := opened_in_packet i w in
  ignored_ids log = []
  /\ reportable_ids log
     = (if (0 <? length log)%nat then [proxy_incr_id (proxy w)] else [])
  /\ (length log <= 1)%nat
  /\ proxy_incr_id (proxy (packet_from_vpn i w))
     = (if (0 <? length log)%nat then int32 (proxy_incr_id (proxy w) + 1)
        else proxy_incr_id (proxy w)).
Proof.
  unfold opened_in_packet, packet_from_vpn.
  destruct (in_read i) as [| | |pkt]; try (simpl; repeat split; lia).
  set (w0 := with_last_pkt pkt w).
  assert (Hc0 : proxy_incr_id (proxy w0) = proxy_incr_id (proxy w)) by reflexivity.
  destruct (_ && _); [simpl; repeat split; lia|].
  set (conn0 := mk_conn (pkt_tuple pkt) CONN_STATUS_NEW None false false).
  assert (Hrest : forall (c : zdtun_conn) (w1 : world),
            proxy_incr_id
              (proxy
                 (let conn := if socks5_enabled (socks5 (proxy w1))
                              then check_socks5_redirection w1 pkt c else c in
                  let w2 := set_tun (table_put conn (tun w1)) w1 in
                  let w2 := run_callbacks (in_forward_cbs i) w2 in
                  if negb (in_forward_rc i =? 0)
                  then zdtun_destroy_conn (in_env i)
                         (set_proxy_in (fun p =>
                            set_num_dropped_connections (num_dropped_connections p + 1) p)
                            w2) conn
                  else w2))
            = proxy_incr_id (proxy w1)).
  { intros c w1. cbv zeta.
    destruct (negb (in_forward_rc i =? 0)).
    - unfold zdtun_destroy_conn. simpl.
      match goal with |- context [destroy_connection ?e ?x ?c0] =>
        destruct (destroy_connection_frame e x c0) as (_&_&_& Hi & _) end.
      rewrite Hi. simpl. rewrite run_callbacks_counter. reflexivity.
    - rewrite run_callbacks_counter. reflexivity. }
  assert (Hnone : forall w1 : world,
            proxy_incr_id
              (proxy (if last_conn_blocked (proxy w1) then w1
                      else if negb (is_tcp_established pkt)
                      then set_proxy_in (fun p =>
                             set_num_dropped_connections (num_dropped_connections p + 1) p) w1
                      else w1))
            = proxy_incr_id (proxy w1)).
  { intros w1. destruct (last_conn_blocked (proxy w1)); [reflexivity|].
    destruct (negb (is_tcp_established pkt)); reflexivity. }
  unfold zdtun_lookup.
  destruct (table_find (tun w0) (pkt_tuple pkt)) as [c|].
  { rewrite Hrest. simpl. repeat split; lia. }
  destruct (negb (is_tcp_established pkt) && negb (in_lookup_fails i)).
  2:{ rewrite Hnone. simpl. repeat split; lia. }
  fold conn0.
  pose proof (ignored_conn_refused (in_new_conn i) w0 conn0) as Hnever.
  destruct (handle_new_connection_heap (in_new_conn i) w0 conn0)
    as [(Hrv & _ & _ & Hc) | (a & d & Hrv & _ & Hud & _ & Hh & Hcase)].
  - destruct (handle_new_connection (in_new_conn i) w0 conn0) as [[rv c'] w1].
    cbn [fst snd] in Hrv, Hc. subst rv. change (1 =? 0) with false. cbv beta iota.
    rewrite Hnone, Hc. simpl. repeat split; lia.
  - destruct (handle_new_connection (in_new_conn i) w0 conn0) as [[rv c'] w1].
    cbn [fst snd] in Hrv, Hud, Hh, Hcase, Hnever. subst rv. change (0 =? 0) with true.
    cbv beta iota. rewrite Hrest, Hud.
    change (heap (set_tun (table_put c' (tun w1)) w1)) with (heap w1).
    change (proxy (set_tun (table_put c' (tun w1)) w1)) with (proxy w1).
    rewrite Hh, lookup_insert_eq.
    change (conn_tuple conn0) with (pkt_tuple pkt) in *.
    destruct (shouldIgnoreConn (proxy w0) (pkt_tuple pkt)).
    + specialize (Hnever eq_refl). discriminate.
    + destruct Hcase as (Hid & _ & _ & Hc). unfold reportable_ids, ignored_ids. simpl.
      rewrite Hid, Hc, Hc0. repeat split; lia.
Qed.

(** Along the packet loop the connections that are opened receive the
    successive values of the counter, which ends after the last of them;
    the counter is an [int] and counts modulo 2^32. *)
Lemma loop_opened_log_ids (ins : list iter_input) (w : world) (loc : loop_locals) :
  int32 (proxy_incr_id (proxy w)) = proxy_incr_id (proxy w) ->
  let log := loop_opened_log ins w loc in
  ignored_ids log = []
  /\ reportable_ids log
     = map (fun k => int32 (proxy_incr_id (proxy w) + Z.of_nat k)) (seq 0 (length log))
  /\ proxy_incr_id (proxy (fst (fst (packet_loop ins w loc))))
     = int32 (proxy_incr_id (proxy w) + Z.of_nat (length log)).
Proof.
  revert w loc. induction ins as [|i rest IH]; intros w loc Hrange; simpl.
  { rewrite Z.add_0_r, Hrange. repeat split. }
  destruct (running (glob w)); [|simpl; rewrite Z.add_0_r, Hrange; repeat split].
  unfold loop_body.
  destruct (negb (running _)); [simpl; rewrite Z.add_0_r, Hrange; repeat split|].
  fold (iteration_start i w).
  set (w1 := if in_tun_ready i then packet_from_vpn i (iteration_start i w)
             else run_callbacks (in_handle_fd_cbs i) (iteration_start i w)).
  set (here := if in_tun_ready i then opened_in_packet i (iteration_start i w) else []).
  assert (Hhere : ignored_ids here = []
                  /\ reportable_ids here
                     = (if (0 <? length here)%nat then [proxy_incr_id (proxy w)] else [])
                  /\ (length here <= 1)%nat
                  /\ proxy_incr_id (proxy w1)
                     = (if (0 <? length here)%nat then int32 (proxy_incr_id (proxy w) + 1)
                        else proxy_incr_id (proxy w))).
  { subst w1 here. destruct (in_tun_ready i).
    - exact (packet_from_vpn_counter i (iteration_start i w)).
    - rewrite run_callbacks_counter. simpl. repeat split; lia. }
  destruct Hhere as (Hi & Hr & Hlen & Hc).
  pose proof (housekeeping_counter i w1 loc) as Hk.
  destruct (housekeeping i w1 loc) as [[w2 loc2] tasks]. simpl in Hk.
  assert (Hrange2 : int32 (proxy_incr_id (proxy w2)) = proxy_incr_id (proxy w2)).
  { rewrite Hk, Hc. destruct (0 <? length here)%nat; [apply int32_idem | exact Hrange]. }
  destruct (IH w2 loc2 Hrange2) as (I1 & I2 & I3).
  destruct (packet_loop rest w2 loc2) as [[w3 loc3] n]. simpl in I3 |- *.
  unfold ignored_ids, reportable_ids in *.
  rewrite !List.filter_app, !map_app, length_app.
  rewrite Hi, I1, Hr, I2, I3, Hk, Hc.
  split; [reflexivity|].
  destruct (length here) as [|[|k]]; [| |lia]; simpl.
  - split; reflexivity.
  - split.
    + f_equal; [change (Z.of_nat 0) with 0; rewrite Z.add_0_r; symmetry; exact Hrange|].
      rewrite <- seq_shift, map_map. apply map_ext. intros k.
      rewrite int32_add_l. f_equal. lia.
    + rewrite int32_add_l. f_equal. lia.
Qed.

(** C2, as the code has it.  In a run started by [run_tun], along the
    packet loop: every connection that is set up is reportable and receives
    an identifier; the identifiers are the successive values of an [int]
    counter that starts at 0, so they are 0, 1, 2, ... in the order in which
    the connections are opened as long as at most 2^31 connections are
    opened, and the counter ends at their number while that is below 2^31;
    no ignored connection takes an identifier (none is ever set up, the DNS
    gate refuses them); and once a record exists no call into the core
    changes its identifier. *)
Theorem incr_id_sequence (tunfd_arg : Z) (prefs : host_prefs) (ie : init_env) (g : globals)
    (w : world) (loc : loop_locals) (ins : list iter_input) :
  run_tun_init tunfd_arg prefs ie g = Some (w, loc) ->
  let log := loop_opened_log ins w loc in
  (Z.of_nat (length log) <= 2 ^ 31 -> reportable_ids log = first_ids (length log))
  /\ (Z.of_nat (length log) < 2 ^ 31 ->
        proxy_incr_id (proxy (fst (fst (packet_loop ins w loc)))) = Z.of_nat (length log))
  /\ reportable_ids log = map (fun k => int32 (Z.of_nat k)) (seq 0 (length log))
  /\ proxy_incr_id (proxy (fst (fst (packet_loop ins w loc)))) = int32 (Z.of_nat (length log))
  /\ ignored_ids log = []
  /\ (forall (c : core_call) (w1 : world) (a : addr) (d d' : conn_data),
        not_allocating a c ->
        heap w1 !! a = Some d -> heap (core_step c w1) !! a = Some d' ->
        incr_id d' = incr_id d).
Proof.
  intros Hinit log.
  destruct (run_tun_init_idx _ _ _ _ _ _ Hinit) as (_ & H0 & _).
  destruct (loop_opened_log_ids ins w loc) as (H1 & H2 & H3);
    [rewrite H0; reflexivity|].
  fold log in H1, H2, H3.
  rewrite H0 in H2, H3. simpl in H2, H3.
  split; [|split; [|split; [exact H2 | split; [exact H3 | split; [exact H1|]]]]].
  - intros Hle. rewrite H2. unfold first_ids. apply map_ext_in.
    intros k Hk. apply in_seq in Hk. apply int32_small. lia.
  - intros Hlt. rewrite H3. apply int32_small. lia.
  - intros c w1 a d d'. apply core_step_incr_id_kept.
Qed.

End IncrIdClaim.

(** ** Concrete runs *)

Lemma sample_run_starts :
  run_tun_init 42 sample_prefs sample_init_env sample_globals
  = Some (sample_world, sample_locals).
Proof. vm_compute. reflexivity. Qed.

Lemma incr_id_sequence_witness :
  reportable_ids
    (loop_opened_log (ndpi := sample_ndpi)
       [tun_iteration 1600000000200 (syn_pkt web_tuple) 1;
        tun_iteration 1600000000300 (syn_pkt web_tuple2) 2]
       sample_world sample_locals)
  = [0; 1].
Proof.
  destruct (incr_id_sequence (ndpi := sample_ndpi) 42 sample_prefs sample_init_env
              sample_globals sample_world sample_locals
              [tun_iteration 1600000000200 (syn_pkt web_tuple) 1;
               tun_iteration 1600000000300 (syn_pkt web_tuple2) 2] sample_run_starts)
    as (Hids & _).
  rewrite Hids; [vm_compute; reflexivity | vm_compute; discriminate].
Defined.

Lemma pcap_buffer_index_witness :
  buffer (java_dump (proxy sample_world)) = Some []
  /\ buffer_idx (java_dump (proxy (account_java_dump sample_env sample_world [] 60)))
     = 0 + (14 + 60).
Proof.
  assert (Hbuf : buffer (java_dump (proxy sample_world)) = Some []) by (vm_compute; reflexivity).
  assert (Hb : idx_in_bounds sample_world) by (vm_compute; discriminate).
  split; [exact Hbuf|].
  destruct (pcap_buffer_index (ndpi := sample_ndpi) sample_env sample_world [] 60 [] Hbuf Hb)
    as (Hfit & _).
  apply Hfit. vm_compute. reflexivity.
Defined.

(** C4 on a failing input: a write of 20 of 60 bytes returns -1 and leaves
    every flag as it was, and the packet loop goes on with the next
    iteration; the same run with a write that fails with EINVAL, the branch
    that logs at the same level, ends with the iteration of the write. *)
Lemma partial_write_keeps_running :
  let wr := mk_write 20 0 in
  let wr_err := mk_write (-1) 22 in
  running (glob sample_world) = true
  /\ net2tun (glob sample_world) wr 60 = (-1, glob sample_world)
  /\ snd (packet_loop (ndpi := sample_ndpi)
            [socket_iteration 1600000000200 [CbSendClient wr 60];
             socket_iteration 1600000000700 []]
            sample_world sample_locals) = 2%nat
  /\ net2tun (glob sample_world) wr_err 60 = (-1, set_running false (glob sample_world))
  /\ snd (packet_loop (ndpi := sample_ndpi)
            [socket_iteration 1600000000200 [CbSendClient wr_err 60];
             socket_iteration 1600000000700 []]
            sample_world sample_locals) = 1%nat.
Proof. vm_compute. repeat split. Qed.

Lemma tun_write_failures_witness :
  running (glob sample_world) = true
  /\ net2tun (glob sample_world) (mk_write (-1) EIO) 60
     = (-1, set_running false (glob sample_world)).
Proof.
  assert (Hr : running (glob sample_world) = true) by (vm_compute; reflexivity).
  split; [exact Hr|].
  destruct (tun_write_failures (ndpi := sample_ndpi) (glob sample_world)
              (mk_write (-1) EIO) 60 Hr) as (_ & Heio & _).
  apply Heio; [reflexivity | discriminate].
Defined.

(** C5 as stated fails: a DNS flow whose name has no dot still sets [info]. *)
Lemma dns_info_without_dot :
  let r := end_ndpi_detection (ndpi := sample_ndpi) sample_env (dns_record localhost_flow)
             (ip_lru_init MAX_HOST_LRU_SIZE) in
  strchr (host_server_name localhost_flow) "." = false
  /\ master_protocol (l7proto (fst r)) = NDPI_PROTOCOL_DNS
  /\ info (fst r) = Some "localhost"%string
  /\ snd r = ip_lru_init MAX_HOST_LRU_SIZE.
Proof. vm_compute. repeat split. Qed.

Lemma dns_detection_result_witness :
  let r := end_ndpi_detection (ndpi := sample_ndpi) sample_env (dns_record example_flow)
             (ip_lru_init MAX_HOST_LRU_SIZE) in
  info (fst r) = Some "example.com"%string
  /\ lru_items (snd r) = [(ip_of_bytes [93; 184; 216; 34], "example.com"%string)].
Proof.
  intros r.
  assert (Hflow : ndpi_flow (dns_record example_flow) = Some example_flow) by reflexivity.
  assert (Hdns : master_protocol
                   (concluded_l7proto (ndpi := sample_ndpi)
                      (l7proto (dns_record example_flow)) example_flow)
                 = NDPI_PROTOCOL_DNS) by reflexivity.
  destruct r as [d l] eqn:Hr.
  destruct (dns_detection_result (ndpi := sample_ndpi) sample_env (dns_record example_flow) d
              (ip_lru_init MAX_HOST_LRU_SIZE) l example_flow Hflow Hdns Hr) as (Hi & Hl & _).
  simpl. rewrite Hi, Hl. vm_compute. split; reflexivity.
Defined.

(** A connection closed after three packets, with the application protocol
    still unknown and more dissection possible: the close ends the
    detection and frees the flow. *)
Lemma dpi_ends_on_close :
  let conn := open_conn web_tuple 1 in
  let before := heap young_conn_world !! 1%nat in
  let after := heap (destroy_connection (ndpi := sample_ndpi) sample_env young_conn_world conn)
                 !! 1%nat in
  option_map (fun d => sent_pkts d + rcvd_pkts d) before = Some 3
  /\ option_map (fun d => app_protocol (l7proto d)) before = Some NDPI_PROTOCOL_UNKNOWN
  /\ option_map ndpi_flow before = Some (Some zeroed_flow)
  /\ ndpi_extra_dissection_possible (ndpi_api := sample_ndpi) zeroed_flow = true
  /\ option_map ndpi_flow after = Some None
  /\ option_map (fun d => sent_pkts d + rcvd_pkts d) after = Some 3.
Proof. vm_compute. repeat split. Qed.


Lemma blocked_connection_not_dropped_witness :
  let i := tun_iteration 1600000000200 (syn_pkt dot_tuple) 1 in
  let w' := packet_from_vpn (ndpi := sample_ndpi) i sample_world in
  heap w' = heap sample_world
  /\ num_dropped_connections (proxy w') = num_dropped_connections (proxy sample_world)
  /\ last_conn_blocked (proxy w') = true.
Proof.
  intros i w'.
  assert (Hread : in_read i = ReadPkt (syn_pkt dot_tuple)) by reflexivity.
  assert (Hv6 : (ipver (pkt_tuple (syn_pkt dot_tuple)) =? 6)
                && negb (ipv6_enabled (ipv6 (proxy sample_world))) = false)
    by (vm_compute; reflexivity).
  destruct (blocked_connection_not_dropped (ndpi := sample_ndpi) i sample_world
              (syn_pkt dot_tuple) Hread Hv6) as (Hblocked & _).
  destruct Hblocked as (Hh & _ & _ & _ & _ & Hd & Hb); try (vm_compute; reflexivity).
  auto.
Defined.


Lemma ignored_connection_accounting_witness :
  let conn := open_conn probe_tuple 1 in
  let w' := account_packet (ndpi := sample_ndpi) sample_env probe_world [] 60 true conn in
  option_map sent_pkts (heap w' !! 1%nat) = Some 1
  /\ capture_stats (proxy w') = capture_stats (proxy probe_world)
  /\ host w' = host probe_world
  /\ conns_updates (proxy w') = conns_updates (proxy probe_world).
Proof.
  intros conn w'.
  assert (Hud : user_data conn = Some 1%nat) by reflexivity.
  assert (Hheap : heap probe_world !! 1%nat
                  = Some (set_dst_id true (set_src_id true
                            (set_ndpi_flow (Some zeroed_flow) zeroed_conn_data))))
    by (vm_compute; reflexivity).
  assert (Hver : ipver (conn_tuple conn) = 4) by reflexivity.
  assert (Hdst : ip4 (dst_ip (conn_tuple conn)) = vpn_dns (proxy probe_world))
    by (vm_compute; reflexivity).
  assert (Hport : ntohs (dst_port (conn_tuple conn)) <> 53) by (vm_compute; discriminate).
  destruct (ignored_connection_accounting (ndpi := sample_ndpi) sample_env probe_world [] 60
              true conn 1%nat _ Hud Hheap Hver Hdst Hport)
    as (d & Hh & Hsame & _ & Hcs & _ & Hhost & _ & _ & Hupd).
  fold w' in Hh, Hcs, Hhost, Hupd.
  split; [rewrite Hh, lookup_insert_eq; cbn [option_map]; destruct Hsame as (-> & _);
          reflexivity|].
  auto.
Defined.

(** ** A dump that fails half-way *)

(** C8 on a failing input.  Two connections are opened, so both records are
    flagged and sit in [new_conns].  When the dump is due, [dumpConnection]
    fails on the first slot: [sendConnectionsDump] has cleared the flag of
    the first record only, leaves the loop, and [conns_clear] empties both
    batches.  The second record is still flagged although it is in no batch.
    A later packet of that connection is counted but not queued in
    [conns_updates], and the host never receives a dump.  With a dump that
    succeeds the same run delivers the two new connections and then the
    update. *)
Theorem pending_flag_stuck_after_failed_dump :
  let r := packet_loop (ndpi := sample_ndpi) (dump_run dump_fails_on_new)
             sample_world sample_locals in
  let w := fst (fst r) in
  let w_ok := fst (fst (packet_loop (ndpi := sample_ndpi) (dump_run dump_succeeds)
                          sample_world sample_locals)) in
  snd r = 5%nat
  /\ option_map pending_notification (heap w !! 2%nat) = Some true
  /\ option_map rcvd_pkts (heap w !! 2%nat) = Some 1
  /\ in_batches 2 (proxy w) = 0%nat
  /\ dump_sizes (host w) = []
  /\ option_map pending_notification (heap w_ok !! 2%nat) = Some false
  /\ dump_sizes (host w_ok) = [(2%nat, 0%nat); (0%nat, 1%nat)].
Proof. vm_compute. repeat split. Qed.

(** ** The notification flag while the dumps succeed *)

Section Notification.
Context {ndpi : ndpi_api}.

(** While [realloc] succeeds [conns_add] appends the slot of the
    connection. *)
Lemma conns_add_slots (arr : conn_array_t) (conn : zdtun_conn) :
  batch_wf arr ->
  slots (conns_add true arr conn) = slots arr ++ [slot_of conn]
  /\ batch_wf (conns_add true arr conn).
Proof.
  unfold conns_add, batch_wf, slots, slot_of. intros (Hc & Hn).
  destruct (Z.geb_spec (cur_items arr) (arr_size arr)) as [Hge|Hlt].
  - simpl. rewrite length_app. simpl.
    split; [reflexivity|]. split; [lia | discriminate].
  - destruct (items arr) as [l|] eqn:Hi; simpl in *.
    + rewrite length_app. simpl. split; [reflexivity|]. split; [lia | discriminate].
    + exfalso. specialize (Hn eq_refl). lia.
Qed.

(** When [realloc] fails in a batch that is as [conns_add] and [conns_clear]
    leave it, the connection is not added: the block is gone, the capacity
    is doubled and the number of slots in use is as before. *)
Lemma conns_add_realloc_fails (arr : conn_array_t) (conn : zdtun_conn) :
  batch_wf arr -> arr_size arr <= cur_items arr ->
  conns_add false arr conn
  = mk_conn_array None (if arr_size arr =? 0 then 8 else arr_size arr * 2) (cur_items arr).
Proof.
  intros _ Hfull. unfold conns_add.
  destruct (Z.geb_spec (cur_items arr) (arr_size arr)) as [_|Hlt]; [reflexivity | lia].
Qed.

(** Whatever [realloc] answers, the slots of the batch after [conns_add] are
    slots it had before or the slot of the connection. *)
Lemma conns_add_forall (P : vpn_conn -> Prop) (ok : bool) (arr : conn_array_t)
    (conn : zdtun_conn) :
  Forall P (slots arr) -> P (slot_of conn) -> Forall P (slots (conns_add ok arr conn)).
Proof.
  intros Hall Hc. unfold conns_add.
  assert (Happ : forall l, Forall P l -> Forall P (l ++ [slot_of conn])).
  { intros l Hl. apply List.Forall_app. split; [exact Hl|]. constructor; [exact Hc | constructor]. }
  destruct (cur_items arr >=? arr_size arr).
  - destruct ok; unfold slots at 1; simpl; [apply Happ; exact Hall | constructor].
  - unfold slots in Hall. destruct (items arr) as [l|] eqn:Hi; simpl in *.
    + unfold slots. simpl. apply Happ. exact Hall.
    + unfold slots. rewrite Hi. constructor.
Qed.

Lemma batch_count_conns_add (b : addr) (arr : conn_array_t) (conn : zdtun_conn) :
  batch_wf arr ->
  batch_count b (slots (conns_add true arr conn))
  = (batch_count b (slots arr)
     + match user_data conn with
       | Some a => if Nat.eqb b a then 1 else 0
       | None => 0
       end)%nat.
Proof.
  intros Hwf. destruct (conns_add_slots arr conn Hwf) as (-> & _).
  unfold batch_count, slot_of.
  rewrite List.filter_app, length_app. simpl.
  destruct (user_data conn) as [a|]; [destruct (Nat.eqb b a)|]; reflexivity.
Qed.

Lemma batch_wf_empty : batch_wf (mk_conn_array None 0 0).
Proof. split; reflexivity. Qed.

(** A dump returns at once or leaves both batches empty. *)
Lemma sendConnectionsDump_batches (j : jni_dump_env) (w : world) :
  sendConnectionsDump j w = w
  \/ (new_conns (proxy (sendConnectionsDump j w)) = mk_conn_array None 0 0
      /\ conns_updates (proxy (sendConnectionsDump j w)) = mk_conn_array None 0 0).
Proof.
  unfold sendConnectionsDump, conns_clear.
  destruct (_ && _); [left; reflexivity|]. right.
  destruct (new_object_array_ok j); simpl.
  - destruct (dump_batch (dump_new_ok j) _ _ _ _) as [[ok1 h1] nd].
    destruct ok1; simpl.
    + destruct (dump_batch (dump_upd_ok j) _ _ _ _) as [[ok2 h2] ud].
      destruct ok2; simpl; tauto.
    + tauto.
  - tauto.
Qed.

(** With every [dumpConnection] succeeding, the loop of a dump completes and
    clears the flag of exactly the records of its batch. *)
Lemma dump_batch_all_ok (ok : nat -> bool) (l : list vpn_conn) (i : nat)
    (h : gmap addr conn_data) (acc : list (zdtun_5tuple * conn_data)) :
  (forall k, ok k = true) ->
  fst (fst (dump_batch ok i l h acc)) = true
  /\ forall b, snd (fst (dump_batch ok i l h acc)) !! b
               = if (0 <? batch_count b l)%nat
                 then option_map (set_pending_notification false) (h !! b)
                 else h !! b.
Proof.
  intros Hok. revert i h acc. induction l as [|slot rest IH]; intros i h acc; simpl.
  - split; [reflexivity|]. intros b. reflexivity.
  - unfold batch_count in *. simpl.
    destruct (slot_data slot) as [a|]; [|apply IH].
    destruct (h !! a) as [d|] eqn:Ha.
    + rewrite Hok. destruct (IH (S i) (<[a := set_pending_notification false d]> h)
                               (acc ++ [(slot_tuple slot, set_pending_notification false d)]))
        as (H1 & H2).
      split; [exact H1|]. intros b. rewrite H2.
      destruct (Nat.eqb_spec b a) as [->|Hne]; simpl.
      * rewrite lookup_insert_eq, Ha. simpl. destruct (_ <? _)%nat; reflexivity.
      * rewrite lookup_insert_ne by congruence. reflexivity.
    + destruct (IH (S i) h acc) as (H1 & H2). split; [exact H1|].
      intros b. rewrite H2.
      destruct (Nat.eqb_spec b a) as [->|Hne]; simpl; [|reflexivity].
      rewrite Ha. destruct (_ <? _)%nat; reflexivity.
Qed.

Lemma notification_invariant_frame (w w' : world) :
  heap w' = heap w ->
  new_conns (proxy w') = new_conns (proxy w) ->
  conns_updates (proxy w') = conns_updates (proxy w) ->
  notification_invariant w -> notification_invariant w'.
Proof.
  unfold notification_invariant, in_batches. intros -> -> ->. auto.
Qed.

(** Storing at [a] a record whose flag tells whether [a] was just queued. *)
Lemma notification_invariant_store (w w' : world) (a : addr) (d' : conn_data) (added : bool) :
  notification_invariant w ->
  heap w' = <[a := d']> (heap w) ->
  (forall b, in_batches b (proxy w')
             = (in_batches b (proxy w) + if added && Nat.eqb b a then 1 else 0)%nat) ->
  (if added then in_batches a (proxy w) = 0%nat /\ pending_notification d' = true
   else pending_notification d' = true <-> in_batches a (proxy w) = 1%nat) ->
  notification_invariant w'.
Proof.
  intros (I1 & I2 & I3) Hh Hb Hcase.
  unfold notification_invariant. rewrite Hh.
  split; [|split].
  - intros b d Hd. rewrite Hb.
    destruct (decide (a = b)) as [<-|Hne].
    + rewrite lookup_insert_eq in Hd. injection Hd as <-.
      rewrite Nat.eqb_refl. destruct added; simpl.
      * destruct Hcase as (H0 & Hp). rewrite H0, Hp. tauto.
      * rewrite Nat.add_0_r. exact Hcase.
    + rewrite lookup_insert_ne in Hd by exact Hne.
      destruct (Nat.eqb_spec b a) as [->|_]; [contradiction|].
      rewrite andb_false_r, Nat.add_0_r. apply I1. exact Hd.
  - intros b. rewrite Hb. destruct added; simpl.
    + destruct Hcase as (H0 & _).
      destruct (Nat.eqb_spec b a) as [->|_]; [rewrite H0; lia|].
      rewrite Nat.add_0_r. apply I2.
    + rewrite Nat.add_0_r. apply I2.
  - intros b Hnone. rewrite Hb.
    destruct (decide (a = b)) as [<-|Hne].
    + rewrite lookup_insert_eq in Hnone. discriminate.
    + rewrite lookup_insert_ne in Hnone by exact Hne.
      destruct (Nat.eqb_spec b a) as [->|_]; [contradiction|].
      rewrite andb_false_r, Nat.add_0_r. apply I3. exact Hnone.
Qed.

Lemma not_pending_not_queued (w : world) (a : addr) (d : conn_data) :
  notification_invariant w -> heap w !! a = Some d ->
  pending_notification d = false -> in_batches a (proxy w) = 0%nat.
Proof.
  intros (I1 & I2 & _) Ha Hp. specialize (I1 a d Ha). specialize (I2 a).
  destruct (in_batches a (proxy w)) as [|[|n]]; [reflexivity| |lia].
  destruct I1 as [_ I1]. rewrite I1 in Hp by reflexivity. discriminate.
Qed.

(** Every call of a well-behaved environment keeps the batches as
    [conns_add] and [conns_clear] leave them. *)
Lemma core_step_batches_wf (c : core_call) (w : world) :
  batches_wf w -> call_ok w c -> batches_wf (core_step c w).
Proof.
  intros (Wn & Wu) Hok. unfold batches_wf.
  destruct c as [e conn | cb | j | e | ok stats]; simpl in *.
  - destruct Hok as (Hre & _).
    destruct (handle_new_connection_frame e w conn) as (_&_&_&_& Hu & _).
    rewrite Hu. split; [|exact Wu].
    destruct (handle_new_connection_heap e w conn)
      as [(_ & _ & Hn & _) | (a & d & _ & _ & _ & _ & _ & Hcase)].
    + rewrite Hn. exact Wn.
    + destruct (shouldIgnoreConn (proxy w) (conn_tuple conn)).
      * destruct Hcase as (_ & _ & Hn & _). rewrite Hn. exact Wn.
      * destruct Hcase as (_ & _ & Hn & _). rewrite Hn, Hre.
        apply conns_add_slots. exact Wn.
  - destruct cb as [wr sz | e packet len from_tun conn | e conn]; simpl in *.
    + split; assumption.
    + destruct (user_data conn) as [a|] eqn:Hud;
        [|unfold account_packet; rewrite Hud; split; assumption].
      destruct (heap w !! a) as [data|] eqn:Ha;
        [|unfold account_packet; rewrite Hud, Ha; split; assumption].
      destruct (account_packet_frame e w packet len from_tun conn) as (_&_&_&_& Hn & _).
      destruct (account_packet_heap e w packet len from_tun conn a data Hud Ha) as (_ & Hu).
      rewrite Hn, Hu, Hok. split; [exact Wn|].
      destruct (_ && _); [apply conns_add_slots|]; exact Wu.
    + destruct (user_data conn) as [a|] eqn:Hud;
        [|unfold destroy_connection; rewrite Hud; split; assumption].
      destruct (heap w !! a) as [data|] eqn:Ha;
        [|unfold destroy_connection; rewrite Hud, Ha; split; assumption].
      destruct (destroy_connection_frame e w conn) as (_&_&_&_&_& Hn & _).
      destruct (destroy_connection_heap e w conn a data Hud Ha) as (_ & Hu).
      rewrite Hn, Hu, Hok. split; [exact Wn|].
      destruct (_ && _); [apply conns_add_slots|]; exact Wu.
  - destruct (sendConnectionsDump_batches j w) as [->|(-> & ->)];
      split; first [assumption | apply batch_wf_empty].
  - destruct (javaPcapDump_frame e w) as (_ & _ & _ & _ & _ & Hn & Hu & _).
    rewrite Hn, Hu. split; assumption.
  - destruct (sendVPNStats_frame ok stats w) as (_ & _ & _ & Hp).
    rewrite Hp. split; assumption.
Qed.

(** Every call of a well-behaved environment keeps the invariant. *)
Lemma core_step_notification (c : core_call) (w : world) :
  notification_invariant w -> batches_wf w -> call_ok w c ->
  notification_invariant (core_step c w).
Proof.
  intros Hinv (Wn & Wu) Hok.
  destruct c as [e conn | cb | j | e | ok stats]; simpl in *.
  - destruct Hok as (Hre & Hok).
    destruct (handle_new_connection_frame e w conn) as (_&_&_&_& Hu & _).
    destruct (handle_new_connection_heap e w conn)
      as [(_ & Hh & Hn & _) | (a & d & _ & Hc & Hud & _ & Hh & Hcase)].
    + eapply notification_invariant_frame; eauto.
    + rewrite Hc in Hok.
      assert (H0 : in_batches a (proxy w) = 0%nat) by (apply Hinv; exact Hok).
      destruct (shouldIgnoreConn (proxy w) (conn_tuple conn)).
      * destruct Hcase as (_ & Hp & Hn & _).
        apply (notification_invariant_store w _ a d false Hinv Hh).
        -- intros b. unfold in_batches. rewrite Hn, Hu. simpl. lia.
        -- rewrite Hp, H0. split; discriminate.
      * destruct Hcase as (_ & Hp & Hn & _).
        apply (notification_invariant_store w _ a d true Hinv Hh).
        -- intros b. unfold in_batches.
           rewrite Hn, Hu, Hre, (batch_count_conns_add _ _ _ Wn), Hud.
           simpl. destruct (Nat.eqb b a); lia.
        -- split; assumption.
  - destruct cb as [wr sz | e packet len from_tun conn | e conn]; simpl in *.
    + eapply notification_invariant_frame; eauto.
    + destruct (user_data conn) as [a|] eqn:Hud;
        [|unfold account_packet; rewrite Hud; exact Hinv].
      destruct (heap w !! a) as [data|] eqn:Ha;
        [|unfold account_packet; rewrite Hud, Ha; exact Hinv].
      destruct (account_packet_frame e w packet len from_tun conn) as (_&_&_&_& Hn & _).
      destruct (account_packet_heap e w packet len from_tun conn a data Hud Ha) as (Hh & Hu).
      destruct (account_conn_frame e data (ip_to_host (proxy w)) packet len from_tun conn)
        as (_ & Hp).
      set (queue := negb (shouldIgnoreConn (proxy w) (conn_tuple conn))
                    && negb (pending_notification data)) in *.
      apply (notification_invariant_store w _ a _ queue Hinv Hh).
      * intros b. unfold in_batches. rewrite Hn, Hu.
        destruct queue; [|simpl; lia].
        rewrite Hok, (batch_count_conns_add _ _ _ Wu), Hud.
        simpl. destruct (Nat.eqb b a); lia.
      * destruct queue eqn:Hq; simpl.
        -- split; [|reflexivity]. apply (not_pending_not_queued w a data Hinv Ha).
           subst queue. apply andb_true_iff in Hq as [_ Hq]. apply negb_true_iff in Hq. exact Hq.
        -- rewrite Hp. apply Hinv. exact Ha.
    + apply (notification_invariant_frame (destroy_connection e w conn)); try reflexivity.
      destruct (user_data conn) as [a|] eqn:Hud;
        [|unfold destroy_connection; rewrite Hud; exact Hinv].
      destruct (heap w !! a) as [data|] eqn:Ha;
        [|unfold destroy_connection; rewrite Hud, Ha; exact Hinv].
      destruct (destroy_connection_frame e w conn) as (_&_&_&_&_& Hn & _).
      destruct (destroy_connection_heap e w conn a data Hud Ha) as (Hh & Hu).
      destruct (end_ndpi_detection_frame e data (ip_to_host (proxy w)))
        as ((_&_&_&_&_&_&_&_&_& Hp) & _).
      set (queue := negb (pending_notification data)
                    && negb (shouldIgnoreConn (proxy w) (conn_tuple conn))) in *.
      apply (notification_invariant_store w _ a _ queue Hinv Hh).
      * intros b. unfold in_batches. rewrite Hn, Hu.
        destruct queue; [|simpl; lia].
        rewrite Hok, (batch_count_conns_add _ _ _ Wu), Hud.
        simpl. destruct (Nat.eqb b a); lia.
      * destruct queue eqn:Hq; simpl.
        -- split; [|reflexivity]. apply (not_pending_not_queued w a data Hinv Ha).
           subst queue. apply andb_true_iff in Hq as [Hq _]. apply negb_true_iff in Hq. exact Hq.
        -- rewrite Hp. apply Hinv. exact Ha.
  - destruct Hok as (Harr & Hnew & Hupd).
    unfold sendConnectionsDump.
    destruct (_ && _); [exact Hinv|]. rewrite Harr.
    destruct (dump_batch_all_ok (dump_new_ok j) (slots (new_conns (proxy w))) 0 (heap w) [] Hnew)
      as (Hs1 & Hl1).
    destruct (dump_batch (dump_new_ok j) _ _ _ _) as [[ok1 h1] nd]. simpl in Hs1, Hl1.
    subst ok1.
    destruct (dump_batch_all_ok (dump_upd_ok j) (slots (conns_updates (proxy w))) 0 h1 [] Hupd)
      as (Hs2 & Hl2).
    destruct (dump_batch (dump_upd_ok j) _ _ _ _) as [[ok2 h2] ud]. simpl in Hs2, Hl2.
    subst ok2. unfold conns_clear. simpl.
    unfold notification_invariant, in_batches. simpl.
    assert (Hempty : forall a, batch_count a [] = 0%nat) by reflexivity.
    split; [|split; [intros a; rewrite Hempty; lia | intros a _; apply Hempty]].
    intros a d Hd. rewrite Hempty. split; [|discriminate]. intros Hp. exfalso.
    do 2 apply conns_clear_items_lookup in Hd.
    rewrite Hl2, Hl1 in Hd.
    destruct (0 <? batch_count a (slots (conns_updates (proxy w))))%nat eqn:Hcu.
    { destruct (if (0 <? _)%nat then _ else _) as [x|]; simpl in Hd; [|discriminate].
      injection Hd as <-. discriminate. }
    destruct (0 <? batch_count a (slots (new_conns (proxy w))))%nat eqn:Hcn.
    { destruct (heap w !! a) as [x|]; simpl in Hd; [|discriminate].
      injection Hd as <-. discriminate. }
    apply Nat.ltb_ge in Hcu, Hcn.
    destruct Hinv as (I1 & _). apply (I1 a d Hd) in Hp. unfold in_batches in Hp. lia.
  - destruct (javaPcapDump_frame e w) as (_ & Hh & _ & _ & _ & Hn & Hu & _).
    eapply notification_invariant_frame; eauto.
  - destruct (sendVPNStats_frame ok stats w) as (_ & Hh & _ & Hp).
    eapply notification_invariant_frame; eauto; rewrite Hp; reflexivity.
Qed.

Lemma batches_wf_frame (w w' : world) :
  new_conns (proxy w') = new_conns (proxy w) ->
  conns_updates (proxy w') = conns_updates (proxy w) ->
  batches_wf w -> batches_wf w'.
Proof. unfold batches_wf. intros -> ->. auto. Qed.

(** Both invariants along a list of calls. *)
Lemma core_step_kept (c : core_call) (w : world) :
  notification_invariant w /\ batches_wf w -> call_ok w c ->
  notification_invariant (core_step c w) /\ batches_wf (core_step c w).
Proof.
  intros (Hinv & Hwf) Hok.
  split; [apply core_step_notification | apply core_step_batches_wf]; assumption.
Qed.

Lemma run_callbacks_notification (cbs : list nat_callback) (w : world) :
  notification_invariant w /\ batches_wf w -> Forall callback_ok cbs ->
  notification_invariant (run_callbacks cbs w) /\ batches_wf (run_callbacks cbs w).
Proof.
  revert w. induction cbs as [|cb cbs IH]; intros w Hinv Hok; [exact Hinv|].
  inversion Hok as [|cb' cbs' Hcb Hrest]; subst.
  apply IH; [|exact Hrest]. apply (core_step_kept (CallNat cb) w Hinv Hcb).
Qed.

Lemma kept_frame (w w' : world) :
  heap w' = heap w ->
  new_conns (proxy w') = new_conns (proxy w) ->
  conns_updates (proxy w') = conns_updates (proxy w) ->
  notification_invariant w /\ batches_wf w ->
  notification_invariant w' /\ batches_wf w'.
Proof.
  intros Hh Hn Hu (Hinv & Hwf).
  split; [eapply notification_invariant_frame | eapply batches_wf_frame]; eauto.
Qed.

Lemma packet_from_vpn_notification (i : iter_input) (w : world) :
  notification_invariant w /\ batches_wf w ->
  match calloc_conn_data (in_new_conn i) with
  | Some a => heap w !! a = None
  | None => True
  end ->
  nc_realloc_ok (in_new_conn i) = true ->
  realloc_ok (in_env i) = true ->
  Forall callback_ok (in_forward_cbs i) ->
  notification_invariant (packet_from_vpn i w) /\ batches_wf (packet_from_vpn i w).
Proof.
  intros Hinv Hfresh Hre Hree Hfwd. unfold packet_from_vpn.
  destruct (in_read i) as [| | |pkt]; try exact Hinv.
  assert (H0 : notification_invariant (with_last_pkt pkt w) /\ batches_wf (with_last_pkt pkt w))
    by (eapply kept_frame; eauto).
  destruct (_ && _); [exact H0|].
  assert (Hl : let x := snd (zdtun_lookup (in_lookup_fails i) (in_new_conn i)
                               (with_last_pkt pkt w) (pkt_tuple pkt)
                               (negb (is_tcp_established pkt))) in
               notification_invariant x /\ batches_wf x).
  { unfold zdtun_lookup. destruct (table_find _ _); [exact H0|].
    destruct (_ && _); [|exact H0].
    pose proof (core_step_kept
                  (CallConnectionOpen (in_new_conn i)
                     (mk_conn (pkt_tuple pkt) CONN_STATUS_NEW None false false))
                  (with_last_pkt pkt w) H0 (conj Hre Hfresh)) as Hs.
    simpl in Hs.
    destruct (handle_new_connection _ _ _) as [[rv c] w1]. simpl in Hs.
    destruct (rv =? 0); [|exact Hs].
    eapply kept_frame; [| | |exact Hs]; reflexivity. }
  cbv zeta in Hl.
  destruct (zdtun_lookup _ _ _ _ _) as [[c|] w1]; simpl in Hl.
  - cbv zeta.
    match goal with |- context [run_callbacks ?cbs ?x] =>
      assert (Hc : notification_invariant (run_callbacks cbs x)
                   /\ batches_wf (run_callbacks cbs x));
      [apply run_callbacks_notification; [|exact Hfwd];
       eapply kept_frame; [| | |exact Hl]; reflexivity|];
      generalize dependent (run_callbacks cbs x) end.
    intros w2 Hc. destruct (negb _); [|exact Hc].
    match goal with |- notification_invariant (zdtun_destroy_conn ?e ?x ?c0) /\ _ =>
      apply (core_step_kept (CallNat (CbConnectionClose e c0)) x); [|exact Hree] end.
    eapply kept_frame; [| | |exact Hc]; reflexivity.
  - destruct (last_conn_blocked _); [exact Hl|].
    destruct (negb _); [|exact Hl].
    eapply kept_frame; [| | |exact Hl]; reflexivity.
Qed.

Lemma housekeeping_notification (i : iter_input) (w : world) (loc : loop_locals) :
  notification_invariant w /\ batches_wf w -> dump_ok (in_dump_jni i) ->
  Forall callback_ok (in_purge_cbs i) ->
  notification_invariant (fst (fst (housekeeping i w loc)))
  /\ batches_wf (fst (fst (housekeeping i w loc))).
Proof.
  intros Hinv Hok Hpurge. unfold housekeeping.
  destruct (vpn_stats_due _ _); simpl.
  { match goal with |- context [sendVPNStats ?a ?b ?x] =>
      destruct (sendVPNStats_frame a b x) as (_ & Hh & _ & Hp) end.
    eapply kept_frame; [| | |exact Hinv]; simpl;
      rewrite ?Hh, ?Hp; reflexivity. }
  destruct (connections_dump_due _ _); simpl.
  { apply (core_step_kept (CallConnectionsDump (in_dump_jni i)) w Hinv Hok). }
  destruct (pcap_dump_due _ _); simpl.
  { apply (core_step_kept (CallPcapDump (in_env i)) w Hinv I). }
  destruct (purge_due _ _ _); simpl; [|exact Hinv].
  apply run_callbacks_notification; [|exact Hpurge].
  eapply kept_frame; [| | |exact Hinv]; reflexivity.
Qed.

Lemma packet_loop_notification (ins : list iter_input) (w : world) (loc : loop_locals) :
  notification_invariant w /\ batches_wf w -> loop_ok ins w loc ->
  notification_invariant (fst (fst (packet_loop ins w loc)))
  /\ batches_wf (fst (fst (packet_loop ins w loc))).
Proof.
  revert w loc. induction ins as [|i rest IH]; intros w loc Hinv Hok; [exact Hinv|].
  simpl in *. destruct (running (glob w)); [|exact Hinv].
  unfold loop_body in *.
  destruct (negb (running _)).
  { eapply kept_frame; [| | |exact Hinv]; reflexivity. }
  match goal with |- context [housekeeping i ?x loc] =>
    assert (Hk : iter_ok i w ->
                 notification_invariant (fst (fst (housekeeping i x loc)))
                 /\ batches_wf (fst (fst (housekeeping i x loc)))) end.
  { intros (Hd & Hf & Hre & Hree & Hfwd & Hfd & Hpurge).
    apply housekeeping_notification; [|exact Hd | exact Hpurge].
    destruct (in_tun_ready i).
    - apply packet_from_vpn_notification; try assumption.
    - apply run_callbacks_notification; [|exact Hfd].
      eapply kept_frame; [| | |exact Hinv]; reflexivity. }
  destruct (housekeeping _ _ _) as [[w1 loc1] t]. simpl in Hk.
  destruct Hok as (Hit & Hrest).
  specialize (IH w1 loc1 (Hk Hit) Hrest).
  destruct (packet_loop rest w1 loc1) as [[w2 loc2] n]. exact IH.
Qed.


End Notification.

(** ** The batches of connections *)

Section Batches.
Context {ndpi : ndpi_api}.

Lemma conns_add_items (arr : conn_array_t) (conn : zdtun_conn) :
  batch_wf arr -> slots (conns_add true arr conn) = slots arr ++ [slot_of conn].
Proof. intros Hwf. apply conns_add_slots. exact Hwf. Qed.

Lemma conns_add_step (arr : conn_array_t) (conn : zdtun_conn) :
  batch_wf arr ->
  cur_items arr <= arr_size arr ->
  arr_size arr = 0 \/ arr_size arr = 8 \/ arr_size arr < 2 * cur_items arr ->
  cur_items (conns_add true arr conn) = cur_items arr + 1
  /\ cur_items (conns_add true arr conn) <= arr_size (conns_add true arr conn)
  /\ (arr_size (conns_add true arr conn) = 8
      \/ arr_size (conns_add true arr conn) < 2 * cur_items (conns_add true arr conn)).
Proof.
  intros (Hc & Hn) Hle Hsz.
  assert (H0 : 0 <= cur_items arr) by lia.
  unfold conns_add.
  destruct (Z.geb_spec (cur_items arr) (arr_size arr)) as [Hge|Hlt].
  - simpl. destruct (Z.eqb_spec (arr_size arr) 0) as [Hz|Hnz]; lia.
  - destruct (items arr) as [l|]; [simpl; lia|].
    specialize (Hn eq_refl). lia.
Qed.

(** A batch filled from empty by [conns_add], with [realloc] succeeding,
    holds the connections in the order they were added; it counts them, the
    used slots never exceed the capacity, and the capacity is 8 or less than
    twice the number of used slots. *)
Theorem conns_add_capacity (conns : list zdtun_conn) :
  let arr := fold_left (conns_add true) conns (mk_conn_array None 0 0) in
  slots arr = map slot_of conns
  /\ cur_items arr = Z.of_nat (length conns)
  /\ cur_items arr <= arr_size arr
  /\ (conns = [] /\ arr_size arr = 0
      \/ arr_size arr = 8
      \/ arr_size arr < 2 * cur_items arr).
Proof.
  assert (Hgen : forall (l : list zdtun_conn) (arr : conn_array_t),
            batch_wf arr ->
            cur_items arr <= arr_size arr ->
            arr_size arr = 0 \/ arr_size arr = 8 \/ arr_size arr < 2 * cur_items arr ->
            let arr' := fold_left (conns_add true) l arr in
            slots arr' = slots arr ++ map slot_of l
            /\ batch_wf arr'
            /\ cur_items arr' <= arr_size arr'
            /\ (l = [] /\ arr_size arr' = arr_size arr
                \/ arr_size arr' = 8
                \/ arr_size arr' < 2 * cur_items arr')).
  { induction l as [|c l IH]; intros arr Hwf Hle Hsz; simpl.
    - rewrite app_nil_r. tauto.
    - destruct (conns_add_step arr c Hwf Hle Hsz) as (_ & Hle' & Hsz').
      destruct (conns_add_slots arr c Hwf) as (Hsl & Hwf').
      destruct (IH (conns_add true arr c) Hwf' Hle' (or_intror Hsz')) as (Hi & Hw & Hl & Hs).
      rewrite Hi, Hsl, <- app_assoc. simpl.
      split; [reflexivity|]. split; [exact Hw|]. split; [exact Hl|].
      destruct Hs as [(-> & Hs)|Hs]; [|tauto].
      simpl in *. right. exact Hsz'. }
  intros arr. subst arr.
  destruct (Hgen conns (mk_conn_array None 0 0)) as (Hi & (Hc & _) & Hl & Hs);
    [apply batch_wf_empty | simpl; lia | left; reflexivity |].
  simpl in Hi, Hs. rewrite Hc, Hi, length_map in *.
  split; [reflexivity|]. split; [reflexivity|]. split; [exact Hl|].
  destruct Hs as [(-> & Hs)|Hs]; [left; split; [reflexivity | exact Hs] | right; exact Hs].
Qed.

Lemma batch_count_cons (a : addr) (s : vpn_conn) (l : list vpn_conn) :
  batch_count a (s :: l)
  = ((match slot_data s with
      | Some b => if Nat.eqb a b then 1 else 0
      | None => 0
      end) + batch_count a l)%nat.
Proof.
  unfold batch_count. simpl.
  destruct (slot_data s) as [b|]; [destruct (Nat.eqb a b)|]; reflexivity.
Qed.

(** What the loop of [conns_clear] leaves of the heap. *)
Lemma conns_clear_items_spec (l : list vpn_conn) (free_all : bool)
    (h : gmap addr conn_data) (a : addr) :
  conns_clear_items l free_all h !! a
  = match h !! a with
    | Some d =>
        if (0 <? batch_count a l)%nat && ((status d >=? CONN_STATUS_CLOSED) || free_all)
        then None else Some d
    | None => None
    end.
Proof.
  revert h. induction l as [|s l IH]; intros h.
  - simpl. destruct (h !! a); reflexivity.
  - rewrite batch_count_cons. simpl.
    destruct (slot_data s) as [b|]; [|apply IH].
    destruct (Nat.eqb_spec a b) as [->|Hne].
    + destruct (h !! b) as [d|] eqn:Hb.
      * destruct ((status d >=? CONN_STATUS_CLOSED) || free_all) eqn:Hc.
        -- rewrite IH. unfold free_connection_data. rewrite lookup_delete_eq. reflexivity.
        -- rewrite IH, Hb, Hc, !andb_false_r. reflexivity.
      * rewrite IH, Hb. reflexivity.
    + destruct (h !! b) as [d|] eqn:Hb; [|apply IH].
      destruct ((status d >=? CONN_STATUS_CLOSED) || free_all); [|apply IH].
      rewrite IH. unfold free_connection_data. rewrite lookup_delete_ne by congruence.
      reflexivity.
Qed.

(** [conns_clear] empties the batch.  Of a record that is in at most one of
    its slots it frees the block exactly when the record is in the batch
    and its connection is closed, or [free_all] is set; otherwise the
    record stays as it is. *)
Theorem conns_clear_frees (arr : conn_array_t) (free_all : bool)
    (h : gmap addr conn_data) (a : addr) :
  (batch_count a (slots arr) <= 1)%nat ->
  cur_items (fst (conns_clear arr free_all h)) = 0
  /\ arr_size (fst (conns_clear arr free_all h)) = 0
  /\ snd (conns_clear arr free_all h) !! a
     = match h !! a with
       | Some d =>
           if (0 <? batch_count a (slots arr))%nat
              && ((status d >=? CONN_STATUS_CLOSED) || free_all)
           then None else Some d
       | None => None
       end.
Proof.
  intros _. split; [reflexivity|]. split; [reflexivity|].
  apply conns_clear_items_spec.
Qed.

Lemma described_cons (h : gmap addr conn_data) (s : vpn_conn) (l : list vpn_conn) :
  described h (s :: l)
  = match slot_data s with
    | Some a =>
        match h !! a with
        | Some d => [(slot_tuple s, set_pending_notification false d)]
        | None => []
        end
    | None => []
    end ++ described h l.
Proof. reflexivity. Qed.

Lemma described_pending_cleared (h h' : gmap addr conn_data) (l : list vpn_conn) :
  pending_cleared h h' -> described h' l = described h l.
Proof.
  intros Hpc. unfold described. induction l as [|s l IH]; [reflexivity|].
  simpl. rewrite IH. f_equal.
  destruct (slot_data s) as [a|]; [|reflexivity].
  destruct (Hpc a) as [->|(d & -> & ->)]; reflexivity.
Qed.

Lemma pending_cleared_insert (h : gmap addr conn_data) (a : addr) (d : conn_data) :
  h !! a = Some d -> pending_cleared h (<[a := set_pending_notification false d]> h).
Proof.
  intros Ha b. destruct (decide (a = b)) as [->|Hne].
  - right. exists d. rewrite lookup_insert_eq. auto.
  - left. apply lookup_insert_ne. exact Hne.
Qed.

(** With every [dumpConnection] succeeding, a loop of the dump serializes
    the live records of its batch in the order of the slots. *)
Lemma dump_batch_described (ok : nat -> bool) (l : list vpn_conn) (i : nat)
    (h : gmap addr conn_data) (acc : list (zdtun_5tuple * conn_data)) :
  (forall k, ok k = true) ->
  snd (dump_batch ok i l h acc) = acc ++ described h l.
Proof.
  intros Hok. revert i h acc. induction l as [|s l IH]; intros i h acc.
  - simpl. rewrite app_nil_r. reflexivity.
  - rewrite described_cons. cbn [dump_batch].
    destruct (slot_data s) as [a|].
    + destruct (h !! a) as [d|] eqn:Ha.
      * rewrite Hok, IH.
        rewrite (described_pending_cleared h _ l (pending_cleared_insert h a d Ha)).
        rewrite <- app_assoc. reflexivity.
      * rewrite IH. reflexivity.
    + rewrite IH. reflexivity.
Qed.

(** The test at the head of [sendConnectionsDump] on batches that are as
    [conns_add] and [conns_clear] leave them: it holds exactly when no slot
    is in use. *)
Lemma batches_empty_slots (w : world) :
  batches_wf w ->
  (cur_items (new_conns (proxy w)) =? 0) && (cur_items (conns_updates (proxy w)) =? 0) = true ->
  slots (new_conns (proxy w)) = [] /\ slots (conns_updates (proxy w)) = [].
Proof.
  intros ((Hn & _) & (Hu & _)) He. apply andb_true_iff in He as [H1 H2].
  apply Z.eqb_eq in H1, H2. rewrite Hn in H1. rewrite Hu in H2.
  destruct (slots (new_conns (proxy w))); [|simpl in H1; lia].
  destruct (slots (conns_updates (proxy w))); [|simpl in H2; lia].
  split; reflexivity.
Qed.

Lemma batches_empty (w : world) :
  batches_wf w ->
  let e := (cur_items (new_conns (proxy w)) =? 0)
           && (cur_items (conns_updates (proxy w)) =? 0) in
  (e = true /\ slots (new_conns (proxy w)) = [] /\ slots (conns_updates (proxy w)) = [])
  \/ (e = false
      /\ (slots (new_conns (proxy w)) <> [] \/ slots (conns_updates (proxy w)) <> [])).
Proof.
  intros Hwf e. destruct e eqn:He; subst e.
  - left. split; [reflexivity|]. apply batches_empty_slots; assumption.
  - right. split; [reflexivity|].
    destruct Hwf as ((Hn & _) & (Hu & _)).
    apply andb_false_iff in He as [H|H]; apply Z.eqb_neq in H; [left | right];
      intros Hnil; rewrite Hnil in *; simpl in *; lia.
Qed.

(** The result of a dump in which no JNI call fails. *)
Lemma sendConnectionsDump_ok (j : jni_dump_env) (w : world) :
  dump_ok j ->
  (cur_items (new_conns (proxy w)) =? 0) && (cur_items (conns_updates (proxy w)) =? 0) = false ->
  let h2 := snd (fst (dump_batch (dump_upd_ok j) 0 (slots (conns_updates (proxy w)))
                        (snd (fst (dump_batch (dump_new_ok j) 0 (slots (new_conns (proxy w)))
                                     (heap w) []))) [])) in
  sendConnectionsDump j w
  = mk_world (glob w)
      (set_conns_updates (mk_conn_array None 0 0) (set_new_conns (mk_conn_array None 0 0) (proxy w)))
      (conns_clear_items (slots (conns_updates (proxy w))) false
         (conns_clear_items (slots (new_conns (proxy w))) false h2))
      (tun w)
      (host w ++ [SendConnectionsDump (described (heap w) (slots (new_conns (proxy w))))
                    (described (heap w) (slots (conns_updates (proxy w))))]).
Proof.
  intros (Harr & Hnew & Hupd) Hne h2. subst h2.
  unfold sendConnectionsDump. rewrite Hne, Harr.
  pose proof (dump_batch_all_ok (dump_new_ok j) (slots (new_conns (proxy w))) 0 (heap w) [] Hnew)
    as (Hok1 & _).
  pose proof (dump_batch_described (dump_new_ok j) (slots (new_conns (proxy w))) 0 (heap w) [] Hnew)
    as Hd1.
  pose proof (dump_batch_pending_cleared (dump_new_ok j) (slots (new_conns (proxy w))) 0
                (heap w) []) as Hpc1.
  destruct (dump_batch (dump_new_ok j) 0 (slots (new_conns (proxy w))) (heap w) [])
    as [[ok1 h1] nd]. simpl in Hok1, Hd1, Hpc1. subst ok1 nd.
  pose proof (dump_batch_all_ok (dump_upd_ok j) (slots (conns_updates (proxy w))) 0 h1 [] Hupd)
    as (Hok2 & _).
  pose proof (dump_batch_described (dump_upd_ok j) (slots (conns_updates (proxy w))) 0 h1 [] Hupd)
    as Hd2.
  rewrite (described_pending_cleared (heap w) h1 _ Hpc1) in Hd2.
  destruct (dump_batch (dump_upd_ok j) 0 (slots (conns_updates (proxy w))) h1 [])
    as [[ok2 h2] ud] eqn:E2. simpl in Hok2, Hd2. subst ok2 ud.
  destruct w as [g p h t o]. simpl in E2 |- *. rewrite ?E2. reflexivity.
Qed.

Lemma described_live (h : gmap addr conn_data) (l : list vpn_conn) :
  slots_live h l -> map fst (described h l) = map slot_tuple l.
Proof.
  induction l as [|s l IH]; [reflexivity|].
  intros Hl. inversion Hl as [|s' l' Hs Hrest]; subst.
  rewrite described_cons, map_app, (IH Hrest).
  destruct (slot_data s) as [b|]; [|contradiction].
  destruct (h !! b) as [d|]; [reflexivity | contradiction].
Qed.

(** When no JNI call fails, something is queued and every slot of the two
    batches points to a live record, a dump hands the host one report: one
    descriptor for each slot of [new_conns], then one for each slot of
    [conns_updates], each batch in the order in which the connections were
    queued and each record with its current counters and its flag cleared;
    both batches are empty afterwards.  The batches are as [conns_add] and
    [conns_clear] leave them while [realloc] does not fail: [cur_items]
    counts the slots of the block (after a failed [realloc] the loops of the
    dump would read through a null pointer). *)
Theorem connections_dump_delivers (j : jni_dump_env) (w : world) :
  dump_ok j ->
  batches_wf w ->
  slots (new_conns (proxy w)) <> [] \/ slots (conns_updates (proxy w)) <> [] ->
  slots_live (heap w) (slots (new_conns (proxy w))) ->
  slots_live (heap w) (slots (conns_updates (proxy w))) ->
  let w' := sendConnectionsDump j w in
  let nd := described (heap w) (slots (new_conns (proxy w))) in
  let ud := described (heap w) (slots (conns_updates (proxy w))) in
  host w' = host w ++ [SendConnectionsDump nd ud]
  /\ map fst nd = map slot_tuple (slots (new_conns (proxy w)))
  /\ map fst ud = map slot_tuple (slots (conns_updates (proxy w)))
  /\ slots (new_conns (proxy w')) = []
  /\ slots (conns_updates (proxy w')) = [].
Proof.
  intros Hok Hwf Hne Hln Hlu w' nd ud. subst w' nd ud.
  rewrite (described_live _ _ Hln), (described_live _ _ Hlu).
  rewrite sendConnectionsDump_ok; [simpl; tauto | exact Hok |].
  destruct (batches_empty w Hwf) as [(He & _)|(He & _)]; [|exact He].
  exfalso. apply batches_empty_slots in He; [|exact Hwf].
  destruct He as (H1 & H2). destruct Hne as [H|H]; contradiction.
Qed.

(** The heap after a dump in which no JNI call fails. *)
Lemma sendConnectionsDump_ok_heap (j : jni_dump_env) (w : world) (a : addr) :
  dump_ok j ->
  batches_wf w ->
  heap (sendConnectionsDump j w) !! a
  = match heap w !! a with
    | Some d =>
        if queued a (proxy w)
        then (if status d >=? CONN_STATUS_CLOSED then None
              else Some (set_pending_notification false d))
        else Some d
    | None => None
    end.
Proof.
  intros Hok Hwf. unfold queued, in_batches.
  destruct ((cur_items (new_conns (proxy w)) =? 0)
            && (cur_items (conns_updates (proxy w)) =? 0)) eqn:Hempty.
  - unfold sendConnectionsDump. rewrite Hempty.
    destruct (batches_empty_slots w Hwf Hempty) as (-> & ->).
    simpl. destruct (heap w !! a); reflexivity.
  - rewrite (sendConnectionsDump_ok j w Hok Hempty). simpl.
    destruct Hok as (_ & Hnew & Hupd).
    rewrite !conns_clear_items_spec.
    destruct (dump_batch_all_ok (dump_new_ok j) (slots (new_conns (proxy w))) 0 (heap w) [] Hnew)
      as (_ & H1).
    destruct (dump_batch_all_ok (dump_upd_ok j) (slots (conns_updates (proxy w))) 0
                (snd (fst (dump_batch (dump_new_ok j) 0 (slots (new_conns (proxy w)))
                             (heap w) []))) [] Hupd) as (_ & H2).
    rewrite H2, H1.
    destruct (heap w !! a) as [d|];
      destruct (batch_count a (slots (new_conns (proxy w)))) as [|n];
      destruct (batch_count a (slots (conns_updates (proxy w)))) as [|m];
      simpl; try reflexivity;
      unfold set_pending_notification; simpl;
      rewrite ?orb_false_r, ?andb_true_r.
    all: destruct (status d >=? CONN_STATUS_CLOSED) eqn:Hst; simpl; rewrite ?Hst; reflexivity.
Qed.

(** After a dump in which no JNI call fails, a record that was queued (in
    one slot) is freed if its connection is closed and otherwise stays
    allocated with its flag cleared and nothing else changed; a record that
    was not queued is not touched; no record is queued any more.  The
    batches are as [conns_add] and [conns_clear] leave them while [realloc]
    does not fail. *)
Theorem connections_dump_heap (j : jni_dump_env) (w : world) (a : addr) :
  dump_ok j ->
  batches_wf w ->
  (in_batches a (proxy w) <= 1)%nat ->
  heap (sendConnectionsDump j w) !! a
  = match heap w !! a with
    | Some d =>
        if queued a (proxy w)
        then (if status d >=? CONN_STATUS_CLOSED then None
              else Some (set_pending_notification false d))
        else Some d
    | None => None
    end
  /\ queued a (proxy (sendConnectionsDump j w)) = false.
Proof.
  intros Hok Hwf _. split; [apply sendConnectionsDump_ok_heap; assumption|].
  destruct ((cur_items (new_conns (proxy w)) =? 0)
            && (cur_items (conns_updates (proxy w)) =? 0)) eqn:Hempty.
  - unfold sendConnectionsDump. rewrite Hempty.
    destruct (batches_empty_slots w Hwf Hempty) as (H1 & H2).
    unfold queued, in_batches. rewrite H1, H2. reflexivity.
  - rewrite (sendConnectionsDump_ok j w Hok Hempty). reflexivity.
Qed.

Lemma batch_count_pos_in (a : addr) (l : list vpn_conn) :
  (0 < batch_count a l)%nat -> exists s, In s l /\ slot_data s = Some a.
Proof.
  induction l as [|s l IH]; [unfold batch_count; simpl; lia|].
  rewrite batch_count_cons.
  destruct (slot_data s) as [b|] eqn:Hs.
  - destruct (Nat.eqb_spec a b) as [->|Hne].
    + intros _. exists s. split; [left; reflexivity | exact Hs].
    + intros H. destruct (IH H) as (s' & Hin & Hs'). exists s'. split; [right|]; assumption.
  - intros H. destruct (IH H) as (s' & Hin & Hs'). exists s'. split; [right|]; assumption.
Qed.

Lemma described_in (h : gmap addr conn_data) (l : list vpn_conn) (s : vpn_conn) (a : addr)
    (d : conn_data) :
  In s l -> slot_data s = Some a -> h !! a = Some d ->
  In (slot_tuple s, set_pending_notification false d) (described h l).
Proof.
  intros Hin Hs Ha. unfold described. apply in_flat_map. exists s.
  split; [exact Hin|]. rewrite Hs, Ha. left. reflexivity.
Qed.

(** The close of a reportable connection followed by a dump, when [realloc]
    does not fail in [conns_add] and no JNI call of the dump fails: the host
    receives the record with the final status and the counters as they were
    at the close, and only then the record is freed. *)
Theorem closed_connection_reported_then_freed (e : env_t) (j : jni_dump_env) (w : world)
    (conn : zdtun_conn) (a : addr) (d : conn_data) :
  notification_invariant w ->
  batches_wf w ->
  realloc_ok e = true ->
  user_data conn = Some a -> heap w !! a = Some d ->
  shouldIgnoreConn (proxy w) (conn_tuple conn) = false ->
  CONN_STATUS_CLOSED <= conn_status conn ->
  dump_ok j ->
  let d1 := set_status (conn_status conn)
              (fst (end_ndpi_detection e d (ip_to_host (proxy w)))) in
  let w2 := sendConnectionsDump j (destroy_connection e w conn) in
  heap w2 !! a = None
  /\ exists nd ud t,
       host w2 = host w ++ [SendConnectionsDump nd ud]
       /\ In (t, set_pending_notification false d1) (nd ++ ud).
Proof.
  intros Hinv Hwf Hre Hud Ha Hign Hst Hok d1 w2.
  destruct (destroy_connection_heap e w conn a d Hud Ha) as (Hh & Hu).
  destruct (destroy_connection_frame e w conn) as (_ & _ & Ho & _ & _ & Hn & _).
  rewrite Hign, andb_true_r in Hh, Hu. rewrite Hre in Hu. fold d1 in Hh.
  assert (Hwf1 : batches_wf (destroy_connection e w conn)).
  { destruct Hwf as (Wn & Wu). unfold batches_wf. rewrite Hn, Hu.
    split; [exact Wn|]. destruct (negb _); [apply conns_add_slots|]; exact Wu. }
  set (w1 := destroy_connection e w conn) in *.
  set (dq := if negb (pending_notification d) then set_pending_notification true d1 else d1)
    in Hh.
  assert (Hdq : heap w1 !! a = Some dq) by (rewrite Hh; apply lookup_insert_eq).
  assert (Hq : (0 < in_batches a (proxy w1))%nat).
  { unfold in_batches. rewrite Hn, Hu.
    destruct (pending_notification d) eqn:Hp; cbn [negb].
    - destruct Hinv as (I1 & _). apply (I1 a d Ha) in Hp. unfold in_batches in Hp. lia.
    - rewrite (batch_count_conns_add _ _ _ (proj2 Hwf)), Hud, Nat.eqb_refl. lia. }
  assert (Hfalse : set_pending_notification false dq = set_pending_notification false d1)
    by (subst dq; destruct (negb _); reflexivity).
  assert (Hstq : (status dq >=? CONN_STATUS_CLOSED) = true).
  { assert (Hsq : status dq = conn_status conn)
      by (subst dq d1; destruct (negb _); reflexivity).
    rewrite Hsq. apply Z.geb_le. exact Hst. }
  split.
  - subst w2. rewrite (sendConnectionsDump_ok_heap j w1 a Hok Hwf1), Hdq.
    unfold queued. apply Nat.ltb_lt in Hq. rewrite Hq, Hstq. reflexivity.
  - assert (Hne : (cur_items (new_conns (proxy w1)) =? 0)
                  && (cur_items (conns_updates (proxy w1)) =? 0) = false).
    { destruct (batches_empty w1 Hwf1) as [(_ & H1 & H2)|(He & _)]; [|exact He].
      exfalso. unfold in_batches in Hq. rewrite H1, H2 in Hq.
      unfold batch_count in Hq. simpl in Hq. lia. }
    subst w2. rewrite (sendConnectionsDump_ok j w1 Hok Hne). simpl. rewrite Ho.
    assert (Hex : exists s, In s (slots (new_conns (proxy w1)) ++ slots (conns_updates (proxy w1)))
                            /\ slot_data s = Some a).
    { unfold in_batches in Hq.
      destruct (batch_count a (slots (new_conns (proxy w1)))) as [|n] eqn:Hb1.
      - destruct (batch_count_pos_in a (slots (conns_updates (proxy w1)))) as (s & Hin & Hs);
          [lia|]. exists s. split; [apply in_or_app; right; exact Hin | exact Hs].
      - destruct (batch_count_pos_in a (slots (new_conns (proxy w1)))) as (s & Hin & Hs);
          [lia|]. exists s. split; [apply in_or_app; left; exact Hin | exact Hs]. }
    destruct Hex as (s & Hin & Hs).
    eexists _, _, (slot_tuple s). split; [reflexivity|].
    rewrite <- Hfalse. apply in_app_or in Hin. apply in_or_app.
    destruct Hin as [Hin|Hin]; [left | right]; eapply described_in; eauto.
Qed.

(** When [realloc] fails in [conns_add] at the close of a connection that is
    reportable and not queued, while both batches are empty: the record is
    flagged as pending with its final status but is in no batch, and the
    next dump returns at once, so that the host is told nothing and the
    record stays allocated. *)
Theorem realloc_failure_loses_close (e : env_t) (j : jni_dump_env) (w : world)
    (conn : zdtun_conn) (a : addr) (d : conn_data) :
  new_conns (proxy w) = mk_conn_array None 0 0 ->
  conns_updates (proxy w) = mk_conn_array None 0 0 ->
  realloc_ok e = false ->
  user_data conn = Some a -> heap w !! a = Some d ->
  pending_notification d = false ->
  shouldIgnoreConn (proxy w) (conn_tuple conn) = false ->
  let w1 := destroy_connection e w conn in
  let w2 := sendConnectionsDump j w1 in
  heap w1 !! a
  = Some (set_pending_notification true
            (set_status (conn_status conn)
               (fst (end_ndpi_detection e d (ip_to_host (proxy w))))))
  /\ new_conns (proxy w1) = mk_conn_array None 0 0
  /\ conns_updates (proxy w1) = mk_conn_array None 8 0
  /\ in_batches a (proxy w1) = 0%nat
  /\ w2 = w1 /\ host w2 = host w.
Proof.
  intros Hn Hu Hre Hud Ha Hp Hign w1 w2.
  destruct (destroy_connection_heap e w conn a d Hud Ha) as (Hh & Hu1).
  destruct (destroy_connection_frame e w conn) as (_ & _ & Ho & _ & _ & Hn1 & _).
  rewrite Hp, Hign in Hh, Hu1. cbn [negb andb] in Hh, Hu1.
  rewrite Hre, Hu in Hu1. change (conns_add false (mk_conn_array None 0 0) conn)
    with (mk_conn_array None 8 0) in Hu1.
  fold w1 in Hh, Hu1, Hn1, Ho. rewrite Hn in Hn1.
  assert (H2 : w2 = w1).
  { subst w2. unfold sendConnectionsDump. rewrite Hn1, Hu1. reflexivity. }
  split; [rewrite Hh; apply lookup_insert_eq|].
  split; [exact Hn1|]. split; [exact Hu1|].
  split; [unfold in_batches; rewrite Hn1, Hu1; reflexivity|].
  split; [exact H2 | rewrite H2; exact Ho].
Qed.

End Batches.

(** ** The steps of the packet loop *)

Section Reachability.
Context {ndpi : ndpi_api}.

Lemma reachable_one (w w' : world) : loop_transition w w' -> reachable w w'.
Proof. intros H. eapply reach_step; [apply reach_refl | exact H]. Qed.

Lemma reachable_trans (w1 w2 w3 : world) :
  reachable w1 w2 -> reachable w2 w3 -> reachable w1 w3.
Proof.
  intros H12 H23. induction H23 as [|w2 w3 w4 _ IH Hstep]; [exact H12|].
  eapply reach_step; [apply IH; exact H12 | exact Hstep].
Qed.

Lemma reachable_invariant (I : world -> Prop) (w w' : world) :
  (forall w1 w2, loop_transition w1 w2 -> I w1 -> I w2) ->
  reachable w w' -> I w -> I w'.
Proof.
  intros Hstep Hr Hw. induction Hr as [|w1 w2 w3 _ IH Ht]; [exact Hw|].
  eapply Hstep; [exact Ht | apply IH; exact Hw].
Qed.

Lemma run_callbacks_reachable (cbs : list nat_callback) (w : world) :
  reachable w (run_callbacks cbs w).
Proof.
  revert w. induction cbs as [|cb cbs IH]; intros w; [apply reach_refl|].
  change (run_callbacks (cb :: cbs) w) with (run_callbacks cbs (run_callback cb w)).
  eapply reachable_trans; [|apply IH].
  apply reachable_one. exact (tr_call (CallNat cb) w).
Qed.

Lemma zdtun_lookup_reachable (lf : bool) (e : new_conn_env) (w : world)
    (tuple : zdtun_5tuple) (create : bool) :
  reachable w (snd (zdtun_lookup lf e w tuple create)).
Proof.
  unfold zdtun_lookup.
  destruct (table_find (tun w) tuple); [apply reach_refl|].
  destruct (create && negb lf); [|apply reach_refl].
  pose proof (tr_call (CallConnectionOpen e (mk_conn tuple CONN_STATUS_NEW None false false)) w)
    as Hc. simpl in Hc.
  destruct (handle_new_connection e w _) as [[rv conn] w1]. simpl in Hc.
  destruct (rv =? 0); simpl; [|apply reachable_one; exact Hc].
  eapply reach_step; [apply reachable_one; exact Hc | apply tr_table].
Qed.

Lemma packet_from_vpn_reachable (i : iter_input) (w : world) :
  reachable w (packet_from_vpn i w).
Proof.
  unfold packet_from_vpn.
  destruct (in_read i) as [| | |pkt]; try apply reach_refl.
  assert (H0 : reachable w (with_last_pkt pkt w)) by (apply reachable_one, tr_last_pkt).
  destruct (_ && _); [exact H0|].
  pose proof (zdtun_lookup_reachable (in_lookup_fails i) (in_new_conn i) (with_last_pkt pkt w)
                (pkt_tuple pkt) (negb (is_tcp_established pkt))) as H1.
  destruct (zdtun_lookup _ _ _ _ _) as [conn w1]. simpl in H1.
  pose proof (reachable_trans _ _ _ H0 H1) as H2.
  destruct conn as [conn|].
  - match goal with |- context [run_callbacks ?cbs ?x] =>
      pose proof (run_callbacks_reachable cbs x) as H3 end.
    match type of H3 with reachable ?x _ =>
      assert (H4 : reachable w x) by (eapply reach_step; [exact H2 | apply tr_table]) end.
    pose proof (reachable_trans _ _ _ H4 H3) as H5.
    cbv zeta. destruct (negb (in_forward_rc i =? 0)); [|exact H5].
    eapply reach_step; [eapply reach_step; [exact H5 | apply tr_dropped]|].
    match goal with |- loop_transition ?x (zdtun_destroy_conn ?e ?x ?c) =>
      exact (tr_call (CallNat (CbConnectionClose e c)) x) end.
  - destruct (last_conn_blocked (proxy w1)); [exact H2|].
    destruct (negb (is_tcp_established pkt)); [|exact H2].
    eapply reach_step; [exact H2 | apply tr_dropped].
Qed.

Lemma housekeeping_reachable (i : iter_input) (w : world) (loc : loop_locals) :
  reachable w (fst (fst (housekeeping i w loc))).
Proof.
  unfold housekeeping.
  destruct (vpn_stats_due w (in_now_ms i)); simpl.
  { eapply reach_step; [eapply reach_step; [apply reachable_one, tr_stats_flag|]|].
    - exact (tr_call (CallVpnStats (in_stats_jni_ok i) (in_stats i)) _).
    - apply tr_stats_sent. }
  destruct (connections_dump_due loc (in_now_ms i)); simpl.
  { apply reachable_one. exact (tr_call (CallConnectionsDump (in_dump_jni i)) w). }
  destruct (pcap_dump_due w (in_now_ms i)); simpl.
  { apply reachable_one. exact (tr_call (CallPcapDump (in_env i)) w). }
  destruct (purge_due w loc (in_now_ms i)); simpl; [|apply reach_refl].
  eapply reachable_trans; [apply reachable_one, tr_purge_flag | apply run_callbacks_reachable].
Qed.

Lemma loop_body_reachable (i : iter_input) (w w' : world) (loc loc' : loop_locals)
    (tasks : list housekeeping_task) :
  loop_body i w loc = Some (w', loc', tasks) -> reachable w w'.
Proof.
  unfold loop_body. intros H.
  destruct (negb (running _)); [discriminate|].
  injection H as H. 
  assert (Hw : w' = fst (fst (housekeeping i
                 (if in_tun_ready i
                  then packet_from_vpn i (set_proxy_in (set_now_ms (in_now_ms i))
                                            (set_glob (host_requests i (glob w)) w))
                  else run_callbacks (in_handle_fd_cbs i)
                         (set_proxy_in (set_now_ms (in_now_ms i))
                            (set_glob (host_requests i (glob w)) w))) loc)))
    by (rewrite H; reflexivity).
  rewrite Hw.
  eapply reachable_trans; [|apply housekeeping_reachable].
  eapply reachable_trans;
    [eapply reach_step; [apply reachable_one, tr_requests | apply tr_clock]|].
  destruct (in_tun_ready i); [apply packet_from_vpn_reachable | apply run_callbacks_reachable].
Qed.

(** The state in which the packet loop ends is reached from its first state
    by the steps of the loop. *)
Lemma packet_loop_reachable (ins : list iter_input) (w : world) (loc : loop_locals) :
  reachable w (fst (fst (packet_loop ins w loc))).
Proof.
  revert w loc. induction ins as [|i rest IH]; intros w loc; simpl; [apply reach_refl|].
  destruct (running (glob w)); [|apply reach_refl].
  destruct (loop_body i w loc) as [[[w' loc'] tasks]|] eqn:Hb.
  - specialize (IH w' loc').
    destruct (packet_loop rest w' loc') as [[w'' loc''] n]. simpl in *.
    eapply reachable_trans; [eapply loop_body_reachable; exact Hb | exact IH].
  - simpl. apply reachable_one, tr_requests.
Qed.

End Reachability.

(** ** The collector socket and the DNAT target along a run *)

Section Collector.
Context {ndpi : ndpi_api}.

Lemma socket_events_app (l1 l2 : list host_event) :
  socket_events (l1 ++ l2) = socket_events l1 ++ socket_events l2.
Proof. apply List.filter_app. Qed.

Lemma javaPcapDump_collector (e : env_t) (w : world) :
  glob (javaPcapDump e w) = glob w
  /\ socket_events (host (javaPcapDump e w)) = socket_events (host w)
  /\ tun (javaPcapDump e w) = tun w
  /\ dns_server (proxy (javaPcapDump e w)) = dns_server (proxy w).
Proof.
  unfold javaPcapDump. destruct (new_byte_array_ok e); simpl; [|tauto].
  rewrite socket_events_app. simpl. rewrite app_nil_r. tauto.
Qed.

Lemma sendVPNStats_collector (ok : bool) (stats : zdtun_statistics_t) (w : world) :
  socket_events (host (sendVPNStats ok stats w)) = socket_events (host w).
Proof.
  unfold sendVPNStats. destruct ok; simpl; [|reflexivity].
  rewrite socket_events_app. simpl. rewrite app_nil_r. reflexivity.
Qed.

Lemma sendConnectionsDump_collector (j : jni_dump_env) (w : world) :
  socket_events (host (sendConnectionsDump j w)) = socket_events (host w)
  /\ dns_server (proxy (sendConnectionsDump j w)) = dns_server (proxy w).
Proof.
  unfold sendConnectionsDump, conns_clear.
  destruct (_ && _); [tauto|].
  assert (Hev : forall nd ud, socket_events (host w ++ [SendConnectionsDump nd ud])
                              = socket_events (host w)).
  { intros nd ud. rewrite socket_events_app. simpl. apply app_nil_r. }
  destruct (new_object_array_ok j); simpl.
  - destruct (dump_batch (dump_new_ok j) _ _ _ _) as [[ok1 h1] nd].
    destruct ok1; simpl.
    + destruct (dump_batch (dump_upd_ok j) _ _ _ _) as [[ok2 h2] ud].
      destruct ok2; simpl; rewrite ?Hev; tauto.
    + tauto.
  - tauto.
Qed.

Lemma account_java_dump_collector (e : env_t) (w : world) (packet : list Z) (len : Z) :
  glob (account_java_dump e w packet len) = glob w
  /\ socket_events (host (account_java_dump e w packet len)) = socket_events (host w)
  /\ dns_server (proxy (account_java_dump e w packet len)) = dns_server (proxy w).
Proof.
  unfold account_java_dump.
  destruct (buffer _); [|tauto].
  destruct (javaPcapDump_collector e w) as (Hg & Hs & _ & Hd).
  destruct (_ <=? _); simpl.
  - destruct (_ <=? _); simpl; tauto.
  - destruct (_ <=? _); simpl; tauto.
Qed.

Lemma account_dumper_socket_collector (w : world) (packet : list Z) (len : Z) :
  collector_stream_ok w -> collector_stream_ok (account_dumper_socket w packet len).
Proof.
  unfold collector_stream_ok, account_dumper_socket.
  destruct (dumper_socket (glob w) >? 0) eqn:Hs; simpl; [|rewrite Hs; simpl; auto].
  destruct (send_header (glob w)) eqn:Hh; simpl; rewrite Hs; simpl.
  - intros Hnil. rewrite !socket_events_app, Hnil. simpl.
    eexists. split; [reflexivity|]. simpl. rewrite Z.eqb_refl. reflexivity.
  - rewrite Hh. simpl. intros (recs & Hev & Hall).
    rewrite socket_events_app, Hev. simpl.
    exists (recs ++ [WritePcapRec (dumper_socket (glob w)) packet len]).
    split; [reflexivity|]. rewrite forallb_app, Hall. simpl.
    rewrite Z.eqb_refl. reflexivity.
Qed.

Lemma collector_stream_frame (w w' : world) :
  dumper_socket (glob w') = dumper_socket (glob w) ->
  send_header (glob w') = send_header (glob w) ->
  socket_events (host w') = socket_events (host w) ->
  collector_stream_ok w -> collector_stream_ok w'.
Proof.
  unfold collector_stream_ok. intros -> -> ->. auto.
Qed.

Lemma account_packet_collector (e : env_t) (w : world) (packet : list Z) (len : Z)
    (from_tun : bool) (conn : zdtun_conn) :
  collector_stream_ok w -> collector_stream_ok (account_packet e w packet len from_tun conn).
Proof.
  intros Hw. unfold account_packet.
  destruct (user_data conn) as [a|]; [|exact Hw].
  destruct (heap w !! a) as [data|]; [|exact Hw].
  destruct (account_conn _ _ _ _ _ _ _) as [d l].
  destruct (shouldIgnoreConn _ _); [exact Hw|].
  cbv zeta. apply account_dumper_socket_collector.
  match goal with |- collector_stream_ok (account_java_dump _ ?x _ _) =>
    destruct (account_java_dump_collector e x packet len) as (Hg & Hs & _);
    apply (collector_stream_frame x); [rewrite Hg; reflexivity | rewrite Hg; reflexivity
                                      | exact Hs |] end.
  destruct (pending_notification d); exact Hw.
Qed.

Lemma reload_dns_server_glob (w : world) :
  dumper_socket (glob (reload_dns_server w)) = dumper_socket (glob w)
  /\ send_header (glob (reload_dns_server w)) = send_header (glob w)
  /\ dump_capture_stats_now (glob (reload_dns_server w)) = dump_capture_stats_now (glob w)
  /\ dump_vpn_stats_now (glob (reload_dns_server w)) = dump_vpn_stats_now (glob w).
Proof.
  unfold reload_dns_server. destruct (negb _); simpl; tauto.
Qed.

Lemma check_dns_req_allowed_glob (w : world) (conn : zdtun_conn) :
  let w' := snd (check_dns_req_allowed w conn) in
  dumper_socket (glob w') = dumper_socket (glob w)
  /\ send_header (glob w') = send_header (glob w)
  /\ dump_capture_stats_now (glob w') = dump_capture_stats_now (glob w)
  /\ dump_vpn_stats_now (glob w') = dump_vpn_stats_now (glob w).
Proof.
  pose proof (reload_dns_server_glob w) as H.
  unfold check_dns_req_allowed.
  destruct (negb (is_dns_server _ _)); simpl; [exact H|].
  destruct (if _ : bool then last_pkt _ else None) as [pkt|]; simpl; [|exact H].
  destruct (l7_len pkt >=? sizeof_dns_packet); simpl; [|exact H].
  destruct (negb (_ =? DNS_TYPE_REQUEST)); simpl; exact H.
Qed.

Lemma handle_new_connection_glob (e : new_conn_env) (w : world) (conn : zdtun_conn) :
  let w' := snd (handle_new_connection e w conn) in
  dumper_socket (glob w') = dumper_socket (glob w)
  /\ send_header (glob w') = send_header (glob w)
  /\ dump_capture_stats_now (glob w') = dump_capture_stats_now (glob w)
  /\ dump_vpn_stats_now (glob w') = dump_vpn_stats_now (glob w).
Proof.
  pose proof (check_dns_req_allowed_glob w conn) as H.
  unfold handle_new_connection.
  destruct (check_dns_req_allowed w conn) as [[allowed c] w1]. simpl in *.
  destruct allowed; simpl; [|exact H].
  destruct (calloc_conn_data e) as [a|]; simpl; [|exact H].
  destruct (ip_lru_find _ _) as [name l].
  destruct (negb (shouldIgnoreConn _ _)); simpl; exact H.
Qed.

Lemma host_requests_collector (i : iter_input) (g : globals) :
  dumper_socket (host_requests i g) = dumper_socket g
  /\ send_header (host_requests i g) = send_header g.
Proof.
  unfold host_requests.
  destruct (in_stop i), (in_ask_stats i && _), (in_set_dns i); simpl; tauto.
Qed.

Lemma net2tun_collector (g : globals) (wr : write_result) (sz : Z) :
  dumper_socket (snd (net2tun g wr sz)) = dumper_socket g
  /\ send_header (snd (net2tun g wr sz)) = send_header g
  /\ new_dns_server (snd (net2tun g wr sz)) = new_dns_server g
  /\ dump_capture_stats_now (snd (net2tun g wr sz)) = dump_capture_stats_now g
  /\ dump_vpn_stats_now (snd (net2tun g wr sz)) = dump_vpn_stats_now g.
Proof.
  unfold net2tun.
  destruct (negb (running g)); [simpl; tauto|].
  destruct (write_rv wr <? 0).
  - destruct (write_errno wr =? ENOBUFS); [simpl; tauto|].
    destruct (write_errno wr =? EIO); simpl; tauto.
  - destruct (negb (write_rv wr =? sz)); simpl; tauto.
Qed.

Lemma collector_stream_step (w w' : world) :
  loop_transition w w' -> collector_stream_ok w -> collector_stream_ok w'.
Proof.
  intros Ht Hw. destruct Ht as [c w|i w|now w|pkt w|conn w|w|w|now w|w];
    try (revert Hw; apply collector_stream_frame; reflexivity).
  - destruct c as [e conn | cb | j | e | ok stats]; simpl.
    + destruct (handle_new_connection_glob e w conn) as (Hs & Hh & _).
      destruct (handle_new_connection_frame e w conn) as (_ & Ho & _).
      revert Hw. apply collector_stream_frame; [exact Hs | exact Hh | rewrite Ho; reflexivity].
    + destruct cb as [wr sz | e packet len from_tun conn | e conn]; simpl.
      * destruct (net2tun_collector (glob w) wr sz) as (Hs & Hh & _).
        revert Hw. apply collector_stream_frame; [exact Hs | exact Hh | reflexivity].
      * apply account_packet_collector. exact Hw.
      * destruct (destroy_connection_frame e w conn) as (Hg & _ & Ho & _).
        revert Hw. apply collector_stream_frame; simpl; rewrite ?Hg, ?Ho; reflexivity.
    + destruct (sendConnectionsDump_frame j w) as (Hg & _).
      destruct (sendConnectionsDump_collector j w) as (Ho & _).
      revert Hw. apply collector_stream_frame; rewrite ?Hg; [reflexivity | reflexivity | exact Ho].
    + destruct (javaPcapDump_collector e w) as (Hg & Ho & _).
      revert Hw. apply collector_stream_frame; rewrite ?Hg; [reflexivity | reflexivity | exact Ho].
    + destruct (sendVPNStats_frame ok stats w) as (Hg & _).
      revert Hw. apply collector_stream_frame; rewrite ?Hg;
        [reflexivity | reflexivity | apply sendVPNStats_collector].
  - destruct (host_requests_collector i (glob w)) as (Hs & Hh).
    revert Hw. apply collector_stream_frame; [exact Hs | exact Hh | reflexivity].
Qed.

(** Over a whole run, whatever the inputs: either nothing is written to the
    collector socket, or the export to the collector is enabled, [socket]
    returned a positive descriptor, and what was written to that descriptor
    is the pcap file header once, first, followed by packet records only. *)
Theorem collector_header_first (tunfd_arg : Z) (prefs : host_prefs) (ie : init_env)
    (g : globals) (w : world) (loc : loop_locals) (ins : list iter_input) :
  run_tun_init tunfd_arg prefs ie g = Some (w, loc) ->
  let w' := fst (fst (packet_loop ins w loc)) in
  socket_events (host w') = []
  \/ (dumpPcapToUdp prefs = true /\ 0 < socket_result ie
      /\ exists recs, socket_events (host w') = WritePcapHdr (socket_result ie) :: recs
                      /\ forallb (is_pcap_rec (socket_result ie)) recs = true).
Proof.
  intros Hinit w'.
  assert (Hsock : forall w1, reachable w w1 ->
            dumper_socket (glob w1) = dumper_socket (glob w)).
  { intros w1 Hr.
    apply (reachable_invariant (fun x => dumper_socket (glob x) = dumper_socket (glob w)) w w1);
      [|exact Hr | reflexivity].
    intros x y Ht Hx. rewrite <- Hx.
    destruct Ht as [c x|i x|now x|pkt x|conn x|x|x|now x|x]; try reflexivity.
    - destruct c as [e conn | cb | j | e | ok stats]; simpl.
      + apply handle_new_connection_glob.
      + destruct cb as [wr sz | e packet len from_tun conn | e conn]; simpl.
        * apply net2tun_collector.
        * unfold account_packet.
          destruct (user_data conn) as [a|]; [|reflexivity].
          destruct (heap x !! a) as [data|]; [|reflexivity].
          destruct (account_conn _ _ _ _ _ _ _) as [d l].
          destruct (shouldIgnoreConn _ _); [reflexivity|].
          cbv zeta. unfold account_dumper_socket.
          match goal with |- context [account_java_dump _ ?y _ _] =>
            destruct (account_java_dump_collector e y packet len) as (Hg & _) end.
          destruct (_ >? 0); [destruct (send_header _)|]; simpl; rewrite Hg;
            destruct (pending_notification d); reflexivity.
        * destruct (destroy_connection_frame e x conn) as (Hg & _). rewrite Hg. reflexivity.
      + destruct (sendConnectionsDump_frame j x) as (Hg & _). rewrite Hg. reflexivity.
      + destruct (javaPcapDump_collector e x) as (Hg & _). rewrite Hg. reflexivity.
      + destruct (sendVPNStats_frame ok stats x) as (Hg & _). rewrite Hg. reflexivity.
    - apply host_requests_collector. }
  pose proof (packet_loop_reachable ins w loc) as Hr. fold w' in Hr.
  assert (Hstart : collector_stream_ok w
                   /\ (0 < dumper_socket (glob w) ->
                       dumpPcapToUdp prefs = true /\ dumper_socket (glob w) = socket_result ie)).
  { revert Hinit. unfold run_tun_init.
    destruct (negb (init_ndpi_ok ie)); [discriminate|].
    destruct (negb (fcntl_ok ie)); [discriminate|].
    destruct (negb (zdtun_init_ok ie)); [discriminate|].
    simpl. destruct (dumpPcapToUdp prefs); simpl.
    - destruct (socket_result ie =? 0), (dumpPcapToJava prefs), (malloc_buffer_ok ie);
        simpl; intros H; injection H as <- _; unfold collector_stream_ok; simpl;
        rewrite andb_false_r; (split; [reflexivity | intros _; split; reflexivity]).
    - destruct (dumpPcapToJava prefs), (malloc_buffer_ok ie);
        simpl; intros H; injection H as <- _; unfold collector_stream_ok; simpl;
        (split; [reflexivity | intros H0; lia]). }
  destruct Hstart as (Hok & Hpos).
  pose proof (reachable_invariant collector_stream_ok w w' collector_stream_step Hr Hok) as Hfin.
  unfold collector_stream_ok in Hfin. rewrite (Hsock w' Hr) in Hfin.
  destruct (dumper_socket (glob w) >? 0) eqn:Hs; simpl in Hfin; [|left; exact Hfin].
  destruct (send_header (glob w')); simpl in Hfin; [left; exact Hfin|].
  right. destruct (Hpos ltac:(lia)) as (Hen & Heq). rewrite <- Heq.
  split; [exact Hen|]. split; [lia | exact Hfin].
Qed.

End Collector.

Section DnatTarget.
Context {ndpi : ndpi_api}.

Lemma dnat_target_frame (w w' : world) :
  dnat_info (tun w') = dnat_info (tun w) ->
  dns_server (proxy w') = dns_server (proxy w) ->
  dnat_target_ok w -> dnat_target_ok w'.
Proof. unfold dnat_target_ok. intros -> ->. auto. Qed.

Lemma reload_dns_server_dnat (w : world) :
  dnat_target_ok w -> dnat_target_ok (reload_dns_server w).
Proof.
  unfold reload_dns_server, dnat_target_ok.
  destruct (negb _); simpl; [reflexivity | auto].
Qed.

Lemma check_dns_req_allowed_dnat (w : world) (conn : zdtun_conn) :
  dnat_target_ok w -> dnat_target_ok (snd (check_dns_req_allowed w conn)).
Proof.
  intros Hw. apply reload_dns_server_dnat in Hw.
  unfold check_dns_req_allowed.
  destruct (negb (is_dns_server _ _)); simpl; [exact Hw|].
  destruct (if _ : bool then last_pkt _ else None) as [pkt|]; simpl; [|exact Hw].
  destruct (l7_len pkt >=? sizeof_dns_packet); simpl; [|exact Hw].
  destruct (negb (_ =? DNS_TYPE_REQUEST)); simpl; exact Hw.
Qed.

Lemma handle_new_connection_dnat (e : new_conn_env) (w : world) (conn : zdtun_conn) :
  dnat_target_ok w -> dnat_target_ok (snd (handle_new_connection e w conn)).
Proof.
  intros Hw. apply (check_dns_req_allowed_dnat w conn) in Hw.
  unfold handle_new_connection.
  destruct (check_dns_req_allowed w conn) as [[allowed c] w1]. simpl in *.
  destruct allowed; simpl; [|exact Hw].
  destruct (calloc_conn_data e) as [a|]; simpl; [|exact Hw].
  destruct (ip_lru_find _ _) as [name l].
  destruct (negb (shouldIgnoreConn _ _)); simpl; exact Hw.
Qed.

Lemma account_packet_dns_server (e : env_t) (w : world) (packet : list Z) (len : Z)
    (from_tun : bool) (conn : zdtun_conn) :
  dns_server (proxy (account_packet e w packet len from_tun conn)) = dns_server (proxy w).
Proof.
  unfold account_packet.
  destruct (user_data conn) as [a|]; [|reflexivity].
  destruct (heap w !! a) as [data|]; [|reflexivity].
  destruct (account_conn _ _ _ _ _ _ _) as [d l].
  destruct (shouldIgnoreConn _ _); [reflexivity|].
  cbv zeta.
  match goal with |- context [account_dumper_socket ?x _ _] =>
    destruct (account_dumper_socket_frame x packet len) as (_ & _ & _ & Hp & _);
    rewrite Hp end.
  match goal with |- context [account_java_dump _ ?x _ _] =>
    destruct (account_java_dump_collector e x packet len) as (_ & _ & Hd); rewrite Hd end.
  destruct (pending_notification d); reflexivity.
Qed.

Lemma destroy_connection_dns_server (e : env_t) (w : world) (conn : zdtun_conn) :
  dns_server (proxy (destroy_connection e w conn)) = dns_server (proxy w).
Proof.
  unfold destroy_connection.
  destruct (user_data conn) as [a|]; [|reflexivity].
  destruct (heap w !! a) as [data|]; [|reflexivity].
  destruct (end_ndpi_detection _ _ _) as [d l].
  destruct (_ && _); reflexivity.
Qed.

Lemma dnat_target_step (w w' : world) :
  loop_transition w w' -> dnat_target_ok w -> dnat_target_ok w'.
Proof.
  intros Ht Hw. destruct Ht as [c w|i w|now w|pkt w|conn w|w|w|now w|w];
    try (revert Hw; apply dnat_target_frame; reflexivity).
  destruct c as [e conn | cb | j | e | ok stats]; simpl.
  - apply handle_new_connection_dnat. exact Hw.
  - destruct cb as [wr sz | e packet len from_tun conn | e conn]; simpl.
    + revert Hw. apply dnat_target_frame; reflexivity.
    + destruct (account_packet_frame e w packet len from_tun conn) as (_ & Ht & _).
      revert Hw. apply dnat_target_frame;
        [rewrite Ht; reflexivity | apply account_packet_dns_server].
    + destruct (destroy_connection_frame e w conn) as (_ & Ht & _).
      revert Hw. apply dnat_target_frame; simpl;
        [rewrite ?Ht; reflexivity | apply destroy_connection_dns_server].
  - destruct (sendConnectionsDump_frame j w) as (_ & Ht & _).
    revert Hw. apply dnat_target_frame;
      [rewrite Ht; reflexivity | apply sendConnectionsDump_collector].
  - destruct (javaPcapDump_collector e w) as (_ & _ & Ht & Hd).
    revert Hw. apply dnat_target_frame; [rewrite Ht; reflexivity | exact Hd].
  - destruct (sendVPNStats_frame ok stats w) as (_ & _ & Ht & Hp).
    revert Hw. apply dnat_target_frame; [rewrite Ht | rewrite Hp]; reflexivity.
Qed.

(** Over a whole run, whatever the inputs and however often the host sets a
    new DNS server: the DNAT target of the NAT library is the DNS server the
    proxy currently uses, on port 53 over IPv4. *)
Theorem dnat_follows_dns_server (tunfd_arg : Z) (prefs : host_prefs) (ie : init_env)
    (g : globals) (w : world) (loc : loop_locals) (ins : list iter_input) :
  run_tun_init tunfd_arg prefs ie g = Some (w, loc) ->
  let w' := fst (fst (packet_loop ins w loc)) in
  dnat_info (tun w') = Some (dns_server (proxy w'), htons 53, 4).
Proof.
  intros Hinit w'.
  apply (reachable_invariant dnat_target_ok w w' dnat_target_step);
    [apply packet_loop_reachable|].
  revert Hinit. unfold run_tun_init.
  destruct (negb (init_ndpi_ok ie)); [discriminate|].
  destruct (negb (fcntl_ok ie)); [discriminate|].
  destruct (negb (zdtun_init_ok ie)); [discriminate|].
  simpl.
  destruct (dumpPcapToUdp prefs), (dumpPcapToJava prefs), (malloc_buffer_ok ie); simpl;
    intros H; injection H as <- _; unfold dnat_target_ok; simpl;
    destruct (getSocks5Enabled prefs); reflexivity.
Qed.

End DnatTarget.

(** ** The records along a run *)

Section Records.
Context {ndpi : ndpi_api}.

(** The record an accepted connection gets. *)
Lemma handle_new_connection_created (e : new_conn_env) (w : world) (conn : zdtun_conn) :
  let r := handle_new_connection e w conn in
  fst (fst r) = 0 ->
  exists a,
    calloc_conn_data e = Some a
    /\ user_data (snd (fst r)) = Some a
    /\ heap (snd r)
       = <[a := let d := set_info (fst (ip_lru_find (ip_to_host (proxy w))
                                          (dst_ip (conn_tuple conn))))
                           (fresh_record e) in
                if shouldIgnoreConn (proxy w) (conn_tuple conn) then d
                else set_pending_notification true
                       (set_incr_id (proxy_incr_id (proxy w)) d)]> (heap w).
Proof.
  unfold handle_new_connection.
  destruct (check_dns_req_allowed_frame w conn)
    as (Hh & _ & _ & _ & Hi & _ & _ & _ & Hl & Hv & _).
  destruct (check_dns_req_allowed w conn) as [[allowed c] w1]. simpl in *.
  destruct allowed; simpl; [|discriminate].
  destruct (calloc_conn_data e) as [a|]; simpl; [|discriminate].
  rewrite Hl.
  destruct (ip_lru_find _ _) as [name l]. simpl.
  assert (Hign : shouldIgnoreConn (set_ip_to_host l (proxy w1)) (conn_tuple conn)
                 = shouldIgnoreConn (proxy w) (conn_tuple conn)).
  { unfold shouldIgnoreConn. simpl. rewrite Hv. reflexivity. }
  rewrite Hign.
  destruct (shouldIgnoreConn (proxy w) (conn_tuple conn)); simpl; intros _;
    exists a; rewrite Hh, ?Hi; repeat split; reflexivity.
Qed.

(** When [handle_new_connection] accepts a connection, its record is at the
    address [calloc] returned, with zero counters, both time stamps at the
    current time and the resolved uid (unknown when the lookup failed).  The
    DPI flow is live only if all three allocations of the DPI state
    succeeded; a failed one disables DPI for the connection without
    rejecting it. *)
Theorem new_connection_record (e : new_conn_env) (w : world) (conn : zdtun_conn) :
  let r := handle_new_connection e w conn in
  fst (fst r) = 0 ->
  exists a d,
    calloc_conn_data e = Some a /\ user_data (snd (fst r)) = Some a
    /\ heap (snd r) !! a = Some d
    /\ ndpi_flow d = (if calloc_flow_ok e && calloc_src_id_ok e && calloc_dst_id_ok e
                      then Some zeroed_flow else None)
    /\ (ndpi_flow d <> None -> src_id d = true /\ dst_id d = true)
    /\ sent_pkts d = 0 /\ rcvd_pkts d = 0 /\ sent_bytes d = 0 /\ rcvd_bytes d = 0
    /\ first_seen d = nc_time e /\ last_seen d = nc_time e
    /\ uid d = (if get_uid_result e >=? 0 then get_uid_result e else UID_UNKNOWN)
    /\ l7proto d = mk_l7proto NDPI_PROTOCOL_UNKNOWN NDPI_PROTOCOL_UNKNOWN
    /\ url d = None.
Proof.
  intros r Hrv. destruct (handle_new_connection_created e w conn Hrv) as (a & Hc & Hu & Hh).
  subst r. eexists a, _. split; [exact Hc|]. split; [exact Hu|].
  split; [rewrite Hh; apply lookup_insert_eq|].
  unfold fresh_record, resolve_uid.
  destruct (shouldIgnoreConn (proxy w) (conn_tuple conn));
    destruct (calloc_flow_ok e), (calloc_src_id_ok e), (calloc_dst_id_ok e);
    simpl; repeat split; try reflexivity; try congruence;
    try (intros _; split; reflexivity).
Qed.

Lemma end_ndpi_detection_flow (e : env_t) (data : conn_data) (lru : ip_lru) :
  ndpi_flow (fst (end_ndpi_detection e data lru)) = None.
Proof.
  unfold end_ndpi_detection.
  destruct (ndpi_flow data) as [flow|] eqn:Hf; [|exact Hf].
  destruct (extract_metadata _ _ _ _) as [d l]. reflexivity.
Qed.

Lemma end_ndpi_detection_ended (e : env_t) (data : conn_data) (lru : ip_lru) :
  ndpi_flow data = None -> end_ndpi_detection e data lru = (data, lru).
Proof.
  intros Hf. unfold end_ndpi_detection. rewrite Hf. reflexivity.
Qed.

Lemma process_ndpi_packet_live (e : env_t) (d : conn_data) (lru : ip_lru)
    (packet : list Z) (len : Z) (from_tun : bool) :
  let d' := fst (process_ndpi_packet e d lru packet len from_tun) in
  ndpi_flow d' <> None ->
  ndpi_flow d <> None /\ src_id d' = src_id d /\ dst_id d' = dst_id d
  /\ sent_pkts d + rcvd_pkts d < MAX_DPI_PACKETS.
Proof.
  unfold process_ndpi_packet.
  destruct (ndpi_flow d) as [flow|] eqn:Hf; [|simpl; congruence].
  destruct (ndpi_detection_process_packet flow packet len (last_seen d) from_tun)
    as [flow' proto].
  destruct (Z.geb_spec (sent_pkts d + rcvd_pkts d) MAX_DPI_PACKETS) as [Hge|Hlt]; simpl.
  - intros H. exfalso. apply H. apply end_ndpi_detection_flow.
  - destruct (_ && _).
    + intros H. exfalso. apply H. apply end_ndpi_detection_flow.
    + simpl. intros _. repeat split; first [congruence | exact Hlt].
Qed.

Lemma account_conn_live (e : env_t) (d : conn_data) (lru : ip_lru) (packet : list Z)
    (len : Z) (from_tun : bool) (conn : zdtun_conn) :
  ndpi_flow (fst (account_conn e d lru packet len from_tun conn)) <> None ->
  ndpi_flow d <> None
  /\ src_id (fst (account_conn e d lru packet len from_tun conn)) = src_id d
  /\ dst_id (fst (account_conn e d lru packet len from_tun conn)) = dst_id d
  /\ sent_pkts (fst (account_conn e d lru packet len from_tun conn))
     + rcvd_pkts (fst (account_conn e d lru packet len from_tun conn)) < MAX_DPI_PACKETS.
Proof.
  unfold account_conn.
  set (d0 := set_status _ _).
  assert (H0 : ndpi_flow d0 = ndpi_flow d /\ src_id d0 = src_id d /\ dst_id d0 = dst_id d)
    by (subst d0; destruct from_tun; simpl; tauto).
  destruct H0 as (Hf & Hs & Hd).
  destruct (ndpi_flow d0) as [flow|] eqn:Hf0;
    [|intros H; exfalso; apply H; exact Hf0].
  intros Hlive.
  destruct (process_ndpi_packet_live e d0 lru packet len from_tun Hlive)
    as (_ & Hs' & Hd' & Hlt).
  destruct (process_ndpi_packet_frame e d0 lru packet len from_tun) as (Hsp & Hrp & _).
  rewrite Hsp, Hrp, Hs', Hd'.
  repeat split; congruence.
Qed.

Lemma account_conn_ended (e : env_t) (d : conn_data) (lru : ip_lru) (packet : list Z)
    (len : Z) (from_tun : bool) (conn : zdtun_conn) :
  ndpi_flow d = None ->
  let d' := fst (account_conn e d lru packet len from_tun conn) in
  ndpi_flow d' = None /\ l7proto d' = l7proto d /\ info d' = info d /\ url d' = url d.
Proof.
  intros Hf. unfold account_conn.
  set (d0 := set_status _ _).
  assert (H0 : ndpi_flow d0 = None /\ l7proto d0 = l7proto d /\ info d0 = info d
               /\ url d0 = url d)
    by (subst d0; destruct from_tun; simpl; tauto).
  destruct H0 as (Hf0 & H0). rewrite Hf0. simpl. tauto.
Qed.

(** The record at [a] after a call: a record that was there before, changed
    as [record_step] says, or a record [handle_new_connection] has just
    stored at the address [calloc] gave it. *)
Lemma core_step_record (c : core_call) (w : world) (a : addr) (d' : conn_data) :
  heap (core_step c w) !! a = Some d' ->
  (exists d, heap w !! a = Some d /\ record_step d d')
  \/ (record_created d'
      /\ exists e conn, c = CallConnectionOpen e conn /\ calloc_conn_data e = Some a).
Proof.
  intros Ha'.
  assert (Hsame : heap w !! a = Some d' -> exists d, heap w !! a = Some d /\ record_step d d')
    by (intros H; exists d'; split; [exact H | apply rs_same]).
  destruct c as [e conn | cb | j | e | ok stats]; simpl in *.
  - destruct (Z.eq_dec (fst (fst (handle_new_connection e w conn))) 0) as [Hrv|Hrv].
    + destruct (handle_new_connection_created e w conn Hrv) as (b & Hc & _ & Hh).
      rewrite Hh in Ha'.
      destruct (decide (b = a)) as [->|Hne].
      * rewrite lookup_insert_eq in Ha'. injection Ha' as <-.
        right. split; [|eauto].
        exists e, (fst (ip_lru_find (ip_to_host (proxy w)) (dst_ip (conn_tuple conn)))).
        destruct (shouldIgnoreConn _ _); [left; reflexivity | right; eauto].
      * rewrite lookup_insert_ne in Ha' by exact Hne. left. auto.
    + destruct (handle_new_connection_heap e w conn)
        as [(_ & Hh & _) | (b & d0 & Hrv' & _)]; [|contradiction].
      rewrite Hh in Ha'. left. auto.
  - left. destruct cb as [wr sz | e packet len from_tun conn | e conn]; simpl in *.
    + auto.
    + destruct (user_data conn) as [b|] eqn:Hud;
        [|unfold account_packet in Ha'; rewrite Hud in Ha'; auto].
      destruct (heap w !! b) as [data|] eqn:Hb;
        [|unfold account_packet in Ha'; rewrite Hud, Hb in Ha'; auto].
      destruct (account_packet_heap e w packet len from_tun conn b data Hud Hb) as (Hh & _).
      rewrite Hh in Ha'.
      destruct (decide (b = a)) as [->|Hne].
      * rewrite lookup_insert_eq in Ha'. injection Ha' as <-.
        exists data. split; [exact Hb | apply rs_account].
      * rewrite lookup_insert_ne in Ha' by exact Hne. auto.
    + change (heap (destroy_connection e w conn) !! a = Some d') in Ha'.
      destruct (user_data conn) as [b|] eqn:Hud;
        [|unfold destroy_connection in Ha'; rewrite Hud in Ha'; auto].
      destruct (heap w !! b) as [data|] eqn:Hb;
        [|unfold destroy_connection in Ha'; rewrite Hud, Hb in Ha'; auto].
      destruct (destroy_connection_heap e w conn b data Hud Hb) as (Hh & _).
      rewrite Hh in Ha'.
      destruct (decide (b = a)) as [->|Hne].
      * rewrite lookup_insert_eq in Ha'. injection Ha' as <-.
        exists data. split; [exact Hb | apply rs_close].
      * rewrite lookup_insert_ne in Ha' by exact Hne. auto.
  - left. revert Ha'. unfold sendConnectionsDump, conns_clear.
    destruct (_ && _); [auto|].
    assert (Hgen : forall h, pending_cleared (heap w) h ->
              conns_clear_items (slots (conns_updates (proxy w))) false
                (conns_clear_items (slots (new_conns (proxy w))) false h) !! a = Some d' ->
              exists d, heap w !! a = Some d /\ record_step d d').
    { intros h Hpc Hl. do 2 apply conns_clear_items_lookup in Hl.
      destruct (Hpc a) as [E|(d0 & Hd0 & E)].
      - apply Hsame. congruence.
      - exists d0. split; [exact Hd0|]. rewrite E in Hl. injection Hl as <-. apply rs_flag. }
    destruct (new_object_array_ok j); simpl.
    + pose proof (dump_batch_pending_cleared (dump_new_ok j) (slots (new_conns (proxy w))) 0
                    (heap w) []) as H1.
      destruct (dump_batch (dump_new_ok j) _ _ _ _) as [[ok1 h1] nd]. simpl in H1.
      destruct ok1; simpl.
      * pose proof (dump_batch_pending_cleared (dump_upd_ok j)
                      (slots (conns_updates (proxy w))) 0 h1 []) as H2.
        destruct (dump_batch (dump_upd_ok j) _ _ _ _) as [[ok2 h2] ud]. simpl in H2.
        destruct ok2; simpl; apply Hgen; eapply pending_cleared_trans; eauto.
      * apply Hgen. exact H1.
    + apply Hgen. apply pending_cleared_refl.
  - left. destruct (javaPcapDump_frame e w) as (_ & Hh & _). rewrite Hh in Ha'. auto.
  - left. destruct (sendVPNStats_frame ok stats w) as (_ & Hh & _). rewrite Hh in Ha'. auto.
Qed.

Lemma transition_record (w w' : world) (a : addr) (d' : conn_data) :
  loop_transition w w' -> heap w' !! a = Some d' ->
  (exists d, heap w !! a = Some d /\ record_step d d') \/ record_created d'.
Proof.
  intros Ht Ha'.
  destruct Ht as [c w|i w|now w|pkt w|conn w|w|w|now w|w];
    try (left; exists d'; split; [exact Ha' | apply rs_same]).
  destruct (core_step_record c w a d' Ha') as [H|(H & _)]; [left | right]; exact H.
Qed.

(** A property of records that holds for every new record and is kept by
    every change of a record holds for all records of a reachable state. *)
Lemma reachable_records (P : conn_data -> Prop) (w w' : world) :
  (forall d, record_created d -> P d) ->
  (forall d d', record_step d d' -> P d -> P d') ->
  reachable w w' ->
  (forall a d, heap w !! a = Some d -> P d) ->
  forall a d, heap w' !! a = Some d -> P d.
Proof.
  intros Hnew Hstep Hr Hw.
  apply (reachable_invariant (fun x => forall a d, heap x !! a = Some d -> P d) w w');
    [|exact Hr | exact Hw].
  intros w1 w2 Ht H1 a d Ha.
  destruct (transition_record w1 w2 a d Ht Ha) as [(d0 & Hd0 & Hs)|Hc].
  - eapply Hstep; [exact Hs | eapply H1; exact Hd0].
  - apply Hnew. exact Hc.
Qed.

Lemma run_tun_init_heap (tunfd_arg : Z) (prefs : host_prefs) (ie : init_env) (g : globals)
    (w : world) (loc : loop_locals) :
  run_tun_init tunfd_arg prefs ie g = Some (w, loc) -> heap w = ∅.
Proof.
  unfold run_tun_init.
  destruct (negb (init_ndpi_ok ie)); [discriminate|].
  destruct (negb (fcntl_ok ie)); [discriminate|].
  destruct (negb (zdtun_init_ok ie)); [discriminate|].
  simpl.
  destruct (dumpPcapToUdp prefs), (dumpPcapToJava prefs), (malloc_buffer_ok ie); simpl;
    intros H; injection H as <- _; reflexivity.
Qed.

Lemma record_created_dpi (d : conn_data) :
  record_created d ->
  dpi_handles_ok d /\ sent_pkts d = 0 /\ rcvd_pkts d = 0.
Proof.
  intros (e & name & [->|(n & ->)]); unfold dpi_handles_ok, fresh_record;
    destruct (calloc_flow_ok e), (calloc_src_id_ok e), (calloc_dst_id_ok e);
    simpl; repeat split; congruence.
Qed.

(** Over a whole run: every record whose DPI flow is live has both
    endpoint handles, so the dissector is never called with a missing
    one. *)
Theorem dpi_handles_complete (tunfd_arg : Z) (prefs : host_prefs) (ie : init_env)
    (g : globals) (w : world) (loc : loop_locals) (ins : list iter_input)
    (a : addr) (d : conn_data) :
  run_tun_init tunfd_arg prefs ie g = Some (w, loc) ->
  heap (fst (fst (packet_loop ins w loc))) !! a = Some d ->
  ndpi_flow d <> None ->
  src_id d = true /\ dst_id d = true.
Proof.
  intros Hinit Ha. change (dpi_handles_ok d).
  refine (reachable_records dpi_handles_ok w (fst (fst (packet_loop ins w loc))) _ _
            (packet_loop_reachable ins w loc) _ a d Ha).
  - intros d0 Hc. apply record_created_dpi. exact Hc.
  - intros d0 d1 Hs H0. unfold dpi_handles_ok in *.
    destruct Hs as [d0|b d0|queue e lru packet len from_tun conn d0|queue e lru s d0].
    + exact H0.
    + exact H0.
    + intros Hlive.
      assert (Hlive' : ndpi_flow (fst (account_conn e d0 lru packet len from_tun conn)) <> None)
        by (destruct queue; exact Hlive).
      destruct (account_conn_live e d0 lru packet len from_tun conn Hlive')
        as (Hl0 & Hs & Hd & _).
      destruct (H0 Hl0) as (Hs0 & Hd0).
      destruct queue; simpl; rewrite Hs, Hd; auto.
    + intros Hlive. exfalso. apply Hlive.
      destruct queue; simpl; apply end_ndpi_detection_flow.
  - rewrite (run_tun_init_heap _ _ _ _ _ _ Hinit). intros b d0 H.
    rewrite lookup_empty in H. discriminate.
Qed.

(** Over a whole run: a record whose detection is still running has counted
    fewer than 12 packets, so the dissector sees at most the first 12
    packets of a connection. *)
Theorem dpi_packet_budget (tunfd_arg : Z) (prefs : host_prefs) (ie : init_env)
    (g : globals) (w : world) (loc : loop_locals) (ins : list iter_input)
    (a : addr) (d : conn_data) :
  run_tun_init tunfd_arg prefs ie g = Some (w, loc) ->
  heap (fst (fst (packet_loop ins w loc))) !! a = Some d ->
  ndpi_flow d <> None ->
  sent_pkts d + rcvd_pkts d < MAX_DPI_PACKETS.
Proof.
  intros Hinit Ha. change (dpi_within_budget d).
  refine (reachable_records dpi_within_budget w (fst (fst (packet_loop ins w loc))) _ _
            (packet_loop_reachable ins w loc) _ a d Ha).
  - intros d0 Hc _. destruct (record_created_dpi d0 Hc) as (_ & -> & ->). reflexivity.
  - intros d0 d1 Hs H0. unfold dpi_within_budget in *.
    destruct Hs as [d0|b d0|queue e lru packet len from_tun conn d0|queue e lru s d0].
    + exact H0.
    + exact H0.
    + intros Hlive.
      assert (Hlive' : ndpi_flow (fst (account_conn e d0 lru packet len from_tun conn)) <> None)
        by (destruct queue; exact Hlive).
      destruct (account_conn_live e d0 lru packet len from_tun conn Hlive')
        as (_ & _ & _ & Hlt).
      destruct queue; exact Hlt.
    + intros Hlive. exfalso. apply Hlive.
      destruct queue; simpl; apply end_ndpi_detection_flow.
  - rewrite (run_tun_init_heap _ _ _ _ _ _ Hinit). intros b d0 H.
    rewrite lookup_empty in H. discriminate.
Qed.

(** Once the detection of a record has ended, no later call brings it back
    or touches what it found: the flow stays freed and the protocol pair,
    [info] and [url] keep their values. *)
Theorem dpi_result_final (c : core_call) (w : world) (a : addr) (d d' : conn_data) :
  not_allocating a c ->
  heap w !! a = Some d -> ndpi_flow d = None ->
  heap (core_step c w) !! a = Some d' ->
  ndpi_flow d' = None /\ l7proto d' = l7proto d /\ info d' = info d /\ url d' = url d.
Proof.
  intros Hna Ha Hf Ha'.
  destruct (core_step_record c w a d' Ha') as [(d0 & Hd0 & Hs)|(_ & e & conn & -> & Hc)];
    [|simpl in Hna; contradiction].
  assert (d0 = d) as -> by congruence.
  destruct Hs as [d|b d|queue e lru packet len from_tun conn d|queue e lru s d].
  - tauto.
  - simpl. tauto.
  - destruct (account_conn_ended e d lru packet len from_tun conn Hf) as (H1 & H2 & H3 & H4).
    destruct queue; simpl; tauto.
  - rewrite (end_ndpi_detection_ended e d lru Hf). destruct queue; simpl; tauto.
Qed.

End Records.

(** ** The packets exported through the host buffer *)

Section PcapStream.
Context {ndpi : ndpi_api}.

Lemma pcap_stream_frame (w w' : world) :
  host w' = host w -> java_dump (proxy w') = java_dump (proxy w) ->
  pcap_stream w' = pcap_stream w.
Proof. unfold pcap_stream. intros -> ->. reflexivity. Qed.

(** An export moves the records from the buffer to the host; none is lost
    or sent twice. *)
Lemma javaPcapDump_stream (e : env_t) (w : world) :
  pcap_stream (javaPcapDump e w) = pcap_stream w.
Proof.
  unfold javaPcapDump, pcap_stream.
  destruct (new_byte_array_ok e); [|reflexivity].
  simpl. rewrite flat_map_app. simpl.
  destruct (buffer (java_dump (proxy w))); simpl; rewrite !app_nil_r; reflexivity.
Qed.

Lemma account_java_dump_stream (e : env_t) (w : world) (packet : list Z) (len : Z) :
  buffer (java_dump (proxy w)) <> None ->
  pcap_stream (account_java_dump e w packet len)
  = pcap_stream w ++ (if pcap_record_stored e w len then [(packet, len)] else []).
Proof.
  intros Hbuf. unfold account_java_dump, pcap_record_stored.
  destruct (buffer (java_dump (proxy w))) as [recs|] eqn:Hb; [|contradiction].
  set (need := len + sizeof_pcaprec_hdr_s).
  assert (Happend : forall x : world,
            pcap_stream
              (set_proxy_in
                 (set_java_dump
                    (set_buffer_idx (buffer_idx (java_dump (proxy x)) + (sizeof_pcaprec_hdr_s + len))
                       (set_buffer (Some (default [] (buffer (java_dump (proxy x)))
                                          ++ [(packet, len)]))
                          (java_dump (proxy x))))) x)
            = pcap_stream x ++ [(packet, len)]).
  { intros x. unfold pcap_stream. simpl.
    destruct (buffer (java_dump (proxy x))); simpl; rewrite ?app_nil_r, ?app_assoc;
      reflexivity. }
  destruct (Z.leb_spec (JAVA_PCAP_BUFFER_SIZE - buffer_idx (java_dump (proxy w))) need)
    as [Hfull|Hroom].
  - assert (Hlt : (need <? JAVA_PCAP_BUFFER_SIZE - buffer_idx (java_dump (proxy w))) = false)
      by (apply Z.ltb_ge; exact Hfull).
    rewrite Hlt. simpl.
    destruct (new_byte_array_ok e) eqn:Hok; simpl.
    + assert (Hidx : buffer_idx (java_dump (proxy (javaPcapDump e w))) = 0)
        by (unfold javaPcapDump; rewrite Hok; reflexivity).
      rewrite Hidx, Z.sub_0_r.
      destruct (Z.leb_spec JAVA_PCAP_BUFFER_SIZE need) as [Hbig|Hfit].
      * assert (Hn : (need <? JAVA_PCAP_BUFFER_SIZE) = false) by (apply Z.ltb_ge; exact Hbig).
        rewrite Hn, app_nil_r. apply javaPcapDump_stream.
      * assert (Hn : (need <? JAVA_PCAP_BUFFER_SIZE) = true) by (apply Z.ltb_lt; exact Hfit).
        rewrite Hn. unfold dump_pcap_rec.
        rewrite <- (javaPcapDump_stream e w), <- Hidx. apply Happend.
    + assert (Hw : javaPcapDump e w = w) by (unfold javaPcapDump; rewrite Hok; reflexivity).
      rewrite Hw.
      destruct (Z.leb_spec (JAVA_PCAP_BUFFER_SIZE - buffer_idx (java_dump (proxy w))) need)
        as [_|Hc]; [|lia].
      rewrite app_nil_r. reflexivity.
  - assert (Hlt : (need <? JAVA_PCAP_BUFFER_SIZE - buffer_idx (java_dump (proxy w))) = true)
      by (apply Z.ltb_lt; exact Hroom).
    rewrite Hlt. simpl.
    destruct (Z.leb_spec (JAVA_PCAP_BUFFER_SIZE - buffer_idx (java_dump (proxy w))) need)
      as [Hc|_]; [lia|].
    unfold dump_pcap_rec. apply Happend.
Qed.

Lemma account_dumper_socket_stream (w : world) (packet : list Z) (len : Z) :
  pcap_stream (account_dumper_socket w packet len) = pcap_stream w.
Proof.
  unfold account_dumper_socket, pcap_stream.
  destruct (_ >? 0); [|reflexivity].
  destruct (send_header _); simpl; rewrite !flat_map_app; simpl; rewrite ?app_nil_r;
    reflexivity.
Qed.

(** A packet accounted for a reportable connection while the host buffer is
    allocated is appended to what the host gets from the buffer, after
    everything accounted before it, unless it does not fit: there is no
    room for it and the export that would make room failed, or it is too
    large for the empty buffer.  Nothing else is lost or reordered. *)
Theorem pcap_export_keeps_every_packet (e : env_t) (w : world) (packet : list Z) (len : Z)
    (from_tun : bool) (conn : zdtun_conn) (a : addr) (d : conn_data) :
  user_data conn = Some a -> heap w !! a = Some d ->
  shouldIgnoreConn (proxy w) (conn_tuple conn) = false ->
  buffer (java_dump (proxy w)) <> None ->
  pcap_stream (account_packet e w packet len from_tun conn)
  = pcap_stream w ++ (if pcap_record_stored e w len then [(packet, len)] else []).
Proof.
  intros Hud Ha Hign Hbuf. unfold account_packet. rewrite Hud, Ha.
  destruct (account_conn _ _ _ _ _ _ _) as [d1 l].
  change (shouldIgnoreConn (proxy (set_proxy_in (set_ip_to_host l) (store a d1 w)))
            (conn_tuple conn))
    with (shouldIgnoreConn (proxy w) (conn_tuple conn)).
  rewrite Hign. cbv zeta.
  rewrite account_dumper_socket_stream.
  match goal with |- pcap_stream (account_java_dump _ ?x _ _) = _ =>
    assert (Hx : host x = host w /\ java_dump (proxy x) = java_dump (proxy w))
      by (destruct (pending_notification d1); split; reflexivity);
    destruct Hx as (Hxh & Hxj);
    rewrite (account_java_dump_stream e x packet len) by (rewrite Hxj; exact Hbuf);
    rewrite (pcap_stream_frame w x Hxh Hxj);
    unfold pcap_record_stored; rewrite Hxj
  end.
  reflexivity.
Qed.

End PcapStream.

(** ** What the end of a run frees and exports *)

Section Finish.
Context {ndpi : ndpi_api}.

Lemma dump_sizes_app (l1 l2 : list host_event) :
  dump_sizes (l1 ++ l2) = dump_sizes l1 ++ dump_sizes l2.
Proof. apply flat_map_app. Qed.

Lemma javaPcapDump_dump_sizes (e : env_t) (w : world) :
  dump_sizes (host (javaPcapDump e w)) = dump_sizes (host w).
Proof.
  unfold javaPcapDump. destruct (new_byte_array_ok e); simpl; [|reflexivity].
  rewrite dump_sizes_app. simpl. apply app_nil_r.
Qed.

Lemma account_packet_dump_sizes (e : env_t) (w : world) (packet : list Z) (len : Z)
    (from_tun : bool) (conn : zdtun_conn) :
  dump_sizes (host (account_packet e w packet len from_tun conn)) = dump_sizes (host w).
Proof.
  unfold account_packet.
  destruct (user_data conn) as [a|]; [|reflexivity].
  destruct (heap w !! a) as [data|]; [|reflexivity].
  destruct (account_conn _ _ _ _ _ _ _) as [d l].
  destruct (shouldIgnoreConn _ _); [reflexivity|].
  cbv zeta.
  assert (Hsock : forall x, dump_sizes (host (account_dumper_socket x packet len))
                            = dump_sizes (host x)).
  { intros x. unfold account_dumper_socket.
    destruct (_ >? 0); [|reflexivity].
    destruct (send_header _); simpl; rewrite !dump_sizes_app; simpl; rewrite ?app_nil_r;
      reflexivity. }
  assert (Hjava : forall x, dump_sizes (host (account_java_dump e x packet len))
                            = dump_sizes (host x)).
  { intros x. unfold account_java_dump.
    destruct (buffer _); [|reflexivity].
    pose proof (javaPcapDump_dump_sizes e x) as Hj.
    destruct (_ <=? _); simpl; destruct (_ <=? _); simpl;
      first [exact Hj | reflexivity]. }
  rewrite Hsock, Hjava. destruct (pending_notification d); reflexivity.
Qed.

Lemma run_callbacks_dump_sizes (cbs : list nat_callback) (w : world) :
  dump_sizes (host (run_callbacks cbs w)) = dump_sizes (host w).
Proof.
  revert w. induction cbs as [|cb cbs IH]; intros w; [reflexivity|].
  change (run_callbacks (cb :: cbs) w) with (run_callbacks cbs (run_callback cb w)).
  rewrite IH. destruct cb as [wr sz | e packet len from_tun conn | e conn]; simpl.
  - reflexivity.
  - apply account_packet_dump_sizes.
  - destruct (destroy_connection_frame e w conn) as (_ & _ & Ho & _). rewrite Ho. reflexivity.
Qed.

(** The state [run_tun_finish] reaches, from the state [w1] after the
    callbacks of [ztdun_finalize]. *)
Lemma run_tun_finish_unfold (cbs : list nat_callback) (e : env_t) (w : world) :
  let w1 := run_callbacks cbs w in
  let w2 :=
    set_heap (conns_clear_items (slots (conns_updates (proxy w1))) true
                (conns_clear_items (slots (new_conns (proxy w1))) true (heap w1)))
      (set_proxy_in (fun p => set_conns_updates (mk_conn_array None 0 0)
                                (set_new_conns (mk_conn_array None 0 0) p)) w1) in
  let w3 := if dumper_socket (glob w2) >? 0
            then set_glob (set_dumper_socket (-1) (glob w2)) w2 else w2 in
  run_tun_finish cbs e w
  = match buffer (java_dump (proxy w1)) with
    | Some _ =>
        set_proxy_in (fun p => set_java_dump (set_buffer None (java_dump p)) p)
          (if buffer_idx (java_dump (proxy w1)) >? 0 then javaPcapDump e w3 else w3)
    | None => w3
    end.
Proof.
  intros w1 w2 w3. unfold run_tun_finish, conns_clear. fold w1. cbv zeta.
  fold w2. fold w3.
  assert (Hj : java_dump (proxy w3) = java_dump (proxy w1))
    by (subst w3 w2; destruct (_ >? 0); reflexivity).
  rewrite Hj. reflexivity.
Qed.

(** At the end of a run no report of connections is sent any more: the
    connections still queued, including those the final close callbacks
    queue, are dropped from the batches and their records are freed without
    the host seeing their last state.  Records that are not queued are left
    as they are. *)
Theorem finish_frees_queued_records (cbs : list nat_callback) (e : env_t) (w : world)
    (a : addr) :
  let w1 := run_callbacks cbs w in
  let w' := run_tun_finish cbs e w in
  (in_batches a (proxy w1) <= 1)%nat ->
  dump_sizes (host w') = dump_sizes (host w)
  /\ slots (new_conns (proxy w')) = []
  /\ slots (conns_updates (proxy w')) = []
  /\ heap w' !! a = (if queued a (proxy w1) then None else heap w1 !! a).
Proof.
  intros w1 w' _. subst w'. rewrite run_tun_finish_unfold. fold w1. cbv zeta.
  set (w2 := set_heap _ _).
  set (w3 := if dumper_socket (glob w2) >? 0 then _ else w2).
  assert (H3 : host w3 = host w1 /\ heap w3 = heap w2 /\ proxy w3 = proxy w2)
    by (subst w3; destruct (_ >? 0); repeat split; reflexivity).
  destruct H3 as (H3o & H3h & H3p).
  assert (Hheap : heap w2 !! a = (if queued a (proxy w1) then None else heap w1 !! a)).
  { subst w2. simpl. rewrite !conns_clear_items_spec.
    unfold queued, in_batches.
    destruct (heap w1 !! a) as [d|];
      [|destruct (_ <? _)%nat; reflexivity].
    destruct (batch_count a (slots (new_conns (proxy w1)))) as [|n];
      destruct (batch_count a (slots (conns_updates (proxy w1)))) as [|m]; simpl;
      rewrite ?orb_true_r; reflexivity. }
  assert (Hsizes : dump_sizes (host w1) = dump_sizes (host w))
    by apply run_callbacks_dump_sizes.
  destruct (javaPcapDump_frame e w3) as (_ & Hjh & _ & _ & _ & Hjn & Hju & _).
  pose proof (javaPcapDump_dump_sizes e w3) as Hjs.
  destruct (buffer (java_dump (proxy w1)));
    [destruct (buffer_idx (java_dump (proxy w1)) >? 0)|]; simpl;
    rewrite ?Hjs, ?Hjh, ?Hjn, ?Hju, ?H3o, ?H3h, ?H3p, Hsizes, ?Hheap;
    repeat split; reflexivity.
Qed.

(** At the end of a run a host buffer that holds data is exported once more
    and then freed; when that export fails the records in it are lost.  The
    collector socket is closed. *)
Theorem finish_exports_pcap_buffer (cbs : list nat_callback) (e : env_t) (w : world)
    (recs : list pcap_record) :
  let w1 := run_callbacks cbs w in
  let w' := run_tun_finish cbs e w in
  buffer (java_dump (proxy w1)) = Some recs ->
  0 < buffer_idx (java_dump (proxy w1)) ->
  host w' = host w1 ++ (if new_byte_array_ok e
                        then [DumpPcapData (buffer_idx (java_dump (proxy w1))) recs]
                        else [])
  /\ buffer (java_dump (proxy w')) = None
  /\ dumper_socket (glob w') <= 0.
Proof.
  intros w1 w' Hbuf Hidx. subst w'. rewrite run_tun_finish_unfold. fold w1. cbv zeta.
  set (w2 := set_heap _ _).
  set (w3 := if dumper_socket (glob w2) >? 0 then _ else w2).
  assert (H3 : host w3 = host w1 /\ java_dump (proxy w3) = java_dump (proxy w1)
               /\ dumper_socket (glob w3) <= 0).
  { subst w3. destruct (Z.gtb_spec (dumper_socket (glob w2)) 0) as [Hs|Hs];
      repeat split; first [reflexivity | exact Hs | (simpl; lia)]. }
  destruct H3 as (H3o & H3j & H3s).
  rewrite Hbuf.
  assert (Hgt : (buffer_idx (java_dump (proxy w1)) >? 0) = true) by (apply Z.gtb_lt; exact Hidx).
  rewrite Hgt. unfold javaPcapDump.
  destruct (new_byte_array_ok e); simpl.
  - rewrite H3j, H3o, Hbuf. repeat split; first [reflexivity | exact H3s].
  - rewrite H3o, app_nil_r. repeat split; first [reflexivity | exact H3s].
Qed.

End Finish.

(** ** The start of a run and the requests of the host *)

Section StartAndRequests.
Context {ndpi : ndpi_api}.

(** [run_tun] starts from the same state whatever the previous run left in
    [running], [dumper_socket], [send_header] and [new_dns_server]; of the
    file-level variables only the two dump requests are carried over. *)
Theorem run_tun_resets_file_variables (tunfd_arg : Z) (prefs : host_prefs) (ie : init_env)
    (g1 g2 : globals) :
  dump_vpn_stats_now g1 = dump_vpn_stats_now g2 ->
  dump_capture_stats_now g1 = dump_capture_stats_now g2 ->
  run_tun_init tunfd_arg prefs ie g1 = run_tun_init tunfd_arg prefs ie g2.
Proof.
  destruct g1 as [r1 v1 c1 n1 s1 h1], g2 as [r2 v2 c2 n2 s2 h2]. simpl.
  intros -> ->. unfold run_tun_init.
  destruct (negb (init_ndpi_ok ie)); [reflexivity|].
  destruct (negb (fcntl_ok ie)); [reflexivity|].
  destruct (negb (zdtun_init_ok ie)); [reflexivity|].
  simpl.
  destruct (dumpPcapToUdp prefs); simpl;
    [destruct (socket_result ie =? 0)|];
    destruct (dumpPcapToJava prefs); simpl;
    try destruct (malloc_buffer_ok ie); reflexivity.
Qed.

Lemma packet_loop_not_running (ins : list iter_input) (w : world) (loc : loop_locals) :
  running (glob w) = false -> packet_loop ins w loc = (w, loc, 0%nat).
Proof.
  intros Hr. destruct ins as [|i rest]; simpl; [reflexivity|]. rewrite Hr. reflexivity.
Qed.

(** When [run_tun] reaches the packet loop, [running] is off in exactly two
    cases: the export to the collector is enabled and [socket] returned 0,
    or the host buffer is enabled and could not be allocated.  In these
    cases the loop does not run a single iteration.  A negative result of
    [socket] does not stop the run. *)
Theorem run_start_failures (tunfd_arg : Z) (prefs : host_prefs) (ie : init_env)
    (g : globals) (w : world) (loc : loop_locals) :
  run_tun_init tunfd_arg prefs ie g = Some (w, loc) ->
  running (glob w)
  = negb (dumpPcapToUdp prefs && (socket_result ie =? 0))
    && negb (dumpPcapToJava prefs && negb (malloc_buffer_ok ie))
  /\ (running (glob w) = false ->
      forall ins, packet_loop ins w loc = (w, loc, 0%nat)).
Proof.
  intros Hinit. split; [|intros Hr ins; apply packet_loop_not_running; exact Hr].
  revert Hinit. unfold run_tun_init.
  destruct (negb (init_ndpi_ok ie)); [discriminate|].
  destruct (negb (fcntl_ok ie)); [discriminate|].
  destruct (negb (zdtun_init_ok ie)); [discriminate|].
  simpl.
  destruct (dumpPcapToUdp prefs); simpl;
    [destruct (socket_result ie =? 0)|];
    destruct (dumpPcapToJava prefs); simpl;
    try destruct (malloc_buffer_ok ie); simpl;
    intros H; injection H as <- _; reflexivity.
Qed.

Lemma account_packet_flags (e : env_t) (w : world) (packet : list Z) (len : Z)
    (from_tun : bool) (conn : zdtun_conn) :
  dump_capture_stats_now (glob (account_packet e w packet len from_tun conn))
  = dump_capture_stats_now (glob w)
  /\ dump_vpn_stats_now (glob (account_packet e w packet len from_tun conn))
     = dump_vpn_stats_now (glob w).
Proof.
  unfold account_packet.
  destruct (user_data conn) as [a|]; [|tauto].
  destruct (heap w !! a) as [data|]; [|tauto].
  destruct (account_conn _ _ _ _ _ _ _) as [d l].
  destruct (shouldIgnoreConn _ _); [simpl; tauto|].
  cbv zeta.
  match goal with |- context [account_dumper_socket ?x _ _] =>
    destruct (account_dumper_socket_frame x packet len) as (_ & _ & _ & _ & Hc & Hv);
    rewrite Hc, Hv end.
  match goal with |- context [account_java_dump _ ?x _ _] =>
    destruct (account_java_dump_collector e x packet len) as (Hg & _); rewrite Hg end.
  destruct (pending_notification d); simpl; tauto.
Qed.

(** No call into the core touches the two dump requests. *)
Lemma core_step_flags (c : core_call) (w : world) :
  dump_capture_stats_now (glob (core_step c w)) = dump_capture_stats_now (glob w)
  /\ dump_vpn_stats_now (glob (core_step c w)) = dump_vpn_stats_now (glob w).
Proof.
  destruct c as [e conn | cb | j | e | ok stats]; simpl.
  - destruct (handle_new_connection_glob e w conn) as (_ & _ & Hc & Hv). tauto.
  - destruct cb as [wr sz | e packet len from_tun conn | e conn]; simpl.
    + destruct (net2tun_collector (glob w) wr sz) as (_ & _ & _ & Hc & Hv). tauto.
    + apply account_packet_flags.
    + destruct (destroy_connection_frame e w conn) as (Hg & _). rewrite Hg. tauto.
  - destruct (sendConnectionsDump_frame j w) as (Hg & _). rewrite Hg. tauto.
  - destruct (javaPcapDump_frame e w) as (Hg & _). rewrite Hg. tauto.
  - destruct (sendVPNStats_frame ok stats w) as (Hg & _). rewrite Hg. tauto.
Qed.

Lemma run_callbacks_flags (cbs : list nat_callback) (w : world) :
  dump_capture_stats_now (glob (run_callbacks cbs w)) = dump_capture_stats_now (glob w)
  /\ dump_vpn_stats_now (glob (run_callbacks cbs w)) = dump_vpn_stats_now (glob w).
Proof.
  revert w. induction cbs as [|cb cbs IH]; intros w; [tauto|].
  change (run_callbacks (cb :: cbs) w) with (run_callbacks cbs (run_callback cb w)).
  destruct (IH (run_callback cb w)) as (Hc & Hv).
  destruct (core_step_flags (CallNat cb) w) as (Hc' & Hv'). simpl in Hc', Hv'.
  rewrite Hc, Hv, Hc', Hv'. tauto.
Qed.

Lemma zdtun_lookup_flags (lf : bool) (e : new_conn_env) (w : world) (tuple : zdtun_5tuple)
    (create : bool) :
  dump_capture_stats_now (glob (snd (zdtun_lookup lf e w tuple create)))
  = dump_capture_stats_now (glob w)
  /\ dump_vpn_stats_now (glob (snd (zdtun_lookup lf e w tuple create)))
     = dump_vpn_stats_now (glob w).
Proof.
  unfold zdtun_lookup.
  destruct (table_find (tun w) tuple); [tauto|].
  destruct (create && negb lf); [|tauto].
  pose proof (core_step_flags
                (CallConnectionOpen e (mk_conn tuple CONN_STATUS_NEW None false false)) w) as H.
  simpl in H.
  destruct (handle_new_connection e w _) as [[rv conn] w1]. simpl in H.
  destruct (rv =? 0); simpl; exact H.
Qed.

Lemma packet_from_vpn_flags (i : iter_input) (w : world) :
  dump_capture_stats_now (glob (packet_from_vpn i w)) = dump_capture_stats_now (glob w)
  /\ dump_vpn_stats_now (glob (packet_from_vpn i w)) = dump_vpn_stats_now (glob w).
Proof.
  unfold packet_from_vpn.
  destruct (in_read i) as [| | |pkt]; try tauto.
  destruct (_ && _); [simpl; tauto|].
  pose proof (zdtun_lookup_flags (in_lookup_fails i) (in_new_conn i) (with_last_pkt pkt w)
                (pkt_tuple pkt) (negb (is_tcp_established pkt))) as H1.
  destruct (zdtun_lookup _ _ _ _ _) as [conn w1]. simpl in H1.
  destruct conn as [conn|].
  - cbv zeta.
    match goal with |- context [run_callbacks ?cbs ?x] =>
      pose proof (run_callbacks_flags cbs x) as H2; simpl in H2;
      set (w2 := run_callbacks cbs x) in * end.
    destruct (negb (in_forward_rc i =? 0)).
    + unfold zdtun_destroy_conn. simpl.
      match goal with |- context [destroy_connection ?e ?x ?c] =>
        destruct (destroy_connection_frame e x c) as (Hg & _); rewrite Hg end.
      simpl. destruct H1, H2. split; congruence.
    + destruct H1, H2. split; congruence.
  - destruct (last_conn_blocked (proxy w1)); [exact H1|].
    destruct (negb (is_tcp_established pkt)); exact H1.
Qed.

(** An iteration that follows [askStatsDump] sends the statistics to the
    host in its housekeeping, whatever the timers say, and runs no other
    housekeeping task; the request for a purge stays pending for a later
    iteration. *)
Theorem stats_request_served (i : iter_input) (w w' : world) (loc loc' : loop_locals)
    (tasks : list housekeeping_task) :
  loop_body i w loc = Some (w', loc', tasks) ->
  in_ask_stats i = true ->
  tasks = [HkVpnStats]
  /\ loc' = loc
  /\ dump_capture_stats_now (glob w') = false
  /\ dump_vpn_stats_now (glob w') = true
  /\ new_stats (capture_stats (proxy w')) = false
  /\ last_update_ms (capture_stats (proxy w')) = in_now_ms i
  /\ (in_stats_jni_ok i = true ->
      exists pre cs dropped dns,
        host w' = pre ++ [SendStatsDump cs dropped (in_stats i) dns]).
Proof.
  unfold loop_body. intros Hbody Hask.
  set (g' := host_requests i (glob w)) in *.
  destruct (running (glob (set_glob g' w))) eqn:Hrun; simpl in Hbody; [|discriminate].
  simpl in Hrun.
  assert (Hflags : dump_capture_stats_now g' = true /\ dump_vpn_stats_now g' = true).
  { subst g'. revert Hrun. unfold host_requests. rewrite Hask.
    destruct (in_stop i); simpl.
    - destruct (in_set_dns i); simpl; discriminate.
    - destruct (running (glob w)) eqn:Hr; simpl;
        destruct (in_set_dns i); simpl; rewrite ?Hr;
        first [discriminate | intros _; split; reflexivity]. }
  set (w0 := set_proxy_in (set_now_ms (in_now_ms i)) (set_glob g' w)) in *.
  set (w1 := if in_tun_ready i then packet_from_vpn i w0
             else run_callbacks (in_handle_fd_cbs i) w0) in *.
  assert (H1 : dump_capture_stats_now (glob w1) = true /\ dump_vpn_stats_now (glob w1) = true).
  { subst w1. destruct (in_tun_ready i).
    - destruct (packet_from_vpn_flags i w0) as (-> & ->). exact Hflags.
    - destruct (run_callbacks_flags (in_handle_fd_cbs i) w0) as (-> & ->). exact Hflags. }
  destruct H1 as (Hc1 & Hv1).
  revert Hbody. unfold housekeeping.
  assert (Hdue : vpn_stats_due w1 (in_now_ms i) = true)
    by (unfold vpn_stats_due; rewrite Hc1; apply orb_true_r).
  rewrite Hdue. intros H. injection H as <- <- <-.
  destruct (sendVPNStats_frame (in_stats_jni_ok i) (in_stats i)
              (set_glob (set_dump_capture_stats_now false (glob w1)) w1)) as (Hg & _).
  simpl. rewrite Hg. simpl.
  repeat split; try reflexivity; try exact Hv1.
  intros Hok. unfold sendVPNStats. rewrite Hok. simpl. eauto.
Qed.

(** Once [stopPacketLoop] was called, the loop ends at the next wake-up
    without handling a packet, a socket or a housekeeping task: with a stop
    request in the input of one iteration, the final state is the state
    before that iteration with only file-level variables changed and
    [running] off, and no later input is looked at. *)
Theorem stop_request_ends_loop (pre rest : list iter_input) (i : iter_input) (w : world)
    (loc : loop_locals) :
  in_stop i = true ->
  let r := packet_loop (pre ++ i :: rest) w loc in
  let r0 := packet_loop pre w loc in
  snd r = snd r0 /\ snd (fst r) = snd (fst r0)
  /\ exists g', fst (fst r) = set_glob g' (fst (fst r0)) /\ running g' = false.
Proof.
  intros Hstop. revert w loc. induction pre as [|p pre IH]; intros w loc.
  - simpl. destruct (running (glob w)) eqn:Hr.
    + assert (Hoff : running (host_requests i (glob w)) = false).
      { unfold host_requests. rewrite Hstop. simpl. rewrite andb_false_r.
        destruct (in_set_dns i); reflexivity. }
      unfold loop_body. simpl. rewrite Hoff. simpl.
      repeat split. exists (host_requests i (glob w)). split; [reflexivity | exact Hoff].
    + simpl. repeat split. exists (glob w). split; [destruct w; reflexivity | exact Hr].
  - simpl. destruct (running (glob w)) eqn:Hr.
    + destruct (loop_body p w loc) as [[[w1 loc1] tasks]|] eqn:Hb.
      * specialize (IH w1 loc1). simpl in IH.
        destruct (packet_loop (pre ++ i :: rest) w1 loc1) as [[wa la] na].
        destruct (packet_loop pre w1 loc1) as [[wb lb] nb].
        simpl in *. destruct IH as (-> & -> & g' & -> & Hg'). eauto.
      * simpl. repeat split. exists (host_requests p (glob w)).
        split; [reflexivity|].
        unfold loop_body in Hb. simpl in Hb.
        destruct (running (host_requests p (glob w))); [discriminate | reflexivity].
    + simpl. repeat split. exists (glob w). split; [destruct w; reflexivity | exact Hr].
Qed.

End StartAndRequests.

(** ** Packets from the tun device *)

Section TunPackets.
Context {ndpi : ndpi_api}.

Lemma tuple_eqb_eq (t1 t2 : zdtun_5tuple) : tuple_eqb t1 t2 = true -> t1 = t2.
Proof.
  unfold tuple_eqb. intros H.
  repeat (apply andb_true_iff in H as [H ?]).
  destruct t1, t2; simpl in *.
  repeat match goal with H : (_ =? _) = true |- _ => apply Z.eqb_eq in H end.
  congruence.
Qed.

Lemma table_find_tuple (t : zdtun_t) (tuple : zdtun_5tuple) (c : zdtun_conn) :
  table_find t tuple = Some c -> conn_tuple c = tuple.
Proof.
  unfold table_find. intros H. apply find_some in H as [_ H]. apply tuple_eqb_eq. exact H.
Qed.

Lemma table_find_remove (t : zdtun_t) (tuple : zdtun_5tuple) :
  table_find (table_remove tuple t) tuple = None.
Proof.
  unfold table_find, table_remove. simpl.
  induction (conn_table t) as [|c l IH]; [reflexivity|].
  simpl. destruct (tuple_eqb (conn_tuple c) tuple) eqn:Hc; simpl; [exact IH|].
  rewrite Hc. exact IH.
Qed.

Lemma run_callbacks_dropped (cbs : list nat_callback) (w : world) :
  num_dropped_connections (proxy (run_callbacks cbs w)) = num_dropped_connections (proxy w).
Proof.
  revert w. induction cbs as [|cb cbs IH]; intros w; [reflexivity|].
  change (run_callbacks (cb :: cbs) w) with (run_callbacks cbs (run_callback cb w)).
  rewrite IH. destruct cb as [wr sz | e packet len from_tun conn | e conn]; simpl.
  - reflexivity.
  - apply account_packet_frame.
  - apply destroy_connection_frame.
Qed.

Lemma check_socks5_redirection_tuple (w : world) (pkt : zdtun_pkt) (conn : zdtun_conn) :
  conn_tuple (check_socks5_redirection w pkt conn) = conn_tuple conn.
Proof.
  unfold check_socks5_redirection.
  destruct (shouldIgnoreConn _ _); [reflexivity|].
  destruct (user_data conn) as [a|]; [|reflexivity].
  destruct (heap w !! a) as [d|]; [|reflexivity].
  destruct (_ && _); reflexivity.
Qed.

(** When the NAT library fails to forward a packet of a known connection,
    the connection is counted as dropped once and is closed: after the
    iteration the NAT table has no entry for the 5-tuple. *)
Theorem forward_failure_closes_connection (i : iter_input) (w : world) (pkt : zdtun_pkt)
    (conn : zdtun_conn) :
  in_read i = ReadPkt pkt ->
  (ipver (pkt_tuple pkt) =? 6) && negb (ipv6_enabled (ipv6 (proxy w))) = false ->
  table_find (tun w) (pkt_tuple pkt) = Some conn ->
  in_forward_rc i <> 0 ->
  let w' := packet_from_vpn i w in
  num_dropped_connections (proxy w') = num_dropped_connections (proxy w) + 1
  /\ table_find (tun w') (pkt_tuple pkt) = None.
Proof.
  intros Hread Hv6 Hfind Hrc w'. subst w'.
  unfold packet_from_vpn. rewrite Hread.
  change (ipv6 (proxy (with_last_pkt pkt w))) with (ipv6 (proxy w)). rewrite Hv6.
  unfold zdtun_lookup. change (tun (with_last_pkt pkt w)) with (tun w). rewrite Hfind.
  cbv zeta.
  assert (Hne : negb (in_forward_rc i =? 0) = true)
    by (apply negb_true_iff, Z.eqb_neq; exact Hrc).
  rewrite Hne.
  set (conn' := if socks5_enabled _ then _ else conn).
  assert (Ht : conn_tuple conn' = pkt_tuple pkt).
  { subst conn'. destruct (socks5_enabled _);
      rewrite ?check_socks5_redirection_tuple; eapply table_find_tuple; exact Hfind. }
  unfold zdtun_destroy_conn.
  match goal with |- context [destroy_connection ?e ?x ?c] =>
    destruct (destroy_connection_frame e x c) as (_ & Htun & _ & _ & _ & _ & _ & _ & Hd);
    set (wd := destroy_connection e x c) in *
  end.
  split.
  - change (num_dropped_connections (proxy wd) = num_dropped_connections (proxy w) + 1).
    rewrite Hd. simpl. rewrite run_callbacks_dropped. reflexivity.
  - cbn [tun set_tun]. rewrite Ht. apply table_find_remove.
Qed.

Lemma handle_new_connection_socks5 (e : new_conn_env) (w : world) (conn : zdtun_conn) :
  socks5_proxied (snd (fst (handle_new_connection e w conn))) = socks5_proxied conn.
Proof.
  unfold handle_new_connection.
  assert (Hg : socks5_proxied (snd (fst (check_dns_req_allowed w conn))) = socks5_proxied conn).
  { unfold check_dns_req_allowed.
    destruct (negb (is_dns_server _ _)); simpl; [reflexivity|].
    destruct (if _ : bool then last_pkt _ else None) as [pkt|]; simpl; [|reflexivity].
    destruct (l7_len pkt >=? sizeof_dns_packet); simpl; [|reflexivity].
    destruct (negb (_ =? DNS_TYPE_REQUEST)); simpl; [reflexivity|].
    destruct (is_internal_dns _ _); reflexivity. }
  destruct (check_dns_req_allowed w conn) as [[allowed c] w1]. simpl in *.
  destruct allowed; simpl; [|exact Hg].
  destruct (calloc_conn_data e) as [a|]; simpl; [|exact Hg].
  destruct (ip_lru_find _ _) as [name l].
  destruct (negb (shouldIgnoreConn _ _)); simpl; exact Hg.
Qed.

(** With the first packet of a connection [handle_new_connection] has just
    accepted, [check_socks5_redirection] tags the connection for the SOCKS5
    proxy exactly when the packet is TCP: the new record has counted no
    packet, and a connection that would be ignored is never accepted. *)
Theorem socks5_tags_new_tcp (e : new_conn_env) (w w1 : world) (pkt : zdtun_pkt)
    (conn0 conn : zdtun_conn) :
  conn_tuple conn0 = pkt_tuple pkt ->
  socks5_proxied conn0 = false ->
  handle_new_connection e w conn0 = (0, conn, w1) ->
  socks5_proxied (check_socks5_redirection w1 pkt conn)
  = (ipproto (pkt_tuple pkt) =? IPPROTO_TCP).
Proof.
  intros Ht0 Hs0 Hnew.
  pose proof (handle_new_connection_created e w conn0) as Hcr.
  pose proof (handle_new_connection_frame e w conn0) as (_ & _ & _ & Hv & _).
  pose proof (handle_new_connection_heap e w conn0) as Hheap.
  pose proof (handle_new_connection_socks5 e w conn0) as Hs5.
  pose proof (ignored_conn_refused e w conn0) as Hign.
  rewrite Hnew in *. simpl in *.
  destruct (Hcr eq_refl) as (a & _ & Hud & Hh).
  destruct (shouldIgnoreConn (proxy w) (conn_tuple conn0)) eqn:Hi;
    [specialize (Hign eq_refl); discriminate|].
  assert (Htup : conn_tuple conn = conn_tuple conn0).
  { destruct Hheap as [(H1 & _)|(a' & d' & _ & _ & _ & Ht & _)]; [discriminate | exact Ht]. }
  unfold check_socks5_redirection.
  assert (Hi' : shouldIgnoreConn (proxy w1) (conn_tuple conn) = false).
  { rewrite Htup. unfold shouldIgnoreConn in *. rewrite Hv. exact Hi. }
  rewrite Hi', Hud, Hh, lookup_insert_eq.
  destruct (ipproto (pkt_tuple pkt) =? IPPROTO_TCP); simpl; [|congruence].
  unfold fresh_record.
  destruct (calloc_flow_ok e), (calloc_src_id_ok e), (calloc_dst_id_ok e); reflexivity.
Qed.

(** A call into the core that does not set up a record at [a] keeps the
    uid and the first time stamp of the record at [a] and counts at most
    one packet for it, in one direction. *)
Theorem record_identity_kept (c : core_call) (w : world) (a : addr) (d d' : conn_data) :
  not_allocating a c ->
  heap w !! a = Some d -> heap (core_step c w) !! a = Some d' ->
  uid d' = uid d /\ first_seen d' = first_seen d
  /\ (sent_pkts d' = sent_pkts d /\ rcvd_pkts d' = rcvd_pkts d
      \/ sent_pkts d' = sent_pkts d + 1 /\ rcvd_pkts d' = rcvd_pkts d
      \/ sent_pkts d' = sent_pkts d /\ rcvd_pkts d' = rcvd_pkts d + 1).
Proof.
  intros Hna Ha Ha'.
  destruct (core_step_record c w a d' Ha') as [(d0 & Hd0 & Hs)|(_ & e & conn & -> & Hc)];
    [|simpl in Hna; contradiction].
  assert (d0 = d) as -> by congruence.
  destruct Hs as [d|b d|queue e lru packet len from_tun conn d|queue e lru s d].
  - tauto.
  - simpl. tauto.
  - assert (H : let x := fst (account_conn e d lru packet len from_tun conn) in
                uid x = uid d /\ first_seen x = first_seen d
                /\ sent_pkts x = sent_pkts d + (if from_tun then 1 else 0)
                /\ rcvd_pkts x = rcvd_pkts d + (if from_tun then 0 else 1)).
    { unfold account_conn. set (d0 := set_status _ _).
      assert (H0 : uid d0 = uid d /\ first_seen d0 = first_seen d
                   /\ sent_pkts d0 = sent_pkts d + (if from_tun then 1 else 0)
                   /\ rcvd_pkts d0 = rcvd_pkts d + (if from_tun then 0 else 1))
        by (subst d0; destruct from_tun; simpl; repeat split; lia).
      destruct (ndpi_flow d0); [|exact H0].
      destruct (process_ndpi_packet_frame e d0 lru packet len from_tun)
        as (Hsp & Hrp & _ & _ & Hfs & _ & _ & Hu & _).
      cbv zeta. rewrite Hsp, Hrp, Hfs, Hu. exact H0. }
    cbv zeta in H. destruct H as (Hu & Hf & Hsp & Hrp).
    destruct queue; simpl; rewrite Hu, Hf, Hsp, Hrp;
      (split; [reflexivity|]; split; [reflexivity|]); destruct from_tun; lia.
  - destruct (end_ndpi_detection_frame e d lru)
      as ((Hsp & Hrp & _ & _ & Hfs & _ & _ & Hu & _) & _).
    destruct queue; simpl; rewrite Hu, Hfs, Hsp, Hrp; tauto.
Qed.

End TunPackets.

(** ** A run that opens more connections than an [int] counts *)

Section ManyConnections.
Context {ndpi : ndpi_api}.

Lemma handle_new_connection_known_dns (e : new_conn_env) (w : world) (conn : zdtun_conn) :
  known_dns_servers (proxy (snd (handle_new_connection e w conn)))
  = known_dns_servers (proxy w).
Proof.
  unfold handle_new_connection.
  assert (H : known_dns_servers (proxy (snd (check_dns_req_allowed w conn)))
              = known_dns_servers (proxy w)).
  { destruct (reload_dns_server_frame w) as (_ & _ & _ & _ & Hk & _).
    unfold check_dns_req_allowed.
    destruct (negb (is_dns_server _ _)); simpl; [exact Hk|].
    destruct (if _ : bool then last_pkt _ else None) as [pkt|]; simpl; [|exact Hk].
    destruct (l7_len pkt >=? sizeof_dns_packet); simpl; [|exact Hk].
    destruct (negb (_ =? DNS_TYPE_REQUEST)); simpl; exact Hk. }
  destruct (check_dns_req_allowed w conn) as [[allowed c] w1]. simpl in *.
  destruct allowed; simpl; [|exact H].
  destruct (calloc_conn_data e) as [a|]; simpl; [|exact H].
  destruct (ip_lru_find _ _) as [name l].
  destruct (negb (shouldIgnoreConn _ _)); simpl; exact H.
Qed.

(** A connection to an address that is no DNS server is accepted whenever
    the record can be allocated. *)
Lemma handle_new_connection_accepts (e : new_conn_env) (w : world) (conn : zdtun_conn)
    (a : addr) :
  is_dns_server (proxy w) (conn_tuple conn) = false ->
  calloc_conn_data e = Some a ->
  exists (conn' : zdtun_conn) (w' : world) (d : conn_data),
    handle_new_connection e w conn = (0, conn', w')
    /\ user_data conn' = Some a /\ conn_tuple conn' = conn_tuple conn
    /\ heap w' !! a = Some d.
Proof.
  intros Hdns Hcalloc. unfold handle_new_connection, check_dns_req_allowed.
  rewrite (proj1 (reload_is_dns_server w (conn_tuple conn))), Hdns. simpl.
  rewrite Hcalloc. destruct (ip_lru_find _ _) as [name l].
  destruct (negb (shouldIgnoreConn _ _)); simpl;
    eexists _, _, _; (split; [reflexivity|]); simpl; rewrite lookup_insert_eq; auto.
Qed.

Lemma table_find_put_none (t : zdtun_t) (c : zdtun_conn) (x : zdtun_5tuple) :
  table_find t x = None -> tuple_eqb (conn_tuple c) x = false ->
  table_find (table_put c t) x = None.
Proof.
  unfold table_find, table_put, table_remove. simpl. intros Hfind Hc. rewrite Hc.
  induction (conn_table t) as [|c0 l IH]; [reflexivity|].
  simpl in Hfind |- *. destruct (tuple_eqb (conn_tuple c0) x) eqn:H0; [discriminate|].
  destruct (negb _); simpl; [rewrite H0|]; apply IH; exact Hfind.
Qed.

(** The first segment of a connection the NAT table does not have, to an
    address that is no DNS server: the lookup sets the connection up, and
    the iteration leaves the DNS configuration and the other entries of the
    table as they were. *)
Lemma syn_opens (i : iter_input) (w : world) (pkt : zdtun_pkt) (a : addr) :
  in_read i = ReadPkt pkt ->
  ipver (pkt_tuple pkt) = 4 ->
  is_tcp_established pkt = false ->
  in_lookup_fails i = false ->
  calloc_conn_data (in_new_conn i) = Some a ->
  in_forward_cbs i = [] ->
  in_forward_rc i = 0 ->
  table_find (tun w) (pkt_tuple pkt) = None ->
  is_dns_server (proxy w) (pkt_tuple pkt) = false ->
  let w' := packet_from_vpn i w in
  length (opened_in_packet i w) = 1%nat
  /\ running (glob w') = running (glob w)
  /\ vpn_dns (proxy w') = vpn_dns (proxy w)
  /\ known_dns_servers (proxy w') = known_dns_servers (proxy w)
  /\ (forall t : zdtun_5tuple,
        table_find (tun w) t = None -> tuple_eqb (pkt_tuple pkt) t = false ->
        table_find (tun w') t = None).
Proof.
  intros Hread Hver Hest Hlf Hcalloc Hcbs Hrc Hfind Hdns.
  set (w0 := with_last_pkt pkt w).
  set (conn0 := mk_conn (pkt_tuple pkt) CONN_STATUS_NEW None false false).
  destruct (handle_new_connection_accepts (in_new_conn i) w0 conn0 a Hdns Hcalloc)
    as (conn' & w1 & d & Hnew & Hud & Htup & Hheap).
  pose proof (handle_new_connection_frame (in_new_conn i) w0 conn0) as Hfr.
  pose proof (handle_new_connection_known_dns (in_new_conn i) w0 conn0) as Hkn.
  rewrite Hnew in Hfr, Hkn. cbn [snd] in Hfr, Hkn.
  destruct Hfr as (Hr & _ & Htab & Hv & _).
  assert (H6 : forall b : bool, (ipver (pkt_tuple pkt) =? 6) && b = false)
    by (intros b; rewrite Hver; reflexivity).
  unfold packet_from_vpn, opened_in_packet. rewrite Hread. cbv zeta.
  rewrite !H6. unfold zdtun_lookup.
  change (tun (with_last_pkt pkt w)) with (tun w). rewrite Hfind, Hest, Hlf.
  change (negb false && negb false) with true. cbv iota.
  fold w0. fold conn0. rewrite Hnew. change (0 =? 0) with true. cbv iota beta.
  rewrite Hud. cbn [heap set_tun]. rewrite Hheap.
  rewrite Hcbs, Hrc. change (negb (0 =? 0)) with false. cbv iota.
  change (run_callbacks [] ?x) with x.
  set (conn'' := if socks5_enabled _ then _ else conn').
  assert (Ht'' : conn_tuple conn'' = pkt_tuple pkt).
  { subst conn''. destruct (socks5_enabled _);
      rewrite ?check_socks5_redirection_tuple; exact Htup. }
  split; [reflexivity|].
  split; [exact Hr|]. split; [exact Hv|]. split; [exact Hkn|].
  intros t Ht Hne. cbn [tun set_tun].
  apply table_find_put_none; [|rewrite Ht''; exact Hne].
  apply table_find_put_none; [|rewrite Htup; exact Hne].
  unfold table_find in *. rewrite Htab. exact Ht.
Qed.

Lemma sendConnectionsDump_known_dns (j : jni_dump_env) (w : world) :
  known_dns_servers (proxy (sendConnectionsDump j w)) = known_dns_servers (proxy w).
Proof.
  unfold sendConnectionsDump, conns_clear.
  destruct (_ && _); [reflexivity|].
  destruct (new_object_array_ok j); simpl; [|reflexivity].
  destruct (dump_batch (dump_new_ok j) _ _ _ _) as [[ok1 h1] nd].
  destruct ok1; simpl; [|reflexivity].
  destruct (dump_batch (dump_upd_ok j) _ _ _ _) as [[ok2 h2] ud].
  destruct ok2; reflexivity.
Qed.

(** Housekeeping without purge callbacks leaves the loop on, and the table
    and the DNS configuration as they are. *)
Lemma housekeeping_quiet (i : iter_input) (w : world) (loc : loop_locals) :
  in_purge_cbs i = [] ->
  let w' := fst (fst (housekeeping i w loc)) in
  running (glob w') = running (glob w) /\ tun w' = tun w
  /\ vpn_dns (proxy w') = vpn_dns (proxy w)
  /\ known_dns_servers (proxy w') = known_dns_servers (proxy w).
Proof.
  intros Hcbs. unfold housekeeping.
  destruct (vpn_stats_due w (in_now_ms i)); simpl.
  { destruct (sendVPNStats_frame (in_stats_jni_ok i) (in_stats i)
                (set_glob (set_dump_capture_stats_now false (glob w)) w))
      as (Hg & _ & Ht & Hp).
    rewrite Hg, Ht, Hp. repeat split. }
  destruct (connections_dump_due _ _); simpl.
  { destruct (sendConnectionsDump_frame (in_dump_jni i) w) as (Hg & Ht & _ & Hv & _).
    rewrite Hg, Ht, Hv, sendConnectionsDump_known_dns. repeat split. }
  destruct (pcap_dump_due _ _); simpl.
  { destruct (javaPcapDump_frame (in_env i) w) as (Hg & _ & Ht & _ & Hv & _).
    rewrite Hg, Ht, Hv. repeat split.
    unfold javaPcapDump. destruct (new_byte_array_ok (in_env i)); reflexivity. }
  destruct (purge_due _ _ _); simpl; [|repeat split].
  rewrite Hcbs. repeat split.
Qed.

Lemma nth_tuple_differ (j k : nat) :
  j <> k -> tuple_eqb (nth_tuple j) (nth_tuple k) = false.
Proof.
  intros Hne. apply not_true_is_false. intros H. apply tuple_eqb_eq in H.
  unfold nth_tuple in H. injection H as H1 H2.
  pose proof (Z.div_mod (Z.of_nat j) 64000 ltac:(lia)).
  pose proof (Z.div_mod (Z.of_nat k) 64000 ltac:(lia)).
  lia.
Qed.

End ManyConnections.

Lemma opens_inv_start : opens_inv 0 sample_world.
Proof.
  split; [vm_compute; reflexivity|]. split; [reflexivity|]. split; [reflexivity|].
  intros k _. reflexivity.
Qed.

(** Every iteration of [opens_from] opens its connection. *)
Lemma opens_from_log (n j : nat) (w : world) (loc : loop_locals) :
  opens_inv j w ->
  length (loop_opened_log (ndpi := sample_ndpi) (opens_from j n) w loc) = n.
Proof.
  revert j w loc. induction n as [|n IH]; intros j w loc (Hrun & Hv & Hk & Htab);
    [reflexivity|].
  set (i := tun_iteration 1600000000200 (syn_pkt (nth_tuple j)) j).
  change (opens_from j (S n)) with (i :: opens_from (S j) n).
  cbn [loop_opened_log]. rewrite Hrun. unfold loop_body.
  change (running (glob (set_glob (host_requests i (glob w)) w))) with (running (glob w)).
  rewrite Hrun. cbn [negb]. cbv zeta.
  change (in_tun_ready i) with true. cbv iota.
  fold (iteration_start i w).
  assert (Hdns : is_dns_server (ndpi := sample_ndpi) (proxy (iteration_start i w))
                   (nth_tuple j) = false).
  { unfold is_dns_server, is_internal_dns.
    change (vpn_dns (proxy (iteration_start i w))) with (vpn_dns (proxy w)).
    change (known_dns_servers (proxy (iteration_start i w)))
      with (known_dns_servers (proxy w)).
    rewrite Hv, Hk. vm_compute. reflexivity. }
  destruct (syn_opens (ndpi := sample_ndpi) i (iteration_start i w)
              (syn_pkt (nth_tuple j)) j eq_refl eq_refl eq_refl eq_refl eq_refl eq_refl
              eq_refl (Htab j (le_n j)) Hdns)
    as (Hlen & Hr1 & Hv1 & Hk1 & Ht1).
  set (w1 := packet_from_vpn i (iteration_start i w)) in *.
  destruct (housekeeping_quiet (ndpi := sample_ndpi) i w1 loc eq_refl)
    as (Hr2 & Ht2 & Hv2 & Hk2).
  destruct (housekeeping i w1 loc) as [[w2 loc2] tasks]. cbn [fst] in Hr2, Ht2, Hv2, Hk2.
  rewrite length_app, Hlen. f_equal. apply IH.
  split; [rewrite Hr2, Hr1; exact Hrun|].
  split; [rewrite Hv2, Hv1; exact Hv|].
  split; [rewrite Hk2, Hk1; exact Hk|].
  intros k Hle. rewrite Ht2. apply Ht1.
  - apply Htab. lia.
  - apply nth_tuple_differ. lia.
Qed.

Lemma nth_map_seq (f : nat -> Z) (n k : nat) (d : Z) :
  (k < n)%nat -> nth k (map f (seq 0 n)) d = f k.
Proof.
  intros Hk. rewrite (nth_indep _ d (f 0%nat)) by (rewrite length_map, length_seq; lia).
  rewrite map_nth, seq_nth by lia. reflexivity.
Qed.

(** C2 as stated fails once more connections are opened than an [int]
    counts.  In the run that opens 2^31 + 1 connections one after the other
    the last connection cannot receive the identifier 2^31, which the
    sequence 0, 1, 2, ... requires: the counter is an [int], and after
    2147483647 its increment gives -2147483648 where it wraps. *)
Lemma incr_id_leaves_int_range :
  let log := loop_opened_log (ndpi := sample_ndpi)
               (opens_from 0 (Z.to_nat (2 ^ 31 + 1))) sample_world sample_locals in
  Z.of_nat (length log) = 2 ^ 31 + 1
  /\ nth (Z.to_nat (2 ^ 31)) (first_ids (length log)) 0 = 2 ^ 31
  /\ nth (Z.to_nat (2 ^ 31)) (reportable_ids log) 0 = - 2 ^ 31
  /\ reportable_ids log <> first_ids (length log).
Proof.
  intros log.
  assert (Hlen : length log = Z.to_nat (2 ^ 31 + 1))
    by (apply opens_from_log, opens_inv_start).
  assert (Hstart : int32 (proxy_incr_id (proxy sample_world))
                   = proxy_incr_id (proxy sample_world)) by reflexivity.
  destruct (loop_opened_log_ids (ndpi := sample_ndpi)
              (opens_from 0 (Z.to_nat (2 ^ 31 + 1))) sample_world sample_locals Hstart)
    as (_ & Hids & _).
  fold log in Hids.
  change (proxy_incr_id (proxy sample_world)) with 0 in Hids.
  assert (H1 : nth (Z.to_nat (2 ^ 31)) (first_ids (length log)) 0 = 2 ^ 31).
  { unfold first_ids. rewrite nth_map_seq by (rewrite Hlen; lia). apply Z2Nat.id. lia. }
  assert (H2 : nth (Z.to_nat (2 ^ 31)) (reportable_ids log) 0 = - 2 ^ 31).
  { rewrite Hids, nth_map_seq by (rewrite Hlen; lia).
    rewrite Z2Nat.id by lia. reflexivity. }
  split; [rewrite Hlen; apply Z2Nat.id; lia|].
  split; [exact H1|]. split; [exact H2|].
  intros Heq. rewrite Heq, H1 in H2. lia.
Qed.

(** ** A new DNS server *)

Section DnsServerChange.
Context {ndpi : ndpi_api}.

Lemma check_dns_req_allowed_reload (w : world) (conn : zdtun_conn) :
  let w' := snd (check_dns_req_allowed w conn) in
  dns_server (proxy w') = dns_server (proxy (reload_dns_server w))
  /\ new_dns_server (glob w') = new_dns_server (glob (reload_dns_server w))
  /\ dnat_info (tun w') = dnat_info (tun (reload_dns_server w)).
Proof.
  unfold check_dns_req_allowed.
  destruct (negb (is_dns_server _ _)); simpl; [tauto|].
  destruct (if _ : bool then last_pkt _ else None) as [pkt|]; simpl; [|tauto].
  destruct (l7_len pkt >=? sizeof_dns_packet); simpl; [|tauto].
  destruct (negb (_ =? DNS_TYPE_REQUEST)); simpl; tauto.
Qed.

Lemma handle_new_connection_reload (e : new_conn_env) (w : world) (conn : zdtun_conn) :
  let w' := snd (handle_new_connection e w conn) in
  dns_server (proxy w') = dns_server (proxy (reload_dns_server w))
  /\ new_dns_server (glob w') = new_dns_server (glob (reload_dns_server w))
  /\ dnat_info (tun w') = dnat_info (tun (reload_dns_server w)).
Proof.
  pose proof (check_dns_req_allowed_reload w conn) as H.
  unfold handle_new_connection.
  destruct (check_dns_req_allowed w conn) as [[allowed c] w1]. simpl in *.
  destruct allowed; simpl; [|exact H].
  destruct (calloc_conn_data e) as [a|]; simpl; [|exact H].
  destruct (ip_lru_find _ _) as [name l].
  destruct (negb (shouldIgnoreConn _ _)); simpl; exact H.
Qed.

Lemma account_packet_new_dns_server (e : env_t) (w : world) (packet : list Z) (len : Z)
    (from_tun : bool) (conn : zdtun_conn) :
  new_dns_server (glob (account_packet e w packet len from_tun conn))
  = new_dns_server (glob w).
Proof.
  unfold account_packet.
  destruct (user_data conn) as [a|]; [|reflexivity].
  destruct (heap w !! a) as [data|]; [|reflexivity].
  destruct (account_conn _ _ _ _ _ _ _) as [d l].
  destruct (shouldIgnoreConn _ _); [reflexivity|].
  cbv zeta. unfold account_dumper_socket.
  match goal with |- context [account_java_dump _ ?x _ _] =>
    destruct (account_java_dump_collector e x packet len) as (Hg & _) end.
  destruct (_ >? 0); [destruct (send_header _)|]; simpl; rewrite Hg;
    destruct (pending_notification d); reflexivity.
Qed.

(** A DNS server the host has set with [setDnsServer] is taken into use by
    the next [handle_new_connection], whether it accepts the connection or
    not: the proxy and the DNAT target of the NAT library switch to it and
    the request is cleared.  No other call into the core switches the
    server or loses the request. *)
Theorem dns_server_change_applied (c : core_call) (w : world) (a : Z) :
  new_dns_server (glob w) = a -> a <> 0 ->
  let w' := core_step c w in
  match c with
  | CallConnectionOpen _ _ =>
      dns_server (proxy w') = a /\ new_dns_server (glob w') = 0
      /\ dnat_info (tun w') = Some (a, htons 53, 4)
  | _ =>
      dns_server (proxy w') = dns_server (proxy w) /\ new_dns_server (glob w') = a
  end.
Proof.
  intros Ha Hnz w'. subst w'.
  destruct c as [e conn | cb | j | e | ok stats]; simpl.
  - destruct (handle_new_connection_reload e w conn) as (-> & -> & ->).
    unfold reload_dns_server. rewrite Ha.
    destruct (Z.eqb_spec a 0) as [?|_]; [contradiction|]. simpl. tauto.
  - destruct cb as [wr sz | e packet len from_tun conn | e conn]; simpl.
    + destruct (net2tun_collector (glob w) wr sz) as (_ & _ & -> & _). tauto.
    + rewrite account_packet_dns_server, account_packet_new_dns_server. tauto.
    + destruct (destroy_connection_frame e w conn) as (-> & _).
      rewrite destroy_connection_dns_server. tauto.
  - destruct (sendConnectionsDump_frame j w) as (-> & _).
    destruct (sendConnectionsDump_collector j w) as (_ & ->). tauto.
  - destruct (javaPcapDump_collector e w) as (-> & _ & _ & ->). tauto.
  - destruct (sendVPNStats_frame ok stats w) as (-> & _ & _ & ->). tauto.
Qed.

End DnsServerChange.

(** ** The pace of the dumps and what they report *)

Section DumpPace.
Context {ndpi : ndpi_api}.

Lemma int64_small (x : Z) : - 2 ^ 63 <= x < 2 ^ 63 -> int64 x = x.
Proof.
  intros Hx. unfold int64. rewrite Z.mod_small by lia. lia.
Qed.

Lemma spaced_from (gap last last' : Z) (ts : list Z) :
  last' <= last -> spaced gap last ts -> spaced gap last' ts.
Proof.
  destruct ts as [|t ts]; simpl; [auto|]. intros Hle (H1 & H2). split; [lia|exact H2].
Qed.

(** What one iteration does to the connections dumps of the host trace and
    to [last_connections_dump]: the host receives a dump only from the
    branch of the housekeeping whose condition is that a dump is due, and
    that branch records the time; a branch that ran may have had nothing to
    send. *)
Lemma iteration_dump_events (i : iter_input) (w w' : world) (loc loc' : loop_locals)
    (tasks : list housekeeping_task) :
  loop_body i w loc = Some (w', loc', tasks) ->
  (dump_events (host w') = dump_events (host w)
   /\ (last_connections_dump loc' = last_connections_dump loc
       \/ last_connections_dump loc' = int64 (in_now_ms i)))
  \/ (exists n u,
        dump_events (host w') = dump_events (host w) ++ [SendConnectionsDump n u]
        /\ last_connections_dump loc' = int64 (in_now_ms i)
        /\ connections_dump_due loc (in_now_ms i) = true).
Proof.
  unfold loop_body. destruct (negb (running _)); [discriminate|].
  fold (iteration_start i w).
  set (w1 := if in_tun_ready i then _ else _).
  assert (H1 : dump_events (host w1) = dump_events (host w)).
  { assert (Hp : pcap_extends (iteration_start i w) w1)
      by (subst w1; destruct (in_tun_ready i);
          [apply packet_from_vpn_pcap | apply run_callbacks_pcap]).
    apply pcap_extends_reports in Hp as (_ & Hp). exact Hp. }
  clearbody w1. intros Hk. injection Hk as Hk. revert Hk. unfold housekeeping.
  destruct (vpn_stats_due w1 (in_now_ms i)).
  { intros [= <- <- _]. left. split; [|left; reflexivity].
    rewrite <- H1. unfold sendVPNStats. destruct (in_stats_jni_ok i); simpl; [|reflexivity].
    rewrite dump_events_app. simpl. apply app_nil_r. }
  destruct (connections_dump_due loc (in_now_ms i)) eqn:Hdue.
  { intros [= <- <- _].
    destruct (sendConnectionsDump_events (in_dump_jni i) w1) as [Hh|(n & u & Hh)].
    - left. rewrite Hh. split; [exact H1 | right; reflexivity].
    - right. exists n, u. rewrite Hh, dump_events_app, H1. repeat split. }
  destruct (pcap_dump_due w1 (in_now_ms i)).
  { intros [= <- <- _]. left. split; [|left; reflexivity].
    rewrite <- H1. apply (pcap_extends_reports w1), javaPcapDump_pcap. }
  destruct (purge_due w1 loc (in_now_ms i)); intros [= <- <- _]; left;
    (split; [|left; reflexivity]); [|exact H1].
  rewrite <- H1.
  match goal with |- context [run_callbacks ?cbs ?x] =>
    apply (pcap_extends_reports x), run_callbacks_pcap end.
Qed.

(** With a clock that does not go back, the host receives a connections
    dump at most once per [CONNECTION_DUMP_UPDATE_FREQUENCY_MS]: every
    iteration hands it one dump at most, each dump of a run comes at least
    1000 ms after the one before it, and the first one at least 1000 ms
    after the initial value of [last_connections_dump]. *)
Theorem connection_dumps_spaced (ins : list iter_input) (w : world) (loc : loop_locals) :
  0 <= last_connections_dump loc ->
  clock_ok (last_connections_dump loc) ins ->
  spaced CONNECTION_DUMP_UPDATE_FREQUENCY_MS (last_connections_dump loc)
    (loop_dump_times ins w loc)
  /\ length (dump_events (host (fst (fst (packet_loop ins w loc)))))
     = (length (dump_events (host w)) + length (loop_dump_times ins w loc))%nat.
Proof.
  intros H0 Hclock.
  assert (Hgen : forall (l : list iter_input) (w0 : world) (loc0 : loop_locals) (c e : Z),
            0 <= e <= last_connections_dump loc0 ->
            last_connections_dump loc0 <= c -> clock_ok c l ->
            spaced CONNECTION_DUMP_UPDATE_FREQUENCY_MS e (loop_dump_times l w0 loc0)
            /\ length (dump_events (host (fst (fst (packet_loop l w0 loc0)))))
               = (length (dump_events (host w0)) + length (loop_dump_times l w0 loc0))%nat).
  { induction l as [|i rest IH]; intros w0 loc0 c e He Hc Hl; simpl; [split; [exact I|lia]|].
    destruct Hl as (Hnow & Hrest).
    destruct (running (glob w0)); [|simpl; split; [exact I|lia]].
    destruct (loop_body i w0 loc0) as [[[w1 loc1] tasks]|] eqn:Hb;
      [|simpl; split; [exact I|lia]].
    assert (H64 : int64 (in_now_ms i) = in_now_ms i) by (apply int64_small; lia).
    destruct (iteration_dump_events i w0 w1 loc0 loc1 tasks Hb)
      as [(Hev & Hlast)|(n & u & Hev & Hlast & Hdue)].
    - rewrite H64 in Hlast.
      destruct (IH w1 loc1 (in_now_ms i) e) as (IH1 & IH2);
        [destruct Hlast as [-> | ->]; lia | destruct Hlast as [-> | ->]; lia | exact Hrest|].
      destruct (packet_loop rest w1 loc1) as [[w2 loc2] k]. cbn [fst] in IH2 |- *.
      rewrite Hev in *. rewrite Nat.sub_diag. simpl. split; [exact IH1 | exact IH2].
    - rewrite H64 in Hlast.
      destruct (IH w1 loc1 (in_now_ms i) (in_now_ms i)) as (IH1 & IH2);
        [rewrite Hlast; lia | rewrite Hlast; lia | exact Hrest|].
      destruct (packet_loop rest w1 loc1) as [[w2 loc2] k]. cbn [fst] in IH2 |- *.
      rewrite Hev, length_app in *. simpl length in *.
      replace (length (dump_events (host w0)) + 1 - length (dump_events (host w0)))%nat
        with 1%nat by lia.
      simpl. split; [|lia].
      split; [|exact IH1].
      unfold connections_dump_due in Hdue.
      assert (Hu : u64 (last_connections_dump loc0) = last_connections_dump loc0)
        by (unfold u64, wrap; apply Z.mod_small; lia).
      rewrite Hu, u64_sub_exact in Hdue by lia.
      apply Z.geb_le in Hdue. lia. }
  apply (Hgen ins w loc (last_connections_dump loc) (last_connections_dump loc));
    [lia | lia | exact Hclock].
Qed.

End DumpPace.

Section NoIgnoredReports.
Context {ndpi : ndpi_api}.

Lemma no_ignored_reports_frame (v : Z) (w w' : world) :
  vpn_dns (proxy w') = vpn_dns (proxy w) ->
  new_conns (proxy w') = new_conns (proxy w) ->
  conns_updates (proxy w') = conns_updates (proxy w) ->
  reported_tuples (host w') = reported_tuples (host w) ->
  no_ignored_reports v w -> no_ignored_reports v w'.
Proof.
  unfold no_ignored_reports, shouldIgnoreConn. intros -> -> -> ->. auto.
Qed.

Lemma reported_tuples_app (l1 l2 : list host_event) :
  reported_tuples (l1 ++ l2) = reported_tuples l1 ++ reported_tuples l2.
Proof. apply flat_map_app. Qed.

(** The descriptors a loop of the dump builds carry the 5-tuples of slots
    of its batch, whether or not the loop completes. *)
Lemma dump_batch_tuples (ok : nat -> bool) (l : list vpn_conn) (i : nat)
    (h : gmap addr conn_data) (acc : list (zdtun_5tuple * conn_data)) (t : zdtun_5tuple) :
  In t (map fst (snd (dump_batch ok i l h acc))) ->
  In t (map fst acc) \/ In t (map slot_tuple l).
Proof.
  revert i h acc. induction l as [|s l IH]; intros i h acc; simpl; [auto|].
  destruct (slot_data s) as [a|].
  - destruct (h !! a) as [d|].
    + destruct (ok i); simpl; [|auto].
      intros H. apply IH in H. rewrite map_app, in_app_iff in H. simpl in H.
      destruct H as [[H|[H|[]]]|H]; auto.
    + intros H. apply IH in H. tauto.
  - intros H. apply IH in H. tauto.
Qed.

Lemma account_packet_reported (e : env_t) (w : world) (packet : list Z) (len : Z)
    (from_tun : bool) (conn : zdtun_conn) :
  reported_tuples (host (account_packet e w packet len from_tun conn))
  = reported_tuples (host w).
Proof.
  unfold account_packet.
  destruct (user_data conn) as [a|]; [|reflexivity].
  destruct (heap w !! a) as [data|]; [|reflexivity].
  destruct (account_conn _ _ _ _ _ _ _) as [d l].
  destruct (shouldIgnoreConn _ _); [reflexivity|].
  cbv zeta.
  assert (Hsock : forall x, reported_tuples (host (account_dumper_socket x packet len))
                            = reported_tuples (host x)).
  { intros x. unfold account_dumper_socket.
    destruct (_ >? 0); [|reflexivity].
    destruct (send_header _); simpl; rewrite !reported_tuples_app; simpl;
      rewrite ?app_nil_r; reflexivity. }
  assert (Hjava : forall x, reported_tuples (host (account_java_dump e x packet len))
                            = reported_tuples (host x)).
  { intros x. unfold account_java_dump.
    destruct (buffer _); [|reflexivity].
    assert (Hj : reported_tuples (host (javaPcapDump e x)) = reported_tuples (host x)).
    { unfold javaPcapDump. destruct (new_byte_array_ok e); simpl; [|reflexivity].
      rewrite reported_tuples_app. simpl. apply app_nil_r. }
    destruct (_ <=? _); simpl; destruct (_ <=? _); simpl;
      first [exact Hj | reflexivity]. }
  rewrite Hsock, Hjava. destruct (pending_notification d); reflexivity.
Qed.

Lemma no_ignored_reports_add (v : Z) (w : world) (conn : zdtun_conn)
    (ok : bool) (new upd : bool) :
  no_ignored_reports v w ->
  shouldIgnoreConn (proxy w) (conn_tuple conn) = false ->
  forall w',
    vpn_dns (proxy w') = vpn_dns (proxy w) ->
    reported_tuples (host w') = reported_tuples (host w) ->
    new_conns (proxy w') = (if new then conns_add ok (new_conns (proxy w)) conn
                            else new_conns (proxy w)) ->
    conns_updates (proxy w') = (if upd then conns_add ok (conns_updates (proxy w)) conn
                                else conns_updates (proxy w)) ->
    no_ignored_reports v w'.
Proof.
  intros (Hv & Hs & Hr) Hi w' Hv' Hr' Hn Hu.
  unfold no_ignored_reports, shouldIgnoreConn in *. rewrite Hv', Hr', Hn, Hu.
  split; [exact Hv|]. split; [|exact Hr].
  apply List.Forall_app in Hs as (Hs1 & Hs2). apply List.Forall_app. split.
  - destruct new; [|exact Hs1]. apply conns_add_forall; [exact Hs1 | exact Hi].
  - destruct upd; [|exact Hs2]. apply conns_add_forall; [exact Hs2 | exact Hi].
Qed.

Lemma sendConnectionsDump_no_ignored (v : Z) (j : jni_dump_env) (w : world) :
  no_ignored_reports v w -> no_ignored_reports v (sendConnectionsDump j w).
Proof.
  intros (Hv & Hs & Hr).
  destruct (sendConnectionsDump_frame j w) as (_ & _ & _ & Hv' & _).
  assert (Hb : slots (new_conns (proxy (sendConnectionsDump j w))) = []
               /\ slots (conns_updates (proxy (sendConnectionsDump j w))) = []
               \/ sendConnectionsDump j w = w).
  { unfold sendConnectionsDump, conns_clear.
    destruct (_ && _); [right; reflexivity|]. left.
    destruct (new_object_array_ok j); simpl.
    - destruct (dump_batch (dump_new_ok j) _ _ _ _) as [[ok1 h1] nd].
      destruct ok1; simpl.
      + destruct (dump_batch (dump_upd_ok j) _ _ _ _) as [[ok2 h2] ud].
        destruct ok2; simpl; tauto.
      + tauto.
    - tauto. }
  destruct Hb as [(Hn & Hu)|Hsame]; [|rewrite Hsame; repeat split; assumption].
  unfold no_ignored_reports, shouldIgnoreConn in *. rewrite Hv', Hn, Hu.
  split; [exact Hv|]. split; [constructor|].
  apply List.Forall_app in Hs as (Hs1 & Hs2).
  assert (Hrep : forall nd ud,
            (forall t, In t (map fst nd) -> In t (map slot_tuple (slots (new_conns (proxy w))))) ->
            (forall t, In t (map fst ud) ->
                       In t (map slot_tuple (slots (conns_updates (proxy w))))) ->
            Forall (fun t => (ipver t =? 4) && (ip4 (dst_ip t) =? vpn_dns (proxy w))
                             && negb (ntohs (dst_port t) =? 53) = false)
              (reported_tuples (host w ++ [SendConnectionsDump nd ud]))).
  { intros nd ud Hnd Hud. rewrite reported_tuples_app. apply List.Forall_app.
    split; [exact Hr|]. simpl. rewrite app_nil_r. apply List.Forall_forall.
    intros t Ht. apply in_app_iff in Ht.
    destruct Ht as [Ht|Ht]; [apply Hnd in Ht | apply Hud in Ht];
      apply in_map_iff in Ht as (s & <- & Hin);
      [apply (proj1 (List.Forall_forall _ _) Hs1 s Hin)
      |apply (proj1 (List.Forall_forall _ _) Hs2 s Hin)]. }
  unfold sendConnectionsDump, conns_clear.
  destruct (_ && _); [exact Hr|].
  destruct (new_object_array_ok j); simpl; [|exact Hr].
  pose proof (fun t => dump_batch_tuples (dump_new_ok j) (slots (new_conns (proxy w))) 0
                         (heap w) [] t) as H1.
  destruct (dump_batch (dump_new_ok j) _ _ _ _) as [[ok1 h1] nd]. simpl in H1.
  destruct ok1; simpl; [|exact Hr].
  pose proof (fun t => dump_batch_tuples (dump_upd_ok j) (slots (conns_updates (proxy w))) 0
                         h1 [] t) as H2.
  destruct (dump_batch (dump_upd_ok j) _ _ _ _) as [[ok2 h2] ud]. simpl in H2.
  destruct ok2; simpl; [|exact Hr].
  apply Hrep; intros t Ht; [destruct (H1 t Ht) | destruct (H2 t Ht)];
    first [contradiction | assumption].
Qed.

Lemma no_ignored_reports_step (v : Z) (w w' : world) :
  loop_transition w w' -> no_ignored_reports v w -> no_ignored_reports v w'.
Proof.
  intros Ht Hw. destruct Ht as [c w|i w|now w|pkt w|conn w|w|w|now w|w];
    try (revert Hw; apply no_ignored_reports_frame; reflexivity).
  destruct c as [e conn | cb | j | e | ok stats]; simpl.
  - destruct (handle_new_connection_frame e w conn) as (_ & Ho & _ & Hv & Hu & _).
    destruct (handle_new_connection_heap e w conn)
      as [(_ & _ & Hn & _) | (a & d & _ & _ & _ & Htup & _ & Hcase)].
    + revert Hw. apply no_ignored_reports_frame; [exact Hv | exact Hn | exact Hu|].
      rewrite Ho. reflexivity.
    + destruct (shouldIgnoreConn (proxy w) (conn_tuple conn)) eqn:Hi.
      * destruct Hcase as (_ & _ & Hn & _).
        revert Hw. apply no_ignored_reports_frame; [exact Hv | exact Hn | exact Hu|].
        rewrite Ho. reflexivity.
      * destruct Hcase as (_ & _ & Hn & _).
        apply (no_ignored_reports_add v w (snd (fst (handle_new_connection e w conn)))
                 (nc_realloc_ok e) true false Hw); [rewrite Htup; exact Hi | exact Hv | | exact Hn
                                              | exact Hu].
        rewrite Ho. reflexivity.
  - destruct cb as [wr sz | e packet len from_tun conn | e conn]; simpl.
    + revert Hw. apply no_ignored_reports_frame; reflexivity.
    + destruct (account_packet_frame e w packet len from_tun conn) as (_ & _ & _ & Hv & Hn & _).
      pose proof (account_packet_reported e w packet len from_tun conn) as Hr.
      destruct (user_data conn) as [a|] eqn:Hud;
        [|unfold account_packet; rewrite Hud; exact Hw].
      destruct (heap w !! a) as [data|] eqn:Ha;
        [|unfold account_packet; rewrite Hud, Ha; exact Hw].
      destruct (account_packet_heap e w packet len from_tun conn a data Hud Ha) as (_ & Hu).
      destruct (shouldIgnoreConn (proxy w) (conn_tuple conn)) eqn:Hi.
      * simpl in Hu. revert Hw.
        apply no_ignored_reports_frame; [exact Hv | exact Hn | exact Hu | exact Hr].
      * apply (no_ignored_reports_add v w conn (realloc_ok e) false
                 (negb false && negb (pending_notification data)) Hw Hi);
          [exact Hv | exact Hr | exact Hn | exact Hu].
    + destruct (destroy_connection_frame e w conn) as (_ & _ & Ho & _ & Hv & Hn & _).
      assert (Hgoal : no_ignored_reports v (destroy_connection e w conn)).
      { destruct (user_data conn) as [a|] eqn:Hud;
          [|unfold destroy_connection; rewrite Hud; exact Hw].
        destruct (heap w !! a) as [data|] eqn:Ha;
          [|unfold destroy_connection; rewrite Hud, Ha; exact Hw].
        destruct (destroy_connection_heap e w conn a data Hud Ha) as (_ & Hu).
        destruct (shouldIgnoreConn (proxy w) (conn_tuple conn)) eqn:Hi.
        - rewrite andb_false_r in Hu. revert Hw.
          apply no_ignored_reports_frame; [exact Hv | exact Hn | exact Hu|].
          rewrite Ho. reflexivity.
        - apply (no_ignored_reports_add v w conn (realloc_ok e) false
                   (negb (pending_notification data) && negb false) Hw Hi);
            [exact Hv | rewrite Ho; reflexivity | exact Hn | exact Hu]. }
      revert Hgoal. apply no_ignored_reports_frame; reflexivity.
  - apply sendConnectionsDump_no_ignored. exact Hw.
  - destruct (javaPcapDump_frame e w) as (_ & _ & _ & _ & Hv & Hn & Hu & _).
    revert Hw. apply no_ignored_reports_frame; [exact Hv | exact Hn | exact Hu|].
    unfold javaPcapDump. destruct (new_byte_array_ok e); simpl; [|reflexivity].
    rewrite reported_tuples_app. simpl. apply app_nil_r.
  - destruct (sendVPNStats_frame ok stats w) as (_ & _ & _ & Hp).
    revert Hw. apply no_ignored_reports_frame; rewrite ?Hp; try reflexivity.
    unfold sendVPNStats. destruct ok; simpl; [|reflexivity].
    rewrite reported_tuples_app. simpl. apply app_nil_r.
Qed.

(** Over a whole run, whatever the inputs and whether or not JNI calls
    fail: no connection that [shouldIgnoreConn] ignores (IPv4 to the
    tun-side DNS address on a port other than 53) is ever reported to the
    host in a connections dump. *)
Theorem ignored_connections_never_reported (tunfd_arg : Z) (prefs : host_prefs)
    (ie : init_env) (g : globals) (w : world) (loc : loop_locals) (ins : list iter_input)
    (t : zdtun_5tuple) :
  run_tun_init tunfd_arg prefs ie g = Some (w, loc) ->
  let w' := fst (fst (packet_loop ins w loc)) in
  In t (reported_tuples (host w')) ->
  vpn_dns (proxy w') = getVpnDns prefs
  /\ ((ipver t =? 4) && (ip4 (dst_ip t) =? getVpnDns prefs)
      && negb (ntohs (dst_port t) =? 53)) = false.
Proof.
  intros Hinit w' Hin.
  assert (Hstart : no_ignored_reports (getVpnDns prefs) w).
  { destruct (run_tun_init_idx _ _ _ _ _ _ Hinit) as (_ & _ & _ & Hn & Hu).
    unfold no_ignored_reports. rewrite Hn, Hu.
    revert Hinit. unfold run_tun_init.
    destruct (negb (init_ndpi_ok ie)); [discriminate|].
    destruct (negb (fcntl_ok ie)); [discriminate|].
    destruct (negb (zdtun_init_ok ie)); [discriminate|].
    simpl.
    destruct (dumpPcapToUdp prefs), (dumpPcapToJava prefs), (malloc_buffer_ok ie); simpl;
      intros H; injection H as <- _; simpl; repeat split; constructor. }
  pose proof (reachable_invariant (no_ignored_reports (getVpnDns prefs)) w w'
                (no_ignored_reports_step (getVpnDns prefs))
                (packet_loop_reachable ins w loc) Hstart) as (Hv & _ & Hr).
  split; [exact Hv|].
  rewrite <- Hv. exact (proj1 (List.Forall_forall _ _) Hr t Hin).
Qed.

End NoIgnoredReports.

(** ** Further concrete runs *)

Lemma dump_succeeds_ok : dump_ok dump_succeeds.
Proof. split; [reflexivity | split; intros i; reflexivity]. Qed.

Lemma collector_run_starts :
  run_tun_init 42 collector_prefs sample_init_env sample_globals
  = Some (collector_world, collector_locals).
Proof. vm_compute. reflexivity. Qed.

Lemma two_opened_loop_ok :
  loop_ok (ndpi := sample_ndpi) two_opened_run sample_world sample_locals.
Proof. vm_compute. repeat first [split | intro | constructor]. Qed.

Lemma two_opened_notification :
  notification_invariant two_opened_world /\ batches_wf two_opened_world.
Proof.
  apply (packet_loop_notification (ndpi := sample_ndpi) two_opened_run sample_world
           sample_locals); [|exact two_opened_loop_ok].
  split; [split; [|split] | split; split; vm_compute; first [reflexivity | intros; reflexivity]].
  - intros a d Hd. vm_compute in Hd. discriminate.
  - intros a. vm_compute. lia.
  - intros a _. reflexivity.
Qed.

Lemma two_opened_slots_live :
  slots_live (heap two_opened_world) (slots (new_conns (proxy two_opened_world)))
  /\ slots_live (heap two_opened_world) (slots (conns_updates (proxy two_opened_world))).
Proof.
  split; vm_compute; repeat constructor; discriminate.
Qed.

Lemma conns_clear_frees_witness :
  let arr := new_conns (proxy two_opened_world) in
  let h := heap two_opened_world in
  cur_items (fst (conns_clear arr true h)) = 0
  /\ arr_size (fst (conns_clear arr true h)) = 0
  /\ snd (conns_clear arr true h) !! 1%nat
     = match h !! 1%nat with
       | Some d =>
           if (0 <? batch_count 1 (slots arr))%nat
              && ((status d >=? CONN_STATUS_CLOSED) || true)
           then None else Some d
       | None => None
       end.
Proof.
  apply (conns_clear_frees (new_conns (proxy two_opened_world)) true
           (heap two_opened_world) 1%nat).
  vm_compute. lia.
Defined.

Lemma connections_dump_delivers_witness :
  let w' := sendConnectionsDump dump_succeeds two_opened_world in
  let nd := described (heap two_opened_world) (slots (new_conns (proxy two_opened_world))) in
  let ud := described (heap two_opened_world)
              (slots (conns_updates (proxy two_opened_world))) in
  host w' = host two_opened_world ++ [SendConnectionsDump nd ud]
  /\ map fst nd = map slot_tuple (slots (new_conns (proxy two_opened_world)))
  /\ map fst ud = map slot_tuple (slots (conns_updates (proxy two_opened_world)))
  /\ slots (new_conns (proxy w')) = []
  /\ slots (conns_updates (proxy w')) = [].
Proof.
  apply (connections_dump_delivers dump_succeeds two_opened_world dump_succeeds_ok
           (proj2 two_opened_notification)).
  - left. vm_compute. discriminate.
  - apply two_opened_slots_live.
  - apply two_opened_slots_live.
Defined.

Lemma connections_dump_heap_witness :
  heap (sendConnectionsDump dump_succeeds two_opened_world) !! 1%nat
  = match heap two_opened_world !! 1%nat with
    | Some d =>
        if queued 1 (proxy two_opened_world)
        then (if status d >=? CONN_STATUS_CLOSED then None
              else Some (set_pending_notification false d))
        else Some d
    | None => None
    end
  /\ queued 1 (proxy (sendConnectionsDump dump_succeeds two_opened_world)) = false.
Proof.
  apply (connections_dump_heap dump_succeeds two_opened_world 1%nat dump_succeeds_ok
           (proj2 two_opened_notification)).
  vm_compute. lia.
Defined.

Lemma finish_frees_queued_records_witness :
  let w1 := run_callbacks (ndpi := sample_ndpi) [] two_opened_world in
  let w' := run_tun_finish (ndpi := sample_ndpi) [] sample_env two_opened_world in
  dump_sizes (host w') = dump_sizes (host two_opened_world)
  /\ slots (new_conns (proxy w')) = []
  /\ slots (conns_updates (proxy w')) = []
  /\ heap w' !! 1%nat = (if queued 1 (proxy w1) then None else heap w1 !! 1%nat).
Proof.
  apply (finish_frees_queued_records (ndpi := sample_ndpi) [] sample_env two_opened_world
           1%nat).
  vm_compute. lia.
Defined.

Lemma closed_connection_reported_then_freed_witness :
  let d := default zeroed_conn_data (heap two_opened_world !! 1%nat) in
  let d1 := set_status CONN_STATUS_CLOSED
              (fst (end_ndpi_detection (ndpi := sample_ndpi) sample_env d
                      (ip_to_host (proxy two_opened_world)))) in
  let w2 := sendConnectionsDump dump_succeeds
              (destroy_connection (ndpi := sample_ndpi) sample_env two_opened_world closed_conn) in
  heap w2 !! 1%nat = None
  /\ exists nd ud t,
       host w2 = host two_opened_world ++ [SendConnectionsDump nd ud]
       /\ In (t, set_pending_notification false d1) (nd ++ ud).
Proof.
  apply (closed_connection_reported_then_freed (ndpi := sample_ndpi) sample_env dump_succeeds
           two_opened_world closed_conn 1%nat
           (default zeroed_conn_data (heap two_opened_world !! 1%nat))).
  - exact (proj1 two_opened_notification).
  - exact (proj2 two_opened_notification).
  - reflexivity.
  - reflexivity.
  - vm_compute. reflexivity.
  - vm_compute. reflexivity.
  - vm_compute. discriminate.
  - exact dump_succeeds_ok.
Defined.

Lemma realloc_failure_loses_close_witness :
  let w := sendConnectionsDump dump_succeeds two_opened_world in
  let e := mk_env 1600000001 true true true false in
  let w1 := destroy_connection (ndpi := sample_ndpi) e w closed_conn in
  option_map pending_notification (heap w !! 1%nat) = Some false
  /\ option_map pending_notification (heap w1 !! 1%nat) = Some true
  /\ option_map status (heap w1 !! 1%nat) = Some CONN_STATUS_CLOSED
  /\ in_batches 1 (proxy w1) = 0%nat
  /\ sendConnectionsDump dump_succeeds w1 = w1.
Proof.
  intros w e w1.
  assert (Hd : heap w !! 1%nat
               = Some (set_pending_notification false
                         (default zeroed_conn_data (heap two_opened_world !! 1%nat))))
    by (vm_compute; reflexivity).
  destruct (realloc_failure_loses_close (ndpi := sample_ndpi) e dump_succeeds w closed_conn
              1%nat _ eq_refl eq_refl eq_refl eq_refl Hd eq_refl eq_refl)
    as (Hh & _ & _ & Hb & H2 & _).
  fold w1 in Hh, Hb, H2.
  split; [rewrite Hd; reflexivity|].
  split; [rewrite Hh; reflexivity|].
  split; [rewrite Hh; reflexivity|].
  split; [exact Hb | exact H2].
Defined.

Lemma collector_header_first_witness :
  let w' := fst (fst (packet_loop (ndpi := sample_ndpi) one_packet_run
                        collector_world collector_locals)) in
  socket_events (host w') = []
  \/ (dumpPcapToUdp collector_prefs = true /\ 0 < socket_result sample_init_env
      /\ exists recs,
           socket_events (host w') = WritePcapHdr (socket_result sample_init_env) :: recs
           /\ forallb (is_pcap_rec (socket_result sample_init_env)) recs = true).
Proof.
  exact (collector_header_first (ndpi := sample_ndpi) 42 collector_prefs sample_init_env
           sample_globals collector_world collector_locals one_packet_run collector_run_starts).
Defined.

Lemma dnat_follows_dns_server_witness :
  let w' := fst (fst (packet_loop (ndpi := sample_ndpi) (dump_run dump_succeeds)
                        sample_world sample_locals)) in
  dnat_info (tun w') = Some (dns_server (proxy w'), htons 53, 4).
Proof.
  exact (dnat_follows_dns_server (ndpi := sample_ndpi) 42 sample_prefs sample_init_env
           sample_globals sample_world sample_locals (dump_run dump_succeeds)
           sample_run_starts).
Defined.

Lemma new_connection_record_witness :
  let e := sample_new_conn_env 1 in
  let r := handle_new_connection (ndpi := sample_ndpi) e sample_world (sample_conn web_tuple) in
  exists a d,
    calloc_conn_data e = Some a /\ user_data (snd (fst r)) = Some a
    /\ heap (snd r) !! a = Some d
    /\ ndpi_flow d = (if calloc_flow_ok e && calloc_src_id_ok e && calloc_dst_id_ok e
                      then Some zeroed_flow else None)
    /\ (ndpi_flow d <> None -> src_id d = true /\ dst_id d = true)
    /\ sent_pkts d = 0 /\ rcvd_pkts d = 0 /\ sent_bytes d = 0 /\ rcvd_bytes d = 0
    /\ first_seen d = nc_time e /\ last_seen d = nc_time e
    /\ uid d = (if get_uid_result e >=? 0 then get_uid_result e else UID_UNKNOWN)
    /\ l7proto d = mk_l7proto NDPI_PROTOCOL_UNKNOWN NDPI_PROTOCOL_UNKNOWN
    /\ url d = None.
Proof.
  apply (new_connection_record (ndpi := sample_ndpi) (sample_new_conn_env 1) sample_world
           (sample_conn web_tuple)).
  vm_compute. reflexivity.
Defined.

Lemma dpi_handles_complete_witness :
  let d := default zeroed_conn_data (heap two_opened_world !! 1%nat) in
  src_id d = true /\ dst_id d = true.
Proof.
  apply (dpi_handles_complete (ndpi := sample_ndpi) 42 sample_prefs sample_init_env
           sample_globals sample_world sample_locals two_opened_run 1%nat
           (default zeroed_conn_data (heap two_opened_world !! 1%nat)) sample_run_starts).
  - vm_compute. reflexivity.
  - vm_compute. discriminate.
Defined.

Lemma dpi_packet_budget_witness :
  let w := fst (fst (packet_loop (ndpi := sample_ndpi) one_packet_run
                       sample_world sample_locals)) in
  let d := default zeroed_conn_data (heap w !! 1%nat) in
  sent_pkts d + rcvd_pkts d < MAX_DPI_PACKETS.
Proof.
  apply (dpi_packet_budget (ndpi := sample_ndpi) 42 sample_prefs sample_init_env
           sample_globals sample_world sample_locals one_packet_run 1%nat
           (default zeroed_conn_data
              (heap (fst (fst (packet_loop (ndpi := sample_ndpi) one_packet_run
                                 sample_world sample_locals))) !! 1%nat))
           sample_run_starts).
  - vm_compute. reflexivity.
  - vm_compute. discriminate.
Defined.

Lemma dpi_result_final_witness :
  let c := CallNat (CbAccountPacket sample_env [1; 2; 3] 60 true (open_conn web_tuple 1)) in
  let d' := default zeroed_conn_data
              (heap (core_step (ndpi := sample_ndpi) c no_dpi_world) !! 1%nat) in
  ndpi_flow d' = None /\ l7proto d' = l7proto zeroed_conn_data
  /\ info d' = info zeroed_conn_data /\ url d' = url zeroed_conn_data.
Proof.
  apply (dpi_result_final (ndpi := sample_ndpi)
           (CallNat (CbAccountPacket sample_env [1; 2; 3] 60 true (open_conn web_tuple 1)))
           no_dpi_world 1%nat zeroed_conn_data).
  - exact I.
  - vm_compute. reflexivity.
  - reflexivity.
  - vm_compute. reflexivity.
Defined.

Lemma pcap_export_keeps_every_packet_witness :
  pcap_stream (account_packet (ndpi := sample_ndpi) sample_env two_opened_world [1; 2; 3] 60
                 true (open_conn web_tuple 1))
  = pcap_stream two_opened_world
    ++ (if pcap_record_stored sample_env two_opened_world 60 then [([1; 2; 3], 60)] else []).
Proof.
  apply (pcap_export_keeps_every_packet (ndpi := sample_ndpi) sample_env two_opened_world
           [1; 2; 3] 60 true (open_conn web_tuple 1) 1%nat
           (default zeroed_conn_data (heap two_opened_world !! 1%nat))).
  - reflexivity.
  - vm_compute. reflexivity.
  - vm_compute. reflexivity.
  - vm_compute. discriminate.
Defined.

Lemma finish_exports_pcap_buffer_witness :
  let w1 := run_callbacks (ndpi := sample_ndpi) [] one_packet_world in
  let w' := run_tun_finish (ndpi := sample_ndpi) [] sample_env one_packet_world in
  host w' = host w1 ++ (if new_byte_array_ok sample_env
                        then [DumpPcapData (buffer_idx (java_dump (proxy w1)))
                                [([1; 2; 3], 60)]]
                        else [])
  /\ buffer (java_dump (proxy w')) = None
  /\ dumper_socket (glob w') <= 0.
Proof.
  apply (finish_exports_pcap_buffer (ndpi := sample_ndpi) [] sample_env one_packet_world
           [([1; 2; 3], 60)]).
  - vm_compute. reflexivity.
  - vm_compute. reflexivity.
Defined.

Lemma run_tun_resets_file_variables_witness :
  run_tun_init 42 sample_prefs sample_init_env sample_globals
  = run_tun_init 42 sample_prefs sample_init_env (mk_globals true false false 5 9 true).
Proof.
  apply (run_tun_resets_file_variables 42 sample_prefs sample_init_env sample_globals
           (mk_globals true false false 5 9 true)); reflexivity.
Defined.

Lemma run_start_failures_witness :
  running (glob sample_world)
  = negb (dumpPcapToUdp sample_prefs && (socket_result sample_init_env =? 0))
    && negb (dumpPcapToJava sample_prefs && negb (malloc_buffer_ok sample_init_env))
  /\ (running (glob sample_world) = false ->
      forall ins, packet_loop (ndpi := sample_ndpi) ins sample_world sample_locals
                  = (sample_world, sample_locals, 0%nat)).
Proof.
  exact (run_start_failures (ndpi := sample_ndpi) 42 sample_prefs sample_init_env
           sample_globals sample_world sample_locals sample_run_starts).
Defined.

Lemma stats_request_served_witness :
  match loop_body (ndpi := sample_ndpi) (ask_stats_iteration 1600000000200)
          sample_world sample_locals with
  | Some (w', _, tasks) =>
      tasks = [HkVpnStats] /\ dump_capture_stats_now (glob w') = false
      /\ dump_vpn_stats_now (glob w') = true
  | None => False
  end.
Proof.
  destruct (loop_body (ndpi := sample_ndpi) (ask_stats_iteration 1600000000200)
              sample_world sample_locals) as [[[w' loc'] tasks]|] eqn:Hb.
  - destruct (stats_request_served (ndpi := sample_ndpi) (ask_stats_iteration 1600000000200)
                sample_world w' sample_locals loc' tasks Hb eq_refl)
      as (Ht & _ & Hc & Hv & _).
    split; [exact Ht | split; [exact Hc | exact Hv]].
  - vm_compute in Hb. discriminate.
Defined.

Lemma stop_request_ends_loop_witness :
  let r := packet_loop (ndpi := sample_ndpi)
             (two_opened_run ++ stop_iteration 1600000000400 :: one_packet_run)
             sample_world sample_locals in
  let r0 := packet_loop (ndpi := sample_ndpi) two_opened_run sample_world sample_locals in
  snd r = snd r0 /\ snd (fst r) = snd (fst r0)
  /\ exists g', fst (fst r) = set_glob g' (fst (fst r0)) /\ running g' = false.
Proof.
  exact (stop_request_ends_loop (ndpi := sample_ndpi) two_opened_run one_packet_run
           (stop_iteration 1600000000400) sample_world sample_locals eq_refl).
Defined.

Lemma forward_failure_closes_connection_witness :
  let w' := packet_from_vpn (ndpi := sample_ndpi) (failed_forward_iteration 1600000000400)
              two_opened_world in
  num_dropped_connections (proxy w') = num_dropped_connections (proxy two_opened_world) + 1
  /\ table_find (tun w') web_tuple = None.
Proof.
  apply (forward_failure_closes_connection (ndpi := sample_ndpi)
           (failed_forward_iteration 1600000000400) two_opened_world
           (mk_pkt web_tuple TH_ACK [1; 2; 3])
           (default (sample_conn web_tuple) (table_find (tun two_opened_world) web_tuple))).
  - reflexivity.
  - vm_compute. reflexivity.
  - vm_compute. reflexivity.
  - vm_compute. discriminate.
Defined.

Lemma socks5_tags_new_tcp_witness :
  match handle_new_connection (ndpi := sample_ndpi) (sample_new_conn_env 1) sample_world
          (sample_conn web_tuple) with
  | (rv, conn, w1) =>
      rv = 0
      /\ socks5_proxied (check_socks5_redirection w1 (syn_pkt web_tuple) conn) = true
  end.
Proof.
  destruct (handle_new_connection (ndpi := sample_ndpi) (sample_new_conn_env 1) sample_world
              (sample_conn web_tuple)) as [[rv conn] w1] eqn:Hn.
  assert (Hrv : rv = 0) by (vm_compute in Hn; congruence).
  split; [exact Hrv|]. subst rv.
  rewrite (socks5_tags_new_tcp (ndpi := sample_ndpi) (sample_new_conn_env 1) sample_world w1
             (syn_pkt web_tuple) (sample_conn web_tuple) conn eq_refl eq_refl Hn).
  reflexivity.
Defined.

Lemma record_identity_kept_witness :
  let c := CallNat (CbAccountPacket sample_env [1; 2; 3] 60 true (open_conn web_tuple 1)) in
  let d := default zeroed_conn_data (heap two_opened_world !! 1%nat) in
  let d' := default zeroed_conn_data
              (heap (core_step (ndpi := sample_ndpi) c two_opened_world) !! 1%nat) in
  uid d' = uid d /\ first_seen d' = first_seen d
  /\ (sent_pkts d' = sent_pkts d /\ rcvd_pkts d' = rcvd_pkts d
      \/ sent_pkts d' = sent_pkts d + 1 /\ rcvd_pkts d' = rcvd_pkts d
      \/ sent_pkts d' = sent_pkts d /\ rcvd_pkts d' = rcvd_pkts d + 1).
Proof.
  apply (record_identity_kept (ndpi := sample_ndpi)
           (CallNat (CbAccountPacket sample_env [1; 2; 3] 60 true (open_conn web_tuple 1)))
           two_opened_world 1%nat).
  - exact I.
  - vm_compute. reflexivity.
  - vm_compute. reflexivity.
Defined.


Lemma dns_server_change_applied_witness :
  let w := set_glob (set_new_dns_server (ip_of_bytes [9; 9; 9; 9]) (glob sample_world))
             sample_world in
  let w' := core_step (ndpi := sample_ndpi)
              (CallConnectionOpen (sample_new_conn_env 1) (sample_conn web_tuple)) w in
  dns_server (proxy w') = ip_of_bytes [9; 9; 9; 9] /\ new_dns_server (glob w') = 0
  /\ dnat_info (tun w') = Some (ip_of_bytes [9; 9; 9; 9], htons 53, 4).
Proof.
  apply (dns_server_change_applied (ndpi := sample_ndpi)
           (CallConnectionOpen (sample_new_conn_env 1) (sample_conn web_tuple))
           (set_glob (set_new_dns_server (ip_of_bytes [9; 9; 9; 9]) (glob sample_world))
              sample_world)
           (ip_of_bytes [9; 9; 9; 9])).
  - reflexivity.
  - vm_compute. discriminate.
Defined.

Lemma connection_dumps_spaced_witness :
  loop_dump_times (ndpi := sample_ndpi) (dump_run dump_succeeds) sample_world sample_locals
  = [1600000001100; 1600000002300]
  /\ spaced CONNECTION_DUMP_UPDATE_FREQUENCY_MS (last_connections_dump sample_locals)
       (loop_dump_times (ndpi := sample_ndpi) (dump_run dump_succeeds)
          sample_world sample_locals).
Proof.
  split; [vm_compute; reflexivity|].
  apply (connection_dumps_spaced (ndpi := sample_ndpi) (dump_run dump_succeeds)
           sample_world sample_locals).
  - vm_compute. discriminate.
  - vm_compute. repeat split; discriminate.
Defined.

Lemma ignored_connections_never_reported_witness :
  let w' := fst (fst (packet_loop (ndpi := sample_ndpi) (dump_run dump_succeeds)
                        sample_world sample_locals)) in
  vpn_dns (proxy w') = getVpnDns sample_prefs
  /\ ((ipver web_tuple =? 4) && (ip4 (dst_ip web_tuple) =? getVpnDns sample_prefs)
      && negb (ntohs (dst_port web_tuple) =? 53)) = false.
Proof.
  apply (ignored_connections_never_reported (ndpi := sample_ndpi) 42 sample_prefs
           sample_init_env sample_globals sample_world sample_locals
           (dump_run dump_succeeds) web_tuple sample_run_starts).
  vm_compute. left. reflexivity.
Defined.
